(* ===== verification/_CoqProject ===== *)
-Q . S2P
Prelude.v
PyDict.v
PyValue.v
Streams.v
Url.v
Quote.v
Params.v
Window.v
Flatten.v
Redact.v
Engine.v
Link.v
First.v
World.v
Backoff.v
Paging.v
Insights.v
Stuck.v
Log.v
Tree.v
Records.v
Sync.v
Served.v
Cursor.v
State.v
