(* ===== verification/Prelude.v ===== *)
(** * Verification of tap-facebook-pages: the extraction engine

    The program ([src/tap_facebook_pages/streams.py]) is a Singer tap: for
    every page partition and every stream it pages through the Facebook
    Graph API, flattens each JSON response into rows and hands the rows to
    the SDK.  One base class, [FacebookPagesStream], carries the pagination
    loop and the default parameter builder; six subclasses ([Page], [Posts],
    [PostTaggedProfile], [PostAttachments], [PageInsights], [PostInsights])
    override the parameter builder, the response flattener and (for
    [PageInsights]) the next-page rule.

    ** Files, in dependency order

    - [Prelude] (this file): the exception monad [result], the generator
      monad [gen] (rows yielded so far, then a value or the exception that
      ended the generator), their notations in [res_scope] and [gen_scope],
      the traversal [for_each] that models a Python [for] loop with [yield]
      in its body, the tactics and the hint databases [tap] and [tap_rw].
    - [PyDict]: Python's insertion-ordered [dict] with string keys as an
      association list: lookup, [in], item assignment, [update], [pop]; the
      unique-key invariant [dict_wf]; the order-insensitive equivalence
      [dict_equiv] with its [Proper] instances.
    - [PyValue]: the values the program handles (what [response.json()],
      [parse_qs] and the configuration produce) as the inductive [pyval], the
      exceptions as [pyerr], and the built-in operations the source applies to
      them ([x[k]], [k in x], iteration, truthiness, [==], [.update], [.pop],
      [isinstance(_, dict)], [int], [str]) with the exception each raises.
    - [Streams]: the six stream classes as the enumeration [stream], their
      class attributes ([stream_class], [class_of]) with the path of the
      schema file ([Path], [joinpath], [SCHEMAS_DIR]), the instance state
      ([stream_self], of which only [page_id] changes), the response of the
      transport, and the collaborators the source only calls (the SDK's
      bookmark, [urllib]'s query parser) as the class [Sdk] with the two
      laws the builders rely on.
    - [Url]: [urlparse(url).query], [parse_qs] and [unquote] on byte
      strings, and [urllib_sdk], the instance of [Sdk] they give.
    - [Quote]: the percent-escaping [requests] applies to the parameters of
      a request ([quote_plus], [urlencode]), and what [unquote] shows of an
      escaped text ([spaces_to_plus]).
    - [Params]: [get_url_params] of the base class and of every subclass,
      and the dispatch [get_url_params] over [stream].
    - [Window]: the base [get_next_page_token], the rule of [PageInsights]
      that suppresses a stalled link, and the theorems on the window that
      [PageInsights.get_url_params] computes.
    - [Flatten]: [parse_response] of every stream, one definition per loop
      level ([PostAttachments_attachment] inside [PostAttachments_post]
      inside [PostAttachments_parse_response]).
    - [Redact]: the substitution that masks the access token in the URL
      [prepare_request] logs ([re_sub], [logged_url]).
    - [Engine]: [request_records] and [prepare_request]: the interface
      [StreamOps] of the three methods the loop calls, the request and the
      text of its URL ([request_url]), one turn of the loop ([iteration],
      with the body of its [try] as [try_block]), the loop over a script of
      what the outside world does ([request_records_loop]), the same loop as
      a transition relation ([step], [steps]), and the state machine of the
      specification ([phase], [spec_step], [abs]).  A run is a list of
      [event]s: the opening line, the line of the parameter builder for a
      page without a token, the redacted URL, the request, the rows and the
      warning of a turn, in the order the code produces them.
    - [Link]: a [next] link followed from the response that carries it to
      the request it becomes: the address of a stream ([endpoint]), a link
      to it ([next_link]) and the request made from it ([link_request]).
    - [First]: the first request of a partition, for the six streams at
      once: its parameters ([first_params]), its query string
      ([first_query]) and the query string of the logged line
      ([masked_query]).
    - [World]: the loop with the server in it: the outside world as a
      function of the turn and the request ([world]), the loop run against
      it ([request_records_against]) and the script it writes
      ([script_against]).
    - [Backoff]: the call of the transport opened up: the tries of one
      request under a retry policy (the class [RetryPolicy]), what they
      cost ([retry_from], [request_with_backoff]) and a server behind the
      retries as a world ([retrying_world]).
    - [Paging]: a server that pages a collection by [after] cursors, as
      the Graph API does ([serve], [paging_world]), the collections it
      is defined for ([well_paged]), and the URLs and log lines of a run
      against it ([first_url], [masked_first], [masked_link]).
    - [Insights]: the insights endpoint as a server that links every window
      of values to the window of the same length after it
      ([serve_insights]), and the windows a [PageInsights] run asks it for
      ([windows_from]).
    - [Stuck]: a server whose answers link to the same page
      ([repeating_world]) and a server that fails after the first page
      ([failing_world]).
    - [Log]: the setup of the module's logger (lines 18 to 22) on the
      state of Python's [logging] module ([getLogger], [StreamHandler],
      [addHandler], [setLevel], [setFormatter], composed in
      [module_logging]), the format of a line ([percent_format]), the text
      of what the source logs ([py_format], [loop_message],
      [exception_text]) and what a run writes to [sys.stderr]
      ([written]).
    - [Tree]: [request_records] as the generator it is, an interaction
      tree whose loop has no bound ([turn], [loop_tree],
      [request_records_tree]), with the interactions [tapE] and the handler
      [handle] that answers them from a [World.world].
    - [Records]: [post_process] (base class and [Page]), the SDK's
      [get_records] that applies it to every row, the state reset
      [get_stream_or_partition_state] and [_singer_metadata].
    - [Sync]: the partitions of a sync read one after the other with the
      one instance of the stream class: the instance as a run leaves it
      ([self_after], [instance_after]), the SDK's loop over the partitions
      ([sync_records]), the same loop with an instance per partition
      ([sync_each]), and instances compared up to [page_id]
      ([same_config], with the [Proper] instances of the runs).
    - [Served]: a sync in which every partition has a paging server of its
      own ([paged_job], [script_of]).
    - [Cursor]: the replication cursors the SDK keeps, from the
      specification: the cursor as the maximum of the replication-key
      values of the emitted rows ([advance], [cursor_after]), the store
      of cursors by stream and page ([bookmarks], [sync_bookmarks]), the
      starting timestamp it gives the parameter builders
      ([starting_timestamp], [coordinator_sdk]) and the stores that follow
      one another run after run ([follows]).
    - [State]: the state objects the SDK keeps, as a store of values by
      reference ([loc], [state_refs]), and
      [get_stream_or_partition_state] on that store
      ([get_stream_or_partition_state_at]).

    ** How the model corresponds to the code

    Every method is one definition with the method's name, prefixed by its
    class when several classes define it ([Posts_parse_response] for
    [Posts.parse_response], [FacebookPagesStream_get_url_params] for the base
    builder); the unprefixed name ([parse_response], [get_url_params],
    [get_next_page_token], [post_process]) is the method resolution over
    [stream].  A Python expression that can raise is a [result]; a generator
    is a [gen]: the rows it yielded before it returned or raised.  Rows
    yielded before an exception are kept, as they are by the consumer of the
    real generator.  Mutation of a row ([row["page_id"] = ...], [.update],
    [.pop]) becomes a new value: [response.json()] builds a fresh tree on
    every call and every row is yielded once, so no two names alias one
    object.  The state objects of the SDK are aliased: [State] keeps them
    in a store and the method that assigns to one returns the store.
    [self.page_id], the only instance state that changes, is threaded
    explicitly: a builder returns the instance with the outcome, and [Sync]
    hands the instance from one partition to the next.  What a method logs
    is a companion definition where the method has another result
    ([Params.FacebookPagesStream_logged] for the line of [get_url_params]),
    and an event of the run.  The clock is an argument ([time]) of the two
    methods that read it.  [requests] writes the URL of a request from the
    parameters ([Engine.request_url], with [Quote.urlencode]); the address
    is taken as it is.  The [RuntimeError] of the loop detection carries the
    pagination token its message names; [Log] turns the events of a run
    into the bytes written to [sys.stderr].  The logger and its handler
    are objects of the [logging] module: the logger holds a reference to
    the handler, so the format set on line 22, after the handler was added
    on line 20, is the format of the lines.  The code that is the SDK's
    ([_request_with_backoff], the cursors, the loop over the partitions)
    is modelled from the specification and kept behind interfaces: the
    class [Streams.Sdk] for the starting timestamp and the query parser,
    [Backoff.RetryPolicy] for the retries.

    ** Bounds and fuel

    The pagination loop is unbounded in the source, and so it is in
    [Tree.loop_tree], which is compared with the bounded runs but not run.
    [Engine.request_records_loop] runs it over a finite script with one entry
    per turn (the clock readings and what the transport does), and says how
    the run ended: [Finished], [Raised] (an exception left the generator) or
    [Pending] (the script is used up and the loop condition still holds).
    The script is the only bound: that a run finishes is proved for the
    scripts that hold all the pages of the partition, and the theorem on
    stuck turns shows runs that are pending whatever the length of the
    script.  [World.request_records_against] runs the loop against a server
    for at most [fuel] turns.  That a run ends is never stated as "if it
    returns": the theorems give the fuel that is enough (one turn per page
    of a paged collection; one turn more than there are windows of 8035200
    seconds between the cursor and two days before now for [PageInsights];
    the measure of the start state plus one in general) and show that the
    run is [Finished] or [Raised] with it; more fuel does not change a run
    that has ended.  A sync ([Sync.sync_records]) has a script per
    partition and stops at the first run that is not finished: that a sync
    is complete is proved with the scripts the servers of the partitions
    write, one entry per page ([Served]).  The tries of a request
    ([Backoff.retry_from]) are bounded by the policy's [max_tries], which
    is positive, so a call of the transport always has an outcome.  Every
    other definition is structurally recursive and total; integers are
    unbounded, as Python's are.

    ** What the theorems show

    - [PyDict], [PyValue]: the dictionary operations keep keys unique and
      satisfy the lookup laws; [==] is reflexive on well-formed values and
      respects truthiness; [int(str(n)) = n].
    - [Url]: [parse_qs] returns distinct names, each with the values it has
      in the query, one at least; a rendered query is read back as the
      parameters it was rendered from.
    - [Quote]: [parse_qs] reads the query [urlencode] writes back as the
      parameters it was written from, whatever bytes their names and values
      have, provided no value is blank; [unquote] alone leaves [+] for a
      space.
    - [Params]: which parameters each stream sends without a token and with
      one; [Page] and [PageInsights] add parameters to those of a token.
    - [Window]: the first window ends at [since + 8035200] or one day before
      now, never after now, and before [since] for a recent cursor; the
      clamp of a token's [until]; which links the stall rule suppresses.
    - [Flatten]: the rows of each stream on well-shaped input, in order; the
      exception on each malformed shape; the parent tags on every row; rows
      are well-formed values.
    - [Redact]: the leftmost token followed by [&] is masked; a text in
      which no match starts is copied, and whether one starts before an [&]
      does not depend on what follows it; no logged line holds a match of
      the pattern, so the substitution is idempotent.
    - [Engine]: what one turn does on each of its paths; the loop stops on a
      failure of the first page only, and the loop-detection branch does not
      stop it; a turn without warning refines the specification's state
      machine and a failed later page departs from it; rows are emitted in
      page order; exceptions of [prepare_request] leave the generator; a
      turn leaves the partition's id in the instance; the executable loop and the transition relation agree; the lines logged
      during a run are the redacted URLs of the requests sent, in order; the
      line for a page without a token is logged once, before the first
      request.
    - [Link]: the streams that return a token's parameters untouched send
      the next request to the link itself; the line logged for a link that
      carries the token first has the mask in its place, and the line
      logged for a link that carries it last has the token in clear.
    - [First]: the table of first requests, stream by stream, with the
      exception of [PageInsights] without a cursor; the URL of the request;
      the logged line is that URL with the token masked, for every stream.
    - [World]: a run against a server is the run over the script the server
      writes; a run ends within the turns a measure of the loop's variables
      allows.
    - [Backoff]: a request is tried at most [max_tries] times; it is
      answered exactly when a try succeeds before the tries are used up and
      before a failure the policy gives up on; the failures the retries
      absorb do not show in a run.
    - [Paging]: against the paging server a run ends after one request per
      page, the first to the URL of a first request and the others to the
      links, without a warning, with the rows of all the pages in order; the
      lines logged for these URLs show the mask where the token is, and do
      not depend on the token.
    - [Insights]: against the insights server, which never stops writing
      [next] links, the stall rule ends the run of [PageInsights]; the
      requests ask for the windows between the cursor and now, one each, and
      the rows are those of these windows in order; when the second window
      would end within two days after now the rule ends the run after the
      first, and the values of the 91 days before now are not asked for.
    - [Stuck]: against a server that repeats its link, and against one that
      fails after the first page, the run is pending whatever the fuel; the
      first yields the rows of the page again in every turn.
    - [Log]: the logger of the module writes every record of level INFO or
      above to [sys.stderr] as the level name, a space and the message; a
      run against the paging server writes the opening line and one line
      per request with the token masked; the warning of the loop detection
      writes the link of the repeated page with the access token in clear.
    - [Tree]: against the paging server and against the insights server
      the generator returns, with the rows of all the pages or windows; against
      the servers of [Stuck] it never does.  The lemmas behind them: the
      generator, handled by a world, returns what the run over the script
      of that world computes whenever that run ends, and a generator whose
      turns leave the loop as they found it has no leaf.
    - [Records]: every record of every stream but [Page] carries its
      partition's id; [post_process] is the identity on rows the flattener
      tagged; the state reset acts on lists only and is idempotent.
    - [Sync]: a run leaves the configuration of the instance as it is, and
      runs from instances of the same configuration are the same, so the
      sync with the shared instance is the sync with an instance per
      partition; every record carries the page of its own partition; a
      partition whose first request fails is skipped; a partition with a
      failure on a later page holds up the partitions after it.
    - [Served]: a sync over partitions served page by page reads all of
      them to the last page and yields the rows of all their pages.
    - [Cursor]: advancing is a join (commutative, associative, idempotent,
      monotone), so the cursor after a run does not depend on the order of
      the rows nor on how often one is yielded; the stored cursors only grow
      run after run; the first request of the next run asks for the rows
      since the cursor the sync left; a page whose flattener fails half way
      moves the cursor over the rows it yielded before.
    - [State]: the method on the store refines the method on values; the
      reset is made in place, changes no other object, and is seen by every
      later reader of the object.

    Each file ends with its theorems applied to sample data.

    ** Not modelled

    The retry policy of the SDK (which failures it retries, how long it
    waits) and the HTTP status handling behind [_request_with_backoff]:
    [Backoff] states its results for any policy.  Of the [logging] module,
    the handlers of the root logger, to which the records of the module's
    logger are passed on as well, and the text of an exception raised by
    the Python runtime or a library ([str(e)] is given for the exceptions
    the source raises itself and for a missing key).  Of the SDK's
    bookkeeping of replication cursors, the parsing of the dates (a
    timestamp is an argument of the model, [timestamp_of]) and the state
    file; of the SDK's loop over the partitions only the order of the runs
    and the shared instance are modelled, from the specification.  Catalog
    discovery and schema files, and the tap's entry point, which are not
    under [src/].  What [requests] does to the address of a URL (the
    theorems on URLs take a page id that needs no escaping).  Texts are byte
    strings that stand for UTF-8: [unquote] is modelled on bytes, without
    the replacement of ill-formed sequences.  JSON numbers that are not
    integers (the program only copies them), and with them the truncation
    of [starting_datetime.timestamp()] by [int] on line 87: the starting
    timestamp is a whole number of seconds.  [config["columns"]] is taken
    to be a list of strings.  [get_records] applies [post_process] to the
    rows of a run once the run is over, not row by row as the SDK does: the
    records and the end of the run are the same.  The generator of [Tree]
    reads the clock in every turn for every stream, where only
    [PageInsights] calls [t.time()]; the reading is not an event of the
    trace.  Every line of [streams.py]
    that is not an import or blank is the source of a definition: nothing
    more of the program is left to model. *)

From Stdlib Require Import List String ZArith Lia Bool.
From stdpp Require Import base tactics list.
Import ListNotations.

Set Default Proof Using "Type".

(** ** The exception monad *)

Inductive result (E A : Type) : Type :=
| Ok (a : A)
| Err (e : E).
Arguments Ok {E A} a.
Arguments Err {E A} e.

Definition res_bind {E A B} (m : result E A) (k : A -> result E B) : result E B :=
  match m with
  | Ok a => k a
  | Err e => Err e
  end.

Definition res_map {E A B} (f : A -> B) (m : result E A) : result E B :=
  res_bind m (fun a => Ok (f a)).

Definition is_ok {E A} (m : result E A) : bool :=
  match m with Ok _ => true | Err _ => false end.

Definition of_option {E A} (e : E) (o : option A) : result E A :=
  match o with Some a => Ok a | None => Err e end.

Declare Scope res_scope.
Delimit Scope res_scope with res.
Notation "x <- m ;; k" := (res_bind m (fun x => k))
  (at level 100, m at next level, right associativity) : res_scope.

(** [map_result f xs]: apply a fallible function to every element, in
    order, stopping at the first exception. *)
Fixpoint map_result {E A B} (f : A -> result E B) (xs : list A) : result E (list B) :=
  match xs with
  | [] => Ok []
  | x :: xs' =>
      res_bind (f x) (fun y => res_bind (map_result f xs') (fun ys => Ok (y :: ys)))
  end.

(** ** The generator monad

    A Python generator function yields rows and then returns or raises.
    Its model is the list of rows yielded, in order, with the value it
    returned or the exception that ended it. *)

Definition gen (R E A : Type) : Type := list R * result E A.

Definition gen_ret {R E A} (a : A) : gen R E A := ([], Ok a).

Definition gen_bind {R E A B} (m : gen R E A) (k : A -> gen R E B) : gen R E B :=
  match m with
  | (out, Ok a) => let '(out', r) := k a in (out ++ out', r)
  | (out, Err e) => (out, Err e)
  end.

Definition yield {R E} (r : R) : gen R E unit := ([r], Ok tt).

Definition gen_lift {R E A} (m : result E A) : gen R E A := ([], m).

Definition rows_of {R E A} (g : gen R E A) : list R := fst g.
Definition outcome_of {R E A} (g : gen R E A) : result E A := snd g.

(** A [for x in xs: body] loop whose body may yield and may raise: the
    bodies run in order and the first exception ends the loop. *)
Fixpoint for_each {R E X} (xs : list X) (body : X -> gen R E unit) : gen R E unit :=
  match xs with
  | [] => gen_ret tt
  | x :: xs' => gen_bind (body x) (fun _ => for_each xs' body)
  end.

Declare Scope gen_scope.
Delimit Scope gen_scope with gen.
Notation "x <- m ;; k" := (gen_bind m (fun x => k))
  (at level 100, m at next level, right associativity) : gen_scope.
Notation "x <~ m ;; k" := (gen_bind (gen_lift m) (fun x => k))
  (at level 100, m at next level, right associativity) : gen_scope.
Notation "m ;;; k" := (gen_bind m (fun _ => k))
  (at level 100, right associativity) : gen_scope.

(** ** Tactics *)

(** Case analysis on the scrutinee of the first [res_bind] or [match] on a
    result that blocks the goal or a hypothesis. *)
Ltac case_res :=
  match goal with
  | |- context [res_bind ?m _] =>
      lazymatch m with
      | Ok _ => fail
      | Err _ => fail
      | _ => destruct m eqn:?
      end
  | H : context [res_bind ?m _] |- _ =>
      lazymatch m with
      | Ok _ => fail
      | Err _ => fail
      | _ => destruct m eqn:?
      end
  end.

Ltac res_simpl := cbn [res_bind res_map gen_bind gen_lift gen_ret yield of_option
                        rows_of outcome_of fst snd] in *.

Ltac invc H := inversion H; subst; clear H.

(** From a hypothesis that a chain of binds returned [Ok], the facts that
    each step returned [Ok]. *)
Ltac res_inv :=
  repeat match goal with
  | H : res_bind ?m _ = Ok _ |- _ =>
      let a := fresh "a" in
      let Ha := fresh "Ha" in
      destruct m as [a|] eqn:Ha; [cbn [res_bind] in H | discriminate H]
  | H : res_map _ ?m = Ok _ |- _ =>
      let a := fresh "a" in
      let Ha := fresh "Ha" in
      destruct m as [a|] eqn:Ha; [cbn [res_map res_bind] in H | discriminate H]
  | H : Ok _ = Ok _ |- _ => injection H as H; try subst
  | H : Err _ = Ok _ |- _ => discriminate H
  | H : (if ?b then _ else _) = Ok _ |- _ => destruct b eqn:?
  end.

Create HintDb tap.
Create Rewrite HintDb tap_rw.

(** ** Laws of the two monads *)

Section ResultLaws.
Context {E A B C : Type}.

Lemma res_bind_ok (a : A) (k : A -> result E B) : res_bind (Ok a) k = k a.
Proof. reflexivity. Qed.

Lemma res_bind_err (e : E) (k : A -> result E B) : res_bind (Err e) k = Err e.
Proof. reflexivity. Qed.

Lemma res_bind_ret (m : result E A) : res_bind m Ok = m.
Proof. by destruct m. Qed.

Lemma res_bind_assoc (m : result E A) (k : A -> result E B) (h : B -> result E C) :
  res_bind (res_bind m k) h = res_bind m (fun a => res_bind (k a) h).
Proof. by destruct m. Qed.

Lemma res_bind_inv_ok (m : result E A) (k : A -> result E B) (b : B) :
  res_bind m k = Ok b -> exists a, m = Ok a /\ k a = Ok b.
Proof. destruct m; cbn; [eauto | discriminate]. Qed.

Lemma res_bind_inv_err (m : result E A) (k : A -> result E B) (e : E) :
  res_bind m k = Err e -> m = Err e \/ exists a, m = Ok a /\ k a = Err e.
Proof. destruct m; cbn; [eauto | intros [= ->]; auto]. Qed.
End ResultLaws.

Section MapResult.
Context {E A B : Type} (f : A -> result E B).

Lemma map_result_app (xs ys : list A) :
  map_result f (xs ++ ys) =
  res_bind (map_result f xs) (fun l => res_bind (map_result f ys) (fun r => Ok (l ++ r))).
Proof.
  induction xs as [|x xs IH]; cbn.
  - by destruct (map_result f ys).
  - destruct (f x); cbn; [|done]. rewrite IH.
    destruct (map_result f xs); cbn; [|done]. by destruct (map_result f ys).
Qed.

Lemma map_result_length (xs : list A) (ys : list B) :
  map_result f xs = Ok ys -> length ys = length xs.
Proof.
  revert ys; induction xs as [|x xs IH]; cbn; intros ys H.
  - by invc H.
  - destruct (f x); cbn in H; [|done].
    destruct (map_result f xs) eqn:Hm; cbn in H; [|done].
    invc H. cbn. f_equal. by apply IH.
Qed.

Lemma map_result_total (xs : list A) (g : A -> B) :
  (forall x, x ∈ xs -> f x = Ok (g x)) -> map_result f xs = Ok (map g xs).
Proof.
  induction xs as [|x xs IH]; cbn; intros H; [done|].
  rewrite H by left. cbn. rewrite IH by (intros; apply H; by right). done.
Qed.
End MapResult.

Section GenLaws.
Context {R E A B C : Type}.

Lemma gen_bind_ret_l (a : A) (k : A -> gen R E B) : gen_bind (gen_ret a) k = k a.
Proof. unfold gen_bind, gen_ret. by destruct (k a). Qed.

Lemma gen_bind_ret_r (m : gen R E A) : gen_bind m gen_ret = m.
Proof. destruct m as [out [a|e]]; cbn; [by rewrite app_nil_r | done]. Qed.

Lemma gen_bind_assoc (m : gen R E A) (k : A -> gen R E B) (h : B -> gen R E C) :
  gen_bind (gen_bind m k) h = gen_bind m (fun a => gen_bind (k a) h).
Proof.
  destruct m as [out [a|e]]; cbn; [|done].
  destruct (k a) as [out' [b|e]]; cbn; [|done].
  destruct (h b) as [out'' r]. by rewrite app_assoc.
Qed.

Lemma gen_lift_ok (a : A) (k : A -> gen R E B) : gen_bind (gen_lift (Ok a)) k = k a.
Proof. apply gen_bind_ret_l. Qed.

Lemma gen_lift_err (e : E) (k : A -> gen R E B) :
  gen_bind (gen_lift (Err e)) k = ([], Err e).
Proof. reflexivity. Qed.

Lemma gen_bind_rows (m : gen R E A) (k : A -> gen R E B) :
  exists tail, rows_of (gen_bind m k) = rows_of m ++ tail.
Proof.
  destruct m as [out [a|e]]; cbn.
  - destruct (k a) as [out' r]; cbn. by exists out'.
  - exists []. by rewrite app_nil_r.
Qed.

Lemma gen_bind_ok (out : list R) (a : A) (k : A -> gen R E B) :
  gen_bind (out, Ok a) k = (out ++ rows_of (k a), outcome_of (k a)).
Proof. unfold gen_bind. by destruct (k a). Qed.

Lemma gen_bind_err (out : list R) (e : E) (k : A -> gen R E B) :
  gen_bind (out, Err e) k = (out, Err e).
Proof. reflexivity. Qed.

Lemma gen_bind_Forall (P : R -> Prop) (m : gen R E A) (k : A -> gen R E B) :
  Forall P (rows_of m) -> (forall a, Forall P (rows_of (k a))) ->
  Forall P (rows_of (gen_bind m k)).
Proof.
  destruct m as [out [a|e]]; cbn; intros Hm Hk; [|done].
  specialize (Hk a). destruct (k a) as [out' r]. cbn in *. by apply Forall_app.
Qed.

Lemma gen_bind_Forall_ok (P : R -> Prop) (m : gen R E A) (k : A -> gen R E B) :
  Forall P (rows_of m) -> (forall a, outcome_of m = Ok a -> Forall P (rows_of (k a))) ->
  Forall P (rows_of (gen_bind m k)).
Proof.
  destruct m as [out [a|e]]; cbn; intros Hm Hk; [|done].
  specialize (Hk a eq_refl). destruct (k a) as [out' r]. cbn in *. by apply Forall_app.
Qed.

Lemma gen_bind_outcome_inv (m : gen R E A) (k : A -> gen R E B) (b : B) :
  outcome_of (gen_bind m k) = Ok b ->
  exists a, outcome_of m = Ok a /\ outcome_of (k a) = Ok b.
Proof.
  destruct m as [out [a|e]]; cbn; [|done]. destruct (k a) as [out' r] eqn:Hk. cbn.
  intros ->. exists a. by rewrite Hk.
Qed.

Lemma gen_lift_Forall (P : R -> Prop) (m : result E A) (k : A -> gen R E B) :
  (forall a, m = Ok a -> Forall P (rows_of (k a))) ->
  Forall P (rows_of (gen_bind (gen_lift m) k)).
Proof.
  destruct m as [a|e]; intros Hk; [|constructor].
  rewrite gen_lift_ok. by apply Hk.
Qed.

Lemma yield_Forall (P : R -> Prop) (r : R) : P r -> Forall P (rows_of (@yield R E r)).
Proof. by repeat constructor. Qed.

Lemma gen_ret_Forall (P : R -> Prop) (a : A) : Forall P (rows_of (@gen_ret R E A a)).
Proof. constructor. Qed.

Lemma yield_bind (r : R) (k : unit -> gen R E B) :
  gen_bind (yield r) k = (r :: rows_of (k tt), outcome_of (k tt)).
Proof. unfold gen_bind, yield. by destruct (k tt). Qed.
End GenLaws.

Section ForEach.
Context {R E X : Type}.
Implicit Types (body : X -> gen R E unit) (xs ys : list X).

Lemma for_each_nil body : for_each [] body = gen_ret tt.
Proof. reflexivity. Qed.

Lemma for_each_cons x xs body :
  for_each (x :: xs) body = gen_bind (body x) (fun _ => for_each xs body).
Proof. reflexivity. Qed.

Lemma for_each_app xs ys body :
  for_each (xs ++ ys) body = gen_bind (for_each xs body) (fun _ => for_each ys body).
Proof.
  induction xs as [|x xs IH]; cbn [for_each app].
  - by rewrite gen_bind_ret_l.
  - by rewrite IH, gen_bind_assoc.
Qed.

(** A loop whose every body returns normally yields the bodies' rows in
    order. *)
Lemma for_each_ok xs body (rows : X -> list R) :
  (forall x, x ∈ xs -> body x = (rows x, Ok tt)) ->
  for_each xs body = (flat_map rows xs, Ok tt).
Proof.
  induction xs as [|x xs IH]; cbn [for_each flat_map]; intros H; [done|].
  rewrite (H x) by left. cbn. rewrite IH by (intros; apply H; by right). done.
Qed.

Lemma for_each_map_single {Y} (f : Y -> X) (g : Y -> R) (ys : list Y) body :
  (forall y, y ∈ ys -> body (f y) = ([g y], Ok tt)) ->
  for_each (map f ys) body = (map g ys, Ok tt).
Proof.
  induction ys as [|y ys IH]; cbn [for_each map]; intros H; [done|].
  rewrite (H y) by left. cbn. rewrite IH by (intros; apply H; by right). done.
Qed.

Lemma for_each_single (g : X -> R) xs body :
  (forall x, x ∈ xs -> body x = ([g x], Ok tt)) ->
  for_each xs body = (map g xs, Ok tt).
Proof.
  intros H. rewrite <- (map_id xs) at 1. by apply for_each_map_single.
Qed.

(** The first body that raises ends the loop: the rows of the earlier
    bodies and its own rows are kept, nothing after it runs. *)
Lemma for_each_raise xs x ys body (rows : X -> list R) out e :
  (forall y, y ∈ xs -> body y = (rows y, Ok tt)) ->
  body x = (out, Err e) ->
  for_each (xs ++ x :: ys) body = (flat_map rows xs ++ out, Err e).
Proof.
  intros Hok Hx. rewrite for_each_app, (for_each_ok _ _ rows Hok). cbn.
  rewrite Hx. done.
Qed.

(** Every row a loop yields is a row one of its bodies yields, whether or
    not the loop runs to its end. *)
Lemma for_each_rows (P : R -> Prop) xs body :
  (forall x, x ∈ xs -> Forall P (rows_of (body x))) ->
  Forall P (rows_of (for_each xs body)).
Proof.
  induction xs as [|x xs IH]; cbn [for_each]; intros H; [constructor|].
  apply gen_bind_Forall; [apply H; left | intros _; apply IH].
  intros y Hy. apply H. by right.
Qed.

Lemma for_each_ext xs body body' :
  (forall x, x ∈ xs -> body x = body' x) -> for_each xs body = for_each xs body'.
Proof.
  induction xs as [|x xs IH]; cbn; intros H; [done|].
  rewrite H by left. f_equal. rewrite IH; [done|]. intros; apply H; by right.
Qed.
End ForEach.

(** Outside this file the generator monad is reasoned about through its
    laws, not by unfolding. *)
#[global] Arguments gen_bind : simpl never.
#[global] Arguments gen_lift : simpl never.

(** Run a generator symbolically: compute, use the monad laws, and use
    any hypothesis that tells the value of a stuck subterm. *)
Ltac gen_step :=
  first
    [ progress cbn
    | rewrite gen_lift_ok
    | rewrite gen_lift_err
    | rewrite gen_bind_ret_l
    | rewrite yield_bind
    | rewrite gen_bind_ok
    | rewrite gen_bind_err
    | rewrite app_nil_r
    | match goal with H : ?l = _ |- context [?l] => rewrite H end ].
Ltac gen_go := repeat gen_step.

#[export] Hint Rewrite @res_bind_ok @res_bind_err @gen_bind_ret_l @gen_lift_ok
@gen_lift_err @for_each_nil @for_each_cons : tap_rw.

(** ** Strings *)

Lemma string_app_assoc (a b c : string) : ((a ++ b) ++ c = a ++ b ++ c)%string.
Proof. induction a; cbn; congruence. Qed.

Lemma string_app_nil_r (a : string) : (a ++ "")%string = a.
Proof. induction a; cbn; congruence. Qed.

Lemma string_app_mid (a : string) c (b d : string) :
  (a ++ String c (b ++ d) = (a ++ String c b) ++ d)%string.
Proof. by rewrite string_app_assoc. Qed.

Lemma string_length_app (a b : string) :
  String.length (a ++ b) = String.length a + String.length b.
Proof. induction a; cbn; congruence. Qed.
