(* ===== verification/PyDict.v ===== *)
(** * PyDict: Python's insertion-ordered dictionaries with string keys

    Every mapping the program touches (a JSON object of a response, the
    request parameters, a partition, an emitted row) is a Python [dict]
    whose keys are strings.  A dict remembers the order in which its keys
    were first inserted, and that order is what [.items()] iterates over and
    what a row is serialised in, so the model is an association list:

    - [d[k]] and [k in d] are [dict_get] and [dict_mem];
    - [d[k] = v] is [dict_set]: an existing key keeps its position and gets
      the new value, a new key goes to the end;
    - [d.update(o)] is [dict_update]: [dict_set] for every item of [o] in
      [o]'s order;
    - [d.pop(k)] is [dict_pop];
    - a dict display [{k1: v1, ...}] is [dict_of_list].

    [dict_wf] says the keys are pairwise distinct, which every Python dict
    satisfies; all operations preserve it.  Python's [==] on dicts ignores
    order: [dict_equiv] is that equivalence, and the operations respect it. *)

From Stdlib Require Import List String Bool Lia Morphisms RelationClasses.
From stdpp Require Import base tactics list.
From S2P Require Import Prelude.
Import ListNotations.

Set Default Proof Using "Type".

Abbreviation dict V := (list (string * V)).

Section Ops.
Context {V : Type}.
Implicit Types (d o : dict V) (k : string) (v : V).

Fixpoint dict_get k d : option V :=
  match d with
  | [] => None
  | (k', v) :: d' => if String.eqb k k' then Some v else dict_get k d'
  end.

Definition dict_mem k d : bool :=
  match dict_get k d with Some _ => true | None => false end.

Fixpoint dict_set k v d : dict V :=
  match d with
  | [] => [(k, v)]
  | (k', v') :: d' =>
      if String.eqb k k' then (k', v) :: d' else (k', v') :: dict_set k v d'
  end.

Definition dict_update d o : dict V :=
  fold_left (fun acc kv => dict_set (fst kv) (snd kv) acc) o d.

Fixpoint dict_remove k d : dict V :=
  match d with
  | [] => []
  | (k', v) :: d' => if String.eqb k k' then d' else (k', v) :: dict_remove k d'
  end.

Definition dict_pop k d : option (V * dict V) :=
  match dict_get k d with
  | Some v => Some (v, dict_remove k d)
  | None => None
  end.

Definition dict_of_list (items : dict V) : dict V := dict_update [] items.

Definition dict_keys d : list string := d.*1.
Definition dict_values d : list V := d.*2.

Definition dict_wf d : Prop := NoDup (dict_keys d).

Definition dict_equiv d o : Prop := forall k, dict_get k d = dict_get k o.

End Ops.

Ltac case_key :=
  match goal with
  | |- context [String.eqb ?a ?b] =>
      destruct (String.eqb_spec a b); try subst; try congruence
  | H : context [String.eqb ?a ?b] |- _ =>
      destruct (String.eqb_spec a b); try subst; try congruence
  end.

(** Unique keys of a dict written out with literal keys. *)
Ltac solve_dict_wf :=
  unfold dict_wf, dict_keys; cbn;
  repeat (apply NoDup_cons; split;
          [rewrite ?elem_of_cons, ?elem_of_nil; intuition discriminate|]);
  apply NoDup_nil_2.

(** ** Lookup laws *)

Section Laws.
Context {V : Type}.
Implicit Types (d o : dict V) (k : string) (v : V).

Lemma dict_get_elem k v d : dict_get k d = Some v -> (k, v) ∈ d.
Proof.
  induction d as [|[k' v'] d IH]; cbn; [done|].
  case_key; [intros [= ->]; left | right; auto].
Qed.

Lemma dict_get_None k d : dict_get k d = None <-> k ∉ dict_keys d.
Proof.
  unfold dict_keys.
  induction d as [|[k' v'] d IH]; cbn; [split; [intros _; apply not_elem_of_nil | done]|].
  rewrite not_elem_of_cons. case_key; [split; [done | intros [? _]; done]|].
  rewrite IH. split; [done | by intros [_ ?]].
Qed.

Lemma dict_mem_keys k d : dict_mem k d = true <-> k ∈ dict_keys d.
Proof.
  unfold dict_mem. destruct (dict_get k d) eqn:Hg.
  - split; [intros _ | done]. apply dict_get_elem in Hg.
    apply list_elem_of_fmap. by exists (k, v).
  - apply dict_get_None in Hg. naive_solver.
Qed.

Lemma dict_mem_Some k v d : dict_get k d = Some v -> dict_mem k d = true.
Proof. unfold dict_mem. by intros ->. Qed.

Lemma dict_mem_None k d : dict_get k d = None -> dict_mem k d = false.
Proof. unfold dict_mem. by intros ->. Qed.

Lemma dict_mem_false k d : dict_mem k d = false <-> dict_get k d = None.
Proof. unfold dict_mem. destruct (dict_get k d); split; congruence. Qed.

Lemma dict_get_elem_wf k v d : dict_wf d -> (k, v) ∈ d -> dict_get k d = Some v.
Proof.
  unfold dict_wf. induction d as [|[k' v'] d IH]; cbn; [by intros _ ?%elem_of_nil|].
  rewrite NoDup_cons, elem_of_cons. intros [Hk Hnd] [[= -> ->]|Hin].
  - by rewrite String.eqb_refl.
  - case_key; [|auto]. destruct Hk. apply list_elem_of_fmap. by exists (k', v).
Qed.

Lemma dict_get_set_eq k v d : dict_get k (dict_set k v d) = Some v.
Proof.
  induction d as [|[k' v'] d IH]; cbn; [by rewrite String.eqb_refl|].
  case_key; cbn; [by rewrite String.eqb_refl | case_key].
Qed.

Lemma dict_get_set_ne k k' v d : k <> k' -> dict_get k (dict_set k' v d) = dict_get k d.
Proof.
  intros Hne. induction d as [|[k0 v0] d IH]; cbn.
  - case_key.
  - destruct (String.eqb_spec k' k0); subst; cbn; case_key.
Qed.

Lemma dict_get_set k k' v d :
  dict_get k (dict_set k' v d) = if String.eqb k k' then Some v else dict_get k d.
Proof.
  case_key; [apply dict_get_set_eq | by apply dict_get_set_ne].
Qed.

Lemma dict_keys_set k v d :
  dict_keys (dict_set k v d) = if dict_mem k d then dict_keys d else dict_keys d ++ [k].
Proof.
  unfold dict_mem, dict_keys. induction d as [|[k' v'] d IH]; cbn; [done|].
  case_key; cbn; [done|]. rewrite IH. by destruct (dict_get k d).
Qed.

Lemma dict_set_length k v d :
  length (dict_set k v d) = if dict_mem k d then length d else S (length d).
Proof.
  rewrite <- !(length_fmap fst). change (fst <$> ?x) with (dict_keys x).
  rewrite dict_keys_set. destruct (dict_mem k d); [done|].
  rewrite length_app; cbn; lia.
Qed.

Lemma dict_set_fresh k v d : dict_mem k d = false -> dict_set k v d = d ++ [(k, v)].
Proof.
  unfold dict_mem. induction d as [|[k' v'] d IH]; cbn; [done|].
  case_key; try done. intros H. by rewrite IH.
Qed.

Lemma dict_get_update k d o :
  dict_wf o ->
  dict_get k (dict_update d o) =
  match dict_get k o with Some v => Some v | None => dict_get k d end.
Proof.
  unfold dict_update, dict_wf. revert d.
  induction o as [|[k' v'] o IH]; cbn; intros d Hnd; [done|].
  apply NoDup_cons in Hnd as [Hk Hnd]. rewrite IH by done.
  case_key.
  - apply dict_get_None in Hk. rewrite Hk. apply dict_get_set_eq.
  - by rewrite dict_get_set_ne.
Qed.

Lemma dict_get_remove_eq k d : dict_wf d -> dict_get k (dict_remove k d) = None.
Proof.
  unfold dict_wf. induction d as [|[k' v'] d IH]; cbn; [done|].
  intros [Hk Hnd]%NoDup_cons. case_key.
  - by apply dict_get_None.
  - cbn. case_key. auto.
Qed.

Lemma dict_get_remove_ne k k' d : k <> k' -> dict_get k (dict_remove k' d) = dict_get k d.
Proof.
  intros Hne. induction d as [|[k0 v0] d IH]; cbn; [done|].
  destruct (String.eqb_spec k' k0); subst; cbn; case_key.
Qed.

Lemma dict_keys_remove_subseteq k d : dict_keys (dict_remove k d) ⊆ dict_keys d.
Proof.
  unfold dict_keys. induction d as [|[k' v'] d IH]; cbn; [done|].
  case_key; [by intros x Hx; right|]. cbn.
  intros x [->|Hx]%elem_of_cons; [left | right; by apply IH].
Qed.

Lemma dict_pop_Some k v d d' :
  dict_pop k d = Some (v, d') -> dict_get k d = Some v /\ d' = dict_remove k d.
Proof. unfold dict_pop. destruct (dict_get k d); [intros [= -> ->]; done | done]. Qed.

Lemma dict_pop_None k d : dict_pop k d = None <-> dict_mem k d = false.
Proof. unfold dict_pop, dict_mem. destruct (dict_get k d); split; congruence. Qed.

(** ** The unique-key invariant is preserved *)

Lemma dict_wf_nil : dict_wf (@nil (string * V)).
Proof. constructor. Qed.

Lemma dict_set_wf k v d : dict_wf d -> dict_wf (dict_set k v d).
Proof.
  unfold dict_wf. rewrite dict_keys_set. destruct (dict_mem k d) eqn:Hm; [done|].
  intros Hnd. apply NoDup_app. split_and!; [done | | apply NoDup_singleton].
  intros x Hx%dict_mem_keys ->%list_elem_of_singleton. congruence.
Qed.

Lemma dict_update_wf d o : dict_wf d -> dict_wf (dict_update d o).
Proof.
  unfold dict_update. revert d. induction o as [|[k v] o IH]; cbn; [done|].
  intros d Hd. by apply IH, dict_set_wf.
Qed.

Lemma dict_of_list_wf (items : dict V) : dict_wf (dict_of_list items).
Proof. apply dict_update_wf, dict_wf_nil. Qed.

Lemma dict_remove_wf k d : dict_wf d -> dict_wf (dict_remove k d).
Proof.
  unfold dict_wf. induction d as [|[k' v'] d IH]; cbn; [done|].
  intros [Hk Hnd]%NoDup_cons. case_key.
  cbn. apply NoDup_cons. split; [|auto].
  intros Hin. by apply Hk, (dict_keys_remove_subseteq k).
Qed.

(** A dict display whose keys are distinct is the list as written. *)
Lemma dict_update_fresh d o :
  NoDup (dict_keys d ++ dict_keys o) -> dict_update d o = d ++ o.
Proof.
  unfold dict_update. revert d. induction o as [|[k v] o IH]; cbn; intros d Hnd.
  - by rewrite app_nil_r.
  - rewrite dict_set_fresh.
    + rewrite IH; [by rewrite <- app_assoc|].
      unfold dict_keys. rewrite fmap_app. cbn. by rewrite <- app_assoc.
    + apply not_true_iff_false. rewrite dict_mem_keys.
      apply NoDup_app in Hnd as (_ & Hd & _). intros Hin.
      apply (Hd k); [done | left].
Qed.

Lemma dict_of_list_wf_id (items : dict V) : dict_wf items -> dict_of_list items = items.
Proof. intros H. unfold dict_of_list. by rewrite dict_update_fresh. Qed.

(** ** Order-insensitive equality *)

#[export] Instance dict_equiv_equivalence : Equivalence (@dict_equiv V).
Proof.
  split; [by intros d k | by intros d o H k | intros d o p H1 H2 k].
  by rewrite H1.
Qed.

#[export] Instance dict_get_proper k : Proper (dict_equiv ==> eq) (@dict_get V k).
Proof. intros d o H. apply H. Qed.

#[export] Instance dict_mem_proper k : Proper (dict_equiv ==> eq) (@dict_mem V k).
Proof. intros d o H. unfold dict_mem. by rewrite H. Qed.

#[export] Instance dict_set_proper k v :
  Proper (dict_equiv ==> dict_equiv) (@dict_set V k v).
Proof. intros d o H k'. rewrite !dict_get_set. by rewrite H. Qed.

Lemma dict_update_equiv_l d d' o :
  dict_equiv d d' -> dict_equiv (dict_update d o) (dict_update d' o).
Proof.
  unfold dict_update. revert d d'. induction o as [|[k v] o IH]; cbn; [done|].
  intros d d' H. apply IH. by rewrite H.
Qed.

#[export] Instance dict_update_proper :
  Proper (dict_equiv ==> eq ==> dict_equiv) (@dict_update V).
Proof. intros d d' H o ? <-. by apply dict_update_equiv_l. Qed.

(** Assigning two different keys commutes up to order. *)
Lemma dict_set_comm k1 k2 v1 v2 d :
  k1 <> k2 ->
  dict_equiv (dict_set k1 v1 (dict_set k2 v2 d)) (dict_set k2 v2 (dict_set k1 v1 d)).
Proof. intros Hne k. rewrite !dict_get_set. repeat case_key. Qed.

Lemma dict_set_set k v v' d : dict_set k v (dict_set k v' d) = dict_set k v d.
Proof.
  induction d as [|[k' v0] d IH]; cbn; [by rewrite String.eqb_refl|].
  case_key; cbn; [by rewrite String.eqb_refl | case_key; by rewrite IH].
Qed.

(** Assigning to a key the value it has changes nothing, not even the
    order. *)
Lemma dict_set_same k v d : dict_get k d = Some v -> dict_set k v d = d.
Proof.
  induction d as [|[k' v'] d IH]; cbn; [done|].
  destruct (String.eqb k k'); [by intros [= ->] | intros H; by rewrite IH].
Qed.

(** Lookup in items written one after the other: the first entry of a
    key counts. *)
Lemma dict_get_app k d o :
  dict_get k (d ++ o) = match dict_get k d with Some v => Some v | None => dict_get k o end.
Proof. induction d as [|[k' v'] d IH]; cbn; [done|]. by case_key. Qed.

End Laws.

#[export] Hint Resolve dict_wf_nil dict_set_wf dict_update_wf dict_remove_wf
  dict_of_list_wf : tap.
#[export] Hint Rewrite @dict_get_set_eq @dict_set_set : tap_rw.
