(* ===== verification/PyValue.v ===== *)
(** * PyValue: the Python values the program handles and their built-ins

    [response.json()] returns a tree of [None], booleans, integers, strings,
    lists and string-keyed dicts; the partition and the emitted rows are
    such trees too.  [pyval] is that tree.  JSON numbers with a fraction or
    an exponent are outside the model: the program never computes with a
    number of a response, it only copies it.

    Each built-in operation the source applies to a value is a function
    here, total on [pyval], whose error cases are the exceptions Python
    raises for the operand's type:

    - [py_getitem v k] is [v[k]] with a string key, [py_getitem0 v] is
      [v[0]];
    - [py_setitem v k x] is [v[k] = x];
    - [py_contains k v] is [k in v] with a string [k];
    - [py_iter v] is the sequence [for x in v] runs over;
    - [py_update v o] is [v.update(o)], [py_pop v k] is [v.pop(k)];
    - [truthy v] is [bool(v)], [py_eqb a b] is [a == b];
    - [py_int_of_string] is [int(s)] on a string and [py_str_of_int] is
      [str(n)] on an integer.

    [wf_val] says every dict inside a value has pairwise distinct keys. *)

From Stdlib Require Import List String Ascii ZArith Bool Lia.
From Stdlib Require Import Decimal DecimalString DecimalZ DecimalPos.
From stdpp Require Import base tactics list.
From S2P Require Import Prelude PyDict.
Import ListNotations.

Set Default Proof Using "Type".
Local Open Scope string_scope.
Local Open Scope Z_scope.

Unset Elimination Schemes.
Inductive pyval : Type :=
| VNone
| VBool (b : bool)
| VInt (n : Z)
| VStr (s : string)
| VList (xs : list pyval)
| VDict (kvs : list (string * pyval)).
Set Elimination Schemes.

(** The exceptions the program can meet.  All derive from [Exception], so
    the [except Exception] of the pagination loop catches each of them.
    [KeyError] carries the missing key and [RuntimeError], which only the
    loop detection of [request_records] raises, the pagination token its
    message names; [RequestError] stands for whatever the transport raises
    once its retries are exhausted. *)
Inductive pyerr : Type :=
| KeyError (key : pyval)
| TypeError
| ValueError
| IndexError
| AttributeError
| RuntimeError (token : pyval)
| JSONDecodeError
| RequestError.

Abbreviation res := (result pyerr).
Abbreviation pydict := (list (string * pyval)).

(** ** Truthiness and equality *)

Definition truthy (v : pyval) : bool :=
  match v with
  | VNone => false
  | VBool b => b
  | VInt n => negb (n =? 0)
  | VStr s => negb (String.eqb s "")
  | VList xs => match xs with [] => false | _ => true end
  | VDict kvs => match kvs with [] => false | _ => true end
  end.

(** [a == b]: booleans compare as the integers 0 and 1, lists compare
    element by element, dicts compare as mappings whatever their order. *)
Fixpoint list_eqb_with {A} (eq : A -> A -> bool) (xs ys : list A) : bool :=
  match xs, ys with
  | [], [] => true
  | x :: xs', y :: ys' => eq x y && list_eqb_with eq xs' ys'
  | _, _ => false
  end.

Fixpoint py_eqb (a b : pyval) {struct a} : bool :=
  match a, b with
  | VNone, VNone => true
  | VBool x, VBool y => Bool.eqb x y
  | VBool x, VInt n => Z.b2z x =? n
  | VInt n, VBool y => n =? Z.b2z y
  | VInt n, VInt m => n =? m
  | VStr s, VStr t => String.eqb s t
  | VList xs, VList ys => list_eqb_with py_eqb xs ys
  | VDict kvs, VDict kvs' =>
      (length kvs =? length kvs')%nat &&
      forallb (fun kv => match dict_get (fst kv) kvs' with
                         | Some v' => py_eqb (snd kv) v'
                         | None => false
                         end) kvs
  | _, _ => false
  end.

(** ** Subscripts, membership, iteration *)

Definition py_getitem (v : pyval) (k : string) : res pyval :=
  match v with
  | VDict kvs => of_option (KeyError (VStr k)) (dict_get k kvs)
  | _ => Err TypeError
  end.

Definition py_getitem0 (v : pyval) : res pyval :=
  match v with
  | VList (x :: _) => Ok x
  | VList [] => Err IndexError
  | VStr (String c _) => Ok (VStr (String c ""))
  | VStr "" => Err IndexError
  | VDict _ => Err (KeyError (VInt 0))
  | _ => Err TypeError
  end.

Definition py_setitem (v : pyval) (k : string) (x : pyval) : res pyval :=
  match v with
  | VDict kvs => Ok (VDict (dict_set k x kvs))
  | _ => Err TypeError
  end.

(** [v[0] = x]: on a list the first slot is replaced; a string is
    immutable.  A dict would get the integer key 0, which no dict of this
    program has; the model raises [TypeError] there and no caller reaches
    that case. *)
Definition py_setitem0 (v : pyval) (x : pyval) : res pyval :=
  match v with
  | VList (_ :: xs) => Ok (VList (x :: xs))
  | VList [] => Err IndexError
  | _ => Err TypeError
  end.

Fixpoint is_substring (needle hay : string) : bool :=
  String.prefix needle hay ||
  match hay with
  | "" => false
  | String _ hay' => is_substring needle hay'
  end.

Definition py_contains (k : string) (v : pyval) : res bool :=
  match v with
  | VDict kvs => Ok (dict_mem k kvs)
  | VList xs => Ok (existsb (py_eqb (VStr k)) xs)
  | VStr s => Ok (is_substring k s)
  | _ => Err TypeError
  end.

Fixpoint chars_of (s : string) : list pyval :=
  match s with
  | "" => []
  | String c s' => VStr (String c "") :: chars_of s'
  end.

Definition py_iter (v : pyval) : res (list pyval) :=
  match v with
  | VList xs => Ok xs
  | VDict kvs => Ok (map (fun kv => VStr (fst kv)) kvs)
  | VStr s => Ok (chars_of s)
  | _ => Err TypeError
  end.

Definition py_update (v : pyval) (o : pydict) : res pyval :=
  match v with
  | VDict kvs => Ok (VDict (dict_update kvs o))
  | _ => Err AttributeError
  end.

Definition py_pop (v : pyval) (k : string) : res (pyval * pyval) :=
  match v with
  | VDict kvs =>
      match dict_pop k kvs with
      | Some (x, kvs') => Ok (x, VDict kvs')
      | None => Err (KeyError (VStr k))
      end
  | VList _ => Err TypeError
  | _ => Err AttributeError
  end.

Definition isinstance_dict (v : pyval) : bool :=
  match v with VDict _ => true | _ => false end.

(** ** [int(s)] and [str(n)]

    [int] accepts surrounding ASCII whitespace, one sign, and decimal
    digits with single underscores between them.  (Python also accepts
    non-ASCII spaces and digits; strings are bytes here.) *)

Definition is_space (c : ascii) : bool :=
  let n := nat_of_ascii c in
  ((9 <=? n) && (n <=? 13) || (28 <=? n) && (n <=? 32))%nat.

Fixpoint lstrip (s : string) : string :=
  match s with
  | "" => ""
  | String c s' => if is_space c then lstrip s' else s
  end.

Fixpoint rstrip (s : string) : string :=
  match s with
  | "" => ""
  | String c s' =>
      match rstrip s' with
      | "" => if is_space c then "" else String c ""
      | t => String c t
      end
  end.

Definition strip (s : string) : string := rstrip (lstrip s).

(** The digits of [s] as a decimal numeral; [prev] says the previous
    character was a digit, which is when an underscore or the end of the
    string may follow. *)
Fixpoint digits_of_string (prev : bool) (s : string) : option uint :=
  match s with
  | "" => if prev then Some Nil else None
  | String c s' =>
      if Ascii.eqb c "_" then
        if prev then digits_of_string false s' else None
      else uint_of_char c (digits_of_string true s')
  end.

Definition py_int_of_string (s : string) : res Z :=
  let body := strip s in
  let '(neg, ds) :=
    match body with
    | String "-" t => (true, t)
    | String "+" t => (false, t)
    | _ => (false, body)
    end in
  match digits_of_string false ds with
  | Some u => Ok (if neg then - Z.of_uint u else Z.of_uint u)
  | None => Err ValueError
  end.

Definition py_str_of_int (n : Z) : string := NilZero.string_of_int (Z.to_int n).

(** [int(v)] on a value: the program applies it to strings; integers and
    booleans convert to themselves, everything else is a [TypeError]. *)
Definition py_int (v : pyval) : res Z :=
  match v with
  | VStr s => py_int_of_string s
  | VInt n => Ok n
  | VBool b => Ok (Z.b2z b)
  | _ => Err TypeError
  end.

Definition no_space (s : string) : Prop :=
  Forall (fun c => is_space c = false) (list_ascii_of_string s).

(** ** Well-formed values *)

Fixpoint wf_val (v : pyval) : Prop :=
  match v with
  | VList xs => (fix all (l : list pyval) : Prop :=
                   match l with [] => True | x :: l' => wf_val x /\ all l' end) xs
  | VDict kvs =>
      dict_wf kvs /\
      (fix all (l : list (string * pyval)) : Prop :=
         match l with [] => True | (_, x) :: l' => wf_val x /\ all l' end) kvs
  | _ => True
  end.

(** Induction over a value with the hypothesis on every element of a list
    and every value of a dict. *)
Definition pyval_ind (P : pyval -> Prop)
  (fnone : P VNone) (fbool : forall b, P (VBool b)) (fint : forall n, P (VInt n))
  (fstr : forall s, P (VStr s))
  (flist : forall xs, Forall P xs -> P (VList xs))
  (fdict : forall kvs, Forall (fun kv => P (snd kv)) kvs -> P (VDict kvs)) :
  forall v, P v :=
  fix F (v : pyval) : P v :=
    match v with
    | VNone => fnone
    | VBool b => fbool b
    | VInt n => fint n
    | VStr s => fstr s
    | VList xs =>
        flist xs ((fix G (l : list pyval) : Forall P l :=
                     match l with
                     | [] => Stdlib.Lists.List.Forall_nil P
                     | x :: l' => @Stdlib.Lists.List.Forall_cons _ P x l' (F x) (G l')
                     end) xs)
    | VDict kvs =>
        fdict kvs ((fix G (l : list (string * pyval)) : Forall (fun kv => P (snd kv)) l :=
                      match l with
                      | [] => Stdlib.Lists.List.Forall_nil _
                      | kv :: l' =>
                          @Stdlib.Lists.List.Forall_cons _ (fun kv => P (snd kv)) kv l'
                            (F (snd kv)) (G l')
                      end) kvs)
    end.

(** ** Facts about well-formedness *)

Lemma wf_val_list xs : wf_val (VList xs) <-> Forall wf_val xs.
Proof.
  induction xs as [|x xs IH]; cbn; [by split; [constructor|]|].
  rewrite Forall_cons. cbn in IH. by rewrite IH.
Qed.

Lemma wf_val_dict kvs :
  wf_val (VDict kvs) <-> dict_wf kvs /\ Forall (fun kv => wf_val (snd kv)) kvs.
Proof.
  cbn. apply and_iff_compat_l.
  induction kvs as [|[k v] kvs IH]; cbn; [by split; [constructor|]|].
  rewrite Forall_cons. cbn. by rewrite IH.
Qed.

Lemma Forall_dict_get {P : pyval -> Prop} k v (kvs : pydict) :
  Forall (fun kv => P (snd kv)) kvs -> dict_get k kvs = Some v -> P v.
Proof.
  intros HF Hg%dict_get_elem. rewrite Forall_forall in HF. by apply (HF (k, v)).
Qed.

Lemma Forall_dict_set {P : pyval -> Prop} k v (kvs : pydict) :
  Forall (fun kv => P (snd kv)) kvs -> P v ->
  Forall (fun kv => P (snd kv)) (dict_set k v kvs).
Proof.
  intros HF Hv. induction kvs as [|[k' v'] kvs IH]; cbn.
  - by repeat constructor.
  - apply Forall_cons in HF as [? ?]. case_key; constructor; cbn; auto.
Qed.

Lemma Forall_dict_update {P : pyval -> Prop} (kvs o : pydict) :
  Forall (fun kv => P (snd kv)) kvs -> Forall (fun kv => P (snd kv)) o ->
  Forall (fun kv => P (snd kv)) (dict_update kvs o).
Proof.
  unfold dict_update. revert kvs. induction o as [|[k v] o IH]; cbn; [done|].
  intros kvs Hk [Hv Ho]%Forall_cons. apply IH; [|done]. by apply Forall_dict_set.
Qed.

Lemma Forall_dict_remove {P : pyval -> Prop} k (kvs : pydict) :
  Forall (fun kv => P (snd kv)) kvs -> Forall (fun kv => P (snd kv)) (dict_remove k kvs).
Proof.
  induction kvs as [|[k' v'] kvs IH]; cbn; [done|].
  intros [? ?]%Forall_cons. case_key. constructor; auto.
Qed.

(** Only a dict has items by name. *)
Lemma py_getitem_Ok v k x :
  py_getitem v k = Ok x -> exists d, v = VDict d /\ dict_get k d = Some x.
Proof.
  destruct v as [| | | | |d]; try done. cbn [py_getitem].
  destruct (dict_get k d) as [y|] eqn:Hd; cbn; [|done]. intros [= <-]. by exists d.
Qed.

Lemma py_getitem_wf v k x : wf_val v -> py_getitem v k = Ok x -> wf_val x.
Proof.
  destruct v; cbn [py_getitem]; try done. intros [_ HF]%wf_val_dict.
  destruct (dict_get k kvs) eqn:Hg; cbn; [intros [= <-] | done].
  by eapply Forall_dict_get.
Qed.

Lemma py_setitem_wf v k x y :
  wf_val v -> wf_val x -> py_setitem v k x = Ok y -> wf_val y.
Proof.
  destruct v; cbn [py_setitem]; try done. intros [Hwf HF]%wf_val_dict Hx [= <-].
  apply wf_val_dict. split; [by apply dict_set_wf | by apply Forall_dict_set].
Qed.

Lemma py_update_wf v o y :
  wf_val v -> Forall (fun kv => wf_val (snd kv)) o -> py_update v o = Ok y -> wf_val y.
Proof.
  destruct v; cbn [py_update]; try done. intros [Hwf HF]%wf_val_dict Ho [= <-].
  apply wf_val_dict. split; [by apply dict_update_wf | by apply Forall_dict_update].
Qed.

Lemma py_pop_wf v k x y : wf_val v -> py_pop v k = Ok (x, y) -> wf_val x /\ wf_val y.
Proof.
  destruct v; cbn [py_pop]; try done. intros [Hwf HF]%wf_val_dict.
  destruct (dict_pop k kvs) as [[x' d']|] eqn:Hp; [|done]. intros [= <- <-].
  apply dict_pop_Some in Hp as [Hg ->]. split; [by eapply Forall_dict_get|].
  apply wf_val_dict. split; [by apply dict_remove_wf | by apply Forall_dict_remove].
Qed.

Lemma py_iter_wf v xs : wf_val v -> py_iter v = Ok xs -> Forall wf_val xs.
Proof.
  destruct v; cbn [py_iter]; try done.
  - intros _ [= <-]. induction s; cbn; constructor; auto. done.
  - intros H%wf_val_list [= <-]. done.
  - intros _ [= <-]. induction kvs; cbn; constructor; auto. done.
Qed.

(** ** Facts about [==] *)

Lemma py_eqb_str s v : py_eqb (VStr s) v = true <-> v = VStr s.
Proof.
  destruct v; cbn; try (split; [done | discriminate]).
  rewrite String.eqb_eq. split; [by intros -> | by intros [= ->]].
Qed.

Lemma py_eqb_str_str s t : py_eqb (VStr s) (VStr t) = String.eqb s t.
Proof. reflexivity. Qed.

Lemma py_eqb_none_l v : py_eqb VNone v = true <-> v = VNone.
Proof. destruct v; cbn; split; done. Qed.

Lemma py_eqb_refl v : wf_val v -> py_eqb v v = true.
Proof.
  induction v as [| b | n | s | xs IH | kvs IH] using pyval_ind;
    cbn [py_eqb]; intros Hwf.
  - done.
  - by destruct b.
  - apply Z.eqb_refl.
  - apply String.eqb_refl.
  - apply wf_val_list in Hwf. induction IH as [|x xs Hx _ IHxs]; [done|].
    apply Forall_cons in Hwf as [? ?]. cbn. rewrite Hx, IHxs by done. done.
  - apply wf_val_dict in Hwf as [Hk Hwf]. rewrite Nat.eqb_refl. cbn.
    apply forallb_forall. intros [k v] Hin%list_elem_of_In. cbn.
    rewrite (dict_get_elem_wf k v kvs Hk Hin).
    rewrite Forall_forall in IH, Hwf. by apply (IH (k, v)), (Hwf (k, v)).
Qed.

(** Equal values are both truthy or both falsy. *)
Lemma py_eqb_truthy a b : py_eqb a b = true -> truthy a = truthy b.
Proof.
  destruct a as [| x | n | s | xs | kvs], b as [| y | m | t | ys | kvs'];
    cbn; try done.
  - by intros ->%Bool.eqb_prop.
  - intros <-%Z.eqb_eq. by destruct x.
  - intros ->%Z.eqb_eq. by destruct y.
  - by intros ->%Z.eqb_eq.
  - by intros ->%String.eqb_eq.
  - by destruct xs, ys.
  - by destruct kvs, kvs'.
Qed.

(** ** [int(str(n)) = n] *)

Lemma is_space_digit c d : uint_of_char c (Some d) <> None -> is_space c = false.
Proof.
  intros H. destruct c as [[] [] [] [] [] [] [] []]; try done; by destruct H.
Qed.

Lemma digits_of_string_of_uint (u : uint) :
  digits_of_string true (NilEmpty.string_of_uint u) = Some u.
Proof. induction u; cbn; [done | by rewrite IHu ..]. Qed.

Lemma digits_of_string_of_uint_nonnil (u : uint) :
  u <> Nil -> digits_of_string false (NilEmpty.string_of_uint u) = Some u.
Proof. destruct u; [done | intros _; cbn; by rewrite digits_of_string_of_uint ..]. Qed.

Lemma lstrip_no_space s : no_space s -> lstrip s = s.
Proof. destruct s; [done|]. intros [H _]%Forall_cons. cbn. by rewrite H. Qed.

Lemma rstrip_no_space s : no_space s -> rstrip s = s.
Proof.
  induction s as [|c s IH]; [done|]. intros [Hc Hs]%Forall_cons.
  cbn. rewrite IH by done. rewrite Hc. by destruct s.
Qed.

Lemma strip_no_space s : no_space s -> strip s = s.
Proof. intros H. unfold strip. by rewrite lstrip_no_space, rstrip_no_space. Qed.

Lemma string_of_uint_no_space u : no_space (NilEmpty.string_of_uint u).
Proof. induction u; cbn; constructor; done. Qed.

Lemma string_of_uint_head u c s :
  NilEmpty.string_of_uint u = String c s -> c <> "-"%char /\ c <> "+"%char.
Proof. destruct u; cbn; intros [= <- _]; done. Qed.

Lemma py_int_of_string_of_uint (u : uint) :
  u <> Nil -> py_int_of_string (NilEmpty.string_of_uint u) = Ok (Z.of_uint u).
Proof.
  intros Hu. unfold py_int_of_string.
  rewrite strip_no_space by apply string_of_uint_no_space.
  destruct (NilEmpty.string_of_uint u) as [|c s] eqn:Hs.
  - by destruct u.
  - apply string_of_uint_head in Hs as H. destruct H as [Hm Hp].
    assert (Hds : (let '(neg, ds) :=
              match String c s with
              | String "-" t => (true, t)
              | String "+" t => (false, t)
              | _ => (false, String c s)
              end in (neg, ds)) = (false, String c s)).
    { destruct c as [[] [] [] [] [] [] [] []]; done. }
    destruct (match String c s with
              | String "-" t => (true, t)
              | String "+" t => (false, t)
              | _ => (false, String c s)
              end) as [neg ds].
    injection Hds as -> ->. rewrite <- Hs.
    by rewrite digits_of_string_of_uint_nonnil.
Qed.

Lemma py_int_of_string_neg (u : uint) :
  u <> Nil ->
  py_int_of_string (String "-" (NilEmpty.string_of_uint u)) = Ok (- Z.of_uint u).
Proof.
  intros Hu. unfold py_int_of_string.
  rewrite strip_no_space.
  - by rewrite digits_of_string_of_uint_nonnil.
  - constructor; [done | apply string_of_uint_no_space].
Qed.

Lemma string_of_uint_nonnil (u : uint) :
  u <> Nil -> NilZero.string_of_uint u = NilEmpty.string_of_uint u.
Proof. by destruct u. Qed.

Lemma py_int_of_string_str (n : Z) : py_int_of_string (py_str_of_int n) = Ok n.
Proof.
  unfold py_str_of_int. rewrite <- (DecimalZ.of_to n) at 2.
  destruct n as [|p|p]; cbn [Z.to_int NilZero.string_of_int].
  - reflexivity.
  - pose proof (Unsigned.to_uint_nonnil p) as Hnn.
    by rewrite string_of_uint_nonnil, py_int_of_string_of_uint.
  - pose proof (Unsigned.to_uint_nonnil p) as Hnn.
    by rewrite string_of_uint_nonnil, py_int_of_string_neg.
Qed.

Lemma py_str_of_int_no_space (n : Z) : no_space (py_str_of_int n).
Proof.
  unfold py_str_of_int.
  destruct (Z.to_int n) as [u|u]; cbn; [|constructor; [done|]];
    (destruct u; [by repeat constructor | apply string_of_uint_no_space ..]).
Qed.

(** Blanks around a text without blanks are stripped. *)
Lemma rstrip_blank s : no_space s -> rstrip (s ++ " ") = s.
Proof.
  induction s as [|c s IH]; [done|]. intros [Hc Hs]%Forall_cons.
  cbn. rewrite IH by done. rewrite Hc. by destruct s.
Qed.

Lemma strip_blanks s : no_space s -> strip (" " ++ s ++ " ") = s.
Proof.
  intros Hs. unfold strip. change (" " ++ s ++ " ") with (String " " (s ++ " ")).
  cbn [lstrip]. change (is_space " ") with true. cbn match.
  destruct s as [|c s]; [done|]. pose proof Hs as [Hc _]%Forall_cons.
  cbn [append lstrip]. rewrite Hc. by apply (rstrip_blank (String c s)).
Qed.

(** [int(str(n)) = n], also with blanks around the digits: the number
    [PageInsights] writes back into the token's parameters as text is read
    back as the same number. *)
Theorem py_int_str_roundtrip (n : Z) :
  py_int (VStr (py_str_of_int n)) = Ok n /\
  py_int (VStr (" " ++ py_str_of_int n ++ " ")) = Ok n.
Proof.
  pose proof (py_int_of_string_str n) as Hn. split; cbn [py_int]; [done|].
  pose proof (py_str_of_int_no_space n) as Hns. unfold py_int_of_string in *.
  by rewrite strip_blanks, <- (strip_no_space (py_str_of_int n)).
Qed.

#[export] Hint Resolve py_getitem_wf py_setitem_wf py_update_wf py_iter_wf : tap.
