(* ===== verification/Streams.v ===== *)
(** * Streams: the stream classes, their attributes and their collaborators

    [FacebookPagesStream] and its six subclasses are Python classes whose
    methods dispatch on the class.  Here a stream is a constructor of
    [stream]; the class attributes each subclass declares are one
    [stream_class] record per class, and the attributes of an instance that
    the methods read or assign ([page_id], [access_tokens], [metrics], the
    configured columns and the schema's property names) are [stream_self].
    The schema file of a class is a [pathlib] path ([pure_path]) built from
    [SCHEMAS_DIR], relative to the directory of the module.

    The source calls into the SDK and the standard library for three things
    it does not implement: the partition's starting timestamp, the parsing
    of a URL's query string, and the wall clock.  [Sdk] is the interface for
    the first two, with the two facts about [parse_qs] the proofs use; the
    clock reading is an explicit argument of the methods that read it.
    [Url] provides an instance of [Sdk]. *)

From Stdlib Require Import List Ascii String ZArith Bool.
From stdpp Require Import base tactics list.
From S2P Require Import Prelude PyDict PyValue.
Import ListNotations.

Set Default Proof Using "Type".
Local Open Scope string_scope.
Local Open Scope Z_scope.

(** ** The classes *)

Inductive stream : Type :=
| Page
| Posts
| PostTaggedProfile
| PostAttachments
| PageInsights
| PostInsights.

#[export] Instance stream_eq_dec : EqDecision stream.
Proof. solve_decision. Defined.

Definition all_streams : list stream :=
  [Page; Posts; PostTaggedProfile; PostAttachments; PageInsights; PostInsights].

Inductive replication : Type := FULL_TABLE | INCREMENTAL.

(** ** Paths

    A [pathlib] path: whether it starts at the root, and its parts.
    [Path(text)] splits the text at the slashes and drops the empty parts
    and the parts that are a single dot; [a / b] is [b] when [b] starts at
    the root and [a] followed by the parts of [b] otherwise. *)
Record pure_path : Type := {
  anchored : bool;
  parts : list string;
}.

Fixpoint split_parts (text part : string) : list string :=
  match text with
  | EmptyString => [part]
  | String c rest =>
      if Ascii.eqb c "/"%char then part :: split_parts rest EmptyString
      else split_parts rest (part ++ String c EmptyString)
  end.

Definition Path (text : string) : pure_path :=
  {| anchored := match text with
                 | String c _ => Ascii.eqb c "/"%char
                 | EmptyString => false
                 end;
     parts := List.filter (fun part => negb (String.eqb part "" || String.eqb part "."))
                (split_parts text EmptyString) |}.

Definition joinpath (a b : pure_path) : pure_path :=
  if anchored b then b
  else {| anchored := anchored a; parts := parts a ++ parts b |}.

(** [Path(__file__).parent], the directory of the module: the paths of the
    module are taken from there. *)
Definition here : pure_path := Path ".".

Definition NEXT_FACEBOOK_PAGE : string := "NEXT_FACEBOOK_PAGE".

Definition SCHEMAS_DIR : pure_path := joinpath here (Path "./schemas").

(** The attributes a subclass declares in its body.  [name] and
    [tap_stream_id] are [None] in [PageInsights] and empty in
    [PostInsights]: the tap assigns them per metric group. *)
Record stream_class : Type := {
  name : option string;
  tap_stream_id : option string;
  path : string;
  primary_keys : list string;
  replication_key : option string;
  replication_method : replication;
  schema_filepath : pure_path;
}.

Definition BASE_URL : string := "https://graph.facebook.com/v10.0/{page_id}".

Definition Page_class : stream_class :=
  {| name := Some "page"; tap_stream_id := Some "page"; path := "";
     primary_keys := ["id"]; replication_key := None;
     replication_method := FULL_TABLE;
     schema_filepath := joinpath SCHEMAS_DIR (Path "page.json") |}.

Definition Posts_class : stream_class :=
  {| name := Some "posts"; tap_stream_id := Some "posts"; path := "/posts";
     primary_keys := ["id"]; replication_key := Some "created_time";
     replication_method := INCREMENTAL;
     schema_filepath := joinpath SCHEMAS_DIR (Path "posts.json") |}.

Definition PostTaggedProfile_class : stream_class :=
  {| name := Some "post_tagged_profile"; tap_stream_id := Some "post_tagged_profile";
     path := "/posts"; primary_keys := ["id"];
     replication_key := Some "post_created_time";
     replication_method := INCREMENTAL;
     schema_filepath := joinpath SCHEMAS_DIR (Path "post_tagged_profile.json") |}.

Definition PostAttachments_class : stream_class :=
  {| name := Some "post_attachments"; tap_stream_id := Some "post_attachments";
     path := "/posts"; primary_keys := ["id"];
     replication_key := Some "post_created_time";
     replication_method := INCREMENTAL;
     schema_filepath := joinpath SCHEMAS_DIR (Path "post_attachments.json") |}.

Definition PageInsights_class : stream_class :=
  {| name := None; tap_stream_id := None; path := "/insights";
     primary_keys := ["id"]; replication_key := None;
     replication_method := FULL_TABLE;
     schema_filepath := joinpath SCHEMAS_DIR (Path "page_insights.json") |}.

Definition PostInsights_class : stream_class :=
  {| name := Some ""; tap_stream_id := Some ""; path := "/published_posts";
     primary_keys := ["id"]; replication_key := Some "post_created_time";
     replication_method := INCREMENTAL;
     schema_filepath := joinpath SCHEMAS_DIR (Path "post_insights.json") |}.

Definition class_of (s : stream) : stream_class :=
  match s with
  | Page => Page_class
  | Posts => Posts_class
  | PostTaggedProfile => PostTaggedProfile_class
  | PostAttachments => PostAttachments_class
  | PageInsights => PageInsights_class
  | PostInsights => PostInsights_class
  end.

Definition url_base : string := BASE_URL.

(** ** The instance *)

(** What a method reads through [self].  [page_id] is declared without a
    value in the class body, so it does not exist until [get_url_params]
    assigns it: [None] is the unassigned attribute. *)
Record stream_self : Type := {
  page_id : option pyval;
  access_tokens : dict string;
  metrics : list string;
  config_columns : option (list string);
  schema_properties : list string;
}.

Definition set_page_id (self : stream_self) (pid : pyval) : stream_self :=
  {| page_id := Some pid;
     access_tokens := access_tokens self;
     metrics := metrics self;
     config_columns := config_columns self;
     schema_properties := schema_properties self |}.

(** [self.page_id] as an expression: an [AttributeError] while unassigned. *)
Definition read_page_id (self : stream_self) : res pyval :=
  of_option AttributeError (page_id self).

(** ** What the source calls and does not implement *)

Class Sdk : Type := {
  (** [int(self.get_starting_timestamp(partition).timestamp())], or [None]
      when the SDK has no bookmark and no start date for the partition *)
  get_starting_timestamp : pyval -> option Z;
  (** [urllib.parse.parse_qs(urllib.parse.urlparse(url).query)] *)
  parse_qs_query : string -> res (dict (list string));
  parse_qs_wf : forall url q, parse_qs_query url = Ok q -> dict_wf q;
  parse_qs_nonempty : forall url q k vs,
    parse_qs_query url = Ok q -> dict_get k q = Some vs -> vs <> [];
}.

(** [parse_qs] yields a dict from names to lists of strings. *)
Definition params_of_query (q : dict (list string)) : pydict :=
  map (fun kv => (fst kv, VList (map VStr (snd kv)))) q.

(** [parse_qs(urlparse(v).query)] on a value: [urlparse] decodes a
    non-string argument with [.decode], which raises [AttributeError] on
    anything truthy that is not a string, and treats a falsy one as the
    empty URL. *)
Definition py_url_query `{Sdk} (v : pyval) : res pydict :=
  match v with
  | VStr s => res_map params_of_query (parse_qs_query s)
  | _ => if truthy v then Err AttributeError else Ok []
  end.

(** [",".join(l)] *)
Definition join_comma (l : list string) : string := String.concat "," l.

(** A [requests.Response]: what matters of it is what [.json()] does, which
    is to decode the body anew on every call or to raise when the body is
    not JSON. *)
Record response : Type := { json_body : option pyval }.

Definition response_json (r : response) : res pyval :=
  of_option JSONDecodeError (json_body r).

Definition json_response (v : pyval) : response := {| json_body := Some v |}.

(** Sample data for the examples of the development. *)
Definition example_self : stream_self :=
  {| page_id := None;
     access_tokens := [("123", "TOKEN123")];
     metrics := ["page_fans"; "page_views"];
     config_columns := None;
     schema_properties := ["id"; "name"] |}.

Definition example_partition : pyval := VDict [("page_id", VStr "123")].

(** The sample instance once a request for the sample partition was built. *)
Definition example_tagged_self : stream_self := set_page_id example_self (VStr "123").

(** ** Facts *)

Lemma all_streams_complete (s : stream) : s ∈ all_streams.
Proof. destruct s; unfold all_streams; repeat first [left | right]. Qed.

Lemma all_streams_NoDup : NoDup all_streams.
Proof. apply (bool_decide_unpack _). by vm_compute. Qed.

(** [Path] drops the dot a relative path is written with. *)
Lemma Path_dot text :
  (forall c rest, text = String c rest -> c <> "/"%char) ->
  Path ("./" ++ text) = Path text.
Proof.
  intros Hc. unfold Path. destruct text as [|c rest]; [done|].
  pose proof (Hc c rest eq_refl) as Hne. cbn.
  by destruct (Ascii.eqb_spec c "/"%char).
Qed.

(** The schema of a stream is a file of the directory [schemas] beside the
    module. *)
Lemma schema_filepath_in_dir (s : stream) :
  exists file, schema_filepath (class_of s) = joinpath SCHEMAS_DIR (Path file) /\
               parts (schema_filepath (class_of s)) = ["schemas"; file] /\
               anchored (schema_filepath (class_of s)) = false.
Proof. destruct s; eexists; split_and!; reflexivity. Qed.

(** No two streams share a schema file. *)
Lemma schema_filepath_inj (s s' : stream) :
  schema_filepath (class_of s) = schema_filepath (class_of s') -> s = s'.
Proof. by destruct s, s'. Qed.

(** A part that starts at the root replaces what is before it. *)
Lemma joinpath_anchored a b : anchored b = true -> joinpath a b = b.
Proof. unfold joinpath. by intros ->. Qed.

Lemma joinpath_assoc a b c : joinpath (joinpath a b) c = joinpath a (joinpath b c).
Proof.
  unfold joinpath. destruct (anchored c) eqn:Hc, (anchored b) eqn:Hb; cbn; rewrite ?Hc, ?Hb; try done.
  by rewrite app_assoc.
Qed.

Lemma read_page_id_set self pid : read_page_id (set_page_id self pid) = Ok pid.
Proof. reflexivity. Qed.

Lemma dict_get_params_of_query k (q : dict (list string)) :
  dict_get k (params_of_query q) = option_map (fun vs => VList (map VStr vs)) (dict_get k q).
Proof.
  induction q as [|[k' vs] q IH]; cbn; [done|]. by case_key.
Qed.

Lemma dict_keys_params_of_query (q : dict (list string)) :
  dict_keys (params_of_query q) = dict_keys q.
Proof. unfold dict_keys, params_of_query. induction q as [|[k vs] q IH]; cbn; congruence. Qed.

Lemma params_of_query_wf (q : dict (list string)) : dict_wf q -> dict_wf (params_of_query q).
Proof. unfold dict_wf. by rewrite dict_keys_params_of_query. Qed.

Section WithSdk.
Context `{Sdk}.

Lemma py_url_query_wf v p : py_url_query v = Ok p -> dict_wf p.
Proof.
  destruct v; cbn; try (intros [= <-]; apply dict_wf_nil);
    try (destruct b; [done | intros [= <-]; apply dict_wf_nil]).
  - destruct (n =? 0); cbn; [intros [= <-]; apply dict_wf_nil | done].
  - unfold res_map. destruct (parse_qs_query s) eqn:Hq; cbn; [|done].
    intros [= <-]. by eapply params_of_query_wf, parse_qs_wf.
  - destruct xs; [intros [= <-]; apply dict_wf_nil | done].
  - destruct kvs; [intros [= <-]; apply dict_wf_nil | done].
Qed.

(** Every parameter parsed back from a token is a non-empty list of
    strings. *)
Lemma py_url_query_value v p k x :
  py_url_query v = Ok p -> dict_get k p = Some x ->
  exists s ss, x = VList (VStr s :: map VStr ss).
Proof.
  assert (Hnil : dict_get k (@nil (string * pyval)) = Some x -> False) by done.
  destruct v; cbn; try (intros [= <-] ?; tauto);
    try (destruct b; [done | intros [= <-] ?; tauto]).
  - destruct (n =? 0); cbn; [intros [= <-] ?; tauto | done].
  - unfold res_map. destruct (parse_qs_query s) eqn:Hq; cbn; [|done].
    intros [= <-]. rewrite dict_get_params_of_query.
    destruct (dict_get k a) as [vs|] eqn:Hg; cbn; [|done]. intros [= <-].
    pose proof (parse_qs_nonempty _ _ _ _ Hq Hg). destruct vs as [|s' ss]; [done|].
    by exists s', ss.
  - destruct xs; [intros [= <-] ?; tauto | done].
  - destruct kvs; [intros [= <-] ?; tauto | done].
Qed.

End WithSdk.

#[export] Hint Resolve all_streams_complete : tap.
