(* ===== verification/Url.v ===== *)
(** * Url: the query string of a pagination link

    The source turns a [next] link back into request parameters with
    [urllib.parse.parse_qs(urllib.parse.urlparse(link).query)].  This file
    models that library call on byte strings, and packages it as an
    instance of [Streams.Sdk]:

    - [url_query] is [urlparse(url).query]: the text after the first [?] of
      what precedes the first [#];
    - [parse_qsl] splits the query at [&], drops empty pieces, pieces without
      [=] and pieces with an empty value, replaces [+] by a space and decodes
      percent escapes ([unquote]) in names and values;
    - [parse_qs] collects the values of each name, in order, under the name's
      first position;
    - [render_query] joins names and values by [=] and [&];
      [reads_as w kv] says that [parse_qsl] reads the written parameter [w]
      as [kv], and [plain] says of a name or value that it has none of the
      characters [reserved] to the syntax of URLs, so that it is read back
      as it is written.

    The theorems give [parse_qs] by the values each name has in the query
    ([values_of]) and show the round trip of a rendered query; [Quote] has
    the round trip of a query written with escapes.

    A text is a string of bytes and stands for its UTF-8 encoding.  The
    library is modelled as of Python 3.10: [&] is the only separator of a
    query.  Left out of its behaviour: the [ValueError] of [urlparse] on a
    malformed bracketed host, the removal of tab and newline characters from
    the URL, and the replacement of ill-formed UTF-8 after decoding (the
    decoded bytes are kept as they are). *)

From Stdlib Require Import List String Ascii ZArith Bool Lia.
From Stdlib Require Import Decimal DecimalString.
From stdpp Require Import base tactics list.
From S2P Require Import Prelude PyDict PyValue Streams.
Import ListNotations.

Set Default Proof Using "Type".
Local Open Scope string_scope.

(** [s.split(c, 1)]: the text before the first [c] and the text after it,
    or [None] when [c] does not occur. *)
Fixpoint split_once (c : ascii) (s : string) : option (string * string) :=
  match s with
  | "" => None
  | String a s' =>
      if Ascii.eqb a c then Some ("", s')
      else match split_once c s' with
           | Some (l, r) => Some (String a l, r)
           | None => None
           end
  end.

(** [s.split(c)]: at least one piece. *)
Fixpoint split_on (c : ascii) (s : string) : list string :=
  match s with
  | "" => [""]
  | String a s' =>
      if Ascii.eqb a c then "" :: split_on c s'
      else match split_on c s' with
           | p :: ps => String a p :: ps
           | [] => [String a ""]
           end
  end.

Definition url_query (url : string) : string :=
  let url := match split_once "#" url with Some (l, _) => l | None => url end in
  match split_once "?" url with
  | Some (_, query) => query
  | None => ""
  end.

Definition hex_val (c : ascii) : option nat :=
  let n := nat_of_ascii c in
  (if (48 <=? n) && (n <=? 57) then Some (n - 48)
   else if (65 <=? n) && (n <=? 70) then Some (n - 55)
   else if (97 <=? n) && (n <=? 102) then Some (n - 87)
   else None)%nat.

Fixpoint unquote (s : string) : string :=
  match s with
  | "" => ""
  | String c rest =>
      match c, rest with
      | "%"%char, String a (String b t) =>
          match hex_val a, hex_val b with
          | Some x, Some y => String (ascii_of_nat (16 * x + y)) (unquote t)
          | _, _ => String c (unquote rest)
          end
      | _, _ => String c (unquote rest)
      end
  end.

Fixpoint plus_to_space (s : string) : string :=
  match s with
  | "" => ""
  | String c s' => String (if Ascii.eqb c "+" then " "%char else c) (plus_to_space s')
  end.

Definition parse_pair (name_value : string) : list (string * string) :=
  if String.eqb name_value "" then []
  else match split_once "=" name_value with
       | None => []
       | Some (n, v) =>
           if String.eqb v "" then []
           else [(unquote (plus_to_space n), unquote (plus_to_space v))]
       end.

Definition parse_qsl (qs : string) : list (string * string) :=
  flat_map parse_pair (split_on "&" qs).

Definition add_value (acc : dict (list string)) (nv : string * string)
  : dict (list string) :=
  match dict_get (fst nv) acc with
  | Some vs => dict_set (fst nv) (vs ++ [snd nv])%list acc
  | None => dict_set (fst nv) [snd nv] acc
  end.

Definition parse_qs (qs : string) : dict (list string) :=
  fold_left add_value (parse_qsl qs) [].

(** [urlencode]-style rendering of parameters, used to state round trips:
    [k1=v1&k2=v2...]. *)
Fixpoint render_query (params : list (string * string)) : string :=
  match params with
  | [] => ""
  | [(k, v)] => k ++ "=" ++ v
  | (k, v) :: rest => k ++ "=" ++ v ++ "&" ++ render_query rest
  end.

(** A rendered query as it stands before a parameter that follows it:
    with its separator, when it has a parameter. *)
Definition query_before (params : list (string * string)) : string :=
  match params with
  | [] => ""
  | _ => render_query params ++ "&"
  end.

Definition values_nonempty (q : dict (list string)) : Prop :=
  Forall (fun kv => snd kv <> []) q.

(** [c] does not occur in [s]. *)
Fixpoint lacks (c : ascii) (s : string) : bool :=
  match s with
  | "" => true
  | String a s' => negb (Ascii.eqb a c) && lacks c s'
  end.

(** The characters that mean something to [urlparse] and [parse_qsl]. *)
Definition reserved : list ascii := ["&"; "="; "%"; "+"; "#"; "?"]%char.

(** A text that reads back as itself: none of the reserved characters. *)
Definition plain (s : string) : bool := forallb (fun c => lacks c s) reserved.

(** A parameter that [parse_qsl] keeps and reads back as it is. *)
Definition plain_pair (kv : string * string) : bool :=
  plain (fst kv) && plain (snd kv) && negb (String.eqb (snd kv) "").

Definition plain_query (ps : list (string * string)) : bool := forallb plain_pair ps.

(** A written parameter [w] that [parse_qsl] reads as the parameter [kv]:
    its name and its value end where [&] and [=] say, the value is not
    blank, and decoding them gives [kv]. *)
Definition reads_as (w kv : string * string) : Prop :=
  lacks "&" (fst w) = true /\ lacks "=" (fst w) = true /\ lacks "&" (snd w) = true /\
  snd w <> "" /\
  unquote (plus_to_space (fst w)) = fst kv /\ unquote (plus_to_space (snd w)) = snd kv.

(** The values given to [k], in order. *)
Definition values_of (k : string) (ps : list (string * string)) : list string :=
  map snd (List.filter (fun kv => String.eqb (fst kv) k) ps).

(** The result of [parse_qs] when no name is repeated. *)
Definition single_values (ps : list (string * string)) : dict (list string) :=
  map (fun kv => (fst kv, [snd kv])) ps.

(** ** Facts *)

Lemma values_nonempty_get q k vs :
  values_nonempty q -> dict_get k q = Some vs -> vs <> [].
Proof.
  intros HF Hg%dict_get_elem. unfold values_nonempty in HF.
  rewrite Forall_forall in HF. by apply (HF (k, vs)).
Qed.

Lemma values_nonempty_set q k vs :
  values_nonempty q -> vs <> [] -> values_nonempty (dict_set k vs q).
Proof.
  unfold values_nonempty. intros HF Hvs. induction q as [|[k' v'] q IH]; cbn.
  - by repeat constructor.
  - apply Forall_cons in HF as [? ?]. case_key; constructor; cbn; auto.
Qed.

Lemma add_value_wf acc nv : dict_wf acc -> dict_wf (add_value acc nv).
Proof. unfold add_value. destruct (dict_get _ acc); apply dict_set_wf. Qed.

Lemma add_value_nonempty acc nv : values_nonempty acc -> values_nonempty (add_value acc nv).
Proof.
  unfold add_value. intros Hacc. destruct (dict_get _ acc) as [vs|];
    apply values_nonempty_set; try done. by destruct vs.
Qed.

Lemma fold_add_value_inv (P : dict (list string) -> Prop) pairs acc :
  (forall a nv, P a -> P (add_value a nv)) -> P acc -> P (fold_left add_value pairs acc).
Proof.
  intros Hstep. revert acc. induction pairs as [|nv pairs IH]; cbn; [done|].
  intros acc Hacc. by apply IH, Hstep.
Qed.

Lemma parse_qs_dict_wf qs : dict_wf (parse_qs qs).
Proof.
  unfold parse_qs. apply (fold_add_value_inv dict_wf); [apply add_value_wf | apply dict_wf_nil].
Qed.

Lemma parse_qs_values_nonempty qs : values_nonempty (parse_qs qs).
Proof.
  unfold parse_qs.
  apply (fold_add_value_inv values_nonempty); [apply add_value_nonempty | constructor].
Qed.

(** Decoding leaves a string without [%] alone. *)
Lemma unquote_no_percent s :
  Forall (fun c => c <> "%"%char) (list_ascii_of_string s) -> unquote s = s.
Proof.
  induction s as [|c s IH]; [done|]. intros [Hc Hs]%Forall_cons.
  cbn [unquote]. rewrite IH by done.
  destruct c as [[] [] [] [] [] [] [] []]; try done; by destruct s as [|? []].
Qed.

Lemma plus_to_space_no_plus s :
  Forall (fun c => c <> "+"%char) (list_ascii_of_string s) -> plus_to_space s = s.
Proof.
  induction s as [|c s IH]; [done|]. intros [Hc Hs]%Forall_cons.
  cbn. rewrite IH by done. by destruct (Ascii.eqb_spec c "+").
Qed.

(** ** Splitting a text that was joined *)

Lemma lacks_app c a b : lacks c (a ++ b) = lacks c a && lacks c b.
Proof. induction a as [|x a IH]; cbn; [done|]. by rewrite IH, andb_assoc. Qed.

Lemma lacks_Forall c s :
  lacks c s = true -> Forall (fun a => a <> c) (list_ascii_of_string s).
Proof.
  induction s as [|a s IH]; cbn; [constructor|]. intros [Ha Hs]%andb_prop.
  constructor; [|auto]. apply negb_true_iff in Ha. by apply Ascii.eqb_neq.
Qed.

Lemma plain_lacks c s : In c reserved -> plain s = true -> lacks c s = true.
Proof. unfold plain. rewrite forallb_forall. auto. Qed.

Lemma split_once_lacks c s : lacks c s = true -> split_once c s = None.
Proof.
  induction s as [|a s IH]; cbn; [done|]. intros [Ha Hs]%andb_prop.
  apply negb_true_iff in Ha. by rewrite Ha, IH.
Qed.

Lemma split_once_app c a b :
  lacks c a = true -> split_once c (a ++ String c b) = Some (a, b).
Proof.
  induction a as [|x a IH]; cbn; [by rewrite Ascii.eqb_refl|].
  intros [Hx Ha]%andb_prop. apply negb_true_iff in Hx. by rewrite Hx, IH.
Qed.

Lemma split_on_lacks c s : lacks c s = true -> split_on c s = [s].
Proof.
  induction s as [|a s IH]; cbn; [done|]. intros [Ha Hs]%andb_prop.
  apply negb_true_iff in Ha. by rewrite Ha, IH.
Qed.

Lemma split_on_app c a b :
  lacks c a = true -> split_on c (a ++ String c b) = a :: split_on c b.
Proof.
  induction a as [|x a IH]; cbn; [by rewrite Ascii.eqb_refl|].
  intros [Hx Ha]%andb_prop. apply negb_true_iff in Hx. by rewrite Hx, IH.
Qed.

(** [urlparse(u + "?" + q).query] is [q]. *)
Lemma url_query_app u q :
  lacks "?" u = true -> lacks "#" u = true -> lacks "#" q = true ->
  url_query (u ++ String "?" q) = q.
Proof.
  intros Hq Hh Hhq. unfold url_query.
  rewrite (split_once_lacks "#") by (rewrite lacks_app; cbn; by rewrite Hh, Hhq).
  by rewrite split_once_app.
Qed.

(** ** Reading back a rendered query *)

Ltac is_reserved := cbn; auto 10.

Lemma plain_decoded s : plain s = true -> unquote (plus_to_space s) = s.
Proof.
  intros Hs.
  rewrite plus_to_space_no_plus by (apply lacks_Forall, plain_lacks; [is_reserved|done]).
  apply unquote_no_percent, lacks_Forall, plain_lacks; [is_reserved|done].
Qed.

Lemma parse_pair_reads w kv :
  reads_as w kv -> parse_pair (fst w ++ String "=" (snd w)) = [kv].
Proof.
  destruct w as [k v], kv as [k' v']. unfold reads_as. cbn [fst snd].
  intros (_ & Hk & _ & Hne%String.eqb_neq & <- & <-). unfold parse_pair.
  assert (String.eqb (k ++ String "=" v) "" = false) as -> by (by destruct k).
  by rewrite split_once_app, Hne.
Qed.

Lemma reads_as_lacks w kv :
  reads_as w kv -> lacks "&" (fst w ++ String "=" (snd w)) = true.
Proof. intros (Hk & _ & Hv & _). rewrite lacks_app. cbn [lacks]. by rewrite Hk, Hv. Qed.

Lemma plain_reads kv : plain_pair kv = true -> reads_as kv kv.
Proof.
  intros [[Hk Hv]%andb_prop Hne%negb_true_iff%String.eqb_neq]%andb_prop.
  unfold reads_as. rewrite !plain_decoded by done.
  split_and!; try done; apply plain_lacks; (is_reserved || done).
Qed.

Lemma render_query_cons kv ps :
  ps <> [] ->
  render_query (kv :: ps) = (fst kv ++ String "=" (snd kv)) ++ String "&" (render_query ps).
Proof.
  destruct kv as [k v], ps as [|kv' ps]; [done|]. intros _.
  cbn [render_query fst snd]. by rewrite !string_app_assoc.
Qed.

Lemma render_query_single kv : render_query [kv] = fst kv ++ String "=" (snd kv).
Proof. by destruct kv. Qed.

(** The last parameter of a query follows the others and their
    separator. *)
Lemma render_query_snoc ps kv :
  render_query (ps ++ [kv]) = query_before ps ++ fst kv ++ String "=" (snd kv).
Proof.
  induction ps as [|p ps IH]; [apply render_query_single|].
  cbn [app query_before]. rewrite render_query_cons, IH by (by destruct ps).
  destruct ps as [|p' ps]; rewrite ?render_query_single, ?(render_query_cons p) by done;
    cbn [query_before]; by repeat first [rewrite string_app_assoc | progress cbn [append]].
Qed.

(** A character other than [=] and [&] is in a rendered query only if it
    is in a name or in a value. *)
Lemma render_query_lacks_all c ws :
  c <> "="%char -> c <> "&"%char ->
  Forall (fun w => lacks c (fst w) = true /\ lacks c (snd w) = true) ws ->
  lacks c (render_query ws) = true.
Proof.
  intros Heq%Ascii.eqb_neq Hamp%Ascii.eqb_neq. rewrite Ascii.eqb_sym in Heq, Hamp.
  induction 1 as [|w ws [Hk Hv] Hws IH]; [done|].
  assert (lacks c (fst w ++ String "=" (snd w)) = true) as Hw
    by (rewrite lacks_app; cbn [lacks]; by rewrite Hk, Hv, Heq).
  destruct ws as [|w' ws]; [by rewrite render_query_single|].
  rewrite render_query_cons, lacks_app, Hw by done. cbn [lacks]. by rewrite IH, Hamp.
Qed.

Lemma render_query_lacks c ps :
  In c reserved -> c <> "="%char -> c <> "&"%char -> plain_query ps = true ->
  lacks c (render_query ps) = true.
Proof.
  intros Hc Heq Hamp Hps. apply render_query_lacks_all; [done..|].
  apply List.Forall_forall. intros kv Hkv. unfold plain_query in Hps.
  rewrite forallb_forall in Hps. apply Hps in Hkv as [[Hk Hv]%andb_prop _]%andb_prop.
  split; by apply plain_lacks.
Qed.

(** Decoding passes over a text without [%]. *)
Lemma unquote_cons c s : c <> "%"%char -> unquote (String c s) = String c (unquote s).
Proof. intros Hc. destruct c as [[] [] [] [] [] [] [] []]; try done; by destruct s as [|? []]. Qed.

Lemma unquote_lacks_app u t : lacks "%" u = true -> unquote (u ++ t) = u ++ unquote t.
Proof.
  induction u as [|c u IH]; [done|]. cbn [lacks append].
  intros [Hc%negb_true_iff%Ascii.eqb_neq Hu]%andb_prop. by rewrite unquote_cons, IH.
Qed.

(** [parse_qsl] reads a rendered query back as the parameters it was
    rendered from. *)
Lemma parse_qsl_reads ws ps :
  Forall2 reads_as ws ps -> parse_qsl (render_query ws) = ps.
Proof.
  unfold parse_qsl. induction 1 as [|w kv ws ps Hw Hws IH]; [done|].
  destruct Hws as [|w' kv' ws ps Hw' Hws].
  - rewrite render_query_single, split_on_lacks by (by eapply reads_as_lacks).
    cbn [flat_map]. by rewrite (parse_pair_reads w kv).
  - rewrite render_query_cons, split_on_app by (done || by eapply reads_as_lacks).
    cbn [flat_map]. rewrite (parse_pair_reads w kv) by done. cbn [app]. by f_equal.
Qed.

Lemma parse_qsl_render_query ps :
  plain_query ps = true -> parse_qsl (render_query ps) = ps.
Proof.
  intros Hps. apply parse_qsl_reads, Forall_Forall2_diag, List.Forall_forall.
  intros kv Hkv. apply plain_reads. unfold plain_query in Hps.
  rewrite forallb_forall in Hps. auto.
Qed.

(** ** Collecting the values of a name *)

Lemma add_value_get k acc nv :
  dict_get k (add_value acc nv) =
  if String.eqb k (fst nv)
  then Some (match dict_get k acc with Some vs => vs | None => [] end ++ [snd nv])%list
  else dict_get k acc.
Proof.
  unfold add_value. destruct (dict_get (fst nv) acc) as [vs|] eqn:Hg;
    rewrite dict_get_set; case_key; by rewrite ?Hg.
Qed.

(** [parse_qs] gives each name the values it has in the query, in the
    order of the query. *)
Lemma fold_add_value_get k ps acc :
  dict_get k (fold_left add_value ps acc) =
  match dict_get k acc, values_of k ps with
  | Some vs, ws => Some (vs ++ ws)%list
  | None, [] => None
  | None, ws => Some ws
  end.
Proof.
  revert acc. induction ps as [|[k' v] ps IH]; intros acc; cbn [fold_left].
  - cbn. destruct (dict_get k acc); by rewrite ?app_nil_r.
  - rewrite IH, add_value_get. unfold values_of. cbn [List.filter fst snd map].
    rewrite (String.eqb_sym k' k). case_key; cbn [map snd].
    destruct (dict_get k' acc); by rewrite <- ?app_assoc.
Qed.

Lemma fold_add_value_fresh ps acc :
  dict_wf ps -> (forall k, k ∈ dict_keys ps -> dict_get k acc = None) ->
  fold_left add_value ps acc = (acc ++ single_values ps)%list.
Proof.
  revert acc. induction ps as [|[k v] ps IH]; intros acc Hwf Hfresh;
    cbn [fold_left single_values map fst snd]; [by rewrite app_nil_r|].
  apply NoDup_cons in Hwf as [Hk Hwf].
  assert (dict_get k acc = None) as Hg by (apply Hfresh; left).
  unfold add_value at 2. cbn [fst snd]. rewrite Hg, IH; [|done|].
  - rewrite dict_set_fresh by (by apply dict_mem_None). by rewrite <- app_assoc.
  - intros k' Hk'. rewrite dict_get_set_ne by (by intros ->).
    apply Hfresh. by right.
Qed.

Lemma parse_qs_single ps :
  plain_query ps = true -> dict_wf ps ->
  parse_qs (render_query ps) = single_values ps.
Proof.
  intros Hp Hwf. unfold parse_qs. rewrite parse_qsl_render_query by done.
  by apply fold_add_value_fresh.
Qed.

(** Round trip of a pagination link: a URL made of a path, [?] and
    parameters rendered as [name=value] joined by [&] is parsed back into
    these parameters, each with its one value, in the same order, when the
    names are distinct and no name or value has a reserved character. *)
Theorem parse_qs_render_query u ps :
  lacks "?" u = true -> lacks "#" u = true ->
  plain_query ps = true -> dict_wf ps ->
  parse_qs (url_query (u ++ String "?" (render_query ps))) = single_values ps /\
  parse_qsl (url_query (u ++ String "?" (render_query ps))) = ps.
Proof.
  intros Hq Hh Hp Hwf.
  rewrite url_query_app by (done || (apply render_query_lacks; [is_reserved|done..])).
  split; [by apply parse_qs_single | by apply parse_qsl_render_query].
Qed.

(** The values [parse_qs] gives a name are the values the name has in
    the query, in order; a name that does not occur is not a key. *)
Theorem parse_qs_values k qs :
  dict_get k (parse_qs qs) =
  match values_of k (parse_qsl qs) with
  | [] => None
  | ws => Some ws
  end.
Proof. unfold parse_qs. by rewrite fold_add_value_get. Qed.

Lemma single_values_get k ps :
  dict_get k (single_values ps) = option_map (fun v => [v]) (dict_get k ps).
Proof. induction ps as [|[k' v] ps IH]; cbn; [done|]. by case_key. Qed.

(** What a request made of a link holds under a name. *)
Lemma link_param_get k ps :
  dict_get k (params_of_query (single_values ps)) =
  option_map (fun v => VList [VStr v]) (dict_get k ps).
Proof. rewrite dict_get_params_of_query, single_values_get. by destruct (dict_get k ps). Qed.

(** ** Numbers in a query

    [str] of an integer is digits after an optional sign: nothing of it is
    reserved, and it is not empty. *)

Lemma string_of_uint_plain u : plain (NilEmpty.string_of_uint u) = true.
Proof. induction u; by cbn in *. Qed.

Lemma string_of_uint_zero_plain u :
  plain (NilZero.string_of_uint u) = true /\ NilZero.string_of_uint u <> "".
Proof. destruct u; (split; [exact (string_of_uint_plain (_ u)) || done | done]). Qed.

Lemma py_str_of_int_plain n : plain (py_str_of_int n) = true /\ py_str_of_int n <> "".
Proof.
  unfold py_str_of_int. destruct (Z.to_int n) as [u|u]; [apply string_of_uint_zero_plain|].
  split; [apply (string_of_uint_zero_plain u) | done].
Qed.

(** A character that is neither a digit nor the sign is not in it. *)
Lemma string_of_uint_lacks c u :
  forallb (fun d => negb (Ascii.eqb d c)) ["0"; "1"; "2"; "3"; "4"; "5"; "6"; "7"; "8"; "9"]%char
    = true ->
  lacks c (NilEmpty.string_of_uint u) = true.
Proof.
  cbn [forallb]. intros H. repeat (apply andb_prop in H as [? H]).
  induction u; cbn [NilEmpty.string_of_uint lacks]; [done|..]; by rewrite IHu, andb_true_r.
Qed.

Lemma py_str_of_int_lacks c n :
  forallb (fun d => negb (Ascii.eqb d c))
    ["-"; "0"; "1"; "2"; "3"; "4"; "5"; "6"; "7"; "8"; "9"]%char = true ->
  lacks c (py_str_of_int n) = true.
Proof.
  cbn [forallb]. intros [Hsign Hdigits]%andb_prop.
  pose proof (string_of_uint_lacks c) as Hu. unfold py_str_of_int.
  destruct (Z.to_int n) as [[]|[]];
    cbn [NilZero.string_of_int NilZero.string_of_uint lacks];
    rewrite ?Hsign; try apply (Hu (_ _)); auto.
  all: cbn [forallb] in Hdigits; by apply andb_prop in Hdigits as [-> _].
Qed.

Lemma py_str_of_int_inj n m : py_str_of_int n = py_str_of_int m -> n = m.
Proof.
  intros Heq. apply (f_equal py_int_of_string) in Heq.
  rewrite !py_int_of_string_str in Heq. by injection Heq.
Qed.

(** ** The instance *)

Lemma urllib_parse_wf url q :
  Ok (E := pyerr) (parse_qs (url_query url)) = Ok q -> dict_wf q.
Proof. intros [= <-]. apply parse_qs_dict_wf. Qed.

Lemma urllib_parse_nonempty url q k vs :
  Ok (E := pyerr) (parse_qs (url_query url)) = Ok q -> dict_get k q = Some vs -> vs <> [].
Proof. intros [= <-]. apply values_nonempty_get, parse_qs_values_nonempty. Qed.

(** The collaborators as the standard library provides them, for a given
    bookmark function of the SDK. *)
Definition urllib_sdk (starting_timestamp : pyval -> option Z) : Sdk :=
  {| get_starting_timestamp := starting_timestamp;
     parse_qs_query url := Ok (parse_qs (url_query url));
     parse_qs_wf := urllib_parse_wf;
     parse_qs_nonempty := urllib_parse_nonempty |}.

(** Sample collaborators and links for the examples: an SDK without a
    bookmark, one whose bookmark is 1600000000, a [next] link of [Posts]
    and one of [PageInsights]. *)
Definition example_sdk : Sdk := urllib_sdk (fun _ => None).

Definition example_sdk_cursor : Sdk := urllib_sdk (fun _ => Some 1600000000%Z).

Definition example_link : pyval :=
  VStr "https://graph.facebook.com/v10.0/123/posts?access_token=TOKEN123&limit=100&after=abc".

Definition example_link_params : pydict :=
  [("access_token", VList [VStr "TOKEN123"]);
   ("limit", VList [VStr "100"]);
   ("after", VList [VStr "abc"])].

Definition example_insights_link : pyval :=
  VStr "https://graph.facebook.com/v10.0/123/insights?since=1608035200&until=1616070400".

Definition example_insights_params : pydict :=
  [("since", VList [VStr "1608035200"]); ("until", VList [VStr "1616070400"])].

(** ** The round trip at a sample link *)

Lemma parse_qs_render_query_witness :
  parse_qs (url_query "https://graph.facebook.com/v10.0/123/posts?access_token=TOKEN123&limit=100&after=abc") =
    [("access_token", ["TOKEN123"]); ("limit", ["100"]); ("after", ["abc"])] /\
  parse_qsl (url_query "https://graph.facebook.com/v10.0/123/posts?access_token=TOKEN123&limit=100&after=abc") =
    [("access_token", "TOKEN123"); ("limit", "100"); ("after", "abc")].
Proof.
  apply (parse_qs_render_query "https://graph.facebook.com/v10.0/123/posts"
           [("access_token", "TOKEN123"); ("limit", "100"); ("after", "abc")]);
    try reflexivity. solve_dict_wf.
Defined.
