(* ===== verification/Quote.v ===== *)
(** * Quote: the query string [requests] writes

    The URL of a prepared request carries its parameters as
    [urllib.parse.urlencode] writes them: every name and every value goes
    through [quote_plus], a name and its value are joined by [=] and the
    pairs by [&].  This file models that writer on byte strings and relates
    it to the reader of [Url]:

    - [unreserved] are the characters [quote_plus] leaves alone (letters,
      digits and [_.-~]); a space becomes [+], every other byte [%XY] with
      two upper-case hexadecimal digits ([quote_char], [quote_plus]);
    - [urlencode] is the query string of a list of parameters;
    - [spaces_to_plus] is what [unquote] makes of a quoted text: the text
      with [+] for its spaces, since [unquote] does not read [+] back;
    - [kept_query] says of parameters that no value is blank, as
      [parse_qsl] drops a parameter whose value is.

    The theorems: the reader undoes the writer on every text, so a query
    written by [urlencode] is parsed back into the parameters it was written
    from, whatever characters they have; [unquote], which [prepare_request]
    applies to the URL before it logs it, gives the parameters unescaped,
    with [+] for spaces. *)

From Stdlib Require Import List String Ascii ZArith Bool Lia.
From stdpp Require Import base tactics list.
From S2P Require Import Prelude PyDict PyValue Streams Url.
Import ListNotations.

Set Default Proof Using "Type".
Local Open Scope string_scope.

(** [_ALWAYS_SAFE]: letters, digits, [_], [.], [-] and [~]. *)
Definition unreserved (c : ascii) : bool :=
  let n := nat_of_ascii c in
  (((48 <=? n) && (n <=? 57)) || ((65 <=? n) && (n <=? 90)) ||
   ((97 <=? n) && (n <=? 122)) ||
   (n =? 95) || (n =? 46) || (n =? 45) || (n =? 126))%nat.

Fixpoint all_unreserved (s : string) : bool :=
  match s with
  | "" => true
  | String c s' => unreserved c && all_unreserved s'
  end.

(** The digit of [n] in ['%02X']. *)
Definition hex_digit (n : nat) : ascii :=
  ascii_of_nat (if n <? 10 then 48 + n else 55 + n)%nat.

(** One byte as [quote_plus] writes it. *)
Definition quote_char (c : ascii) : string :=
  if unreserved c then String c ""
  else if Ascii.eqb c " " then "+"
  else String "%" (String (hex_digit (nat_of_ascii c / 16))
                     (String (hex_digit (nat_of_ascii c mod 16)) "")).

Fixpoint quote_plus (s : string) : string :=
  match s with
  | "" => ""
  | String c s' => quote_char c ++ quote_plus s'
  end.

Definition quote_pair (kv : string * string) : string * string :=
  (quote_plus (fst kv), quote_plus (snd kv)).

(** [urlencode(params, doseq=True)] on pairs of texts. *)
Definition urlencode (ps : list (string * string)) : string :=
  render_query (map quote_pair ps).

(** [s.replace(' ', '+')]. *)
Fixpoint spaces_to_plus (s : string) : string :=
  match s with
  | "" => ""
  | String c s' => String (if Ascii.eqb c " " then "+"%char else c) (spaces_to_plus s')
  end.

Definition plus_pair (kv : string * string) : string * string :=
  (spaces_to_plus (fst kv), spaces_to_plus (snd kv)).

(** A parameter [parse_qsl] keeps: its value is not blank. *)
Definition kept_pair (kv : string * string) : bool := negb (String.eqb (snd kv) "").

Definition kept_query (ps : list (string * string)) : bool := forallb kept_pair ps.

(** Parameters with characters of every kind: a separator of the query
    syntax, a space, a sign that is itself an escape, a comma, bytes above
    127 (the two bytes of an e with acute accent in UTF-8) and a name that
    is given twice. *)
Definition example_hard_params : list (string * string) :=
  [("q", "a&b=c"); ("fields", "id,created_time"); ("note", "50% + tax #1?");
   ("caf" ++ String (ascii_of_nat 195) (String (ascii_of_nat 169) ""), "x y");
   ("q", "again")].

Definition example_hard_query : string :=
  "q=a%26b%3Dc&fields=id%2Ccreated_time&note=50%25+%2B+tax+%231%3F&caf%C3%A9=x+y&q=again".

(** ** One character *)

Ltac each_char c := destruct c as [[] [] [] [] [] [] [] []].

(** The digits written are read back, and are unreserved. *)
Lemma hex_val_hex_digit n : (n < 16)%nat -> hex_val (hex_digit n) = Some n.
Proof. intros Hn. do 16 (destruct n as [|n]; [done|]). lia. Qed.

Lemma hex_digit_unreserved n : (n < 16)%nat -> unreserved (hex_digit n) = true.
Proof. intros Hn. do 16 (destruct n as [|n]; [done|]). lia. Qed.

(** [unquote] reads an escape back and leaves [+] as it is. *)
Lemma unquote_quote_char c t :
  unquote (quote_char c ++ t) = String (if Ascii.eqb c " " then "+"%char else c) (unquote t).
Proof. each_char c; reflexivity. Qed.

(** [parse_qsl] reads every byte back. *)
Lemma decode_quote_char c t :
  unquote (plus_to_space (quote_char c ++ t)) = String c (unquote (plus_to_space t)).
Proof. each_char c; reflexivity. Qed.

Lemma unreserved_neq x c : unreserved x = true -> unreserved c = false -> Ascii.eqb x c = false.
Proof. intros Hx Hc. apply Ascii.eqb_neq. congruence. Qed.

(** What is written for a byte is made of unreserved characters, [+] and
    [%]. *)
Lemma quote_char_lacks c a :
  unreserved c = false -> c <> "+"%char -> c <> "%"%char -> lacks c (quote_char a) = true.
Proof.
  intros Hc Hplus%Ascii.eqb_neq Hpct%Ascii.eqb_neq. rewrite Ascii.eqb_sym in Hplus, Hpct.
  pose proof (nat_ascii_bounded a) as Ha.
  unfold quote_char. destruct (unreserved a) eqn:Hu; [|destruct (Ascii.eqb a " ")];
    cbn [lacks]; rewrite ?Hplus, ?Hpct, ?(unreserved_neq _ c); try done.
  all: apply hex_digit_unreserved;
    first [apply Nat.Div0.div_lt_upper_bound; lia | by apply Nat.mod_upper_bound].
Qed.

Lemma quote_char_nonempty c : quote_char c <> "".
Proof. unfold quote_char. by destruct (unreserved c), (Ascii.eqb c " "). Qed.

(** ** A text *)

Lemma unquote_quote_plus s t : unquote (quote_plus s ++ t) = spaces_to_plus s ++ unquote t.
Proof.
  induction s as [|c s IH]; [done|]. cbn [quote_plus spaces_to_plus append].
  by rewrite string_app_assoc, unquote_quote_char, IH.
Qed.

Lemma unquote_quoted s : unquote (quote_plus s) = spaces_to_plus s.
Proof.
  rewrite <- (string_app_nil_r (quote_plus s)), unquote_quote_plus. apply string_app_nil_r.
Qed.

Lemma decode_quote_plus s : unquote (plus_to_space (quote_plus s)) = s.
Proof.
  induction s as [|c s IH]; [done|]. cbn [quote_plus]. by rewrite decode_quote_char, IH.
Qed.

Lemma quote_plus_lacks c s :
  unreserved c = false -> c <> "+"%char -> c <> "%"%char -> lacks c (quote_plus s) = true.
Proof.
  intros Hc Hplus Hpct. induction s as [|a s IH]; [done|].
  cbn [quote_plus]. by rewrite lacks_app, quote_char_lacks, IH.
Qed.

Lemma quote_plus_nonempty s : s <> "" -> quote_plus s <> "".
Proof.
  destruct s as [|c s]; [done|]. intros _. cbn [quote_plus].
  pose proof (quote_char_nonempty c). by destruct (quote_char c).
Qed.

(** A text of unreserved characters is written as it is. *)
Lemma quote_plus_unreserved s : all_unreserved s = true -> quote_plus s = s.
Proof.
  induction s as [|c s IH]; [done|]. cbn [all_unreserved quote_plus].
  intros [Hc Hs]%andb_prop. unfold quote_char. by rewrite Hc, IH.
Qed.

Lemma spaces_to_plus_lacks s : lacks " " s = true -> spaces_to_plus s = s.
Proof.
  induction s as [|c s IH]; [done|]. cbn [lacks spaces_to_plus].
  intros [Hc%negb_true_iff Hs]%andb_prop. by rewrite Hc, IH.
Qed.

Lemma lacks_spaces_to_plus c s :
  c <> " "%char -> c <> "+"%char -> lacks c (spaces_to_plus s) = lacks c s.
Proof.
  intros Hs Hp. induction s as [|a s IH]; [done|]. cbn [lacks spaces_to_plus]. rewrite IH.
  destruct (Ascii.eqb_spec a " ") as [->|]; [|done].
  by destruct (Ascii.eqb_spec "+" c), (Ascii.eqb_spec " " c).
Qed.

(** The writer is injective: it has a left inverse. *)
Lemma quote_plus_inj s s' : quote_plus s = quote_plus s' -> s = s'.
Proof.
  intros Heq. apply (f_equal (fun q => unquote (plus_to_space q))) in Heq.
  by rewrite !decode_quote_plus in Heq.
Qed.

(** ** A query *)

Lemma quote_pair_reads kv : kept_pair kv = true -> reads_as (quote_pair kv) kv.
Proof.
  intros Hne%negb_true_iff%String.eqb_neq. unfold reads_as, quote_pair. cbn [fst snd].
  rewrite !decode_quote_plus, !quote_plus_lacks by done.
  split_and!; try done. by apply quote_plus_nonempty.
Qed.

Lemma parse_qsl_urlencode ps : kept_query ps = true -> parse_qsl (urlencode ps) = ps.
Proof.
  intros Hps. apply parse_qsl_reads, Forall2_fmap_l, Forall_Forall2_diag, List.Forall_forall.
  intros kv Hkv. apply quote_pair_reads. unfold kept_query in Hps.
  rewrite forallb_forall in Hps. auto.
Qed.

(** A query has no character that is neither unreserved nor one of [+],
    [%], [=] and [&]: it has no [#] and no [?]. *)
Lemma urlencode_lacks c ps :
  unreserved c = false -> ~ In c ["+"; "%"; "="; "&"]%char -> lacks c (urlencode ps) = true.
Proof.
  intros Hc Hnot. cbn [In] in Hnot.
  apply render_query_lacks_all; [naive_solver..|].
  apply List.Forall_forall. intros w (kv & <- & _)%in_map_iff. cbn [quote_pair fst snd].
  split; apply quote_plus_lacks; naive_solver.
Qed.

(** What [unquote] makes of a query: the parameters unescaped, with [+]
    for their spaces. *)
Lemma unquote_urlencode ps : unquote (urlencode ps) = render_query (map plus_pair ps).
Proof.
  unfold urlencode. induction ps as [|[k v] ps IH]; [done|]. destruct ps as [|kv ps].
  - cbn [map]. rewrite !render_query_single. cbn [quote_pair plus_pair fst snd].
    by rewrite unquote_quote_plus, unquote_cons, unquote_quoted.
  - cbn [map] in *.
    rewrite (render_query_cons (quote_pair (k, v))), (render_query_cons (plus_pair (k, v)))
      by done.
    cbn [quote_pair plus_pair fst snd].
    rewrite string_app_assoc, unquote_quote_plus. cbn [append].
    rewrite unquote_cons, unquote_quote_plus, unquote_cons, IH by done.
    by rewrite string_app_assoc.
Qed.

Lemma url_query_urlencode u ps :
  lacks "?" u = true -> lacks "#" u = true ->
  url_query (u ++ String "?" (urlencode ps)) = urlencode ps.
Proof.
  intros Hq Hh. apply url_query_app; [done..|].
  apply urlencode_lacks; [done | by intros [|[|[|[|[]]]]]].
Qed.

(** C27.  Round trip of the query string: a URL made of an address, [?] and
    parameters written by [urlencode] is parsed back into these parameters, in
    their order, whatever bytes the names and values have, when no value is
    blank; [parse_qs] gives each name the values it has among them. *)
Theorem parse_qs_urlencode u ps :
  lacks "?" u = true -> lacks "#" u = true -> kept_query ps = true ->
  parse_qsl (url_query (u ++ String "?" (urlencode ps))) = ps /\
  forall k,
    dict_get k (parse_qs (url_query (u ++ String "?" (urlencode ps)))) =
    match values_of k ps with
    | [] => None
    | ws => Some ws
    end.
Proof.
  intros Hq Hh Hps. rewrite url_query_urlencode by done.
  split; [by apply parse_qsl_urlencode|]. intros k.
  by rewrite parse_qs_values, parse_qsl_urlencode.
Qed.

Lemma parse_qs_urlencode_witness :
  parse_qsl (url_query ("https://graph.facebook.com/v10.0/123/posts" ++
                        String "?" (urlencode example_hard_params))) = example_hard_params /\
  forall k,
    dict_get k (parse_qs (url_query ("https://graph.facebook.com/v10.0/123/posts" ++
                                     String "?" (urlencode example_hard_params)))) =
    match values_of k example_hard_params with
    | [] => None
    | ws => Some ws
    end.
Proof.
  apply (parse_qs_urlencode "https://graph.facebook.com/v10.0/123/posts" example_hard_params);
    reflexivity.
Defined.

(** The sample parameters as they are written. *)
Lemma urlencode_example : urlencode example_hard_params = example_hard_query.
Proof. reflexivity. Qed.
