(* ===== verification/Params.v ===== *)
(** * Params: the parameter builders

    [get_url_params] of [FacebookPagesStream] and of each subclass.  Every
    override starts with [super().get_url_params(...)], so each definition
    here starts with [FacebookPagesStream_get_url_params].

    A builder assigns [self.page_id] and returns the parameters or raises:
    its model returns the instance after the call and a [res pydict].  The
    assignment is the method's first statement after the subscript
    [partition["page_id"]], so it has happened whenever that subscript did
    not raise, whatever the rest does.  The base builder also logs a line
    for a page without a token: [FacebookPagesStream_logged] is what a call
    writes to the log, whether or not the override that made the call
    raises afterwards.

    [PageInsights_get_url_params] reads the clock; [time] is that reading
    ([int(t.time())]). *)

From Stdlib Require Import List String ZArith Bool Lia.
From stdpp Require Import base tactics list.
From S2P Require Import Prelude PyDict PyValue Streams Url.
Import ListNotations.

Set Default Proof Using "Type".
Local Open Scope string_scope.
Local Open Scope Z_scope.
Local Open Scope res_scope.

(** [pid in self.access_tokens]: the keys are strings; a list or a dict is
    unhashable. *)
Definition in_access_tokens (pid : pyval) (tokens : dict string) : res bool :=
  match pid with
  | VStr s => Ok (dict_mem s tokens)
  | VList _ | VDict _ => Err TypeError
  | _ => Ok false
  end.

(** [self.access_tokens[pid]] *)
Definition access_token_of (pid : pyval) (tokens : dict string) : res string :=
  match pid with
  | VStr s => of_option (KeyError pid) (dict_get s tokens)
  | VList _ | VDict _ => Err TypeError
  | _ => Err (KeyError pid)
  end.

(** [prefix + v] with a string on the left *)
Definition py_str_concat (prefix : string) (v : pyval) : res string :=
  match v with
  | VStr s => Ok (prefix ++ s)
  | _ => Err TypeError
  end.

(** [v + k] with an integer on the right *)
Definition py_add_int (v : pyval) (k : Z) : res Z :=
  match v with
  | VInt n => Ok (n + k)
  | VBool b => Ok (Z.b2z b + k)
  | _ => Err TypeError
  end.

(** [','.join(self.config['columns']) if 'columns' in self.config
     else ','.join(self.schema["properties"].keys())] *)
Definition config_fields (self : stream_self) : string :=
  match config_columns self with
  | Some columns => join_comma columns
  | None => join_comma (schema_properties self)
  end.

Definition one_day : Z := 86400.
Definition window_span : Z := 8035200.

(** What the base builder writes to the log: the line for a page without
    a token, when the statement that logs it is reached (there is no
    pagination token, the page id can be looked up and is a string).  No
    override logs anything of its own. *)
Definition FacebookPagesStream_logged
    (self : stream_self) (partition next_page_token : pyval) : list string :=
  match py_getitem partition "page_id" with
  | Err _ => []
  | Ok pid =>
      if truthy next_page_token then []
      else
        match in_access_tokens pid (access_tokens self) with
        | Ok false =>
            match py_str_concat "Not enough rights for page: " pid with
            | Ok line => [line]
            | Err _ => []
            end
        | _ => []
        end
  end.

Section Builders.
Context `{Sdk}.

Definition FacebookPagesStream_get_url_params
    (self : stream_self) (partition next_page_token : pyval)
  : stream_self * res pydict :=
  match py_getitem partition "page_id" with
  | Err e => (self, Err e)
  | Ok pid =>
      let self := set_page_id self pid in
      (self,
       if truthy next_page_token then py_url_query next_page_token
       else
         let params : pydict := [] in
         let params :=
           match get_starting_timestamp partition with
           | Some start_date_timestamp =>
               dict_update params [("since", VInt start_date_timestamp)]
           | None => params
           end in
         known <- in_access_tokens pid (access_tokens self) ;;
         params <- (if known : bool then
                      token <- access_token_of pid (access_tokens self) ;;
                      Ok (dict_update params [("access_token", VStr token)])
                    else
                      _ <- py_str_concat "Not enough rights for page: " pid ;;
                      Ok params) ;;
         Ok (dict_update params [("limit", VInt 100)]))
  end.

Definition Page_get_url_params
    (self : stream_self) (partition next_page_token : pyval)
  : stream_self * res pydict :=
  let '(self, r) := FacebookPagesStream_get_url_params self partition next_page_token in
  (self,
   params <- r ;;
   let fields := config_fields self in
   Ok (dict_update params [("fields", VStr fields)])).

Definition Posts_get_url_params
    (self : stream_self) (partition next_page_token : pyval)
  : stream_self * res pydict :=
  let '(self, r) := FacebookPagesStream_get_url_params self partition next_page_token in
  (self,
   params <- r ;;
   if truthy next_page_token then Ok params
   else
     let fields := config_fields self in
     Ok (dict_update params [("fields", VStr fields)])).

Definition PostTaggedProfile_get_url_params
    (self : stream_self) (partition next_page_token : pyval)
  : stream_self * res pydict :=
  let '(self, r) := FacebookPagesStream_get_url_params self partition next_page_token in
  (self,
   params <- r ;;
   if truthy next_page_token then Ok params
   else Ok (dict_update params [("fields", VStr "id,created_time,to")])).

Definition PostAttachments_get_url_params
    (self : stream_self) (partition next_page_token : pyval)
  : stream_self * res pydict :=
  let '(self, r) := FacebookPagesStream_get_url_params self partition next_page_token in
  (self,
   params <- r ;;
   if truthy next_page_token then Ok params
   else Ok (dict_update params [("fields", VStr "id,created_time,attachments")])).

(** The window statements of [PageInsights.get_url_params], between the
    call to [super()] and the assignment of [metric]: [params] in, [params]
    out.  [params['until'][0] = ...] mutates the list held under ["until"],
    which keeps its place in the dict. *)
Definition PageInsights_window (time : Z) (next_page_token : pyval) (params : pydict)
  : res pydict :=
  let day := one_day in
  if negb (truthy next_page_token) then
    since <- py_getitem (VDict params) "since" ;;
    until <- py_add_int since window_span ;;
    Ok (dict_update params
          [("until", VInt (if until <=? time then until else time - day))])
  else
    until_list <- py_getitem (VDict params) "until" ;;
    until <- py_getitem0 until_list ;;
    until_int <- py_int until ;;
    if until_int >? time then
      until_list <- py_setitem0 until_list (VStr (py_str_of_int (time - day))) ;;
      Ok (dict_set "until" until_list params)
    else Ok params.

Definition PageInsights_get_url_params (time : Z)
    (self : stream_self) (partition next_page_token : pyval)
  : stream_self * res pydict :=
  let '(self, r) := FacebookPagesStream_get_url_params self partition next_page_token in
  (self,
   params <- r ;;
   params <- PageInsights_window time next_page_token params ;;
   Ok (dict_update params [("metric", VStr (join_comma (metrics self)))])).

Definition PostInsights_get_url_params
    (self : stream_self) (partition next_page_token : pyval)
  : stream_self * res pydict :=
  let '(self, r) := FacebookPagesStream_get_url_params self partition next_page_token in
  (self,
   params <- r ;;
   if truthy next_page_token then Ok params
   else
     Ok (dict_update params
           [("fields",
             VStr ("id,created_time,insights.metric(" ++ join_comma (metrics self) ++ ")"))])).

(** Method resolution: the override of the instance's class. *)
Definition get_url_params (s : stream) (time : Z)
    (self : stream_self) (partition next_page_token : pyval)
  : stream_self * res pydict :=
  match s with
  | Page => Page_get_url_params self partition next_page_token
  | Posts => Posts_get_url_params self partition next_page_token
  | PostTaggedProfile => PostTaggedProfile_get_url_params self partition next_page_token
  | PostAttachments => PostAttachments_get_url_params self partition next_page_token
  | PageInsights => PageInsights_get_url_params time self partition next_page_token
  | PostInsights => PostInsights_get_url_params self partition next_page_token
  end.

End Builders.

(** ** What the specification promises of a first request

    §4.2: [since] from the stored cursor when there is one, [access_token]
    when the page's token is known, and a fixed [limit] of 100, in that
    order. *)
Definition spec_first_params (cursor : option Z) (token : option string) : pydict :=
  match cursor with Some ts => [("since", VInt ts)] | None => [] end ++
  match token with Some t => [("access_token", VStr t)] | None => [] end ++
  [("limit", VInt 100)].

(** The streams whose override returns the token's parameters untouched. *)
Definition returns_token_params (s : stream) : bool :=
  match s with
  | Posts | PostTaggedProfile | PostAttachments | PostInsights => true
  | Page | PageInsights => false
  end.

Ltac unfold_builders :=
  unfold get_url_params, Page_get_url_params, Posts_get_url_params,
    PostTaggedProfile_get_url_params, PostAttachments_get_url_params,
    PageInsights_get_url_params, PostInsights_get_url_params in *.

Section BuilderFacts.
Context `{Sdk}.
Implicit Types (self : stream_self) (partition next_page_token pid : pyval) (s : stream).

Lemma base_no_page_id self partition next_page_token e :
  py_getitem partition "page_id" = Err e ->
  FacebookPagesStream_get_url_params self partition next_page_token = (self, Err e).
Proof. intros Hp. unfold FacebookPagesStream_get_url_params. by rewrite Hp. Qed.

Lemma base_self self partition next_page_token pid :
  py_getitem partition "page_id" = Ok pid ->
  fst (FacebookPagesStream_get_url_params self partition next_page_token) =
  set_page_id self pid.
Proof. intros Hp. unfold FacebookPagesStream_get_url_params. by rewrite Hp. Qed.

Lemma base_token self partition next_page_token pid :
  py_getitem partition "page_id" = Ok pid -> truthy next_page_token = true ->
  snd (FacebookPagesStream_get_url_params self partition next_page_token) =
  py_url_query next_page_token.
Proof. intros Hp Ht. unfold FacebookPagesStream_get_url_params. by rewrite Hp, Ht. Qed.

Lemma get_url_params_fst s time self partition next_page_token :
  fst (get_url_params s time self partition next_page_token) =
  fst (FacebookPagesStream_get_url_params self partition next_page_token).
Proof.
  destruct s; unfold_builders;
    by destruct (FacebookPagesStream_get_url_params self partition next_page_token).
Qed.

(** Whatever the stream and whatever else the builder does, once
    [partition["page_id"]] has been read [self.page_id] holds it, and the
    rest of the instance is untouched. *)
Lemma get_url_params_assigns_page_id s time self partition next_page_token pid :
  py_getitem partition "page_id" = Ok pid ->
  fst (get_url_params s time self partition next_page_token) = set_page_id self pid.
Proof. intros Hp. rewrite get_url_params_fst. by apply base_self. Qed.

(** A partition without [page_id] makes every builder raise the
    subscript's exception before anything is assigned. *)
Lemma get_url_params_no_page_id s time self partition next_page_token e :
  py_getitem partition "page_id" = Err e ->
  get_url_params s time self partition next_page_token = (self, Err e).
Proof.
  intros Hp. destruct s; unfold_builders; by rewrite (base_no_page_id _ _ _ e Hp).
Qed.

(** With a pagination token, [Posts], [PostTaggedProfile],
    [PostAttachments] and [PostInsights] send exactly the parameters parsed
    back from the token's query string. *)
Theorem token_params_verbatim s time self partition next_page_token pid :
  returns_token_params s = true ->
  py_getitem partition "page_id" = Ok pid ->
  truthy next_page_token = true ->
  snd (get_url_params s time self partition next_page_token) =
  py_url_query next_page_token.
Proof.
  intros Hs Hp Ht. pose proof (base_token self _ _ _ Hp Ht) as Hb.
  destruct s; try discriminate Hs; unfold_builders;
    destruct (FacebookPagesStream_get_url_params self partition next_page_token) as [self' r];
    cbn in *; subst r; destruct (py_url_query next_page_token); cbn; by rewrite ?Ht.
Qed.

(** C36.  [Page] does not return early: with a token it still assigns
    [fields], replacing whatever the token carried under that name. *)
Theorem Page_token_overrides_fields self partition next_page_token pid q :
  py_getitem partition "page_id" = Ok pid ->
  truthy next_page_token = true ->
  py_url_query next_page_token = Ok q ->
  snd (Page_get_url_params self partition next_page_token) =
  Ok (dict_set "fields" (VStr (config_fields self)) q).
Proof.
  intros Hp Ht Hq. pose proof (base_token self _ _ _ Hp Ht) as Hb.
  pose proof (base_self self _ next_page_token _ Hp) as Hs.
  unfold Page_get_url_params.
  destruct (FacebookPagesStream_get_url_params self partition next_page_token) as [self' r].
  cbn in *. subst. by rewrite Hq.
Qed.

Lemma base_first_params self partition next_page_token p :
  py_getitem partition "page_id" = Ok (VStr p) ->
  truthy next_page_token = false ->
  snd (FacebookPagesStream_get_url_params self partition next_page_token) =
  Ok (spec_first_params (get_starting_timestamp partition)
        (dict_get p (access_tokens self))).
Proof.
  intros Hp Ht. unfold FacebookPagesStream_get_url_params, spec_first_params.
  rewrite Hp, Ht. cbn [snd in_access_tokens access_token_of set_page_id access_tokens].
  unfold dict_mem.
  destruct (get_starting_timestamp partition), (dict_get p (access_tokens self)); done.
Qed.

(** Without a token and with a string page id, the base builder assigns
    the id to [self.page_id] and returns what §4.2 describes: [since] if the
    SDK has a cursor, [access_token] if the page's token is known, [limit] =
    100. *)
Theorem base_first_request self partition next_page_token p :
  py_getitem partition "page_id" = Ok (VStr p) ->
  truthy next_page_token = false ->
  FacebookPagesStream_get_url_params self partition next_page_token =
  (set_page_id self (VStr p),
   Ok (spec_first_params (get_starting_timestamp partition)
         (dict_get p (access_tokens self)))).
Proof.
  intros Hp Ht. rewrite (surjective_pairing (FacebookPagesStream_get_url_params _ _ _)).
  by rewrite (base_self _ _ _ _ Hp), (base_first_params _ _ _ _ Hp Ht).
Qed.

(** A page id that is not a string and has no token makes the log line
    ["Not enough rights for page: " + page_id] raise. *)
Lemma base_first_request_nonstring self partition next_page_token pid :
  py_getitem partition "page_id" = Ok pid ->
  truthy next_page_token = false ->
  (forall p, pid <> VStr p) ->
  snd (FacebookPagesStream_get_url_params self partition next_page_token) = Err TypeError.
Proof.
  intros Hp Ht Hns. unfold FacebookPagesStream_get_url_params. rewrite Hp, Ht.
  destruct pid; cbn; try done. by destruct (Hns s).
Qed.

(** ** What the builder logs *)

Lemma logged_needs_page_id self partition next_page_token e :
  py_getitem partition "page_id" = Err e ->
  FacebookPagesStream_logged self partition next_page_token = [].
Proof. intros Hp. unfold FacebookPagesStream_logged. by rewrite Hp. Qed.

Lemma logged_without_token self partition next_page_token :
  truthy next_page_token = true ->
  FacebookPagesStream_logged self partition next_page_token = [].
Proof.
  intros Ht. unfold FacebookPagesStream_logged. rewrite Ht.
  by destruct (py_getitem partition "page_id").
Qed.

(** On a first request for a page with a string id, the line is logged
    exactly when the parameters go without [access_token]
    ([base_first_params]). *)
Lemma logged_first self partition next_page_token p :
  py_getitem partition "page_id" = Ok (VStr p) ->
  truthy next_page_token = false ->
  FacebookPagesStream_logged self partition next_page_token =
  match dict_get p (access_tokens self) with
  | Some _ => []
  | None => ["Not enough rights for page: " ++ p]
  end.
Proof.
  intros Hp Ht. unfold FacebookPagesStream_logged. rewrite Hp, Ht.
  cbn [in_access_tokens py_str_concat]. unfold dict_mem.
  by destruct (dict_get p (access_tokens self)).
Qed.

Lemma spec_first_params_wf cursor token : dict_wf (spec_first_params cursor token).
Proof.
  unfold dict_wf.
  destruct cursor, token; cbn;
    repeat (apply NoDup_cons; split;
            [rewrite ?elem_of_cons, elem_of_nil; intuition discriminate|]);
    constructor.
Qed.

(** A first request that succeeds had a string page id and has exactly the
    specified parameters. *)
Lemma base_first_shape self partition next_page_token params :
  truthy next_page_token = false ->
  snd (FacebookPagesStream_get_url_params self partition next_page_token) = Ok params ->
  exists p, py_getitem partition "page_id" = Ok (VStr p) /\
            params = spec_first_params (get_starting_timestamp partition)
                       (dict_get p (access_tokens self)).
Proof.
  intros Ht Hr. destruct (py_getitem partition "page_id") as [pid|e] eqn:Hp.
  - destruct pid as [| | |p| |];
      try (rewrite (base_first_request_nonstring _ _ _ _ Hp Ht) in Hr; done).
    exists p. rewrite (base_first_params _ _ _ _ Hp Ht) in Hr. by injection Hr as <-.
  - by rewrite (base_no_page_id _ _ _ _ Hp) in Hr.
Qed.

Lemma base_params_wf self partition next_page_token params :
  snd (FacebookPagesStream_get_url_params self partition next_page_token) = Ok params ->
  dict_wf params.
Proof.
  intros Hr. destruct (truthy next_page_token) eqn:Ht.
  - destruct (py_getitem partition "page_id") as [pid|e] eqn:Hp.
    + rewrite (base_token _ _ _ _ Hp Ht) in Hr. by eapply py_url_query_wf.
    + by rewrite (base_no_page_id _ _ _ _ Hp) in Hr.
  - apply (base_first_shape _ _ _ _ Ht) in Hr as (p & _ & ->).
    apply spec_first_params_wf.
Qed.

Lemma PageInsights_window_wf time next_page_token params params' :
  dict_wf params ->
  PageInsights_window time next_page_token params = Ok params' -> dict_wf params'.
Proof.
  intros Hwf. unfold PageInsights_window. intros Hr. res_inv; auto with tap.
Qed.

(** The parameters of every stream have pairwise distinct names. *)
Theorem get_url_params_wf s time self partition next_page_token params :
  snd (get_url_params s time self partition next_page_token) = Ok params ->
  dict_wf params.
Proof.
  pose proof (base_params_wf self partition next_page_token) as Hb.
  destruct s; unfold_builders;
    destruct (FacebookPagesStream_get_url_params self partition next_page_token) as [self' r];
    cbn [snd] in *; destruct r as [p0|]; cbn; try done;
    specialize (Hb p0 eq_refl); intros Hr.
  1-4,6: by repeat first [ injection Hr as <- | case_match ]; auto with tap.
  destruct (PageInsights_window time next_page_token p0) as [p1|] eqn:Hw; [|done].
  injection Hr as <-. eauto using PageInsights_window_wf with tap.
Qed.

(** [PageInsights.get_url_params] once the page id is read: the base
    builder's parameters, the window, then [metric]. *)
Lemma PageInsights_get_url_params_eq time self partition next_page_token pid :
  py_getitem partition "page_id" = Ok pid ->
  PageInsights_get_url_params time self partition next_page_token =
  (set_page_id self pid,
   params <- snd (FacebookPagesStream_get_url_params self partition next_page_token) ;;
   params <- PageInsights_window time next_page_token params ;;
   Ok (dict_update params [("metric", VStr (join_comma (metrics self)))])).
Proof.
  intros Hp. pose proof (base_self self _ next_page_token _ Hp) as Hself.
  unfold PageInsights_get_url_params.
  destruct (FacebookPagesStream_get_url_params self partition next_page_token) as [self' r].
  cbn [fst snd] in *. by subst.
Qed.

(** Without a cursor the first [PageInsights] request raises
    [KeyError('since')]: [params['since']] is read unconditionally. *)
Theorem PageInsights_no_cursor_raises time self partition next_page_token p :
  py_getitem partition "page_id" = Ok (VStr p) ->
  truthy next_page_token = false ->
  get_starting_timestamp partition = None ->
  snd (PageInsights_get_url_params time self partition next_page_token) =
  Err (KeyError (VStr "since")).
Proof.
  intros Hp Ht Hs. pose proof (base_first_params self _ _ _ Hp Ht) as Hb.
  unfold PageInsights_get_url_params.
  destruct (FacebookPagesStream_get_url_params self partition next_page_token) as [self' r].
  cbn in Hb. subst. rewrite Hs. cbn [res_bind snd]. unfold PageInsights_window.
  rewrite Ht. by destruct (dict_get p (access_tokens self)).
Qed.

End BuilderFacts.

(** ** The theorems at sample requests *)

Lemma PageInsights_no_cursor_raises_witness :
  snd (@PageInsights_get_url_params example_sdk 1700000000 example_self
         example_partition VNone) =
  Err (KeyError (VStr "since")).
Proof.
  apply (@PageInsights_no_cursor_raises example_sdk 1700000000 example_self
           example_partition VNone "123"); reflexivity.
Defined.

Lemma token_params_verbatim_witness :
  snd (@get_url_params example_sdk Posts 0 example_self example_partition example_link) =
  Ok example_link_params.
Proof.
  rewrite (@token_params_verbatim example_sdk Posts 0 example_self example_partition
             example_link (VStr "123")); reflexivity.
Defined.

Lemma Page_token_overrides_fields_witness :
  snd (@Page_get_url_params example_sdk example_self example_partition example_link) =
  Ok (example_link_params ++ [("fields", VStr "id,name")])%list.
Proof.
  apply (@Page_token_overrides_fields example_sdk example_self example_partition
           example_link (VStr "123") example_link_params); reflexivity.
Defined.

Lemma base_first_request_witness :
  @FacebookPagesStream_get_url_params example_sdk_cursor example_self
    example_partition VNone =
  (example_tagged_self,
   Ok [("since", VInt 1600000000); ("access_token", VStr "TOKEN123");
       ("limit", VInt 100)]).
Proof.
  apply (@base_first_request example_sdk_cursor example_self example_partition VNone "123");
    reflexivity.
Defined.

Lemma get_url_params_wf_witness :
  dict_wf [("access_token", VStr "TOKEN123"); ("limit", VInt 100);
           ("fields", VStr "id,name")].
Proof.
  apply (@get_url_params_wf example_sdk Page 0 example_self example_partition VNone).
  reflexivity.
Defined.
