(* ===== verification/Window.v ===== *)
(** * Window: the next-page rule and the time window of [PageInsights]

    [get_next_page_token] of the base class returns the [next] link of the
    response's [paging] object, or [None].  [PageInsights] overrides it: a
    link whose window has caught up with the present is dropped, so that the
    loop ends instead of following links the server keeps producing.

    Together with [Params.PageInsights_window] (the [until] of a request)
    this is the "time-window clamper" of the specification.  The theorems
    state what both do as functions of the clock reading [time], the
    cursor [since] and the link's [since]/[until]. *)

From Stdlib Require Import List String ZArith Bool Lia.
From stdpp Require Import base tactics list.
From S2P Require Import Prelude PyDict PyValue Streams Url Params.
Import ListNotations.

Set Default Proof Using "Type".
Local Open Scope string_scope.
Local Open Scope Z_scope.
Local Open Scope res_scope.

Definition two_days : Z := 172800.

(** [resp_json["paging"]["next"]] *)
Definition paging_next (resp_json : pyval) : res pyval :=
  paging <- py_getitem resp_json "paging" ;;
  py_getitem paging "next".

(** ["paging" in resp_json and "next" in resp_json["paging"]] *)
Definition has_paging_next (resp_json : pyval) : res bool :=
  has_paging <- py_contains "paging" resp_json ;;
  if has_paging : bool then
    paging <- py_getitem resp_json "paging" ;;
    py_contains "next" paging
  else Ok false.

Definition FacebookPagesStream_get_next_page_token
    (response : response) (previous_token : pyval) : res pyval :=
  resp_json <- response_json response ;;
  has_next <- has_paging_next resp_json ;;
  if has_next : bool then paging_next resp_json
  else Ok VNone.

(** [int(params[key][0])] *)
Definition int_param (params : pydict) (key : string) : res Z :=
  values <- py_getitem (VDict params) key ;;
  first <- py_getitem0 values ;;
  py_int first.

(** The stall test of [PageInsights.get_next_page_token]. *)
Definition window_stalled (time since until : Z) : bool :=
  let day := two_days in
  (since >=? time - day) || ((until >=? time) && (until <=? time + day)).

#[global] Arguments paging_next : simpl never.
#[global] Arguments has_paging_next : simpl never.
#[global] Arguments int_param : simpl never.
#[global] Arguments window_stalled : simpl never.

Section NextToken.
Context `{Sdk}.

Definition PageInsights_get_next_page_token (time : Z)
    (response : response) (previous_token : pyval) : res pyval :=
  resp_json <- response_json response ;;
  has_next <- has_paging_next resp_json ;;
  if has_next : bool then
    next <- paging_next resp_json ;;
    params <- py_url_query next ;;
    since <- int_param params "since" ;;
    until <- int_param params "until" ;;
    if window_stalled time since until then Ok VNone
    else paging_next resp_json
  else Ok VNone.

(** Method resolution. *)
Definition get_next_page_token (s : stream) (time : Z)
    (response : response) (previous_token : pyval) : res pyval :=
  match s with
  | PageInsights => PageInsights_get_next_page_token time response previous_token
  | _ => FacebookPagesStream_get_next_page_token response previous_token
  end.

End NextToken.

(** ** The specification's window

    §4.3 and testable property 4: the first request ends [window_span]
    seconds after [since], unless that is after now, in which case it ends
    one day before now. *)
Definition first_until (time since : Z) : Z :=
  if since + window_span <=? time then since + window_span else time - one_day.

(** A response page with the given rows and [next] link. *)
Definition page_with_next (data : list pyval) (link : pyval) : response :=
  json_response (VDict [("data", VList data); ("paging", VDict [("next", link)])]).

Definition page_without_next (data : list pyval) : response :=
  json_response (VDict [("data", VList data)]).

(** ** The base rule *)

Lemma has_paging_next_true kvs paging :
  dict_get "paging" kvs = Some (VDict paging) ->
  has_paging_next (VDict kvs) = Ok (dict_mem "next" paging).
Proof.
  intros Hp. unfold has_paging_next. cbn. unfold dict_mem at 1. by rewrite Hp.
Qed.

Lemma has_paging_next_absent kvs :
  dict_get "paging" kvs = None -> has_paging_next (VDict kvs) = Ok false.
Proof. intros Hp. unfold has_paging_next. cbn. unfold dict_mem. by rewrite Hp. Qed.

Lemma paging_next_get kvs paging link :
  dict_get "paging" kvs = Some (VDict paging) -> dict_get "next" paging = Some link ->
  paging_next (VDict kvs) = Ok link.
Proof. intros Hp Hn. unfold paging_next. cbn. rewrite Hp. cbn. by rewrite Hn. Qed.

(** The base rule returns the [next] link of [paging] when the response
    has one. *)
Theorem next_token_is_paging_next kvs paging link previous_token :
  dict_get "paging" kvs = Some (VDict paging) ->
  dict_get "next" paging = Some link ->
  FacebookPagesStream_get_next_page_token (json_response (VDict kvs)) previous_token =
  Ok link.
Proof.
  intros Hp Hn. unfold FacebookPagesStream_get_next_page_token. cbn.
  rewrite (has_paging_next_true _ _ Hp). unfold dict_mem. rewrite Hn. cbn.
  by eapply paging_next_get.
Qed.

(** Without [paging], or with a [paging] object that has no [next],
    the base rule returns [None]. *)
Theorem next_token_none kvs previous_token :
  (dict_get "paging" kvs = None \/
   exists paging, dict_get "paging" kvs = Some (VDict paging) /\
                  dict_get "next" paging = None) ->
  FacebookPagesStream_get_next_page_token (json_response (VDict kvs)) previous_token =
  Ok VNone.
Proof.
  unfold FacebookPagesStream_get_next_page_token. cbn. intros [Hp | (paging & Hp & Hn)].
  - by rewrite has_paging_next_absent.
  - rewrite (has_paging_next_true _ _ Hp). unfold dict_mem. by rewrite Hn.
Qed.

(** A body that is not JSON makes the rule raise. *)
Lemma next_token_bad_body previous_token :
  FacebookPagesStream_get_next_page_token {| json_body := None |} previous_token =
  Err JSONDecodeError.
Proof. reflexivity. Qed.

(** ** The window of a request *)

Section WindowFacts.
Context `{Sdk}.

Lemma window_first time next_page_token params since :
  truthy next_page_token = false ->
  dict_get "since" params = Some (VInt since) ->
  PageInsights_window time next_page_token params =
  Ok (dict_set "until" (VInt (first_until time since)) params).
Proof.
  intros Ht Hs. unfold PageInsights_window, first_until. rewrite Ht. cbn.
  by rewrite Hs.
Qed.

Lemma first_until_le_now time since : first_until time since <= time.
Proof. unfold first_until, one_day. case_match; lia. Qed.

Lemma window_token time next_page_token params u rest n :
  truthy next_page_token = true ->
  dict_get "until" params = Some (VList (VStr u :: rest)) ->
  py_int_of_string u = Ok n ->
  PageInsights_window time next_page_token params =
  Ok (if n >? time
      then dict_set "until" (VList (VStr (py_str_of_int (time - one_day)) :: rest)) params
      else params).
Proof.
  intros Ht Hu Hn. unfold PageInsights_window. rewrite Ht. cbn. rewrite Hu. cbn.
  rewrite Hn. cbn. by destruct (n >? time).
Qed.

(** [int(params[key][0])] on the parameters read back from a link. *)
Lemma int_param_link ps k v :
  dict_get k ps = Some v ->
  int_param (params_of_query (single_values ps)) k = py_int_of_string v.
Proof. intros Hk. unfold int_param. cbn. by rewrite link_param_get, Hk. Qed.

(** The first [PageInsights] request of a partition whose page id is a
    string and whose cursor is [since] carries the base parameters, then
    [until] as the specification computes it, then [metric]. *)
Theorem PageInsights_first_request time self partition next_page_token p since :
  py_getitem partition "page_id" = Ok (VStr p) ->
  truthy next_page_token = false ->
  get_starting_timestamp partition = Some since ->
  snd (PageInsights_get_url_params time self partition next_page_token) =
  Ok (spec_first_params (Some since) (dict_get p (access_tokens self)) ++
      [("until", VInt (first_until time since));
       ("metric", VStr (join_comma (metrics self)))])%list.
Proof.
  intros Hp Ht Hs. pose proof (base_first_params self _ _ _ Hp Ht) as Hb.
  pose proof (base_self self _ next_page_token _ Hp) as Hself.
  unfold PageInsights_get_url_params.
  destruct (FacebookPagesStream_get_url_params self partition next_page_token) as [self' r].
  cbn in Hb, Hself. subst. rewrite Hs. cbn [res_bind snd].
  rewrite (window_first _ _ _ since Ht) by (by destruct (dict_get p _)).
  by destruct (dict_get p (access_tokens self)).
Qed.

(** The [until] of a first request is never after now. *)
Theorem first_window_not_after_now time next_page_token params params' since :
  truthy next_page_token = false ->
  dict_get "since" params = Some (VInt since) ->
  PageInsights_window time next_page_token params = Ok params' ->
  dict_get "until" params' = Some (VInt (first_until time since)) /\
  first_until time since <= time.
Proof.
  intros Ht Hs. rewrite (window_first _ _ _ _ Ht Hs). intros [= <-].
  split; [apply dict_get_set_eq | apply first_until_le_now].
Qed.

(** C34.  A cursor within the last day gives a window that ends before it
    starts: [until = time - 86400 < since]. *)
Theorem first_window_inverted time next_page_token params params' since :
  truthy next_page_token = false ->
  dict_get "since" params = Some (VInt since) ->
  time - one_day < since ->
  PageInsights_window time next_page_token params = Ok params' ->
  dict_get "until" params' = Some (VInt (first_until time since)) /\
  first_until time since = time - one_day /\
  first_until time since < since.
Proof.
  intros Ht Hs Hlate. rewrite (window_first _ _ _ _ Ht Hs). intros [= <-].
  split; [apply dict_get_set_eq|].
  unfold first_until, one_day, window_span in *. case_match; lia.
Qed.

(** With a token whose [until] parses to [n], the request's [until]
    parses to [n] if [n] is not after now and to one day before now otherwise;
    the other parameters are untouched. *)
Theorem token_window_clamped time next_page_token params u rest n :
  truthy next_page_token = true ->
  dict_get "until" params = Some (VList (VStr u :: rest)) ->
  py_int_of_string u = Ok n ->
  exists params',
    PageInsights_window time next_page_token params = Ok params' /\
    int_param params' "until" = Ok (if n >? time then time - one_day else n) /\
    forall k, k <> "until" -> dict_get k params' = dict_get k params.
Proof.
  intros Ht Hu Hn. rewrite (window_token _ _ _ _ _ _ Ht Hu Hn).
  destruct (n >? time) eqn:Hgt.
  - eexists. split; [done|]. split.
    + unfold int_param. cbn. rewrite dict_get_set_eq. cbn. apply py_int_of_string_str.
    + intros k Hk. by apply dict_get_set_ne.
  - eexists. split; [done|]. split; [|done].
    unfold int_param. cbn. rewrite Hu. done.
Qed.

(** ** The stall rule *)

Lemma window_stalled_spec time since until :
  window_stalled time since until = true <->
  time - two_days <= since \/ (time <= until /\ until <= time + two_days).
Proof. unfold window_stalled. lia. Qed.

(** The rule on a response that has a [next] link: the link is parsed and
    its window decides. *)
Lemma PageInsights_rule time kvs paging link previous_token :
  dict_get "paging" kvs = Some (VDict paging) ->
  dict_get "next" paging = Some link ->
  PageInsights_get_next_page_token time (json_response (VDict kvs)) previous_token =
  (params <- py_url_query link ;;
   since <- int_param params "since" ;;
   until <- int_param params "until" ;;
   Ok (if window_stalled time since until then VNone else link)).
Proof.
  intros Hp Hn. unfold PageInsights_get_next_page_token. cbn.
  rewrite (has_paging_next_true _ _ Hp). unfold dict_mem. rewrite Hn. cbn.
  rewrite (paging_next_get _ _ _ Hp Hn). cbn.
  destruct (py_url_query link) as [params|]; [cbn|done].
  destruct (int_param params "since") as [since|]; [cbn|done].
  destruct (int_param params "until") as [until|]; [cbn|done].
  by destruct (window_stalled time since until).
Qed.

(** The rule on a page whose [next] link has a window. *)
Lemma PageInsights_next_link time data link ps since until previous_token :
  py_url_query (VStr link) = Ok (params_of_query (single_values ps)) ->
  dict_get "since" ps = Some (py_str_of_int since) ->
  dict_get "until" ps = Some (py_str_of_int until) ->
  PageInsights_get_next_page_token time (page_with_next data (VStr link)) previous_token =
  Ok (if window_stalled time since until then VNone else VStr link).
Proof.
  intros Hq Hs Hu. unfold page_with_next.
  rewrite (PageInsights_rule _ _ [("next", VStr link)] (VStr link)), Hq by done.
  cbn [res_bind]. rewrite (int_param_link _ _ _ Hs), (int_param_link _ _ _ Hu).
  by rewrite !py_int_of_string_str.
Qed.

(** C35.  [PageInsights] drops the [next] link exactly when the link's window
    is stalled: its [since] is within two days of now, or its [until] lies
    between now and two days from now.  Otherwise the link is returned
    unchanged. *)
Theorem PageInsights_next_token time kvs paging link params since until previous_token :
  dict_get "paging" kvs = Some (VDict paging) ->
  dict_get "next" paging = Some link ->
  py_url_query link = Ok params ->
  int_param params "since" = Ok since ->
  int_param params "until" = Ok until ->
  PageInsights_get_next_page_token time (json_response (VDict kvs)) previous_token =
  Ok (if window_stalled time since until then VNone else link).
Proof.
  intros Hp Hn Hq Hs Hu. rewrite (PageInsights_rule _ _ _ _ _ Hp Hn), Hq. cbn.
  by rewrite Hs, Hu.
Qed.

(** A link without [since] makes the rule raise; the loop catches it. *)
Lemma PageInsights_next_token_no_since time kvs paging link params previous_token :
  dict_get "paging" kvs = Some (VDict paging) ->
  dict_get "next" paging = Some link ->
  py_url_query link = Ok params ->
  dict_get "since" params = None ->
  PageInsights_get_next_page_token time (json_response (VDict kvs)) previous_token =
  Err (KeyError (VStr "since")).
Proof.
  intros Hp Hn Hq Hs. rewrite (PageInsights_rule _ _ _ _ _ Hp Hn), Hq. cbn.
  unfold int_param. cbn. by rewrite Hs.
Qed.

(** The other streams use the base rule. *)
Lemma get_next_page_token_base s time response previous_token :
  s <> PageInsights ->
  get_next_page_token s time response previous_token =
  FacebookPagesStream_get_next_page_token response previous_token.
Proof. by destruct s. Qed.

End WindowFacts.

(** ** The theorems at sample responses and windows *)

Lemma next_token_is_paging_next_witness :
  FacebookPagesStream_get_next_page_token (page_with_next [] example_link) VNone =
  Ok example_link.
Proof.
  apply (next_token_is_paging_next
           [("data", VList []); ("paging", VDict [("next", example_link)])]
           [("next", example_link)]); reflexivity.
Defined.

Lemma next_token_none_witness :
  FacebookPagesStream_get_next_page_token (page_without_next []) VNone = Ok VNone.
Proof. apply (next_token_none [("data", VList [])]). left. reflexivity. Defined.

Lemma PageInsights_first_request_witness :
  snd (@PageInsights_get_url_params example_sdk_cursor 1700000000 example_self
         example_partition VNone) =
  Ok [("since", VInt 1600000000); ("access_token", VStr "TOKEN123"); ("limit", VInt 100);
      ("until", VInt 1608035200); ("metric", VStr "page_fans,page_views")].
Proof.
  apply (@PageInsights_first_request example_sdk_cursor 1700000000 example_self
           example_partition VNone "123" 1600000000); reflexivity.
Defined.

Lemma first_window_not_after_now_witness :
  dict_get "until" [("since", VInt 1600000000); ("until", VInt 1608035200)] =
    Some (VInt (first_until 1700000000 1600000000)) /\
  first_until 1700000000 1600000000 <= 1700000000.
Proof.
  apply (first_window_not_after_now 1700000000 VNone [("since", VInt 1600000000)] _
           1600000000); reflexivity.
Defined.

Lemma first_window_inverted_witness :
  dict_get "until" [("since", VInt 1600000000); ("until", VInt 1599963600)] =
    Some (VInt (first_until 1600050000 1600000000)) /\
  first_until 1600050000 1600000000 = 1600050000 - one_day /\
  first_until 1600050000 1600000000 < 1600000000.
Proof.
  apply (first_window_inverted 1600050000 VNone [("since", VInt 1600000000)] _
           1600000000); reflexivity.
Defined.

Lemma token_window_clamped_witness :
  exists params',
    PageInsights_window 1610000000 example_insights_link example_insights_params =
      Ok params' /\
    int_param params' "until" = Ok (1610000000 - one_day) /\
    forall k, k <> "until" -> dict_get k params' = dict_get k example_insights_params.
Proof.
  apply (token_window_clamped 1610000000 example_insights_link example_insights_params
           "1616070400" [] 1616070400); reflexivity.
Defined.

Lemma PageInsights_next_token_witness :
  @PageInsights_get_next_page_token example_sdk 1700000000
    (page_with_next [] example_insights_link) VNone =
  Ok example_insights_link.
Proof.
  apply (@PageInsights_next_token example_sdk 1700000000
           [("data", VList []); ("paging", VDict [("next", example_insights_link)])]
           [("next", example_insights_link)] example_insights_link
           example_insights_params 1608035200 1616070400 VNone); reflexivity.
Defined.
