(* ===== verification/Flatten.v ===== *)
(** * Flatten: the response flatteners

    [parse_response] of every stream: a generator over one response.  Each
    is a [gen pyval pyerr unit]: the rows yielded, then [Ok tt] if the
    generator ran to its end or the exception that ended it.  A [for] loop
    is [for_each]; an expression that can raise is lifted with [<~].  The
    body of each loop is a definition of its own ([PostAttachments_post] is
    the body of the loop over posts, [PostAttachments_attachment] the body
    of the loop over a post's attachments), so that the theorems can speak
    of one post or one attachment.

    [Page] inherits [parse_response] from the SDK's [RESTStream], which is
    not part of the sources: its model follows the SDK's documented
    behaviour (a JSON object is the one row, a JSON array is the rows).

    The theorems give, for well-shaped input, the rows as list functions
    ([posts_rows], [tag], [mapping_rows]); for any input, what every
    yielded row satisfies (parent tags, unique keys); and the exception
    raised on each malformed shape. *)

From Stdlib Require Import List String ZArith Bool Lia.
From stdpp Require Import base tactics list.
From S2P Require Import Prelude PyDict PyValue Streams.
Import ListNotations.

Set Default Proof Using "Type".
Local Open Scope string_scope.

Abbreviation rows := (gen pyval pyerr unit).

(** [{"page_id": self.page_id, "post_id": row["id"],
      "post_created_time": row["created_time"]}] *)
Definition parent_info (self : stream_self) (row : pyval) : res pydict :=
  (page_id <- read_page_id self ;;
   post_id <- py_getitem row "id" ;;
   post_created_time <- py_getitem row "created_time" ;;
   Ok [("page_id", page_id); ("post_id", post_id);
       ("post_created_time", post_created_time)])%res.

(** [row[outer]["data"]] as the sequence a [for] runs over *)
Definition nested_data (row : pyval) (outer : string) : res (list pyval) :=
  (container <- py_getitem row outer ;;
   data <- py_getitem container "data" ;;
   py_iter data)%res.

(** [response.json()["data"]] as the sequence a [for] runs over *)
Definition response_data (response : response) : res (list pyval) :=
  (resp_json <- response_json response ;;
   data <- py_getitem resp_json "data" ;;
   py_iter data)%res.

(** [{"name": m["name"], "period": m["period"], "title": m["title"],
      "id": m["id"]}] *)
Definition metric_info (metric : pyval) : res pydict :=
  (name <- py_getitem metric "name" ;;
   period <- py_getitem metric "period" ;;
   title <- py_getitem metric "title" ;;
   id <- py_getitem metric "id" ;;
   Ok [("name", name); ("period", period); ("title", title); ("id", id)])%res.

(** The [base_item] display of [PostInsights.parse_response], in the
    order its entries are evaluated. *)
Definition post_metric_info (self : stream_self) (row insights : pyval) : res pydict :=
  (post_id <- py_getitem row "id" ;;
   page_id <- read_page_id self ;;
   post_created_time <- py_getitem row "created_time" ;;
   name <- py_getitem insights "name" ;;
   period <- py_getitem insights "period" ;;
   title <- py_getitem insights "title" ;;
   description <- py_getitem insights "description" ;;
   id <- py_getitem insights "id" ;;
   Ok [("post_id", post_id); ("page_id", page_id);
       ("post_created_time", post_created_time); ("name", name);
       ("period", period); ("title", title); ("description", description);
       ("id", id)])%res.

Local Open Scope gen_scope.

(** ** [Page] *)

(** [RESTStream.parse_response] of the SDK, which [Page] inherits. *)
Definition Page_parse_response (self : stream_self) (response : response) : rows :=
  resp_json <~ response_json response ;;
  if isinstance_dict resp_json then yield resp_json
  else
    items <~ py_iter resp_json ;;
    for_each items yield.

(** ** [Posts] *)

Definition Posts_row (self : stream_self) (row : pyval) : rows :=
  page_id <~ read_page_id self ;;
  row <~ py_setitem row "page_id" page_id ;;
  yield row.

Definition Posts_parse_response (self : stream_self) (response : response) : rows :=
  data <~ response_data response ;;
  for_each data (Posts_row self).

(** ** [PostTaggedProfile] *)

(** [x.update(parent_info); yield x] *)
Definition yield_tagged (parent_info : pydict) (x : pyval) : rows :=
  x <~ py_update x parent_info ;;
  yield x.

Definition PostTaggedProfile_post (self : stream_self) (row : pyval) : rows :=
  parent_info <~ parent_info self row ;;
  has_to <~ py_contains "to" row ;;
  if has_to : bool then
    tagged <~ nested_data row "to" ;;
    for_each tagged (yield_tagged parent_info)
  else gen_ret tt.

Definition PostTaggedProfile_parse_response
    (self : stream_self) (response : response) : rows :=
  data <~ response_data response ;;
  for_each data (PostTaggedProfile_post self).

(** ** [PostAttachments] *)

Definition PostAttachments_attachment (parent_info : pydict) (attachment : pyval) : rows :=
  has_sub <~ py_contains "subattachments" attachment ;;
  attachment <-
    (if has_sub : bool then
       subs <~ nested_data attachment "subattachments" ;;
       for_each subs (yield_tagged parent_info) ;;;
       popped <~ py_pop attachment "subattachments" ;;
       gen_ret (snd popped)
     else gen_ret attachment) ;;
  yield_tagged parent_info attachment.

Definition PostAttachments_post (self : stream_self) (row : pyval) : rows :=
  parent_info <~ parent_info self row ;;
  has_attachments <~ py_contains "attachments" row ;;
  if has_attachments : bool then
    attachments <~ nested_data row "attachments" ;;
    for_each attachments (PostAttachments_attachment parent_info)
  else gen_ret tt.

Definition PostAttachments_parse_response
    (self : stream_self) (response : response) : rows :=
  data <~ response_data response ;;
  for_each data (PostAttachments_post self).

(** ** [PageInsights] *)

(** One entry of a metric's [values]: a mapping [value] becomes one row
    per key, anything else makes the entry itself the row. *)
Definition PageInsights_values (base_item : pydict) (values : pyval) : rows :=
  value <~ py_getitem values "value" ;;
  match value with
  | VDict items =>
      for_each items (fun kv =>
        end_time <~ py_getitem values "end_time" ;;
        let item := [("context", VStr (fst kv)); ("value", snd kv);
                     ("end_time", end_time)] in
        yield (VDict (dict_update item base_item)))
  | _ => yield_tagged base_item values
  end.

Definition PageInsights_metric (row : pyval) : rows :=
  base_item <~ metric_info row ;;
  has_values <~ py_contains "values" row ;;
  if has_values : bool then
    values_list <~ (v <- py_getitem row "values" ;; py_iter v)%res ;;
    for_each values_list (PageInsights_values base_item)
  else gen_ret tt.

Definition PageInsights_parse_response
    (self : stream_self) (response : response) : rows :=
  data <~ response_data response ;;
  for_each data PageInsights_metric.

(** ** [PostInsights] *)

Definition PostInsights_values (base_item : pydict) (values : pyval) : rows :=
  value <~ py_getitem values "value" ;;
  match value with
  | VDict items =>
      for_each items (fun kv =>
        let item := [("context", VStr (fst kv)); ("value", snd kv)] in
        yield (VDict (dict_update item base_item)))
  | _ => yield_tagged base_item values
  end.

Definition PostInsights_metric (self : stream_self) (row insights : pyval) : rows :=
  base_item <~ post_metric_info self row insights ;;
  has_values <~ py_contains "values" insights ;;
  if has_values : bool then
    values_list <~ (v <- py_getitem insights "values" ;; py_iter v)%res ;;
    for_each values_list (PostInsights_values base_item)
  else gen_ret tt.

Definition PostInsights_post (self : stream_self) (row : pyval) : rows :=
  insights_list <~ nested_data row "insights" ;;
  for_each insights_list (PostInsights_metric self row).

Definition PostInsights_parse_response
    (self : stream_self) (response : response) : rows :=
  data <~ response_data response ;;
  for_each data (PostInsights_post self).

(** ** Method resolution *)

Definition parse_response (s : stream) (self : stream_self) (response : response) : rows :=
  match s with
  | Page => Page_parse_response self response
  | Posts => Posts_parse_response self response
  | PostTaggedProfile => PostTaggedProfile_parse_response self response
  | PostAttachments => PostAttachments_parse_response self response
  | PageInsights => PageInsights_parse_response self response
  | PostInsights => PostInsights_parse_response self response
  end.

(** ** What a well-shaped response yields *)

(** A dict with the parent's entries merged in. *)
Definition tag (info : pydict) (x : pydict) : pyval := VDict (dict_update x info).

Definition posts_rows (pid : pyval) (posts : list pydict) : list pyval :=
  map (fun post => VDict (dict_set "page_id" pid post)) posts.

(** The rows of one attachment: its sub-attachments, then itself without
    them. *)
Definition attachment_rows (info : pydict) (attachment : pydict) (subs : list pydict)
  : list pyval :=
  (map (tag info) subs ++ [tag info (dict_remove "subattachments" attachment)])%list.

(** The rows of a mapping-valued entry: one per key, in the mapping's
    order. *)
Definition mapping_rows (extra base_item : pydict) (items : pydict) : list pyval :=
  map (fun kv => VDict (dict_update
                          ([("context", VStr (fst kv)); ("value", snd kv)] ++ extra)%list
                          base_item)) items.

(** The streams whose flattener writes [page_id] into every row. *)
Definition tags_page_id (s : stream) : bool :=
  match s with
  | Posts | PostTaggedProfile | PostAttachments | PostInsights => true
  | Page | PageInsights => false
  end.

(** Sample responses for the examples. *)
Definition example_attachment : pydict :=
  [("id", VStr "a1");
   ("subattachments",
    VDict [("data", VList [VDict [("id", VStr "s1")]; VDict [("id", VStr "s2")]])]);
   ("type", VStr "album")].

Definition example_post : pyval :=
  VDict [("id", VStr "p1"); ("created_time", VStr "2021-03-01T10:00:00+0000");
         ("attachments", VDict [("data", VList [VDict example_attachment])])].

Definition example_metric : pyval :=
  VDict [("name", VStr "page_fans"); ("period", VStr "day"); ("title", VStr "Fans");
         ("id", VStr "123/insights/page_fans/day");
         ("values",
          VList [VDict [("value", VDict [("a", VInt 1); ("b", VInt 2)]);
                        ("end_time", VStr "2021-03-02")];
                 VDict [("value", VInt 7); ("end_time", VStr "2021-03-03")]])].

(** A row carries [info] when it has every entry of [info]. *)
Definition carries (info : pydict) (row : pyval) : Prop :=
  forall k v, dict_get k info = Some v -> py_getitem row k = Ok v.

(** The streams whose rows are children of a post. *)
Definition has_post_parent (s : stream) : bool :=
  match s with
  | PostTaggedProfile | PostAttachments | PostInsights => true
  | Page | Posts | PageInsights => false
  end.

(** A response whose JSON body, if any, is well formed. *)
Definition wf_response (r : response) : Prop :=
  match json_body r with Some v => wf_val v | None => True end.

Definition wf_info (info : pydict) : Prop := Forall (fun kv => wf_val (snd kv)) info.

Definition wf_self (self : stream_self) : Prop :=
  match page_id self with Some pid => wf_val pid | None => True end.

(** One step of a proof that every yielded row satisfies a predicate:
    descend through the generator's structure. *)
Ltac rows_step :=
  lazymatch goal with
  | |- Forall _ (rows_of (gen_bind (gen_lift _) _)) => apply gen_lift_Forall; intros ? ?
  | |- Forall _ (rows_of (gen_bind _ _)) => apply gen_bind_Forall; [|intros ?]
  | |- Forall _ (rows_of (for_each _ _)) => apply for_each_rows; intros ? ?
  | |- Forall _ (rows_of (yield _)) => apply yield_Forall
  | |- Forall _ (rows_of (gen_ret _)) => apply gen_ret_Forall
  | |- Forall _ (rows_of (if ?b then _ else _)) => destruct b
  | |- Forall _ (rows_of (match ?v with _ => _ end)) => destruct v
  end.

#[global] Arguments yield_tagged : simpl never.
#[global] Arguments response_data : simpl never.
#[global] Arguments nested_data : simpl never.

(** ** Shared facts *)

Lemma response_data_list kvs xs :
  dict_get "data" kvs = Some (VList xs) ->
  response_data (json_response (VDict kvs)) = Ok xs.
Proof. intros Hd. unfold response_data. cbn. by rewrite Hd. Qed.

Lemma response_data_missing kvs :
  dict_get "data" kvs = None ->
  response_data (json_response (VDict kvs)) = Err (KeyError (VStr "data")).
Proof. intros Hd. unfold response_data. cbn. by rewrite Hd. Qed.

Lemma response_data_bad_body : response_data {| json_body := None |} = Err JSONDecodeError.
Proof. reflexivity. Qed.

Lemma nested_data_list kvs outer inner xs :
  dict_get outer kvs = Some (VDict inner) -> dict_get "data" inner = Some (VList xs) ->
  nested_data (VDict kvs) outer = Ok xs.
Proof. intros Ho Hd. unfold nested_data. cbn. rewrite Ho. cbn. by rewrite Hd. Qed.

Lemma yield_tagged_dict info x : yield_tagged info (VDict x) = ([tag info x], Ok tt).
Proof. reflexivity. Qed.

Lemma for_each_yield_tagged info (xs : list pydict) :
  for_each (map VDict xs) (yield_tagged info) = (map (tag info) xs, Ok tt).
Proof. apply for_each_map_single. intros. apply yield_tagged_dict. Qed.

Lemma yield_tagged_Forall (P : pyval -> Prop) info x :
  (forall y, py_update x info = Ok y -> P y) ->
  Forall P (rows_of (yield_tagged info x)).
Proof.
  intros H. unfold yield_tagged. apply gen_lift_Forall. intros y Hy.
  by apply yield_Forall, H.
Qed.

(** After [x.update(info)], [x[k]] is [info[k]] for every key of [info]. *)
Lemma py_update_get x info y k v :
  dict_wf info -> py_update x info = Ok y -> dict_get k info = Some v ->
  py_getitem y k = Ok v.
Proof.
  intros Hwf Hu Hk. destruct x; try done. injection Hu as <-. cbn.
  by rewrite dict_get_update, Hk.
Qed.

Lemma tag_get info x k v :
  dict_wf info -> dict_get k info = Some v -> py_getitem (tag info x) k = Ok v.
Proof. intros Hwf Hk. unfold tag. cbn. by rewrite dict_get_update, Hk. Qed.

Lemma parent_info_inv self row info :
  parent_info self row = Ok info ->
  exists pid post_id created,
    page_id self = Some pid /\ py_getitem row "id" = Ok post_id /\
    py_getitem row "created_time" = Ok created /\
    info = [("page_id", pid); ("post_id", post_id); ("post_created_time", created)].
Proof.
  unfold parent_info, read_page_id. intros Hi.
  destruct (page_id self) as [pid|]; [|done]. cbn in Hi. res_inv.
  by exists pid, a, a0.
Qed.

Lemma parent_info_wf self row info : parent_info self row = Ok info -> dict_wf info.
Proof. intros (? & ? & ? & _ & _ & _ & ->)%parent_info_inv. solve_dict_wf. Qed.

Lemma post_metric_info_inv self row insights info :
  post_metric_info self row insights = Ok info ->
  exists pid post_id created rest,
    page_id self = Some pid /\ py_getitem row "id" = Ok post_id /\
    py_getitem row "created_time" = Ok created /\
    info = ([("post_id", post_id); ("page_id", pid); ("post_created_time", created)]
            ++ rest)%list /\
    dict_keys rest = ["name"; "period"; "title"; "description"; "id"].
Proof.
  unfold post_metric_info, read_page_id. intros Hi.
  destruct (py_getitem row "id") as [post_id|]; [|done]. cbn in Hi.
  destruct (page_id self) as [pid|]; [|done]. cbn in Hi. res_inv.
  eexists pid, post_id, a, _. by split_and!.
Qed.

Lemma post_metric_info_wf self row insights info :
  post_metric_info self row insights = Ok info -> dict_wf info.
Proof.
  intros (? & ? & ? & rest & _ & _ & _ & -> & Hk)%post_metric_info_inv.
  unfold dict_wf, dict_keys in *. rewrite fmap_app, Hk. solve_dict_wf.
Qed.

Lemma metric_info_inv metric info :
  metric_info metric = Ok info ->
  dict_keys info = ["name"; "period"; "title"; "id"].
Proof. unfold metric_info. intros Hi. by res_inv. Qed.

Lemma metric_info_wf metric info : metric_info metric = Ok info -> dict_wf info.
Proof. intros Hk%metric_info_inv. unfold dict_wf. rewrite Hk. solve_dict_wf. Qed.

(** ** [Posts] *)

Lemma Posts_row_dict self pid post :
  page_id self = Some pid ->
  Posts_row self (VDict post) = ([VDict (dict_set "page_id" pid post)], Ok tt).
Proof. intros Hp. unfold Posts_row, read_page_id. by rewrite Hp. Qed.

(** On a response whose [data] is a list of objects, [Posts] yields each
    object, in order, with [page_id] set to the instance's. *)
Theorem Posts_parse_response_rows self pid kvs posts :
  page_id self = Some pid ->
  dict_get "data" kvs = Some (VList (map VDict posts)) ->
  Posts_parse_response self (json_response (VDict kvs)) = (posts_rows pid posts, Ok tt).
Proof.
  intros Hp Hd. unfold Posts_parse_response. rewrite (response_data_list _ _ Hd).
  rewrite gen_lift_ok. apply for_each_map_single. intros. by apply Posts_row_dict.
Qed.

(** ** [PostTaggedProfile] *)

(** A post without [to] contributes no rows and no error, provided
    it has the [id] and [created_time] the parent tags are read from. *)
Theorem PostTaggedProfile_post_without_to self pid post post_id created :
  page_id self = Some pid ->
  dict_get "id" post = Some post_id ->
  dict_get "created_time" post = Some created ->
  dict_get "to" post = None ->
  PostTaggedProfile_post self (VDict post) = ([], Ok tt).
Proof.
  intros Hp Hi Hc Ht. pose proof (dict_mem_None _ _ Ht) as Hm.
  unfold PostTaggedProfile_post, parent_info, read_page_id. by gen_go.
Qed.

(** C31.  A post with [to.data] a list of objects contributes each tagged
    profile with the parent's three tags merged in. *)
Theorem PostTaggedProfile_post_with_to self pid post post_id created to profiles :
  page_id self = Some pid ->
  dict_get "id" post = Some post_id ->
  dict_get "created_time" post = Some created ->
  dict_get "to" post = Some (VDict to) ->
  dict_get "data" to = Some (VList (map VDict profiles)) ->
  PostTaggedProfile_post self (VDict post) =
  (map (tag [("page_id", pid); ("post_id", post_id); ("post_created_time", created)])
       profiles, Ok tt).
Proof.
  intros Hp Hi Hc Ht Hd. pose proof (nested_data_list _ _ _ _ Ht Hd) as Hn.
  pose proof (dict_mem_Some _ _ _ Ht) as Hm.
  unfold PostTaggedProfile_post, parent_info, read_page_id. gen_go.
  apply for_each_yield_tagged.
Qed.

(** ** [PostAttachments] *)

(** C28.  An attachment with sub-attachments yields each sub-attachment tagged
    with the parent, then itself, tagged, without its [subattachments] key:
    children first, parent last. *)
Theorem PostAttachments_attachment_explodes info attachment sub subs :
  dict_get "subattachments" attachment = Some (VDict sub) ->
  dict_get "data" sub = Some (VList (map VDict subs)) ->
  PostAttachments_attachment info (VDict attachment) =
  (attachment_rows info attachment subs, Ok tt).
Proof.
  intros Hs Hd. pose proof (nested_data_list _ _ _ _ Hs Hd) as Hn.
  pose proof (for_each_yield_tagged info subs) as Hsubs.
  pose proof (dict_mem_Some _ _ _ Hs) as Hm.
  unfold PostAttachments_attachment, attachment_rows. gen_go.
  unfold dict_pop. gen_go. rewrite yield_tagged_dict. by gen_go.
Qed.

(** An attachment without sub-attachments yields itself, tagged. *)
Theorem PostAttachments_attachment_plain info attachment :
  dict_get "subattachments" attachment = None ->
  PostAttachments_attachment info (VDict attachment) = ([tag info attachment], Ok tt).
Proof.
  intros Hs%dict_mem_None. unfold PostAttachments_attachment. gen_go.
  apply yield_tagged_dict.
Qed.

Lemma attachment_rows_length info attachment subs :
  length (attachment_rows info attachment subs) = S (length subs).
Proof. unfold attachment_rows. rewrite length_app, length_map. cbn. lia. Qed.

(** The parent row of an exploded attachment no longer has the key. *)
Lemma attachment_rows_parent_popped info attachment subs :
  dict_wf attachment -> dict_wf info -> dict_get "subattachments" info = None ->
  exists parent, last (attachment_rows info attachment subs) = Some parent /\
                 py_contains "subattachments" parent = Ok false.
Proof.
  intros Hwf Hi Hn. eexists. split; [apply last_snoc|]. unfold tag. cbn.
  unfold dict_mem. by rewrite dict_get_update, Hn, dict_get_remove_eq.
Qed.

(** ** Insights *)

(** C29.  A [values] entry whose [value] is a mapping becomes one row per key,
    in the mapping's order, each with [context], [value], the entry's
    [end_time] and the metric's metadata. *)
Theorem PageInsights_values_mapping base_item values items end_time :
  dict_get "value" values = Some (VDict items) ->
  dict_get "end_time" values = Some end_time ->
  PageInsights_values base_item (VDict values) =
  (mapping_rows [("end_time", end_time)] base_item items, Ok tt).
Proof.
  intros Hv He. unfold PageInsights_values, mapping_rows. gen_go.
  apply for_each_single. intros kv _. by gen_go.
Qed.

(** A [values] entry whose [value] is not a mapping becomes exactly one
    row: the entry itself with the metric's metadata merged in. *)
Theorem PageInsights_values_scalar base_item values value :
  dict_get "value" values = Some value ->
  isinstance_dict value = false ->
  PageInsights_values base_item (VDict values) = ([tag base_item values], Ok tt).
Proof.
  intros Hv Hd. unfold PageInsights_values. cbn. rewrite Hv. cbn. by destruct value.
Qed.

(** C32.  A [values] entry without [value] makes the flattener raise
    [KeyError('value')], in either insights stream. *)
Theorem insights_values_missing_value base_item values :
  dict_get "value" values = None ->
  PageInsights_values base_item (VDict values) = ([], Err (KeyError (VStr "value"))) /\
  PostInsights_values base_item (VDict values) = ([], Err (KeyError (VStr "value"))).
Proof.
  intros Hv. unfold PageInsights_values, PostInsights_values. cbn. by rewrite Hv.
Qed.

(** C30.  [PostInsights] explodes a mapping the same way but does not carry
    [end_time]: its rows have [context], [value] and the metadata. *)
Theorem PostInsights_values_mapping base_item values items :
  dict_get "value" values = Some (VDict items) ->
  PostInsights_values base_item (VDict values) = (mapping_rows [] base_item items, Ok tt).
Proof.
  intros Hv. unfold PostInsights_values, mapping_rows. gen_go.
  by apply for_each_single.
Qed.

Theorem PostInsights_values_scalar base_item values value :
  dict_get "value" values = Some value ->
  isinstance_dict value = false ->
  PostInsights_values base_item (VDict values) = ([tag base_item values], Ok tt).
Proof.
  intros Hv Hd. unfold PostInsights_values. cbn. rewrite Hv. cbn. by destruct value.
Qed.

Lemma mapping_rows_length extra base_item items :
  length (mapping_rows extra base_item items) = length items.
Proof. unfold mapping_rows. by rewrite length_map. Qed.

Lemma mapping_rows_context extra base_item items row :
  dict_wf base_item -> dict_get "context" base_item = None ->
  row ∈ mapping_rows extra base_item items ->
  exists k v, (k, v) ∈ items /\ py_getitem row "context" = Ok (VStr k).
Proof.
  intros Hwf Hc (kv & -> & Hin)%list_elem_of_fmap. exists (fst kv), (snd kv).
  split; [by destruct kv|]. cbn. by rewrite dict_get_update, Hc.
Qed.

(** A scalar row has no [context] unless the entry had one. *)
Lemma scalar_row_no_context base_item values :
  dict_wf base_item -> dict_get "context" base_item = None ->
  dict_get "context" values = None ->
  py_contains "context" (tag base_item values) = Ok false.
Proof.
  intros Hwf Hb Hv. unfold tag. cbn. unfold dict_mem. by rewrite dict_get_update, Hb, Hv.
Qed.

(** ** Errors at the top of a response *)

(** A body that is not JSON ends every flattener at once with
    [JSONDecodeError] and no row. *)
Theorem parse_response_bad_body s self :
  parse_response s self {| json_body := None |} = ([], Err JSONDecodeError).
Proof. by destruct s. Qed.

(** A JSON object without [data] ends every flattener but [Page]'s with
    [KeyError('data')] and no row. *)
Theorem parse_response_no_data s self kvs :
  s <> Page -> dict_get "data" kvs = None ->
  parse_response s self (json_response (VDict kvs)) = ([], Err (KeyError (VStr "data"))).
Proof.
  intros Hs Hd. destruct s; try done; cbn;
    unfold Posts_parse_response, PostTaggedProfile_parse_response,
      PostAttachments_parse_response, PageInsights_parse_response,
      PostInsights_parse_response;
    by rewrite (response_data_missing _ Hd).
Qed.

(** ** What every yielded row satisfies, on any response *)

Lemma carries_update info x y :
  dict_wf info -> py_update x info = Ok y -> carries info y.
Proof. intros Hwf Hu k v Hk. by eapply py_update_get. Qed.

Lemma carries_dict_update info item : dict_wf info -> carries info (VDict (dict_update item info)).
Proof. intros Hwf k v Hk. cbn. by rewrite dict_get_update, Hk. Qed.

Lemma yield_tagged_carries info x :
  dict_wf info -> Forall (carries info) (rows_of (yield_tagged info x)).
Proof. intros Hwf. apply yield_tagged_Forall. intros y. by apply carries_update. Qed.

Lemma PostAttachments_attachment_carries info attachment :
  dict_wf info ->
  Forall (carries info) (rows_of (PostAttachments_attachment info attachment)).
Proof.
  intros Hwf. unfold PostAttachments_attachment.
  repeat first [ apply yield_tagged_carries; done | rows_step ].
Qed.

Lemma insights_values_carry base_item values :
  dict_wf base_item ->
  Forall (carries base_item) (rows_of (PageInsights_values base_item values)) /\
  Forall (carries base_item) (rows_of (PostInsights_values base_item values)).
Proof.
  intros Hwf. unfold PageInsights_values, PostInsights_values.
  split; repeat first [ apply yield_tagged_carries; done
                      | apply carries_dict_update; done | rows_step ].
Qed.

(** The rows of one post carry the post's parent tags. *)
Lemma post_rows_carry_parent s self row :
  has_post_parent s = true ->
  Forall (fun r => exists info, dict_wf info /\ carries info r /\
                     exists pid post_id created,
                       page_id self = Some pid /\
                       dict_get "page_id" info = Some pid /\
                       py_getitem row "id" = Ok post_id /\
                       dict_get "post_id" info = Some post_id /\
                       py_getitem row "created_time" = Ok created /\
                       dict_get "post_created_time" info = Some created)
    (rows_of (match s with
              | PostTaggedProfile => PostTaggedProfile_post self row
              | PostAttachments => PostAttachments_post self row
              | _ => PostInsights_post self row
              end)).
Proof.
  intros Hs. destruct s; try discriminate Hs.
  - unfold PostTaggedProfile_post. apply gen_lift_Forall. intros info Hi.
    pose proof (parent_info_wf _ _ _ Hi) as Hwf.
    apply parent_info_inv in Hi as (pid & pi & c & ? & ? & ? & ->).
    repeat rows_step. eapply Forall_impl; [by apply yield_tagged_carries|].
    intros r Hr. eexists. repeat split; [done..|]. by exists pid, pi, c.
  - unfold PostAttachments_post. apply gen_lift_Forall. intros info Hi.
    pose proof (parent_info_wf _ _ _ Hi) as Hwf.
    apply parent_info_inv in Hi as (pid & pi & c & ? & ? & ? & ->).
    repeat rows_step.
    eapply Forall_impl; [by apply PostAttachments_attachment_carries|].
    intros r Hr. eexists. repeat split; [done..|]. by exists pid, pi, c.
  - unfold PostInsights_post, PostInsights_metric. do 2 rows_step.
    apply gen_lift_Forall. intros info Hi.
    pose proof (post_metric_info_wf _ _ _ _ Hi) as Hwf.
    apply post_metric_info_inv in Hi as (pid & pi & c & rest & ? & ? & ? & -> & ?).
    repeat rows_step.
    eapply Forall_impl; [by apply insights_values_carry|].
    intros r Hr. eexists. repeat split; [done..|]. by exists pid, pi, c.
Qed.

(** C33.  Parent linkage: every row that [PostTaggedProfile],
    [PostAttachments] or [PostInsights] yield, on any response, has the
    instance's [page_id] and the [id] and [created_time] of one post of the
    response as [post_id] and [post_created_time]. *)
Theorem rows_carry_parent_tags s self response :
  has_post_parent s = true ->
  Forall (fun r => exists data post pid post_id created,
                     response_data response = Ok data /\ post ∈ data /\
                     page_id self = Some pid /\
                     py_getitem post "id" = Ok post_id /\
                     py_getitem post "created_time" = Ok created /\
                     py_getitem r "page_id" = Ok pid /\
                     py_getitem r "post_id" = Ok post_id /\
                     py_getitem r "post_created_time" = Ok created)
    (rows_of (parse_response s self response)).
Proof.
  intros Hs. pose proof (post_rows_carry_parent s self) as Hpost.
  destruct s; try discriminate Hs; cbn [parse_response];
    unfold PostTaggedProfile_parse_response, PostAttachments_parse_response,
      PostInsights_parse_response;
    apply gen_lift_Forall; intros data Hd; apply for_each_rows; intros post Hin;
    (eapply Forall_impl; [apply (Hpost post eq_refl)|]);
    intros r (info & Hwf & Hc & pid & pi & c & ? & ? & ? & ? & ? & ?);
    exists data, post, pid, pi, c; split_and!; auto.
Qed.

(** *** Unique keys *)

Lemma wf_val_elem xs x : Forall wf_val xs -> x ∈ xs -> wf_val x.
Proof. rewrite Forall_forall. auto. Qed.

Lemma wf_info_cons k v info :
  wf_val v -> wf_info info -> wf_info ((k, v) :: info).
Proof. by constructor. Qed.

Lemma wf_info_nil : wf_info [].
Proof. constructor. Qed.

Lemma response_data_wf response xs :
  wf_response response -> response_data response = Ok xs -> Forall wf_val xs.
Proof.
  unfold wf_response, response_data, response_json. destruct (json_body response); [|done].
  cbn. intros Hwf Hd. res_inv. eauto using py_iter_wf, py_getitem_wf.
Qed.

Lemma nested_data_wf row outer xs :
  wf_val row -> nested_data row outer = Ok xs -> Forall wf_val xs.
Proof.
  unfold nested_data. intros Hwf Hd. res_inv. eauto 6 using py_iter_wf, py_getitem_wf.
Qed.

Lemma read_page_id_wf self pid : wf_self self -> read_page_id self = Ok pid -> wf_val pid.
Proof.
  unfold wf_self, read_page_id. destruct (page_id self); cbn; [by intros ? [= <-]|done].
Qed.

Lemma parent_info_wf_info self row info :
  wf_self self -> wf_val row -> parent_info self row = Ok info -> wf_info info.
Proof.
  unfold parent_info. intros Hs Hr Hi. res_inv.
  repeat apply wf_info_cons; eauto using wf_info_nil, read_page_id_wf, py_getitem_wf.
Qed.

Lemma metric_info_wf_info row info : wf_val row -> metric_info row = Ok info -> wf_info info.
Proof.
  unfold metric_info. intros Hr Hi. res_inv.
  repeat apply wf_info_cons; eauto using wf_info_nil, py_getitem_wf.
Qed.

Lemma post_metric_info_wf_info self row insights info :
  wf_self self -> wf_val row -> wf_val insights ->
  post_metric_info self row insights = Ok info -> wf_info info.
Proof.
  unfold post_metric_info. intros Hs Hr Hins Hi. res_inv.
  repeat apply wf_info_cons; eauto using wf_info_nil, read_page_id_wf, py_getitem_wf.
Qed.

Lemma yield_tagged_wf info x :
  wf_val x -> wf_info info -> Forall wf_val (rows_of (yield_tagged info x)).
Proof.
  intros Hx Hi. apply yield_tagged_Forall. intros y Hy. by eapply py_update_wf.
Qed.

Lemma for_each_yield_tagged_wf info xs :
  Forall wf_val xs -> wf_info info ->
  Forall wf_val (rows_of (for_each xs (yield_tagged info))).
Proof.
  intros Hxs Hi. apply for_each_rows. intros x Hx.
  apply yield_tagged_wf; eauto using wf_val_elem.
Qed.

Lemma PostAttachments_attachment_wf info attachment :
  wf_val attachment -> wf_info info ->
  Forall wf_val (rows_of (PostAttachments_attachment info attachment)).
Proof.
  intros Ha Hi. unfold PostAttachments_attachment. apply gen_lift_Forall.
  intros [] Hc; apply gen_bind_Forall_ok.
  - apply gen_lift_Forall. intros subs Hsubs. apply gen_bind_Forall; [|intros _].
    + eauto using for_each_yield_tagged_wf, nested_data_wf.
    + repeat rows_step.
  - intros a (subs & _ & (? & _ & Hout)%gen_bind_outcome_inv)%gen_bind_outcome_inv.
    apply gen_bind_outcome_inv in Hout as ([popped rest] & Hp & [= <-]).
    apply yield_tagged_wf; [|done].
    by destruct (py_pop_wf attachment "subattachments" popped rest Ha Hp).
  - constructor.
  - intros a [= <-]. by apply yield_tagged_wf.
Qed.

Lemma mapping_item_wf item base_item :
  dict_wf item -> wf_info item -> wf_info base_item ->
  wf_val (VDict (dict_update item base_item)).
Proof.
  intros Hk Hi Hb. apply wf_val_dict.
  split; [by apply dict_update_wf | by apply Forall_dict_update].
Qed.

Lemma insights_values_wf base_item values :
  wf_val values -> wf_info base_item ->
  Forall wf_val (rows_of (PageInsights_values base_item values)) /\
  Forall wf_val (rows_of (PostInsights_values base_item values)).
Proof.
  intros Hv Hb. unfold PageInsights_values, PostInsights_values.
  split; apply gen_lift_Forall; intros value Hval;
    pose proof (py_getitem_wf _ _ _ Hv Hval) as Hwv;
    destruct value; try (by apply yield_tagged_wf);
    apply wf_val_dict in Hwv as [_ Hitems]; rewrite Forall_forall in Hitems;
    apply for_each_rows; intros [k v] Hin; specialize (Hitems _ Hin);
    repeat rows_step;
    (apply mapping_item_wf; [solve_dict_wf | | done]);
    repeat apply wf_info_cons; cbn; eauto using wf_info_nil, py_getitem_wf.
Qed.

(** Every row of every stream, on any well-formed response, is a
    well-formed value: no flattener produces a dict with a repeated key. *)
Lemma parse_response_rows_wf s self response :
  wf_self self -> wf_response response ->
  Forall wf_val (rows_of (parse_response s self response)).
Proof.
  intros Hself Hresp. pose proof (response_data_wf response) as Hdata.
  destruct s; cbn [parse_response].
  - unfold Page_parse_response, wf_response, response_json in *.
    destruct (json_body response) as [v|]; [|constructor]. gen_go.
    destruct (isinstance_dict v); repeat rows_step; eauto using wf_val_elem, py_iter_wf.
  - unfold Posts_parse_response, Posts_row. repeat rows_step.
    eauto using py_setitem_wf, wf_val_elem, read_page_id_wf.
  - unfold PostTaggedProfile_parse_response, PostTaggedProfile_post. repeat rows_step.
    apply yield_tagged_wf;
      eauto 6 using wf_val_elem, nested_data_wf, parent_info_wf_info.
  - unfold PostAttachments_parse_response, PostAttachments_post. repeat rows_step.
    apply PostAttachments_attachment_wf;
      eauto 6 using wf_val_elem, nested_data_wf, parent_info_wf_info.
  - unfold PageInsights_parse_response, PageInsights_metric. repeat rows_step.
    res_inv. apply insights_values_wf;
      eauto 7 using wf_val_elem, metric_info_wf_info, py_iter_wf, py_getitem_wf.
  - unfold PostInsights_parse_response, PostInsights_post, PostInsights_metric.
    repeat rows_step. res_inv.
    apply insights_values_wf;
      eauto 8 using wf_val_elem, post_metric_info_wf_info, nested_data_wf,
        py_iter_wf, py_getitem_wf.
Qed.

(** [Posts] too writes the instance's [page_id] into every row. *)
Lemma Posts_rows_carry_page_id self response :
  Forall (fun r => exists pid, page_id self = Some pid /\ py_getitem r "page_id" = Ok pid)
    (rows_of (Posts_parse_response self response)).
Proof.
  unfold Posts_parse_response, Posts_row. repeat rows_step.
  unfold read_page_id in *. destruct (page_id self) as [pid|]; [|done].
  exists pid. split; [done|]. destruct x; try done. cbn in *. simplify_eq. cbn.
  by rewrite dict_get_set_eq.
Qed.

(** The four streams that tag their rows write the instance's [page_id]
    into every row they yield. *)
Lemma parse_response_rows_page_id s self response :
  tags_page_id s = true ->
  Forall (fun r => exists pid, page_id self = Some pid /\ py_getitem r "page_id" = Ok pid)
    (rows_of (parse_response s self response)).
Proof.
  intros Hs. pose proof (post_rows_carry_parent s self) as Hpost.
  destruct s; try discriminate Hs; cbn [parse_response];
    [apply Posts_rows_carry_page_id|..];
    unfold PostTaggedProfile_parse_response, PostAttachments_parse_response,
      PostInsights_parse_response;
    apply gen_lift_Forall; intros data Hd; apply for_each_rows; intros post Hin;
    (eapply Forall_impl; [apply (Hpost post eq_refl)|]);
    intros r (info & Hwf & Hc & pid & pi & c & ? & ? & ? & ? & ? & ?);
    exists pid; split; auto.
Qed.

(** Every row of every stream but [Page] is a dict. *)
Lemma yield_tagged_rows_dict info x :
  Forall (fun r => isinstance_dict r = true) (rows_of (yield_tagged info x)).
Proof. apply yield_tagged_Forall. intros y. by destruct x; intros [= <-]. Qed.

Lemma parse_response_rows_dict s self response :
  s <> Page ->
  Forall (fun r => isinstance_dict r = true) (rows_of (parse_response s self response)).
Proof.
  intros Hs. destruct s; try done; cbn [parse_response];
    unfold Posts_parse_response, Posts_row, PostTaggedProfile_parse_response,
      PostTaggedProfile_post, PostAttachments_parse_response, PostAttachments_post,
      PostAttachments_attachment, PageInsights_parse_response, PageInsights_metric,
      PageInsights_values, PostInsights_parse_response, PostInsights_post,
      PostInsights_metric, PostInsights_values;
    repeat first [ apply yield_tagged_rows_dict | rows_step ]; try done.
  match goal with H : py_setitem ?x _ _ = Ok _ |- _ => by destruct x; simplify_eq/= end.
Qed.

(** ** The theorems at sample responses *)

Lemma Posts_parse_response_rows_witness :
  Posts_parse_response example_tagged_self
    (json_response (VDict [("data", VList [VDict [("id", VStr "p1")]])])) =
  ([VDict [("id", VStr "p1"); ("page_id", VStr "123")]], Ok tt).
Proof.
  apply (Posts_parse_response_rows example_tagged_self (VStr "123")
           [("data", VList [VDict [("id", VStr "p1")]])] [[("id", VStr "p1")]]);
    reflexivity.
Defined.

Lemma PostTaggedProfile_post_without_to_witness :
  PostTaggedProfile_post example_tagged_self
    (VDict [("id", VStr "p1"); ("created_time", VStr "2021-03-01T10:00:00+0000")]) =
  ([], Ok tt).
Proof.
  apply (PostTaggedProfile_post_without_to example_tagged_self (VStr "123") _
           (VStr "p1") (VStr "2021-03-01T10:00:00+0000")); reflexivity.
Defined.

Lemma PostTaggedProfile_post_with_to_witness :
  PostTaggedProfile_post example_tagged_self
    (VDict [("id", VStr "p1"); ("created_time", VStr "2021-03-01T10:00:00+0000");
            ("to", VDict [("data", VList [VDict [("id", VStr "u1"); ("name", VStr "Ann")]])])]) =
  ([VDict [("id", VStr "u1"); ("name", VStr "Ann"); ("page_id", VStr "123");
           ("post_id", VStr "p1"); ("post_created_time", VStr "2021-03-01T10:00:00+0000")]],
   Ok tt).
Proof.
  apply (PostTaggedProfile_post_with_to example_tagged_self (VStr "123") _
           (VStr "p1") (VStr "2021-03-01T10:00:00+0000")
           [("data", VList [VDict [("id", VStr "u1"); ("name", VStr "Ann")]])]
           [[("id", VStr "u1"); ("name", VStr "Ann")]]); reflexivity.
Defined.

Lemma PostAttachments_attachment_explodes_witness :
  PostAttachments_attachment [("page_id", VStr "123")] (VDict example_attachment) =
  ([VDict [("id", VStr "s1"); ("page_id", VStr "123")];
    VDict [("id", VStr "s2"); ("page_id", VStr "123")];
    VDict [("id", VStr "a1"); ("type", VStr "album"); ("page_id", VStr "123")]], Ok tt).
Proof.
  apply (PostAttachments_attachment_explodes [("page_id", VStr "123")] example_attachment
           [("data", VList [VDict [("id", VStr "s1")]; VDict [("id", VStr "s2")]])]
           [[("id", VStr "s1")]; [("id", VStr "s2")]]); reflexivity.
Defined.

Lemma PageInsights_values_mapping_witness :
  PageInsights_values [("name", VStr "page_fans")]
    (VDict [("value", VDict [("a", VInt 1); ("b", VInt 2)]);
            ("end_time", VStr "2021-03-02")]) =
  ([VDict [("context", VStr "a"); ("value", VInt 1); ("end_time", VStr "2021-03-02");
           ("name", VStr "page_fans")];
    VDict [("context", VStr "b"); ("value", VInt 2); ("end_time", VStr "2021-03-02");
           ("name", VStr "page_fans")]], Ok tt).
Proof.
  apply (PageInsights_values_mapping [("name", VStr "page_fans")] _
           [("a", VInt 1); ("b", VInt 2)] (VStr "2021-03-02")); reflexivity.
Defined.

Lemma PageInsights_values_scalar_witness :
  PageInsights_values [("name", VStr "page_fans")]
    (VDict [("value", VInt 7); ("end_time", VStr "2021-03-03")]) =
  ([VDict [("value", VInt 7); ("end_time", VStr "2021-03-03");
           ("name", VStr "page_fans")]], Ok tt).
Proof.
  apply (PageInsights_values_scalar [("name", VStr "page_fans")]
           [("value", VInt 7); ("end_time", VStr "2021-03-03")] (VInt 7));
    reflexivity.
Defined.

Lemma insights_values_missing_value_witness :
  PageInsights_values [] (VDict [("end_time", VStr "2021-03-03")]) =
    ([], Err (KeyError (VStr "value"))) /\
  PostInsights_values [] (VDict [("end_time", VStr "2021-03-03")]) =
    ([], Err (KeyError (VStr "value"))).
Proof.
  apply (insights_values_missing_value [] [("end_time", VStr "2021-03-03")]).
  reflexivity.
Defined.

Lemma PostInsights_values_mapping_witness :
  PostInsights_values [("name", VStr "post_reactions")]
    (VDict [("value", VDict [("like", VInt 3)])]) =
  ([VDict [("context", VStr "like"); ("value", VInt 3); ("name", VStr "post_reactions")]],
   Ok tt).
Proof.
  apply (PostInsights_values_mapping [("name", VStr "post_reactions")] _
           [("like", VInt 3)]); reflexivity.
Defined.

Lemma parse_response_no_data_witness :
  parse_response Posts example_tagged_self (json_response (VDict [("error", VStr "x")])) =
  ([], Err (KeyError (VStr "data"))).
Proof.
  apply (parse_response_no_data Posts example_tagged_self [("error", VStr "x")]);
    [discriminate | reflexivity].
Defined.

Lemma rows_carry_parent_tags_witness :
  Forall (fun r => exists data post pid post_id created,
                     response_data
                       (json_response (VDict [("data", VList [example_post])])) = Ok data /\
                     post ∈ data /\
                     page_id example_tagged_self = Some pid /\
                     py_getitem post "id" = Ok post_id /\
                     py_getitem post "created_time" = Ok created /\
                     py_getitem r "page_id" = Ok pid /\
                     py_getitem r "post_id" = Ok post_id /\
                     py_getitem r "post_created_time" = Ok created)
    (rows_of (parse_response PostAttachments example_tagged_self
                (json_response (VDict [("data", VList [example_post])])))).
Proof.
  apply (rows_carry_parent_tags PostAttachments example_tagged_self
           (json_response (VDict [("data", VList [example_post])]))). reflexivity.
Defined.
