(* ===== verification/Redact.v ===== *)
(** * Redact: the line that is logged for a request

    [FacebookPagesStream.prepare_request] logs the URL of every request,
    percent-decoded, after
    [re.sub("access_token=[a-zA-Z0-9]+&", "access_token=*****&", url)].

    - [match_here s] is the match of the pattern at the start of [s]: the
      literal [access_token=], then as many ASCII letters and digits as
      there are (one at least), then [&].  The character class excludes
      [&], so the longest run is the only candidate and backtracking never
      finds another match.  The result is the text after the match;
    - [re_sub] is the substitution the way the [re] module does it: the
      text is scanned from the left, a match is replaced by the mask and
      the scan goes on after it, a position without a match is copied.
      [re_sub_from] carries the number of characters still covered by the
      last match, which makes the recursion structural;
    - [matches_before pre rest] says that no match starts inside [pre] when
      [rest] follows, and [matches_nowhere s] that none starts anywhere;
    - [logged_url url] is the logged line for the request's URL;
      [Engine.prepare_request] applies it to the URL of the request it
      returns;
    - [compat] and [mask_free] are the two facts about strings the proof
      that the output holds no match is built on: where the mask can lie
      over a text, and that it cannot lie anywhere over a matched text. *)

From Stdlib Require Import List String Ascii ZArith Bool Lia.
From stdpp Require Import base tactics list.
From S2P Require Import Prelude PyDict PyValue Streams Url.
Import ListNotations.

Set Default Proof Using "Type".
Local Open Scope string_scope.

(** ** The pattern *)

(** [[a-zA-Z0-9]] *)
Definition is_alnum (c : ascii) : bool :=
  let n := nat_of_ascii c in
  (((48 <=? n) && (n <=? 57)) || ((65 <=? n) && (n <=? 90)) ||
   ((97 <=? n) && (n <=? 122)))%nat.

Fixpoint all_alnum (s : string) : bool :=
  match s with
  | "" => true
  | String c s' => is_alnum c && all_alnum s'
  end.

(** [s] without its prefix [p], when it starts with [p]. *)
Fixpoint strip_prefix (p s : string) : option string :=
  match p, s with
  | "", _ => Some s
  | String a p', String b s' => if Ascii.eqb a b then strip_prefix p' s' else None
  | String _ _, "" => None
  end.

(** The longest prefix of letters and digits, and what follows it. *)
Fixpoint span_alnum (s : string) : string * string :=
  match s with
  | "" => ("", "")
  | String c s' =>
      if is_alnum c then
        let '(run, rest) := span_alnum s' in (String c run, rest)
      else ("", s)
  end.

Definition token_literal : string := "access_token=".
Definition mask : string := "access_token=*****&".

Definition match_here (s : string) : option string :=
  match strip_prefix token_literal s with
  | Some rest =>
      match span_alnum rest with
      | (String _ _, String c after) => if Ascii.eqb c "&" then Some after else None
      | _ => None
      end
  | None => None
  end.

(** ** The substitution *)

Fixpoint re_sub_from (skip : nat) (s : string) : string :=
  match s with
  | "" => ""
  | String c s' =>
      match skip with
      | S k => re_sub_from k s'
      | O =>
          match match_here s with
          | Some after =>
              mask ++ re_sub_from (String.length s' - String.length after) s'
          | None => String c (re_sub_from 0 s')
          end
      end
  end.

Definition re_sub (s : string) : string := re_sub_from 0 s.

(** No match starts inside [pre] when [rest] follows it. *)
Fixpoint matches_before (pre rest : string) : bool :=
  match pre with
  | "" => true
  | String c pre' =>
      match match_here (pre ++ rest) with
      | Some _ => false
      | None => matches_before pre' rest
      end
  end.

Definition matches_nowhere (s : string) : bool := matches_before s "".

(** [u] and [m] agree wherever both have a character. *)
Fixpoint compat (u m : string) : bool :=
  match u, m with
  | String a u', String b m' => Ascii.eqb a b && compat u' m'
  | _, _ => true
  end.

(** The mask cannot be laid over [p] at any position: a text that starts
    with [p] was copied from its input up to the end of [p]. *)
Fixpoint mask_free (p : string) : bool :=
  match p with
  | "" => true
  | String _ p' => negb (compat p mask) && mask_free p'
  end.

(** ** The logged line *)

(** The text of the [INFO] line of [prepare_request]. *)
Definition logged_url (url : string) : string := re_sub (unquote url).

(** Sample URLs for the examples. *)
Definition example_url : string :=
  "https://graph.facebook.com/v10.0/123/posts?access_token=ABCD1234&limit=100".

Definition example_trailing_url : string :=
  "https://graph.facebook.com/v10.0/123/posts?limit=100&access_token=ABCD1234".

Definition example_app_token_url : string :=
  "https://graph.facebook.com/v10.0/123/posts?access_token=1234|ABCD&limit=100".

(** ** Strings *)

Lemma strip_prefix_app p s : strip_prefix p (p ++ s) = Some s.
Proof. induction p as [|a p IH]; cbn; [by destruct s|]. by rewrite Ascii.eqb_refl. Qed.

Lemma strip_prefix_inv p s r : strip_prefix p s = Some r -> s = p ++ r.
Proof.
  revert s. induction p as [|a p IH]; intros s; cbn; [by intros [= ->]|].
  destruct s as [|b s]; [done|]. destruct (Ascii.eqb a b) eqn:E; [|done].
  apply Ascii.eqb_eq in E as ->. intros Hs. by rewrite (IH _ Hs).
Qed.

Lemma span_alnum_inv s run rest :
  span_alnum s = (run, rest) -> s = run ++ rest /\ all_alnum run = true.
Proof.
  revert run rest. induction s as [|c s IH]; intros run rest; cbn.
  - by intros [= <- <-].
  - destruct (is_alnum c) eqn:E; [|by intros [= <- <-]].
    destruct (span_alnum s) as [run' rest']. intros [= <- <-].
    destruct (IH _ _ eq_refl) as [-> Hr]. cbn. by rewrite E, Hr.
Qed.

Lemma span_alnum_stop tok c rest :
  all_alnum tok = true -> is_alnum c = false ->
  span_alnum (tok ++ String c rest) = (tok, String c rest).
Proof.
  intros Ht Hc. induction tok as [|a tok IH]; cbn in *; [by rewrite Hc|].
  apply andb_prop in Ht as [Ha Ht]. by rewrite Ha, IH.
Qed.

(** ** A match *)

Lemma match_here_intro tok after :
  tok <> "" -> all_alnum tok = true ->
  match_here (token_literal ++ tok ++ String "&" after) = Some after.
Proof.
  intros Hne Ht. unfold match_here.
  rewrite strip_prefix_app, (span_alnum_stop tok "&" after) by done. by destruct tok.
Qed.

Lemma match_here_inv s after :
  match_here s = Some after ->
  exists tok, s = token_literal ++ tok ++ String "&" after /\
              tok <> "" /\ all_alnum tok = true.
Proof.
  unfold match_here. destruct (strip_prefix token_literal s) as [rest|] eqn:Hp; [|done].
  apply strip_prefix_inv in Hp as ->.
  destruct (span_alnum rest) as [run rest'] eqn:Hs.
  apply span_alnum_inv in Hs as [-> Hr].
  destruct run as [|c run]; [done|]. destruct rest' as [|a rest']; [done|].
  destruct (Ascii.eqb a "&") eqn:Ha; [|done]. apply Ascii.eqb_eq in Ha as ->.
  intros [= <-]. by exists (String c run).
Qed.

(** ** The substitution, by its equations *)

Lemma re_sub_from_skip pre s :
  re_sub_from (String.length pre) (pre ++ s) = re_sub_from 0 s.
Proof. induction pre as [|c pre IH]; [done|]. cbn [String.length append re_sub_from]. done. Qed.

Lemma re_sub_from_suffix pre after :
  re_sub_from (String.length (pre ++ after) - String.length after) (pre ++ after) =
  re_sub_from 0 after.
Proof.
  rewrite string_length_app.
  replace (String.length pre + String.length after - String.length after)%nat
    with (String.length pre) by lia.
  apply re_sub_from_skip.
Qed.

Lemma re_sub_from_cons c s :
  re_sub_from 0 (String c s) =
  match match_here (String c s) with
  | Some after => mask ++ re_sub_from (String.length s - String.length after) s
  | None => String c (re_sub_from 0 s)
  end.
Proof. reflexivity. Qed.

(** A matched text, seen from its first character. *)
Lemma token_shape tok after :
  token_literal ++ tok ++ String "&" after =
  String "a" (("ccess_token=" ++ tok ++ "&") ++ after).
Proof. cbn. by rewrite string_app_assoc. Qed.

(** A match is replaced by the mask and the scan goes on after it. *)
Lemma re_sub_match s after :
  match_here s = Some after -> re_sub s = mask ++ re_sub after.
Proof.
  intros Hm. pose proof Hm as (tok & Hs & _ & _)%match_here_inv.
  rewrite token_shape in Hs. subst s.
  unfold re_sub. rewrite re_sub_from_cons, Hm. f_equal.
  apply re_sub_from_suffix.
Qed.

(** A position without a match is copied. *)
Lemma re_sub_no_match c s :
  match_here (String c s) = None -> re_sub (String c s) = String c (re_sub s).
Proof. intros Hm. unfold re_sub. by rewrite re_sub_from_cons, Hm. Qed.

Lemma re_sub_before pre rest :
  matches_before pre rest = true -> re_sub (pre ++ rest) = pre ++ re_sub rest.
Proof.
  induction pre as [|c pre IH]; cbn [matches_before append]; [done|].
  destruct (match_here (String c (pre ++ rest))) eqn:Hm; [done|].
  intros Hb. by rewrite re_sub_no_match, IH.
Qed.

(** ** Texts in which no match starts *)

Lemma matches_before_app a b rest :
  matches_before (a ++ b) rest = matches_before a (b ++ rest) && matches_before b rest.
Proof.
  induction a as [|c a IH]; [done|]. cbn [append matches_before].
  rewrite string_app_assoc. by destruct (match_here (String c (a ++ b ++ rest))).
Qed.

(** A match starts with the [a] of [access_token]. *)
Lemma matches_before_lacks pre rest : lacks "a" pre = true -> matches_before pre rest = true.
Proof.
  induction pre as [|c pre IH]; [done|]. cbn [lacks matches_before append].
  intros [Hc Hpre]%andb_prop. unfold match_here. cbn [token_literal strip_prefix].
  rewrite Ascii.eqb_sym. apply negb_true_iff in Hc. rewrite Hc. auto.
Qed.

(** A match ends with [&]. *)
Lemma matches_nowhere_lacks s : lacks "&" s = true -> matches_nowhere s = true.
Proof.
  unfold matches_nowhere. induction s as [|c s IH]; [done|].
  cbn [matches_before]. intros Hl. rewrite string_app_nil_r.
  destruct (match_here (String c s)) as [after|] eqn:Hm.
  - apply match_here_inv in Hm as (tok & Hs & _). rewrite Hs, !lacks_app in Hl. cbn in Hl.
    by rewrite !andb_false_r in Hl.
  - cbn [lacks] in Hl. apply andb_prop in Hl as [_ Hl]. auto.
Qed.

(** A text in which no match starts is copied. *)
Lemma re_sub_clean pre rest :
  matches_before pre rest = true -> matches_nowhere rest = true ->
  re_sub (pre ++ rest) = pre ++ rest.
Proof.
  intros Hpre Hrest. rewrite re_sub_before by done. f_equal.
  rewrite <- (string_app_nil_r rest) at 1. rewrite re_sub_before by done.
  apply string_app_nil_r.
Qed.

(** A text with one token, followed by [&]: the token is masked and the
    rest is copied. *)
Lemma re_sub_token pre tok rest :
  matches_before pre (token_literal ++ tok ++ String "&" rest) = true ->
  tok <> "" -> all_alnum tok = true -> matches_nowhere rest = true ->
  re_sub (pre ++ token_literal ++ tok ++ String "&" rest) = pre ++ mask ++ rest.
Proof.
  intros Hpre Hne Ht Hrest. rewrite re_sub_before by done. f_equal.
  rewrite (re_sub_match _ rest) by (by apply match_here_intro). f_equal.
  by apply (re_sub_clean "").
Qed.

(** Letters and digits are not reserved. *)
Lemma lacks_alnum c tok : is_alnum c = false -> all_alnum tok = true -> lacks c tok = true.
Proof.
  intros Hc. induction tok as [|a tok IH]; [done|]. cbn [all_alnum lacks].
  intros [Ha Htok]%andb_prop. rewrite IH, andb_true_r by done.
  apply negb_true_iff, Ascii.eqb_neq. by intros ->; rewrite Hc in Ha.
Qed.

Lemma all_alnum_plain tok : all_alnum tok = true -> plain tok = true.
Proof. intros Ht. unfold plain. cbn [forallb reserved]. by rewrite !lacks_alnum. Qed.

(** A match ends at the first [&] after its start: whether one starts in
    a text that ends with [&] does not depend on what follows the text. *)
Lemma app_amp_split a x r b :
  lacks "&" a = true -> x ++ String "&" r = a ++ String "&" b ->
  exists t, x ++ "&" = a ++ String "&" t.
Proof.
  revert x. induction a as [|d a IH]; intros [|c x]; cbn [append lacks].
  - by exists "".
  - intros _ [= -> _]. by exists (x ++ "&").
  - by intros [Hd _]%andb_prop [= <- _].
  - intros [_ Ha]%andb_prop [= -> Heq]. destruct (IH x Ha Heq) as [t ->]. by exists t.
Qed.

Lemma match_here_amp x r :
  match_here (x ++ "&") = None -> match_here (x ++ String "&" r) = None.
Proof.
  intros Hx. destruct (match_here (x ++ String "&" r)) as [after|] eqn:Hm; [|done].
  apply match_here_inv in Hm as (tok & Heq & Hne & Htok).
  rewrite <- string_app_assoc in Heq.
  destruct (app_amp_split (token_literal ++ tok) x r after) as [t Ht]; [|done|].
  { rewrite lacks_app. by rewrite (lacks_alnum "&" tok). }
  by rewrite Ht, string_app_assoc, match_here_intro in Hx.
Qed.

Lemma matches_before_amp q rest :
  matches_nowhere (q ++ "&") = true -> matches_before (q ++ "&") rest = true.
Proof.
  unfold matches_nowhere. induction q as [|c q IH]; [done|].
  cbn [append matches_before]. rewrite string_app_nil_r.
  destruct (match_here (String c (q ++ "&"))) eqn:Hm; [done|]. intros Hq.
  change (String c (q ++ "&")) with (String c q ++ "&") in Hm.
  apply (match_here_amp _ rest) in Hm. rewrite string_app_assoc. cbn [append] in Hm |- *.
  rewrite Hm. auto.
Qed.

(** ** The output has no match left *)

Lemma matches_nowhere_app p r :
  matches_nowhere (p ++ r) = matches_before p r && matches_nowhere r.
Proof.
  unfold matches_nowhere. induction p as [|c p IH]; [done|].
  cbn [append matches_before]. rewrite string_app_nil_r.
  by destruct (match_here (String c (p ++ r))).
Qed.

(** No match starts inside the mask, whatever follows it. *)
Lemma matches_before_mask rest : matches_before mask rest = true.
Proof. reflexivity. Qed.

Lemma compat_app u x m y : u ++ x = m ++ y -> compat u m = true.
Proof.
  revert m. induction u as [|a u IH]; intros [|b m]; cbn [compat append]; try done.
  intros [= -> Heq]. rewrite Ascii.eqb_refl. eauto.
Qed.

(** Letters and digits followed by [&] never agree with a text that has
    another character after a run of letters and digits. *)
Lemma compat_stop t m1 c m2 :
  all_alnum t = true -> all_alnum m1 = true ->
  is_alnum c = false -> Ascii.eqb "&" c = false ->
  compat (t ++ "&") (m1 ++ String c m2) = false.
Proof.
  intros Ht Hm Hc Hamp. revert t Ht.
  induction m1 as [|b m1 IH]; intros [|a t] Ht; cbn [compat append all_alnum] in *.
  - by rewrite Hamp.
  - apply andb_prop in Ht as [Ha _]. destruct (Ascii.eqb a c) eqn:E; [|done].
    apply Ascii.eqb_eq in E as ->. congruence.
  - apply andb_prop in Hm as [Hb _]. destruct (Ascii.eqb "&" b) eqn:E; [|done].
    by apply Ascii.eqb_eq in E as <-.
  - apply andb_prop in Hm as [_ Hm]. apply andb_prop in Ht as [_ Ht].
    rewrite (IH Hm t Ht). apply andb_false_r.
Qed.

Lemma mask_free_token tok : all_alnum tok = true -> mask_free (tok ++ "&") = true.
Proof.
  induction tok as [|a tok IH]; [done|]. intros Ht.
  pose proof (compat_stop (String a tok) "access" "_" "token=*****&" Ht eq_refl eq_refl
                eq_refl) as Hc.
  change (compat (String a (tok ++ "&")) mask = false) in Hc.
  cbn [mask_free append]. rewrite Hc. apply IH. by apply andb_prop in Ht as [_ ?].
Qed.

Lemma mask_free_match tok :
  all_alnum tok = true -> mask_free ("ccess_token=" ++ tok ++ "&") = true.
Proof. intros Ht. exact (mask_free_token tok Ht). Qed.

(** What the output starts with, up to the first place where the mask
    could lie, the input starts with. *)
Lemma re_sub_prefix p :
  mask_free p = true -> forall s x, re_sub s = p ++ x -> exists y, s = p ++ y.
Proof.
  induction p as [|c p IH]; intros Hp s x; [by exists s|].
  cbn [mask_free] in Hp. apply andb_prop in Hp as [Hc Hp]. apply negb_true_iff in Hc.
  destruct s as [|d s]; [done|].
  destruct (match_here (String d s)) as [after|] eqn:Hm.
  - rewrite (re_sub_match _ _ Hm). intros Heq. symmetry in Heq.
    apply compat_app in Heq. congruence.
  - rewrite (re_sub_no_match _ _ Hm). cbn [append]. intros [= -> Heq].
    destruct (IH Hp _ _ Heq) as [y ->]. by exists y.
Qed.

(** A position that is copied does not start a match in the output. *)
Lemma match_here_re_sub c s :
  match_here (String c s) = None -> match_here (String c (re_sub s)) = None.
Proof.
  intros Hm. destruct (match_here (String c (re_sub s))) as [after|] eqn:Hr; [|done].
  apply match_here_inv in Hr as (tok & Heq & Hne & Ht).
  rewrite token_shape in Heq. injection Heq as -> Heq.
  destruct (re_sub_prefix _ (mask_free_match tok Ht) s after Heq) as [y ->].
  by rewrite <- token_shape, match_here_intro in Hm.
Qed.

Lemma re_sub_clean_upto n s :
  (String.length s <= n)%nat -> matches_nowhere (re_sub s) = true.
Proof.
  revert s. induction n as [|n IH]; intros [|c s] Hlen; try done; [cbn in Hlen; lia|].
  destruct (match_here (String c s)) as [after|] eqn:Hm.
  - rewrite (re_sub_match _ _ Hm), matches_nowhere_app, matches_before_mask.
    apply IH. apply match_here_inv in Hm as (tok & Heq & _).
    apply (f_equal String.length) in Heq. rewrite !string_length_app in Heq.
    cbn in Heq, Hlen. lia.
  - rewrite (re_sub_no_match _ _ Hm).
    change (String c (re_sub s)) with (String c "" ++ re_sub s).
    rewrite matches_nowhere_app. cbn [matches_before append].
    rewrite (match_here_re_sub _ _ Hm). apply IH. cbn in Hlen. lia.
Qed.

(** C38.  The leftmost token is masked: when no match starts before it, an
    [access_token] parameter whose value is made of letters and digits and is
    followed by [&] is logged as [access_token=*****&], the text before it is
    logged as it is, and the substitution goes on in the text after it. *)
Theorem re_sub_masks_token pre tok after :
  matches_before pre (token_literal ++ tok ++ String "&" after) = true ->
  tok <> "" -> all_alnum tok = true ->
  re_sub (pre ++ token_literal ++ tok ++ String "&" after) = pre ++ mask ++ re_sub after.
Proof.
  intros Hb Hne Ht. rewrite re_sub_before by done. f_equal.
  apply re_sub_match. by apply match_here_intro.
Qed.

(** C37.  Nothing the pattern matches is left in a logged line, whatever the
    URL: the substitution creates no new match where it put the mask or where
    it copied, so applying it again changes nothing. *)
Theorem logged_url_has_no_match url :
  matches_nowhere (logged_url url) = true /\
  re_sub (logged_url url) = logged_url url.
Proof.
  assert (matches_nowhere (logged_url url) = true) as Hn
    by (by apply (re_sub_clean_upto (String.length (unquote url)))).
  split; [done|]. rewrite <- (string_app_nil_r (logged_url url)) at 1.
  rewrite re_sub_before by done. apply string_app_nil_r.
Qed.

(** ** The theorems at sample URLs *)

Lemma re_sub_masks_token_witness :
  logged_url example_url =
  "https://graph.facebook.com/v10.0/123/posts?access_token=*****&limit=100".
Proof.
  apply (re_sub_masks_token "https://graph.facebook.com/v10.0/123/posts?" "ABCD1234"
           "limit=100"); [reflexivity | discriminate | reflexivity].
Defined.

(** Two URLs the pattern does not match: a token that ends the URL, and an
    app token, whose value has a character that is not a letter or a digit. *)
Example tokens_left_in_clear :
  logged_url example_trailing_url = example_trailing_url /\
  logged_url example_app_token_url = example_app_token_url.
Proof. by vm_compute. Qed.
