(* ===== verification/Engine.v ===== *)
(** * Engine: the pagination loop

    [FacebookPagesStream.request_records] is a generator: it builds a
    request, sends it, yields the rows of the response, computes the next
    token and starts over until no token comes back.

    The loop is written against the three methods a stream class provides
    ([get_url_params], [parse_response], [get_next_page_token]); here that
    interface is the class [StreamOps], with [stream_ops s] the methods of
    the stream class [s], and [StreamLaws] the facts about them the
    engine's theorems need (a builder leaves the partition's page id in
    [self.page_id], and logs nothing when the partition has none or when
    there is a pagination token).

    What the outside world does during one turn of the loop is a [page_io]:
    the clock readings and what [_request_with_backoff] does.  The loop runs
    over a list of them, one per turn:

    - [try_block] is the body of the [try]: the rows it yields, the value of
      the variable [next_page_token] when it ends, and whether it ended with
      an exception;
    - [prepare_request] builds the request and logs its URL with the access
      token masked ([Redact.logged_url]); [request_url] is the text of that
      URL, with the query string [Quote.urlencode] writes;
    - [iteration] is one turn: [prepare_request] (outside the [try], so its
      exception leaves the generator), then the [try] and its [except];
    - [request_records_loop] is the [while] over a script, and
      [request_records] the method.

    What a run does is a list of [event]s: the line that opens the run
    ([EvReading]), the line the parameter builder logs for a page without a
    token ([EvNote], from [Params.FacebookPagesStream_logged]), the lines
    logged by [prepare_request] ([EvInfo]), the requests sent, the rows
    yielded and the warnings logged by the [except] clause.

    A run ends [Finished] (the loop condition became false), [Raised] (an
    exception left the generator) or [Pending] (the script is used up and
    the loop would go on).  The script's length is the only bound: nothing
    in the loop itself bounds the number of turns.

    [phase], [spec_step] and [abs] are the state machine of the
    specification (§4.1) and the abstraction of the loop's variables to it. *)

From Stdlib Require Import List String ZArith Bool Lia.
From stdpp Require Import base tactics list.
From S2P Require Import Prelude PyDict PyValue Streams Url Quote Params Window Flatten Redact.
Import ListNotations.

Set Default Proof Using "Type".
Local Open Scope string_scope.
Local Open Scope list_scope.

(** ** The interface of a stream class *)

Class StreamOps : Type := {
  ops_path : string;
  ops_get_url_params : Z -> stream_self -> pyval -> pyval -> stream_self * res pydict;
  ops_logged : stream_self -> pyval -> pyval -> list string;
  ops_parse_response : stream_self -> response -> rows;
  ops_get_next_page_token : Z -> response -> pyval -> res pyval;
}.

Class StreamLaws (ops : StreamOps) : Prop := {
  ops_assigns_page_id : forall time self partition token pid,
    py_getitem partition "page_id" = Ok pid ->
    fst (ops_get_url_params time self partition token) = set_page_id self pid;
  ops_needs_page_id : forall time self partition token e,
    py_getitem partition "page_id" = Err e ->
    ops_get_url_params time self partition token = (self, Err e);
  ops_logs_after_page_id : forall self partition token e,
    py_getitem partition "page_id" = Err e -> ops_logged self partition token = [];
  ops_logs_without_token : forall self partition token,
    truthy token = true -> ops_logged self partition token = [];
}.

Definition stream_ops `{Sdk} (s : stream) : StreamOps :=
  {| ops_path := path (class_of s);
     ops_get_url_params := get_url_params s;
     ops_logged := FacebookPagesStream_logged;
     ops_parse_response := parse_response s;
     ops_get_next_page_token := get_next_page_token s |}.

(** ** Requests, events, the outside world *)

(** A prepared request: the URL template, the page the template is
    instantiated with, the stream's path and the query parameters. *)
Record request : Type := {
  req_base : string;
  req_page : pyval;
  req_path : string;
  req_params : pydict;
}.

(** [str(v)] for the values a request carries. *)
Definition py_str (v : pyval) : option string :=
  match v with
  | VStr s => Some s
  | VInt n => Some (py_str_of_int n)
  | _ => None
  end.

(** One parameter as [requests] encodes it: a list gives one pair per
    element. *)
Definition encode_param (kv : string * pyval) : option (list (string * string)) :=
  match snd kv with
  | VList xs =>
      option_map (map (fun s => (fst kv, s)))
        (fold_right (fun x acc =>
                       match py_str x, acc with
                       | Some s, Some l => Some (s :: l)
                       | _, _ => None
                       end) (Some []) xs)
  | v => option_map (fun s => [(fst kv, s)]) (py_str v)
  end.

Fixpoint encode_params (params : pydict) : option (list (string * string)) :=
  match params with
  | [] => Some []
  | kv :: params' =>
      match encode_param kv, encode_params params' with
      | Some l, Some l' => Some (l ++ l')
      | _, _ => None
      end
  end.

(** [s.replace(old, new)], with [skip] characters still covered by the
    last occurrence. *)
Fixpoint str_replace_from (skip : nat) (old new s : string) : string :=
  match s with
  | "" => ""
  | String c s' =>
      match skip with
      | S k => str_replace_from k old new s'
      | O =>
          if String.prefix old s && negb (String.eqb old "") then
            (new ++ str_replace_from (String.length old - 1) old new s')%string
          else String c (str_replace_from 0 old new s')
      end
  end.

(** [req.url]: the template and the path with [{page_id}] filled in, then
    the query string as [urlencode] writes it.  [None] when a value is
    outside [py_str]. *)
Definition request_url (req : request) : option string :=
  match py_str (req_page req), encode_params (req_params req) with
  | Some page, Some pairs =>
      Some (str_replace_from 0 "{page_id}" page (req_base req ++ req_path req) ++
            match pairs with
            | [] => ""
            | _ => "?" ++ urlencode pairs
            end)%string
  | _, _ => None
  end.

(** What a run does that can be observed: the line that opens it
    ([Reading data for ...], with the value it names), the line the
    parameter builder logs for a page without a token, the lines
    [prepare_request] logs, the requests sent, the rows yielded and the
    warnings logged in the [except] clause. *)
Inductive event : Type :=
| EvReading (page : pyval)
| EvNote (line : string)
| EvInfo (line : option string)
| EvRequest (req : request)
| EvRow (row : pyval)
| EvWarning (e : pyerr).

Definition rows_of_events (evs : list event) : list pyval :=
  flat_map (fun ev => match ev with EvRow r => [r] | _ => [] end) evs.

Definition infos_of_events (evs : list event) : list (option string) :=
  flat_map (fun ev => match ev with EvInfo l => [l] | _ => [] end) evs.

Definition notes_of_events (evs : list event) : list string :=
  flat_map (fun ev => match ev with EvNote l => [l] | _ => [] end) evs.

Definition requests_of_events (evs : list event) : list request :=
  flat_map (fun ev => match ev with EvRequest r => [r] | _ => [] end) evs.

Definition warnings_of_events (evs : list event) : list pyerr :=
  flat_map (fun ev => match ev with EvWarning e => [e] | _ => [] end) evs.

(** The events of the turns of the loop: all but the line that opens the
    run. *)
Definition in_turn (ev : event) : bool :=
  match ev with
  | EvReading _ => false
  | _ => true
  end.

(** One turn of the loop as the outside world sees it. *)
Record page_io : Type := {
  io_time_request : Z;
  io_outcome : res response;
  io_time_next : Z;
}.

(** The variables of the loop. *)
Record loop_state : Type := {
  self : stream_self;
  next_page_token : pyval;
  finished : bool;
}.

Inductive run_end : Type :=
| Finished
| Raised (e : pyerr)
| Pending (st : loop_state).

(** ** The specification's state machine (§4.1) *)

Inductive phase : Type :=
| FETCHING (token : pyval)
| STOPPED.

(** What the specification says follows a page fetched with [token]: a
    failure of any kind, a repeated token included, stops the partition; a
    new token continues; no token stops. *)
Definition spec_step (token : pyval) (page : res pyval) : phase :=
  match page with
  | Err _ => STOPPED
  | Ok next =>
      if truthy next then
        if py_eqb next token then STOPPED else FETCHING next
      else STOPPED
  end.

Definition abs (st : loop_state) : phase :=
  if finished st then STOPPED else FETCHING (next_page_token st).

Section Engine.
Context (ops : StreamOps).

(** [RESTStream.prepare_request] of the SDK, as the override calls it:
    URL from the template and the partition, parameters from
    [get_url_params]. *)
Definition sdk_prepare_request (time : Z)
    (self : stream_self) (partition next_page_token : pyval)
  : stream_self * res request :=
  let '(self, params) := ops_get_url_params time self partition next_page_token in
  (self,
   res_bind params (fun params =>
   res_bind (py_getitem partition "page_id") (fun page =>
   Ok {| req_base := url_base; req_page := page; req_path := ops_path;
         req_params := params |}))).

(** [FacebookPagesStream.prepare_request]: the SDK's request, and the
    line logged for it. *)
Definition prepare_request (time : Z)
    (self : stream_self) (partition next_page_token : pyval)
  : stream_self * res (request * option string) :=
  let '(self, req) := sdk_prepare_request time self partition next_page_token in
  (self,
   res_bind req (fun req =>
   Ok (req, option_map logged_url (request_url req)))).

(** The body of the [try]: rows yielded, [next_page_token] at its end,
    and how it ended.  [next_page_token] is assigned before the loop test
    raises, so a detected loop leaves the new (equal) token in it. *)
Definition try_block (io : page_io) (self : stream_self) (token : pyval)
  : list pyval * pyval * res unit :=
  match io_outcome io with
  | Err e => ([], token, Err e)
  | Ok resp =>
      let '(rows, parsed) := ops_parse_response self resp in
      match parsed with
      | Err e => (rows, token, Err e)
      | Ok _ =>
          let previous_token := token in
          match ops_get_next_page_token (io_time_next io) resp previous_token with
          | Err e => (rows, token, Err e)
          | Ok next_page_token =>
              if truthy next_page_token && py_eqb next_page_token previous_token
              then (rows, next_page_token, Err (RuntimeError next_page_token))
              else (rows, next_page_token, Ok tt)
          end
      end
  end.

(** [except Exception as e: self.logger.warning(e)] *)
Definition warning_events (ended : res unit) : list event :=
  match ended with
  | Err e => [EvWarning e]
  | Ok _ => []
  end.

(** The events of a turn in which the request was built: what the builder
    logged, the line for the URL, the request, the rows and the warning. *)
Definition turn_events (notes : list string) (line : option string) (req : request)
    (rows : list pyval) (ended : res unit) : list event :=
  map EvNote notes ++ EvInfo line :: EvRequest req :: map EvRow rows ++ warning_events ended.

(** One turn of the [while].  Both the end of the [try] and the [except]
    clause assign [finished = not next_page_token].  What the builder logs
    is logged even when [prepare_request] raises. *)
Definition iteration (partition : pyval) (io : page_io) (st : loop_state)
  : list event * res loop_state :=
  let notes := ops_logged (self st) partition (next_page_token st) in
  let '(self, req) :=
    prepare_request (io_time_request io) (self st) partition (next_page_token st) in
  match req with
  | Err e => (map EvNote notes, Err e)
  | Ok (req, line) =>
      let '(rows, token, ended) := try_block io self (next_page_token st) in
      (turn_events notes line req rows ended,
       Ok {| self := self; next_page_token := token; finished := negb (truthy token) |})
  end.

Fixpoint request_records_loop (partition : pyval) (script : list page_io) (st : loop_state)
  : list event * run_end :=
  if finished st then ([], Finished)
  else
    match script with
    | [] => ([], Pending st)
    | io :: script' =>
        match iteration partition io st with
        | (evs, Err e) => (evs, Raised e)
        | (evs, Ok st') =>
            let '(evs', r) := request_records_loop partition script' st' in
            (evs ++ evs', r)
        end
    end.

(** [partition and partition.get("page_id", False)], the value the first
    log line names: a falsy partition itself, else its [page_id] or
    [False]; [.get] exists on dicts only. *)
Definition log_partition (partition : pyval) : res pyval :=
  if truthy partition then
    match partition with
    | VDict d =>
        Ok match dict_get "page_id" d with
           | Some page => page
           | None => VBool false
           end
    | _ => Err AttributeError
    end
  else Ok partition.

Definition initial_state (self : stream_self) : loop_state :=
  {| self := self; next_page_token := VNone; finished := false |}.

Definition request_records (self : stream_self) (partition : pyval)
    (script : list page_io) : list event * run_end :=
  match log_partition partition with
  | Err e => ([], Raised e)
  | Ok page =>
      let '(evs, ended) := request_records_loop partition script (initial_state self) in
      (EvReading page :: evs, ended)
  end.

(** The loop as a transition relation: one turn that does not raise. *)
Inductive step (partition : pyval) : loop_state -> page_io -> list event -> loop_state -> Prop :=
| step_turn st io evs st' :
    finished st = false ->
    iteration partition io st = (evs, Ok st') ->
    step partition st io evs st'.

(** Several turns in a row, with the script they consume and the events
    they produce. *)
Inductive steps (partition : pyval)
  : loop_state -> list page_io -> list event -> loop_state -> Prop :=
| steps_nil st : steps partition st [] [] st
| steps_cons st io evs st' script evs' st'' :
    step partition st io evs st' ->
    steps partition st' script evs' st'' ->
    steps partition st (io :: script) (evs ++ evs') st''.

(** A page that goes well: the request can be built, the transport
    answers, the flattener runs to its end, and the next token is not the
    one just used. *)
Definition good_page (partition : pyval) (io : page_io) (st : loop_state)
    (rows : list pyval) (next : pyval) : Prop :=
  exists resp,
    is_ok (snd (prepare_request (io_time_request io) (self st) partition
                  (next_page_token st))) = true /\
    io_outcome io = Ok resp /\
    ops_parse_response
      (fst (prepare_request (io_time_request io) (self st) partition (next_page_token st)))
      resp = (rows, Ok tt) /\
    ops_get_next_page_token (io_time_next io) resp (next_page_token st) = Ok next /\
    truthy next && py_eqb next (next_page_token st) = false.

(** The state a good page leaves. *)
Definition after_page (partition : pyval) (io : page_io) (st : loop_state)
    (next : pyval) : loop_state :=
  {| self := fst (prepare_request (io_time_request io) (self st) partition
                    (next_page_token st));
     next_page_token := next;
     finished := negb (truthy next) |}.

(** A script of good pages, the last of which has no next token, with the
    rows the pages hold. *)
Inductive good_pages (partition : pyval)
  : loop_state -> list page_io -> list pyval -> Prop :=
| good_last st io rows next :
    good_page partition io st rows next ->
    truthy next = false ->
    good_pages partition st [io] rows
| good_more st io rows next script rows' :
    good_page partition io st rows next ->
    truthy next = true ->
    good_pages partition (after_page partition io st next) script rows' ->
    good_pages partition st (io :: script) (rows ++ rows').

End Engine.

(** A script entry for a response, and for a transport failure. *)
Definition io_response (time : Z) (resp : response) : page_io :=
  {| io_time_request := time; io_outcome := Ok resp; io_time_next := time |}.

Definition io_failure (time : Z) : page_io :=
  {| io_time_request := time; io_outcome := Err RequestError; io_time_next := time |}.

(** Sample runs for the examples: a server that answers the first request
    of [Posts] with a link to a second page, and the second with none; and
    a server that answers every request with the same link. *)
Definition example_first_page : page_io :=
  io_response 1614680000 (page_with_next [example_post] example_link).

Definition example_last_page : page_io :=
  io_response 1614680000 (page_without_next [example_post]).

Definition example_script : list page_io := [example_first_page; example_last_page].

Definition example_posts_ops : StreamOps := @stream_ops example_sdk Posts.

(** The loop's variables once the first page has been read. *)
Definition example_stuck_state : loop_state :=
  {| self := set_page_id example_self (VStr "123");
     next_page_token := example_link;
     finished := false |}.

Definition example_stuck_events : list event :=
  (iteration example_posts_ops example_partition example_first_page example_stuck_state).1.

Definition example_stuck_request : request :=
  {| req_base := url_base; req_page := VStr "123"; req_path := "/posts";
     req_params := example_link_params |}.

(** The line logged for it. *)
Definition example_stuck_line : option string :=
  Some "https://graph.facebook.com/v10.0/123/posts?access_token=*****&limit=100&after=abc".

(** The row each sample page holds, and the two rows of the sample run. *)
Definition example_page_rows : list pyval :=
  posts_rows (VStr "123")
    [[("id", VStr "p1"); ("created_time", VStr "2021-03-01T10:00:00+0000");
      ("attachments", VDict [("data", VList [VDict example_attachment])])]].

Definition example_rows : list pyval := example_page_rows ++ example_page_rows.

(** ** The body of the [try] *)

Section EngineFacts.
Context (ops : StreamOps).
Implicit Types (st : loop_state) (io : page_io) (partition token next : pyval).
Implicit Types (script : list page_io) (evs : list event) (rows : list pyval).

Lemma rows_of_events_app evs evs' :
  rows_of_events (evs ++ evs') = rows_of_events evs ++ rows_of_events evs'.
Proof. apply flat_map_app. Qed.

Lemma warnings_of_events_app evs evs' :
  warnings_of_events (evs ++ evs') = warnings_of_events evs ++ warnings_of_events evs'.
Proof. apply flat_map_app. Qed.

Lemma requests_of_events_app evs evs' :
  requests_of_events (evs ++ evs') = requests_of_events evs ++ requests_of_events evs'.
Proof. apply flat_map_app. Qed.

Lemma infos_of_events_app evs evs' :
  infos_of_events (evs ++ evs') = infos_of_events evs ++ infos_of_events evs'.
Proof. apply flat_map_app. Qed.

Lemma infos_of_events_rows rows : infos_of_events (map EvRow rows) = [].
Proof. unfold infos_of_events. induction rows; cbn; [done | by f_equal]. Qed.

Lemma infos_of_warning ended : infos_of_events (warning_events ended) = [].
Proof. by destruct ended. Qed.

Lemma rows_of_events_rows rows : rows_of_events (map EvRow rows) = rows.
Proof. unfold rows_of_events. induction rows; cbn; [done | by f_equal]. Qed.

Lemma warnings_of_events_rows rows : warnings_of_events (map EvRow rows) = [].
Proof. unfold warnings_of_events. induction rows; cbn; [done | by f_equal]. Qed.

Lemma requests_of_events_rows rows : requests_of_events (map EvRow rows) = [].
Proof. unfold requests_of_events. induction rows; cbn; [done | by f_equal]. Qed.

Lemma rows_of_warning ended : rows_of_events (warning_events ended) = [].
Proof. by destruct ended. Qed.

Lemma requests_of_warning ended : requests_of_events (warning_events ended) = [].
Proof. by destruct ended. Qed.

Lemma warnings_of_warning ended :
  warnings_of_events (warning_events ended) =
  match ended with Err e => [e] | Ok _ => [] end.
Proof. by destruct ended. Qed.

Lemma try_block_transport_failure io self token e :
  io_outcome io = Err e -> try_block ops io self token = ([], token, Err e).
Proof. intros H. unfold try_block. by rewrite H. Qed.

Lemma try_block_parse_failure io self token resp rows e :
  io_outcome io = Ok resp -> ops_parse_response self resp = (rows, Err e) ->
  try_block ops io self token = (rows, token, Err e).
Proof. intros H1 H2. unfold try_block. by rewrite H1, H2. Qed.

Lemma try_block_next io self token resp rows next :
  io_outcome io = Ok resp -> ops_parse_response self resp = (rows, Ok tt) ->
  ops_get_next_page_token (io_time_next io) resp token = Ok next ->
  try_block ops io self token =
  (rows, next,
   if truthy next && py_eqb next token then Err (RuntimeError next) else Ok tt).
Proof. intros H1 H2 H3. unfold try_block. rewrite H1, H2, H3. by case_match. Qed.

(** Every way through the [try]. *)
Lemma try_block_cases io self token rows token' ended :
  try_block ops io self token = (rows, token', ended) ->
  (token' = token /\ exists e, ended = Err e) \/
  (exists resp, io_outcome io = Ok resp /\
     ops_parse_response self resp = (rows, Ok tt) /\
     ops_get_next_page_token (io_time_next io) resp token = Ok token' /\
     ended = if truthy token' && py_eqb token' token then Err (RuntimeError token')
             else Ok tt).
Proof.
  unfold try_block. destruct (io_outcome io) as [resp|e] eqn:Hio.
  2: { intros [= <- <- <-]. left. eauto. }
  destruct (ops_parse_response self resp) as [rows' [[]|e]] eqn:Hp.
  2: { intros [= <- <- <-]. left. eauto. }
  destruct (ops_get_next_page_token _ resp token) as [next|e] eqn:Hn.
  2: { intros [= <- <- <-]. left. eauto. }
  intros Ht. right. exists resp.
  destruct (truthy next && py_eqb next token) eqn:Hl; simplify_eq;
    rewrite ?Hl; by split_and!.
Qed.

(** When the [try] ends with an exception, the token it leaves is as
    truthy as the one it started with. *)
Lemma try_block_err_token io self token rows token' e :
  try_block ops io self token = (rows, token', Err e) ->
  truthy token' = truthy token.
Proof.
  intros [[-> _]|(resp & _ & _ & _ & Hend)]%try_block_cases; [done|].
  destruct (truthy token' && py_eqb token' token) eqn:Hl; [|done].
  apply andb_prop in Hl as [_ Heq]. by apply py_eqb_truthy.
Qed.

Lemma try_block_ok_token io self token rows token' :
  try_block ops io self token = (rows, token', Ok tt) ->
  truthy token' && py_eqb token' token = false.
Proof.
  intros [[_ [e ?]]|(resp & _ & _ & _ & Hend)]%try_block_cases; [done|].
  by destruct (truthy token' && py_eqb token' token).
Qed.

(** ** Building the request *)

Lemma prepare_request_fst `{!StreamLaws ops} time self partition token pid :
  py_getitem partition "page_id" = Ok pid ->
  fst (prepare_request ops time self partition token) = set_page_id self pid.
Proof.
  intros Hp. unfold prepare_request, sdk_prepare_request.
  pose proof (ops_assigns_page_id time self partition token pid Hp) as H.
  by destruct (ops_get_url_params time self partition token).
Qed.

Lemma prepare_request_no_page_id `{!StreamLaws ops} time self partition token e :
  py_getitem partition "page_id" = Err e ->
  prepare_request ops time self partition token = (self, Err e).
Proof.
  intros Hp. unfold prepare_request, sdk_prepare_request.
  by rewrite (ops_needs_page_id time self partition token e Hp).
Qed.

(** The request that was built has the builder's parameters and the
    partition's page, and the line logged is the redacted text of its
    URL. *)
Lemma prepare_request_inv time self partition token req line :
  snd (prepare_request ops time self partition token) = Ok (req, line) ->
  snd (ops_get_url_params time self partition token) = Ok (req_params req) /\
  py_getitem partition "page_id" = Ok (req_page req) /\
  req_path req = ops_path /\ req_base req = url_base /\
  line = option_map logged_url (request_url req).
Proof.
  unfold prepare_request, sdk_prepare_request.
  destruct (ops_get_url_params time self partition token) as [self' [params|e]];
    cbn; [|done].
  destruct (py_getitem partition "page_id"); cbn; [|done]. by intros [= <- <-].
Qed.

(** ** One turn *)

(** The events of a turn, by kind. *)
Lemma events_of_notes notes :
  rows_of_events (map EvNote notes) = [] /\ warnings_of_events (map EvNote notes) = [] /\
  requests_of_events (map EvNote notes) = [] /\ infos_of_events (map EvNote notes) = [] /\
  notes_of_events (map EvNote notes) = notes.
Proof.
  unfold rows_of_events, warnings_of_events, requests_of_events, infos_of_events,
    notes_of_events.
  induction notes as [|l notes (? & ? & ? & ? & ?)]; cbn; [done|]. split_and!; by f_equal.
Qed.

Lemma events_of_turn notes line req rows ended :
  let evs := turn_events notes line req rows ended in
  rows_of_events evs = rows /\
  warnings_of_events evs = match ended with Err e => [e] | Ok _ => [] end /\
  requests_of_events evs = [req] /\
  infos_of_events evs = [line].
Proof.
  cbn zeta. unfold turn_events. destruct (events_of_notes notes) as (Hr & Hw & Hq & Hi & _).
  change (EvInfo line :: EvRequest req :: ?l) with ([EvInfo line; EvRequest req] ++ l).
  rewrite !rows_of_events_app, !warnings_of_events_app, !requests_of_events_app,
    !infos_of_events_app, rows_of_events_rows, warnings_of_events_rows,
    requests_of_events_rows, infos_of_events_rows, rows_of_warning, warnings_of_warning,
    requests_of_warning, infos_of_warning, Hr, Hw, Hq, Hi.
  cbn. by rewrite !app_nil_r.
Qed.

Lemma iteration_unfold partition io st :
  iteration ops partition io st =
  let prepared :=
    prepare_request ops (io_time_request io) (self st) partition (next_page_token st) in
  let notes := ops_logged (self st) partition (next_page_token st) in
  match prepared.2 with
  | Err e => (map EvNote notes, Err e)
  | Ok (req, line) =>
      let t := try_block ops io prepared.1 (next_page_token st) in
      (turn_events notes line req t.1.1 t.2,
       Ok {| self := prepared.1; next_page_token := t.1.2;
             finished := negb (truthy t.1.2) |})
  end.
Proof.
  unfold iteration.
  destruct (prepare_request _ _ _ _ _) as [self' [[req line]|e]]; cbn; [|done].
  by destruct (try_block _ _ _ _) as [[rows tok] ended].
Qed.

Lemma iteration_raises partition io st e :
  (prepare_request ops (io_time_request io) (self st) partition (next_page_token st)).2
    = Err e ->
  iteration ops partition io st =
  (map EvNote (ops_logged (self st) partition (next_page_token st)), Err e).
Proof. intros H. rewrite iteration_unfold. cbn. by rewrite H. Qed.

(** A turn that raises has sent and yielded nothing, and logged what the
    builder logs at most. *)
Lemma iteration_err_events partition io st evs e :
  iteration ops partition io st = (evs, Err e) ->
  evs = map EvNote (ops_logged (self st) partition (next_page_token st)).
Proof.
  rewrite iteration_unfold. cbn zeta.
  destruct (prepare_request _ _ _ _ _).2 as [[req line]|]; [done | by intros [= <- _]].
Qed.

Lemma iteration_inv partition io st evs st' :
  iteration ops partition io st = (evs, Ok st') ->
  exists req line rows ended,
    (prepare_request ops (io_time_request io) (self st) partition (next_page_token st)).2
      = Ok (req, line) /\
    self st' =
      (prepare_request ops (io_time_request io) (self st) partition (next_page_token st)).1 /\
    try_block ops io (self st') (next_page_token st) = (rows, next_page_token st', ended) /\
    finished st' = negb (truthy (next_page_token st')) /\
    evs = turn_events (ops_logged (self st) partition (next_page_token st)) line req rows
            ended.
Proof.
  rewrite iteration_unfold. cbn.
  destruct (prepare_request _ _ _ _ _) as [self' [[req line]|e]]; cbn; [|done].
  destruct (try_block _ _ _ _) as [[rows tok] ended] eqn:Ht. cbn.
  intros [= <- <-]. cbn. by exists req, line, rows, ended.
Qed.

Lemma iteration_warnings partition io st evs st' :
  iteration ops partition io st = (evs, Ok st') ->
  exists rows ended,
    try_block ops io (self st') (next_page_token st) = (rows, next_page_token st', ended) /\
    rows_of_events evs = rows /\
    warnings_of_events evs = match ended with Err e => [e] | Ok _ => [] end.
Proof.
  intros (req & line & rows & ended & _ & _ & Ht & _ & ->)%iteration_inv.
  exists rows, ended. by destruct (events_of_turn (ops_logged (self st) partition
                                                      (next_page_token st))
                                     line req rows ended) as (? & ? & _).
Qed.

(** C2.  After a page that failed (the transport raised, the flattener raised,
    the next token could not be computed, or the token came back unchanged),
    the loop stops exactly when the page was requested without a token: a
    failure on a later page never ends the loop. *)
Theorem failed_page_stops_only_first partition io st evs st' :
  iteration ops partition io st = (evs, Ok st') ->
  warnings_of_events evs <> [] ->
  finished st' = negb (truthy (next_page_token st)).
Proof.
  intros Hit. pose proof Hit as (req & _ & _ & _ & _ & _ & _ & Hfin & _)%iteration_inv.
  apply iteration_warnings in Hit as (rows & [[]|e] & Ht & _ & ->); [done|].
  intros _. rewrite Hfin. f_equal. by eapply try_block_err_token.
Qed.

(** C1.  Loop detection does not stop the loop: when the server answers with
    the token the request was made with, the turn logs the [RuntimeError],
    yields the page's rows, and leaves the loop running with that same token. *)
Theorem loop_detection_keeps_looping partition io st req line resp rows next :
  let prepared :=
    prepare_request ops (io_time_request io) (self st) partition (next_page_token st) in
  prepared.2 = Ok (req, line) ->
  io_outcome io = Ok resp ->
  ops_parse_response prepared.1 resp = (rows, Ok tt) ->
  ops_get_next_page_token (io_time_next io) resp (next_page_token st) = Ok next ->
  truthy next = true -> py_eqb next (next_page_token st) = true ->
  iteration ops partition io st =
    (turn_events (ops_logged (self st) partition (next_page_token st)) line req rows
       (Err (RuntimeError next)),
     Ok {| self := prepared.1; next_page_token := next; finished := false |}).
Proof.
  intros prepared Hreq Hio Hp Hn Ht Heq. rewrite iteration_unfold. fold prepared.
  cbn zeta. rewrite Hreq, (try_block_next _ _ _ resp rows next) by done.
  rewrite Ht, Heq. cbn. by rewrite Ht.
Qed.

(** C5.  A turn that logs no warning takes the step the specification's state
    machine takes: on with the new token, or stop when there is none. *)
Theorem iteration_refines_spec partition io st evs st' :
  iteration ops partition io st = (evs, Ok st') ->
  warnings_of_events evs = [] ->
  abs st' = spec_step (next_page_token st) (Ok (next_page_token st')).
Proof.
  intros Hit. pose proof Hit as (req & _ & _ & _ & _ & _ & _ & Hfin & _)%iteration_inv.
  apply iteration_warnings in Hit as (rows & [[]|e] & Ht & _ & ->); [|done].
  intros _. apply try_block_ok_token in Ht. unfold abs, spec_step. rewrite Hfin.
  destruct (truthy (next_page_token st')); cbn in *; [|done]. by rewrite Ht.
Qed.

(** C6.  Where the loop departs from the specification: a turn that logs a
    warning on a page requested with a token goes on fetching with a token,
    where the specification stops the partition. *)
Theorem failed_page_departs_from_spec partition io st evs st' e :
  iteration ops partition io st = (evs, Ok st') ->
  warnings_of_events evs <> [] ->
  truthy (next_page_token st) = true ->
  abs st' = FETCHING (next_page_token st') /\
  truthy (next_page_token st') = true /\
  abs st' <> spec_step (next_page_token st) (Err e).
Proof.
  intros Hit Hw Ht.
  pose proof Hit as (req & _ & _ & _ & _ & _ & _ & Hfin & _)%iteration_inv.
  apply iteration_warnings in Hit as (rows & [[]|e'] & Htb & _ & Hw'); [by rewrite Hw' in Hw|].
  apply try_block_err_token in Htb. unfold abs. by rewrite Hfin, Htb, Ht.
Qed.

(** ** The loop over a script *)

Lemma request_records_loop_finished partition script st :
  finished st = true -> request_records_loop ops partition script st = ([], Finished).
Proof. intros H. destruct script; cbn; by rewrite H. Qed.

Lemma request_records_loop_nil partition st :
  finished st = false -> request_records_loop ops partition [] st = ([], Pending st).
Proof. intros H. cbn. by rewrite H. Qed.

Lemma request_records_loop_cons partition io script st :
  finished st = false ->
  request_records_loop ops partition (io :: script) st =
  match iteration ops partition io st with
  | (evs, Err e) => (evs, Raised e)
  | (evs, Ok st') =>
      let '(evs', r) := request_records_loop ops partition script st' in
      (evs ++ evs', r)
  end.
Proof. intros H. cbn. by rewrite H. Qed.

(** A run over a script that is extended: a run that ended is not
    affected, a run that was pending goes on from where it was. *)
Lemma request_records_loop_app partition script more st :
  request_records_loop ops partition (script ++ more) st =
  match request_records_loop ops partition script st with
  | (evs, Pending st') =>
      let '(evs', r) := request_records_loop ops partition more st' in
      (evs ++ evs', r)
  | run => run
  end.
Proof.
  revert st. induction script as [|io script IH]; intros st; cbn [app];
    (destruct (finished st) eqn:Hf; [by rewrite !request_records_loop_finished|]).
  - rewrite request_records_loop_nil by done.
    by destruct (request_records_loop ops partition more st).
  - rewrite !request_records_loop_cons by done.
    destruct (iteration ops partition io st) as [evs [st'|e]]; [|done]. rewrite IH.
    destruct (request_records_loop ops partition script st') as [evs1 [| e | st1]];
      try done.
    destruct (request_records_loop ops partition more st1) as [evs2 r].
    by rewrite app_assoc.
Qed.

Lemma pending_not_finished partition script st evs st' :
  request_records_loop ops partition script st = (evs, Pending st') ->
  finished st' = false.
Proof.
  revert st evs. induction script as [|io script IH]; intros st evs;
    (destruct (finished st) eqn:Hf; [by rewrite request_records_loop_finished|]).
  - rewrite request_records_loop_nil by done. by intros [= <- <-].
  - rewrite request_records_loop_cons by done.
    destruct (iteration ops partition io st) as [evs0 [st0|e]]; [|done].
    destruct (request_records_loop ops partition script st0) as [evs1 r] eqn:Hl.
    intros [= <- ->]. eauto.
Qed.

(** A turn that leaves the loop's variables as it found them repeats for
    as long as the outside world repeats: the run over [n] such turns is
    pending, with [n] copies of the turn's events. *)
Theorem stuck_turn_never_finishes partition io st evs n :
  finished st = false ->
  iteration ops partition io st = (evs, Ok st) ->
  request_records_loop ops partition (repeat io n) st =
  (concat (repeat evs n), Pending st).
Proof.
  intros Hf Hit. induction n as [|n IH]; cbn [repeat concat].
  - by rewrite request_records_loop_nil.
  - by rewrite request_records_loop_cons, Hit, IH.
Qed.

(** ** Runs that go well *)

Lemma good_page_iteration partition io st rows next :
  good_page ops partition io st rows next ->
  exists req line,
    (prepare_request ops (io_time_request io) (self st) partition (next_page_token st)).2
      = Ok (req, line) /\
    iteration ops partition io st =
    (turn_events (ops_logged (self st) partition (next_page_token st)) line req rows (Ok tt),
     Ok (after_page ops partition io st next)).
Proof.
  intros (resp & Hok & Hio & Hp & Hn & Hl). rewrite iteration_unfold. cbn zeta.
  destruct (prepare_request _ _ _ _ _).2 as [[req line]|] eqn:Hreq; [|done].
  exists req, line. split; [done|].
  by rewrite (try_block_next _ _ _ resp rows next), Hl by done.
Qed.

(** C3.  A run over good pages: it sends one request per page, yields the rows
    of the pages in order, logs no warning, and finishes on the page that has
    no next token. *)
Theorem request_records_good_pages partition script st rows :
  finished st = false ->
  good_pages ops partition st script rows ->
  exists evs,
    request_records_loop ops partition script st = (evs, Finished) /\
    rows_of_events evs = rows /\
    warnings_of_events evs = [] /\
    length (requests_of_events evs) = length script.
Proof.
  intros Hf Hg.
  induction Hg as [st io rows next Hgp Ht | st io rows next script rows' Hgp Ht Hg IH];
    apply good_page_iteration in Hgp as (req & line & _ & Hit);
    rewrite request_records_loop_cons, Hit by done;
    destruct (events_of_turn (ops_logged (self st) partition (next_page_token st))
                line req rows (Ok tt)) as (Hr & Hw & Hq & _).
  - rewrite request_records_loop_finished by (cbn; by rewrite Ht).
    eexists. split; [done|]. by rewrite app_nil_r, Hr, Hw, Hq.
  - destruct IH as (evs & -> & <- & Hw' & Hq'); [cbn; by rewrite Ht|].
    eexists. split; [done|].
    by rewrite rows_of_events_app, warnings_of_events_app, requests_of_events_app,
      Hr, Hw, Hq, Hw', length_app, Hq'.
Qed.

(** Every request of a run was logged before it was sent: the lines
    [prepare_request] logs in a run are the redacted URLs of its requests,
    in order, however the run ends. *)
Lemma iteration_logged partition io st :
  infos_of_events (iteration ops partition io st).1 =
  map (fun req => option_map logged_url (request_url req))
    (requests_of_events (iteration ops partition io st).1).
Proof.
  destruct (iteration ops partition io st) as [evs [st'|e]] eqn:Hit; cbn [fst].
  - apply iteration_inv in Hit as (req & line & rows & ended & Hreq & _ & _ & _ & ->).
    apply prepare_request_inv in Hreq as (_ & _ & _ & _ & ->).
    by destruct (events_of_turn (ops_logged (self st) partition (next_page_token st))
                   (option_map logged_url (request_url req)) req rows ended)
      as (_ & _ & -> & ->).
  - apply iteration_err_events in Hit as ->.
    by destruct (events_of_notes (ops_logged (self st) partition (next_page_token st)))
      as (_ & _ & -> & -> & _).
Qed.

Lemma request_records_loop_logged partition script st :
  infos_of_events (request_records_loop ops partition script st).1 =
  map (fun req => option_map logged_url (request_url req))
    (requests_of_events (request_records_loop ops partition script st).1).
Proof.
  revert st. induction script as [|io script IH]; intros st;
    (destruct (finished st) eqn:Hf; [by rewrite request_records_loop_finished|]).
  { by rewrite request_records_loop_nil. }
  rewrite request_records_loop_cons by done.
  pose proof (iteration_logged partition io st) as Hit.
  destruct (iteration ops partition io st) as [evs [st'|e]]; [|done].
  specialize (IH st'). destruct (request_records_loop ops partition script st').
  cbn [fst] in *. by rewrite infos_of_events_app, requests_of_events_app, map_app, Hit, IH.
Qed.

(** ** What the builder logs in a run *)

Lemma notes_of_events_app evs evs' :
  notes_of_events (evs ++ evs') = notes_of_events evs ++ notes_of_events evs'.
Proof. apply flat_map_app. Qed.

Lemma notes_of_turn notes line req rows ended :
  notes_of_events (turn_events notes line req rows ended) = notes.
Proof.
  unfold turn_events. destruct (events_of_notes notes) as (_ & _ & _ & _ & Hn).
  rewrite notes_of_events_app, Hn. cbn. rewrite notes_of_events_app.
  assert (notes_of_events (map EvRow rows) = []) as ->
    by (unfold notes_of_events; induction rows; cbn; [done | by f_equal]).
  destruct ended; by rewrite app_nil_r.
Qed.

(** A turn logs what the builder logs, whether or not the request can be
    built. *)
Lemma iteration_notes partition io st :
  notes_of_events (iteration ops partition io st).1 =
  ops_logged (self st) partition (next_page_token st).
Proof.
  rewrite iteration_unfold. cbn zeta.
  destruct (prepare_request _ _ _ _ _).2 as [[req line]|]; cbn [fst];
    [apply notes_of_turn | apply events_of_notes].
Qed.

(** The line that opens the run is logged before the loop, not in it. *)
Lemma iteration_in_turn partition io st :
  forallb in_turn (iteration ops partition io st).1 = true.
Proof.
  rewrite iteration_unfold. cbn zeta.
  destruct (prepare_request _ _ _ _ _).2 as [[req line]|]; cbn [fst]; unfold turn_events;
    rewrite ?forallb_app; cbn [forallb in_turn]; rewrite ?forallb_app, ?andb_true_iff;
    repeat split; try (apply forallb_forall; by intros ev (x & <- & _)%in_map_iff).
  by destruct (try_block _ _ _ _).2.
Qed.

Lemma loop_in_turn partition script st :
  forallb in_turn (request_records_loop ops partition script st).1 = true.
Proof.
  revert st. induction script as [|io script IH]; intros st;
    (destruct (finished st) eqn:Hf; [by rewrite request_records_loop_finished|]).
  { by rewrite request_records_loop_nil. }
  rewrite request_records_loop_cons by done.
  pose proof (iteration_in_turn partition io st) as Hit.
  destruct (iteration ops partition io st) as [evs [st'|e]]; [|done].
  specialize (IH st'). destruct (request_records_loop ops partition script st').
  cbn [fst] in *. by rewrite forallb_app, Hit, IH.
Qed.

(** From a state with a token, the builder logs nothing more. *)
Lemma loop_notes_token `{!StreamLaws ops} partition script st :
  truthy (next_page_token st) = true ->
  notes_of_events (request_records_loop ops partition script st).1 = [].
Proof.
  revert st. induction script as [|io script IH]; intros st Ht;
    (destruct (finished st) eqn:Hf; [by rewrite request_records_loop_finished|]).
  { by rewrite request_records_loop_nil. }
  rewrite request_records_loop_cons by done.
  pose proof (iteration_notes partition io st) as Hn.
  rewrite (ops_logs_without_token _ _ _ Ht) in Hn.
  destruct (iteration ops partition io st) as [evs [st'|e]] eqn:Hit; [|done].
  apply iteration_inv in Hit as (_ & _ & _ & _ & _ & _ & _ & Hfin & _).
  destruct (finished st') eqn:Hf'.
  - rewrite request_records_loop_finished by done. cbn [fst] in *. by rewrite app_nil_r.
  - specialize (IH st'). destruct (request_records_loop ops partition script st').
    cbn [fst] in *. rewrite notes_of_events_app, Hn, IH; [done|].
    symmetry in Hfin. by apply negb_false_iff in Hfin.
Qed.

(** What the builder logs in a run is what it logs in the first turn. *)
Lemma loop_notes `{!StreamLaws ops} partition io script st :
  finished st = false ->
  notes_of_events (request_records_loop ops partition (io :: script) st).1 =
  ops_logged (self st) partition (next_page_token st).
Proof.
  intros Hf. rewrite request_records_loop_cons by done.
  pose proof (iteration_notes partition io st) as Hn.
  destruct (iteration ops partition io st) as [evs [st'|e]] eqn:Hit; [|done].
  apply iteration_inv in Hit as (_ & _ & _ & _ & _ & _ & _ & Hfin & _).
  pose proof (loop_notes_token partition script st') as Hrest.
  destruct (finished st') eqn:Hf'.
  - rewrite request_records_loop_finished by done. cbn [fst] in *. by rewrite app_nil_r.
  - destruct (request_records_loop ops partition script st'). cbn [fst] in *.
    rewrite notes_of_events_app, Hn, Hrest, app_nil_r; [done|].
    symmetry in Hfin. by apply negb_false_iff in Hfin.
Qed.

(** ** The loop as a transition system *)

Lemma steps_loop partition st script evs st' more :
  steps ops partition st script evs st' ->
  request_records_loop ops partition (script ++ more) st =
  let '(evs', r) := request_records_loop ops partition more st' in
  (evs ++ evs', r).
Proof.
  induction 1 as [st | st io evs st' script evs' st'' Hstep _ IH]; cbn [app].
  - by destruct (request_records_loop ops partition more st).
  - destruct Hstep as [st io evs st' Hf Hit].
    rewrite request_records_loop_cons, Hit, IH by done.
    destruct (request_records_loop ops partition more st''). by rewrite app_assoc.
Qed.

Lemma pending_steps partition script st evs st' :
  request_records_loop ops partition script st = (evs, Pending st') ->
  steps ops partition st script evs st'.
Proof.
  revert st evs. induction script as [|io script IH]; intros st evs;
    (destruct (finished st) eqn:Hf; [by rewrite request_records_loop_finished|]).
  - rewrite request_records_loop_nil by done. intros [= <- <-]. constructor.
  - rewrite request_records_loop_cons by done.
    destruct (iteration ops partition io st) as [evs0 [st0|e]] eqn:Hit; [|done].
    destruct (request_records_loop ops partition script st0) as [evs1 r] eqn:Hl.
    intros [= <- ->]. econstructor; [by constructor | eauto].
Qed.

(** The executable loop and the transition relation agree: a run over a
    script is pending in a state exactly when the turns of the script lead to
    that state, one after the other, and the loop would go on from it. *)
Theorem pending_iff_steps partition script st evs st' :
  request_records_loop ops partition script st = (evs, Pending st') <->
  steps ops partition st script evs st' /\ finished st' = false.
Proof.
  split.
  - intros Hl. split; [by apply pending_steps | by eapply pending_not_finished].
  - intros [Hs Hf]. pose proof (steps_loop _ _ _ _ _ [] Hs) as Hl.
    rewrite app_nil_r, request_records_loop_nil in Hl by done.
    by rewrite app_nil_r in Hl.
Qed.

Lemma step_self `{!StreamLaws ops} partition pid st io evs st' :
  py_getitem partition "page_id" = Ok pid ->
  step ops partition st io evs st' ->
  self st' = set_page_id (self st) pid.
Proof.
  intros Hp [? ? ? ? _ (req & line & rows & ended & _ & -> & _)%iteration_inv].
  by apply prepare_request_fst.
Qed.

(** ** What the rows of a run are *)

Lemma try_block_rows io self token :
  (try_block ops io self token).1.1 =
  match io_outcome io with
  | Ok resp => rows_of (ops_parse_response self resp)
  | Err _ => []
  end.
Proof.
  unfold try_block. destruct (io_outcome io) as [resp|]; [|done].
  destruct (ops_parse_response self resp) as [rows [[]|]]; [|done]. cbn.
  destruct (ops_get_next_page_token _ _ _); [|done]. by case_match.
Qed.

(** The rows of a turn are the rows the flattener yields on the turn's
    response, whether or not it runs to its end. *)
Lemma iteration_rows partition io st :
  let prepared :=
    prepare_request ops (io_time_request io) (self st) partition (next_page_token st) in
  rows_of_events (iteration ops partition io st).1 =
  match prepared.2, io_outcome io with
  | Ok _, Ok resp => rows_of (ops_parse_response prepared.1 resp)
  | _, _ => []
  end.
Proof.
  intros prepared. rewrite iteration_unfold. fold prepared. cbn zeta.
  destruct prepared.2 as [[req line]|]; cbn [fst]; [|apply events_of_notes].
  destruct (events_of_turn (ops_logged (self st) partition (next_page_token st)) line req
              (try_block ops io prepared.1 (next_page_token st)).1.1
              (try_block ops io prepared.1 (next_page_token st)).2) as [-> _].
  apply try_block_rows.
Qed.

Lemma loop_rows_Forall `{!StreamLaws ops} (P : pyval -> Prop) partition pid script st :
  py_getitem partition "page_id" = Ok pid ->
  (forall io resp, io ∈ script -> io_outcome io = Ok resp ->
     Forall P (rows_of (ops_parse_response (set_page_id (self st) pid) resp))) ->
  Forall P (rows_of_events (request_records_loop ops partition script st).1).
Proof.
  intros Hp. revert st. induction script as [|io script IH]; intros st Hall;
    (destruct (finished st) eqn:Hf; [by rewrite request_records_loop_finished|]).
  { by rewrite request_records_loop_nil. }
  rewrite request_records_loop_cons by done.
  pose proof (iteration_rows partition io st) as Hrows. cbn zeta in Hrows.
  rewrite (prepare_request_fst _ _ _ _ pid Hp) in Hrows.
  assert (Forall P (rows_of_events (iteration ops partition io st).1)) as Hturn.
  { rewrite Hrows. repeat case_match; try constructor. eapply Hall; [left|done]. }
  destruct (iteration ops partition io st) as [evs [st'|e]] eqn:Hit; [|done].
  apply iteration_inv in Hit as (_ & _ & _ & _ & _ & Hself & _).
  rewrite (prepare_request_fst _ _ _ _ pid Hp) in Hself.
  specialize (IH st'). destruct (request_records_loop ops partition script st').
  cbn in *. rewrite rows_of_events_app. apply Forall_app. split; [done|].
  apply IH. rewrite Hself. intros io' resp Hin Hio. eapply Hall; [by right|done].
Qed.

(** ** The method *)

(** The opening line names the page of a partition that has one. *)
Lemma log_partition_page_id partition pid :
  py_getitem partition "page_id" = Ok pid -> log_partition partition = Ok pid.
Proof.
  intros (d & -> & Hd)%py_getitem_Ok. unfold log_partition. rewrite Hd.
  by destruct d.
Qed.

(** The method is its first log line, then the loop from the initial
    state. *)
Lemma request_records_unfold self partition script :
  request_records ops self partition script =
  match log_partition partition with
  | Err e => ([], Raised e)
  | Ok page =>
      (EvReading page :: (request_records_loop ops partition script (initial_state self)).1,
       (request_records_loop ops partition script (initial_state self)).2)
  end.
Proof.
  unfold request_records. destruct (log_partition partition); [|done].
  by destruct (request_records_loop _ _ _ _).
Qed.

(** What holds of every row the flattener yields with the partition's id
    holds of every row of a run. *)
Lemma request_records_rows_Forall `{!StreamLaws ops} (P : pyval -> Prop)
    self partition pid script :
  py_getitem partition "page_id" = Ok pid ->
  (forall io resp, io ∈ script -> io_outcome io = Ok resp ->
     Forall P (rows_of (ops_parse_response (set_page_id self pid) resp))) ->
  Forall P (rows_of_events (request_records ops self partition script).1).
Proof.
  intros Hp Hall. rewrite request_records_unfold.
  destruct (log_partition partition); [|done].
  by apply (loop_rows_Forall _ _ pid).
Qed.

(** Every request of a run was logged before it was sent: the lines that
    the override of [prepare_request] logs in a run are the redacted URLs of
    the requests of the run, in order, however the run ends. *)
Theorem request_records_logs_requests self partition script :
  infos_of_events (request_records ops self partition script).1 =
  map (fun req => option_map logged_url (request_url req))
    (requests_of_events (request_records ops self partition script).1).
Proof.
  rewrite request_records_unfold. destruct (log_partition partition); [|done].
  apply request_records_loop_logged.
Qed.

(** C7.  An exception raised while the request is built is not caught: it
    leaves the generator, before any request of that turn is sent; what the
    builder logged before it raised is all the turn has done. *)
Theorem prepare_failure_leaves_generator partition io script st e :
  finished st = false ->
  (prepare_request ops (io_time_request io) (self st) partition (next_page_token st)).2
    = Err e ->
  request_records_loop ops partition (io :: script) st =
  (map EvNote (ops_logged (self st) partition (next_page_token st)), Raised e).
Proof.
  intros Hf He. by rewrite request_records_loop_cons, (iteration_raises _ _ _ e).
Qed.

(** A partition that is not a mapping and not empty stops the method
    at its first line, where [.get] is called on it. *)
Theorem request_records_bad_partition self partition script :
  truthy partition = true -> isinstance_dict partition = false ->
  request_records ops self partition script = ([], Raised AttributeError).
Proof.
  intros Ht Hd. unfold request_records, log_partition. rewrite Ht.
  by destruct partition.
Qed.

(** A partition without [page_id] makes the first turn raise the
    subscript's exception out of the generator: the opening line is logged,
    nothing is requested and nothing is yielded. *)
Theorem request_records_no_page_id `{!StreamLaws ops} self partition io script page e :
  log_partition partition = Ok page ->
  py_getitem partition "page_id" = Err e ->
  request_records ops self partition (io :: script) = ([EvReading page], Raised e).
Proof.
  intros Hl Hp. rewrite request_records_unfold, Hl.
  rewrite request_records_loop_cons, (iteration_raises _ _ _ e); [| |done].
  - by rewrite (ops_logs_after_page_id _ _ _ e).
  - by rewrite (prepare_request_no_page_id _ _ _ _ e).
Qed.

(** ** Failures of the transport *)

(** A run for a partition without [page_id] yields nothing. *)
Lemma request_records_rows_no_page_id `{!StreamLaws ops} self partition script e :
  py_getitem partition "page_id" = Err e ->
  rows_of_events (request_records ops self partition script).1 = [].
Proof.
  intros Hp. rewrite request_records_unfold. destruct (log_partition partition); [|done].
  destruct script as [|io script]; [done|].
  rewrite request_records_loop_cons, (iteration_raises _ _ _ e) by
    (done || by rewrite (prepare_request_no_page_id _ _ _ _ e)).
  cbn [fst initial_state Engine.self next_page_token].
  by rewrite (ops_logs_after_page_id _ _ _ e).
Qed.

(** A turn in which the transport fails leaves the token as it was. *)
Lemma failed_turn_keeps_token partition io st evs st' e :
  io_outcome io = Err e ->
  iteration ops partition io st = (evs, Ok st') ->
  next_page_token st' = next_page_token st /\
  finished st' = negb (truthy (next_page_token st)) /\
  rows_of_events evs = [].
Proof.
  intros Hio (req & line & rows & ended & _ & _ & Ht & Hfin & ->)%iteration_inv.
  rewrite (try_block_transport_failure _ _ _ e Hio) in Ht. injection Ht as <- Htok <-.
  rewrite Hfin, <- Htok. split_and!; [done..|].
  by destruct (events_of_turn (ops_logged (self st) partition (next_page_token st))
                 line req [] (Err e)) as (-> & _).
Qed.

(** With a token, no number of failures ends the loop. *)
Lemma failures_never_finish partition failures st :
  finished st = false -> truthy (next_page_token st) = true ->
  Forall (fun io => exists e, io_outcome io = Err e) failures ->
  (request_records_loop ops partition failures st).2 <> Finished.
Proof.
  intros Hf Htok Hall. revert st Hf Htok.
  induction Hall as [|io failures [e Hio] _ IH]; intros st Hf Htok;
    [by rewrite request_records_loop_nil|].
  rewrite request_records_loop_cons by done.
  destruct (iteration ops partition io st) as [evs [st'|e']] eqn:Hit; [|done].
  apply (failed_turn_keeps_token _ _ _ _ _ e Hio) in Hit as (Htok' & Hf' & _).
  rewrite Htok in Hf'. rewrite <- Htok' in Htok. specialize (IH st' Hf' Htok).
  by destruct (request_records_loop ops partition failures st').
Qed.

(** A failure of the first request ends the loop at once, with nothing
    yielded. *)
Lemma first_failure_finishes self partition io script rl e :
  (prepare_request ops (io_time_request io) self partition VNone).2 = Ok rl ->
  io_outcome io = Err e ->
  rows_of_events (request_records_loop ops partition (io :: script) (initial_state self)).1
    = [] /\
  (request_records_loop ops partition (io :: script) (initial_state self)).2 = Finished.
Proof.
  intros Hreq Hio. rewrite request_records_loop_cons by done.
  destruct (iteration ops partition io (initial_state self)) as [evs [st'|e']] eqn:Hit.
  - apply (failed_turn_keeps_token _ _ _ _ _ e Hio) in Hit as (_ & Hf' & Hrows).
    rewrite request_records_loop_finished by done. cbn. by rewrite app_nil_r.
  - rewrite iteration_unfold in Hit. cbn in Hit. rewrite Hreq in Hit. by destruct rl.
Qed.

(** A flattener that raises on the first page ends the loop as well; the
    rows it yielded before it raised are the rows of the run. *)
Lemma first_page_parse_failure `{!StreamLaws ops} self partition pid io script rl resp rows e :
  py_getitem partition "page_id" = Ok pid ->
  (prepare_request ops (io_time_request io) self partition VNone).2 = Ok rl ->
  io_outcome io = Ok resp ->
  ops_parse_response (set_page_id self pid) resp = (rows, Err e) ->
  rows_of_events (request_records_loop ops partition (io :: script) (initial_state self)).1
    = rows /\
  (request_records_loop ops partition (io :: script) (initial_state self)).2 = Finished.
Proof.
  intros Hp Hreq Hio Hrows. rewrite request_records_loop_cons, iteration_unfold by done.
  cbn [initial_state Engine.self next_page_token]. cbn zeta.
  rewrite Hreq, (prepare_request_fst _ _ _ _ pid Hp). destruct rl as [req line].
  rewrite (try_block_parse_failure _ _ _ resp rows e Hio Hrows).
  rewrite request_records_loop_finished by done. cbn [fst snd]. rewrite app_nil_r.
  split; [|done]. by destruct (events_of_turn (ops_logged self partition VNone) line req rows
                                 (Err e)) as (-> & _).
Qed.

End EngineFacts.

(** ** The six streams *)

Section SixStreams.
Context `{Sdk}.

#[global] Instance stream_ops_laws (s : stream) : StreamLaws (stream_ops s).
Proof.
  split; intros; cbn.
  - by apply get_url_params_assigns_page_id.
  - by apply get_url_params_no_page_id.
  - by eapply logged_needs_page_id.
  - by apply logged_without_token.
Qed.

(** End to end, for [Posts], [PostTaggedProfile], [PostAttachments] and
    [PostInsights]: every row a run yields, on any script, carries the
    [page_id] of the partition the run was started for. *)
Theorem request_records_rows_tagged s self partition pid script :
  tags_page_id s = true ->
  py_getitem partition "page_id" = Ok pid ->
  Forall (fun r => py_getitem r "page_id" = Ok pid)
    (rows_of_events (request_records (stream_ops s) self partition script).1).
Proof.
  intros Hs Hp. apply (request_records_rows_Forall _ _ _ _ pid); [done|].
  intros io resp _ _. cbn.
  eapply Forall_impl; [by apply parse_response_rows_page_id|].
  by intros r (? & [= <-] & ?).
Qed.

(** The line for a page without a token is logged once in a run, before
    the first request, and never for a page whose token is known: whatever
    the stream, the script and the way the run ends, a run of at least one
    turn has logged ["Not enough rights for page: <id>"] exactly when the
    page's id is not in [access_tokens]. *)
Theorem request_records_notes s self partition p io script :
  py_getitem partition "page_id" = Ok (VStr p) ->
  notes_of_events (request_records (stream_ops s) self partition (io :: script)).1 =
  match dict_get p (access_tokens self) with
  | Some _ => []
  | None => [("Not enough rights for page: " ++ p)%string]
  end.
Proof.
  intros Hp. rewrite request_records_unfold.
  destruct (log_partition partition) as [page|] eqn:Hl.
  2: { unfold log_partition in Hl. destruct partition; try done. by destruct (truthy _). }
  cbn [fst]. change (notes_of_events (EvReading page :: ?evs)) with (notes_of_events evs).
  rewrite loop_notes; [|apply _|done].
  cbn [ops_logged stream_ops]. by apply logged_first.
Qed.

End SixStreams.

(** ** The theorems at the sample runs *)

Lemma loop_detection_keeps_looping_witness :
  iteration example_posts_ops example_partition example_first_page example_stuck_state =
  (EvInfo example_stuck_line :: EvRequest example_stuck_request
     :: map EvRow example_page_rows ++ [EvWarning (RuntimeError example_link)],
   Ok example_stuck_state).
Proof.
  apply (loop_detection_keeps_looping example_posts_ops example_partition
           example_first_page example_stuck_state example_stuck_request
           example_stuck_line
           (page_with_next [example_post] example_link) example_page_rows example_link);
    reflexivity.
Defined.

Lemma request_records_notes_witness :
  notes_of_events
    (request_records (@stream_ops example_sdk Posts) example_self
       (VDict [("page_id", VStr "456")]) [example_first_page]).1 =
  ["Not enough rights for page: 456"%string].
Proof.
  apply (@request_records_notes example_sdk Posts example_self
           (VDict [("page_id", VStr "456")]) "456" example_first_page []).
  reflexivity.
Defined.

Lemma failed_page_stops_only_first_witness :
  finished example_stuck_state = negb (truthy (next_page_token example_stuck_state)).
Proof.
  apply (failed_page_stops_only_first example_posts_ops example_partition
           example_first_page example_stuck_state example_stuck_events
           example_stuck_state); [reflexivity | vm_compute; discriminate].
Defined.

Lemma request_records_good_pages_witness :
  exists evs,
    request_records_loop example_posts_ops example_partition example_script
      (initial_state example_self) = (evs, Finished) /\
    rows_of_events evs = example_rows /\
    warnings_of_events evs = [] /\
    length (requests_of_events evs) = length example_script.
Proof.
  apply (request_records_good_pages example_posts_ops example_partition example_script
           (initial_state example_self) example_rows eq_refl).
  apply (good_more _ _ _ _ _ example_link);
    [eexists; split_and!; reflexivity | reflexivity |].
  apply (good_last _ _ _ _ _ VNone); [eexists; split_and!; reflexivity | reflexivity].
Defined.

Lemma stuck_turn_never_finishes_witness :
  request_records_loop example_posts_ops example_partition
    (repeat example_first_page 3) example_stuck_state =
  (concat (repeat example_stuck_events 3), Pending example_stuck_state).
Proof.
  apply (stuck_turn_never_finishes example_posts_ops example_partition example_first_page
           example_stuck_state example_stuck_events 3); reflexivity.
Defined.

Lemma iteration_refines_spec_witness :
  abs example_stuck_state = spec_step VNone (Ok example_link).
Proof.
  apply (iteration_refines_spec example_posts_ops example_partition example_first_page
           (initial_state example_self)
           (iteration example_posts_ops example_partition example_first_page
              (initial_state example_self)).1
           example_stuck_state); reflexivity.
Defined.

Lemma failed_page_departs_from_spec_witness :
  abs example_stuck_state = FETCHING (next_page_token example_stuck_state) /\
  truthy (next_page_token example_stuck_state) = true /\
  abs example_stuck_state <> spec_step (next_page_token example_stuck_state)
                               (Err (RuntimeError example_link)).
Proof.
  apply (failed_page_departs_from_spec example_posts_ops example_partition
           example_first_page example_stuck_state example_stuck_events
           example_stuck_state (RuntimeError example_link));
    [reflexivity | vm_compute; discriminate | reflexivity].
Defined.

Lemma prepare_failure_leaves_generator_witness :
  request_records_loop example_posts_ops (VDict []) [example_first_page]
    (initial_state example_self) =
  ([], Raised (KeyError (VStr "page_id"))).
Proof.
  apply (prepare_failure_leaves_generator example_posts_ops (VDict []) example_first_page
           [] (initial_state example_self)); reflexivity.
Defined.

Lemma request_records_rows_tagged_witness :
  Forall (fun r => py_getitem r "page_id" = Ok (VStr "123"))
    (rows_of_events
       (request_records example_posts_ops example_self example_partition
          example_script).1).
Proof.
  apply (@request_records_rows_tagged example_sdk Posts example_self example_partition
           (VStr "123") example_script); reflexivity.
Defined.

Lemma request_records_no_page_id_witness :
  request_records example_posts_ops example_self (VDict [("id", VStr "123")])
    [example_first_page] =
  ([EvReading (VBool false)], Raised (KeyError (VStr "page_id"))).
Proof.
  apply (@request_records_no_page_id example_posts_ops
           (@stream_ops_laws example_sdk Posts)); reflexivity.
Defined.

Lemma request_records_bad_partition_witness :
  request_records example_posts_ops example_self (VStr "123") example_script =
  ([], Raised AttributeError).
Proof.
  apply (request_records_bad_partition example_posts_ops example_self (VStr "123"));
    reflexivity.
Defined.
