(* ===== verification/Link.v ===== *)
(** * Link: from a [next] link to the next request

    A pagination token is the [next] link of a response.  The parameter
    builders parse it back into parameters ([Url.parse_qs]), the SDK puts
    the parameters behind the stream's URL and [requests] renders them
    again.  This file follows a link through these steps:

    - [endpoint s page] is the address of stream [s] for a page, the URL
      template of [url_base] with the page filled in and the path of the
      stream class appended;
    - [next_link s page ps] is a link to that address with the parameters
      [ps], as the server writes it into [paging.next].

    The theorems say that the streams which return a token's parameters
    untouched send their next request to the link itself, and what is
    logged for it: the link with the token masked when other parameters
    follow the token, and the link as it is, token included, when the
    token is its last parameter.  The link is written the way [requests] writes a URL
    ([Quote.urlencode]); its names and values are any texts, the values not
    blank. *)

From Stdlib Require Import List String Ascii ZArith Bool Lia.
From stdpp Require Import base tactics list.
From S2P Require Import Prelude PyDict PyValue Streams Url Quote Params Window Flatten Redact.
From S2P Require Import Engine.
Import ListNotations.

Set Default Proof Using "Type".
Local Open Scope string_scope.

Definition endpoint (s : stream) (page : string) : string :=
  "https://graph.facebook.com/v10.0/" ++ page ++ path (class_of s).

Definition next_link (s : stream) (page : string) (ps : list (string * string)) : string :=
  endpoint s page ++ String "?" (urlencode ps).

(** The request that asks for what a link points to: the stream's URL
    for the page and the link's parameters as [parse_qs] returns them. *)
Definition link_request (s : stream) (page : string) (ps : list (string * string))
  : request :=
  {| req_base := url_base; req_page := VStr page; req_path := path (class_of s);
     req_params := params_of_query (single_values ps) |}.

(** A link of [Posts] to the page after the first. *)
Definition example_next_params : list (string * string) :=
  [("access_token", "TOKEN123"); ("limit", "100"); ("after", "abc")].

Definition example_next : string := next_link Posts "123" example_next_params.

(** The parameters a link has before its token, when the token is its
    last parameter. *)
Definition example_before : list (string * string) := [("limit", "100"); ("after", "abc")].

(** ** The address *)

(** [self.url_base + self.path] with [{page_id}] replaced. *)
Lemma endpoint_replaced s page :
  str_replace_from 0 "{page_id}" page (url_base ++ path (class_of s)) = endpoint s page.
Proof. by destruct s. Qed.

(** No address has a reserved character but those of the page. *)
Lemma endpoint_lacks c s page :
  In c reserved -> plain page = true -> lacks c (endpoint s page) = true.
Proof.
  intros Hc Hp. unfold endpoint. rewrite !lacks_app, (plain_lacks c page) by done.
  cbn in Hc. by destruct_or!; subst; destruct s.
Qed.

(** No match of the pattern starts in the address of a page whose id has
    no [a], nor in a text without [a] after it. *)
Lemma endpoint_clean s page pre rest :
  lacks "a" page = true -> lacks "a" pre = true ->
  matches_before (endpoint s page ++ String "?" pre) rest = true.
Proof.
  intros Hpage Hpre. unfold endpoint. rewrite string_app_assoc, matches_before_app.
  apply andb_true_intro. split; [done|]. apply matches_before_lacks.
  rewrite !lacks_app, Hpage. cbn [lacks]. rewrite Hpre. by destruct s.
Qed.

(** A link is not empty: as a token it is true. *)
Lemma next_link_truthy s page ps : truthy (VStr (next_link s page ps)) = true.
Proof. done. Qed.

Lemma parse_qsl_next_link s page ps :
  plain page = true -> kept_query ps = true ->
  parse_qsl (url_query (next_link s page ps)) = ps.
Proof.
  intros Hpage Hps. unfold next_link.
  rewrite url_query_urlencode by (by apply endpoint_lacks; [is_reserved|]).
  by apply parse_qsl_urlencode.
Qed.

Lemma parse_qs_next_link s page ps :
  plain page = true -> kept_query ps = true -> dict_wf ps ->
  parse_qs (url_query (next_link s page ps)) = single_values ps.
Proof.
  intros Hpage Hps Hwf. unfold parse_qs. rewrite parse_qsl_next_link by done.
  by rewrite fold_add_value_fresh.
Qed.

(** Links with different parameters are different texts. *)
Lemma next_link_inj s page ps ps' :
  plain page = true -> kept_query ps = true -> kept_query ps' = true ->
  next_link s page ps = next_link s page ps' -> ps = ps'.
Proof.
  intros Hpage Hps Hps' Heq. apply (f_equal (fun l => parse_qsl (url_query l))) in Heq.
  by rewrite !parse_qsl_next_link in Heq.
Qed.

(** The line logged for a link that carries the token first and other
    parameters after it, none of which looks like a token: the link
    unescaped, with the mask in the place of the token. *)
Lemma link_line s page tok rest :
  plain page = true -> lacks "a" page = true ->
  tok <> "" -> all_alnum tok = true -> rest <> [] ->
  matches_nowhere (render_query (map plus_pair rest)) = true ->
  logged_url (next_link s page (("access_token", tok) :: rest)) =
  endpoint s page ++
  String "?" (render_query (("access_token", "*****") :: map plus_pair rest)).
Proof.
  intros Hpage Ha Hne Htok Hrest Hclean. unfold logged_url, next_link.
  rewrite unquote_lacks_app by (apply endpoint_lacks; [is_reserved | done]).
  rewrite unquote_cons, unquote_urlencode by done. cbn [map].
  change (plus_pair ("access_token", tok)) with ("access_token", spaces_to_plus tok).
  rewrite (spaces_to_plus_lacks tok) by (by apply lacks_alnum).
  rewrite !render_query_cons by (by destruct rest). cbn [fst snd].
  pose proof (re_sub_token (endpoint s page ++ "?") tok
                (render_query (map plus_pair rest))) as Hsub.
  rewrite !string_app_assoc in Hsub |- *. cbn [append token_literal mask] in Hsub |- *.
  by apply Hsub; [apply (endpoint_clean s page "")|..].
Qed.

(** The line logged for a link whose last parameter is the token: the
    pattern asks for a [&] after the token, so nothing is masked. *)
Lemma last_token_line s page before tok :
  plain page = true -> lacks "a" page = true -> all_alnum tok = true ->
  matches_nowhere (query_before (map plus_pair before)) = true ->
  logged_url (next_link s page (before ++ [("access_token", tok)])) =
  endpoint s page ++
  String "?" (query_before (map plus_pair before) ++ "access_token=" ++ tok).
Proof.
  intros Hpage Ha Htok Hclean. unfold logged_url, next_link.
  rewrite unquote_lacks_app by (apply endpoint_lacks; [is_reserved | done]).
  rewrite unquote_cons, unquote_urlencode, map_app by done. cbn [map].
  change (plus_pair ("access_token", tok)) with ("access_token", spaces_to_plus tok).
  rewrite (spaces_to_plus_lacks tok), render_query_snoc by (by apply lacks_alnum).
  cbn [fst snd].
  assert (matches_before ((endpoint s page ++ "?") ++ query_before (map plus_pair before))
            (token_literal ++ tok) = true) as Hpre.
  { rewrite matches_before_app, (endpoint_clean s page "") by done.
    destruct (map plus_pair before) as [|kv ps]; [done|]. by apply matches_before_amp. }
  assert (matches_nowhere (token_literal ++ tok) = true) as Hlast
    by (apply matches_nowhere_lacks; by rewrite lacks_app, (lacks_alnum "&" tok)).
  pose proof (re_sub_clean _ _ Hpre Hlast) as Hsub.
  rewrite !string_app_assoc in Hsub. exact Hsub.
Qed.

(** ** The parameters *)

Lemma encode_params_single ps :
  encode_params (params_of_query (single_values ps)) = Some ps.
Proof.
  unfold single_values, params_of_query. induction ps as [|[k v] ps IH]; [done|].
  cbn [map encode_params fst snd]. by rewrite IH.
Qed.

Section WithUrllib.
Context (starting_timestamp : pyval -> option Z).
#[local] Instance sdk : Sdk := urllib_sdk starting_timestamp.

(** The token is read back as the parameters the link was written with. *)
Lemma py_url_query_next_link s page ps :
  plain page = true -> kept_query ps = true -> dict_wf ps ->
  @py_url_query sdk (VStr (next_link s page ps)) = Ok (params_of_query (single_values ps)).
Proof.
  intros Hpage Hps Hwf. unfold py_url_query. cbn [parse_qs_query sdk urllib_sdk].
  by rewrite parse_qs_next_link.
Qed.

Lemma request_url_next_link s page ps :
  ps <> [] -> request_url (link_request s page ps) = Some (next_link s page ps).
Proof.
  intros Hne. unfold request_url, link_request.
  cbn [req_base req_page req_path req_params py_str].
  rewrite encode_params_single, endpoint_replaced. by destruct ps.
Qed.

(** The request prepared with a [next] link as token. *)
Lemma prepare_request_next_link s time self partition page ps :
  returns_token_params s = true ->
  py_getitem partition "page_id" = Ok (VStr page) ->
  plain page = true -> kept_query ps = true -> dict_wf ps ->
  prepare_request (@stream_ops sdk s) time self partition (VStr (next_link s page ps)) =
  (set_page_id self (VStr page),
   Ok (link_request s page ps, option_map logged_url (request_url (link_request s page ps)))).
Proof.
  intros Hs Hpid Hpage Hps Hwf.
  pose proof (token_params_verbatim s time self partition (VStr (next_link s page ps))
                (VStr page) Hs Hpid eq_refl) as Hparams.
  rewrite py_url_query_next_link in Hparams by done.
  pose proof (get_url_params_assigns_page_id s time self partition
                (VStr (next_link s page ps)) (VStr page) Hpid) as Hself.
  unfold prepare_request, sdk_prepare_request. cbn [ops_get_url_params stream_ops].
  destruct (get_url_params s time self partition _) as [self' params]. cbn [fst snd] in *.
  subst. cbn [res_bind ops_path stream_ops]. by rewrite ?Hpid.
Qed.

(** C20.  Round trip of a pagination token through the tap: for the streams
    that return a token's parameters untouched, the request prepared with a
    [next] link as token carries the link's parameters, is addressed to that
    very link, and the line logged for it is the link after the substitution.
    The instance holds the partition's page. *)
Theorem token_request_goes_to_link s time self partition page ps :
  returns_token_params s = true ->
  py_getitem partition "page_id" = Ok (VStr page) ->
  plain page = true -> kept_query ps = true -> dict_wf ps -> ps <> [] ->
  prepare_request (@stream_ops sdk s) time self partition (VStr (next_link s page ps)) =
    (set_page_id self (VStr page),
     Ok (link_request s page ps, Some (logged_url (next_link s page ps)))) /\
  request_url (link_request s page ps) = Some (next_link s page ps) /\
  encode_params (req_params (link_request s page ps)) = Some ps.
Proof.
  intros Hs Hpid Hpage Hps Hwf Hne.
  rewrite prepare_request_next_link, request_url_next_link by done.
  split_and!; [done..|]. apply encode_params_single.
Qed.

(** C17.  The token of a link that ends with it is logged in clear: for the
    streams that return a token's parameters untouched, the line logged for
    the request prepared with a [next] link whose last parameter is
    [access_token] is the link unescaped, token included, whatever the
    parameters before it, provided none of them looks like a token. *)
Theorem last_token_logged_in_clear s time self partition page before tok :
  returns_token_params s = true ->
  py_getitem partition "page_id" = Ok (VStr page) ->
  plain page = true -> lacks "a" page = true ->
  kept_query before = true -> dict_wf (before ++ [("access_token", tok)]) ->
  tok <> "" -> all_alnum tok = true ->
  matches_nowhere (query_before (map plus_pair before)) = true ->
  (prepare_request (@stream_ops sdk s) time self partition
     (VStr (next_link s page (before ++ [("access_token", tok)])))).2 =
  Ok (link_request s page (before ++ [("access_token", tok)]),
      Some (endpoint s page ++
            String "?" (query_before (map plus_pair before) ++ "access_token=" ++ tok))).
Proof.
  intros Hs Hpid Hpage Ha Hkept Hwf Hne Htok Hclean.
  assert (kept_query (before ++ [("access_token", tok)]) = true) as Hall.
  { unfold kept_query in *. rewrite forallb_app, Hkept. cbn. by destruct tok. }
  rewrite prepare_request_next_link, request_url_next_link by (done || by destruct before).
  cbn [snd option_map]. by rewrite last_token_line.
Qed.

End WithUrllib.

(** ** The theorem at a sample link *)

Lemma token_request_goes_to_link_witness :
  prepare_request (@stream_ops example_sdk Posts) 0 example_self example_partition
    (VStr example_next) =
    (set_page_id example_self (VStr "123"),
     Ok (link_request Posts "123" example_next_params,
         Some (logged_url example_next))) /\
  request_url (link_request Posts "123" example_next_params) = Some example_next /\
  encode_params (req_params (link_request Posts "123" example_next_params)) =
    Some example_next_params.
Proof.
  apply (token_request_goes_to_link (fun _ => None) Posts 0 example_self example_partition
           "123" example_next_params);
    try reflexivity; [solve_dict_wf | discriminate].
Defined.

Lemma last_token_logged_in_clear_witness :
  (prepare_request (@stream_ops example_sdk Posts) 0 example_self example_partition
     (VStr (next_link Posts "123" (example_before ++ [("access_token", "TOKEN123")])))).2 =
  Ok (link_request Posts "123" (example_before ++ [("access_token", "TOKEN123")]),
      Some "https://graph.facebook.com/v10.0/123/posts?limit=100&after=abc&access_token=TOKEN123").
Proof.
  apply (last_token_logged_in_clear (fun _ => None) Posts 0 example_self example_partition
           "123" example_before "TOKEN123");
    try reflexivity; [solve_dict_wf | discriminate].
Defined.
