(* ===== verification/First.v ===== *)
(** * First: the first request of a partition

    Without a token, every stream sends the parameters of the base builder
    and adds its own: the table of the specification's §4.2.  This file
    states what the request is, for every stream at once, and follows it to
    the line [prepare_request] logs:

    - [first_extra] is what the stream adds to the base parameters
      ([Params.spec_first_params]), [first_params] the parameters of the
      request;
    - [first_query] is the query string of the request as a list of names
      and texts, and [masked_query] the same with the token masked.

    The theorems say that [get_url_params] returns [first_params], that the
    URL of the request is the stream's address with [first_query] written by
    [Quote.urlencode], and that the logged line is the address with
    [masked_query] unescaped: the token of a first request is always
    followed by [limit], so the substitution finds it. *)

From Stdlib Require Import List String Ascii ZArith Bool Lia.
From stdpp Require Import base tactics list.
From S2P Require Import Prelude PyDict PyValue Streams Url Quote Params Window Flatten Redact.
From S2P Require Import Engine Link.
Import ListNotations.

Set Default Proof Using "Type".
Local Open Scope list_scope.
Local Open Scope string_scope.

(** What each stream adds to the base parameters of a request without
    token.  [PageInsights] reads [params['since']], which is there only when
    the SDK has a cursor. *)
Definition first_extra (s : stream) (time : Z) (cursor : option Z) (self : stream_self)
  : res pydict :=
  match s with
  | Page | Posts => Ok [("fields", VStr (config_fields self))]
  | PostTaggedProfile => Ok [("fields", VStr "id,created_time,to")]
  | PostAttachments => Ok [("fields", VStr "id,created_time,attachments")]
  | PostInsights =>
      Ok [("fields",
           VStr ("id,created_time,insights.metric(" ++ join_comma (metrics self) ++ ")"))]
  | PageInsights =>
      match cursor with
      | Some since =>
          Ok [("until", VInt (first_until time since));
              ("metric", VStr (join_comma (metrics self)))]
      | None => Err (KeyError (VStr "since"))
      end
  end.

Definition first_params (s : stream) (time : Z) (cursor : option Z) (token : option string)
    (self : stream_self) : res pydict :=
  res_map (fun extra => (spec_first_params cursor token ++ extra)%list)
    (first_extra s time cursor self).

(** The texts of [first_extra], as [requests] writes them. *)
Definition extra_query (s : stream) (time : Z) (cursor : option Z) (self : stream_self)
  : list (string * string) :=
  match first_extra s time cursor self with
  | Ok extra => default [] (encode_params extra)
  | Err _ => []
  end.

(** The query string of a first request, and the same with a mask for the
    token. *)
Definition first_query (cursor : option Z) (token : option string)
    (extra : list (string * string)) : list (string * string) :=
  (match cursor with Some ts => [("since", py_str_of_int ts)] | None => [] end ++
   match token with Some t => [("access_token", t)] | None => [] end ++
   ("limit", "100") :: extra)%list.

Definition masked_query (cursor : option Z) (token : option string)
    (extra : list (string * string)) : list (string * string) :=
  first_query cursor (option_map (fun _ => "*****") token) extra.

(** The request itself. *)
Definition first_request (s : stream) (page : string) (params : pydict) : request :=
  {| req_base := url_base; req_page := VStr page; req_path := path (class_of s);
     req_params := params |}.

(** The [since] of the query string, with the [&] after it. *)
Definition since_text (cursor : option Z) : string :=
  match cursor with
  | Some ts => "since=" ++ py_str_of_int ts ++ "&"
  | None => ""
  end.

(** Parameters in which no match of the pattern can be: no name and no
    value but the last has the letter [a], where a match starts, and the
    last value has no [&], where a match ends. *)
Fixpoint quiet (ps : list (string * string)) : bool :=
  match ps with
  | [] => true
  | [(k, v)] => lacks "a" k && lacks "&" v
  | (k, v) :: rest => lacks "a" k && lacks "a" v && quiet rest
  end.

(** The values have no [&]. *)
Definition no_amp (ps : list (string * string)) : bool :=
  forallb (fun kv => lacks "&" (snd kv)) ps.

(** What is assumed of the texts of a first request: the page is a text
    without reserved characters and without the letter [a] (a number, as
    page ids are), the page's token, if known, is made of letters and
    digits, and no value the stream adds has a [&]. *)
Record plain_request (s : stream) (time : Z) (cursor : option Z) (token : option string)
    (self : stream_self) (page : string) : Prop := {
  pr_page : plain page = true;
  pr_page_a : lacks "a" page = true;
  pr_token : match token with
             | Some t => t <> "" /\ all_alnum t = true
             | None => True
             end;
  pr_extra : no_amp (extra_query s time cursor self) = true;
}.

(** ** The parameters *)

Section FirstFacts.
Context `{Sdk}.

(** [get_url_params] without a token. *)
Lemma get_url_params_first s time self partition p :
  py_getitem partition "page_id" = Ok (VStr p) ->
  get_url_params s time self partition VNone =
  (set_page_id self (VStr p),
   first_params s time (get_starting_timestamp partition) (dict_get p (access_tokens self))
     self).
Proof.
  intros Hp. pose proof (base_first_params self partition VNone p Hp eq_refl) as Hb.
  pose proof (base_self self partition VNone _ Hp) as Hself.
  unfold first_params, first_extra.
  destruct s; unfold_builders;
    destruct (FacebookPagesStream_get_url_params self partition VNone) as [self1 r];
    cbn [fst snd] in *; subst; cbn [res_bind res_map truthy]; f_equal;
    unfold spec_first_params, PageInsights_window, config_fields;
    by destruct (get_starting_timestamp partition), (dict_get p (access_tokens self)).
Qed.

(** ** The query string *)

Lemma extra_query_encodes s time cursor self extra :
  first_extra s time cursor self = Ok extra ->
  encode_params extra = Some (extra_query s time cursor self).
Proof.
  intros He. unfold extra_query. rewrite He.
  by destruct s, cursor; simplify_eq/=.
Qed.

Lemma first_params_encode s time cursor token self params :
  first_params s time cursor token self = Ok params ->
  encode_params params = Some (first_query cursor token (extra_query s time cursor self)).
Proof.
  unfold first_params. destruct (first_extra s time cursor self) as [extra|] eqn:He; [|done].
  intros [= <-]. apply extra_query_encodes in He. unfold spec_first_params, first_query.
  destruct cursor, token; cbn; by rewrite He.
Qed.

(** The query string around the token. *)
Lemma render_first_query cursor token extra :
  render_query (first_query cursor token extra) =
  since_text cursor ++
  match token with
  | Some t => token_literal ++ t ++ String "&" (render_query (("limit", "100") :: extra))
  | None => render_query (("limit", "100") :: extra)
  end.
Proof.
  unfold first_query, since_text.
  destruct cursor, token; cbn [app]; rewrite ?render_query_cons by done;
    cbn [fst snd]; by rewrite ?string_app_assoc.
Qed.

(** [unquote] leaves the [+] that was written for a space: numbers and
    tokens have none. *)
Lemma plus_first_query cursor token extra :
  match token with Some t => t <> "" /\ all_alnum t = true | None => True end ->
  map plus_pair (first_query cursor token extra) = first_query cursor token (map plus_pair extra).
Proof.
  intros Ht. unfold first_query. rewrite !List.map_app. cbn [map]. f_equal; [|f_equal].
  - destruct cursor as [ts|]; [|done]. unfold plus_pair. cbn [map fst snd].
    by rewrite !spaces_to_plus_lacks by (done || by apply py_str_of_int_lacks).
  - destruct token as [t|]; [|done]. destruct Ht as [_ Ht]. unfold plus_pair. cbn [map fst snd].
    by rewrite !spaces_to_plus_lacks by (done || by apply lacks_alnum).
Qed.

(** ** Where a match can start *)

(** No match starts in the address or in [since]. *)
Lemma first_prefix_clean s page cursor rest :
  lacks "a" page = true ->
  matches_before (endpoint s page ++ String "?" (since_text cursor)) rest = true.
Proof.
  intros Hpage. apply endpoint_clean; [done|]. unfold since_text.
  destruct cursor as [ts|]; [|done]. by rewrite !lacks_app, py_str_of_int_lacks.
Qed.

(** No match is in a query whose parameters are [quiet]: a match would
    start in the last value, which has no [&] to end it. *)
Lemma render_query_clean ps : quiet ps = true -> matches_nowhere (render_query ps) = true.
Proof.
  induction ps as [|[k v] ps IH]; [done|]. intros Hq. destruct ps as [|kv ps].
  - cbn [render_query quiet] in *. apply andb_prop in Hq as [Hk Hv].
    rewrite <- string_app_assoc, matches_nowhere_app.
    rewrite matches_before_lacks by (rewrite lacks_app; cbn [lacks]; by rewrite Hk).
    by apply matches_nowhere_lacks.
  - rewrite render_query_cons by done. cbn [fst snd]. cbn [quiet] in Hq.
    destruct kv as [k' v']. apply andb_prop in Hq as [[Hk Ha]%andb_prop Hq].
    change (String "&" ?r) with ("&" ++ r). rewrite <- string_app_assoc, matches_nowhere_app.
    rewrite matches_before_lacks by (rewrite !lacks_app; cbn [lacks]; by rewrite Hk, Ha).
    by apply IH.
Qed.

(** No match is in what follows the token. *)
Lemma first_rest_clean s time cursor self :
  no_amp (extra_query s time cursor self) = true ->
  matches_nowhere
    (render_query (("limit", "100") :: map plus_pair (extra_query s time cursor self))) = true.
Proof.
  intros Hamp. apply render_query_clean. revert Hamp. unfold no_amp.
  destruct s, cursor as [since|]; try done; cbn;
    rewrite ?andb_true_r, ?lacks_spaces_to_plus, ?py_str_of_int_lacks by done; try done.
Qed.

(** ** The URL and the line *)

Lemma first_request_url s page params q :
  encode_params params = Some q -> q <> [] ->
  request_url (first_request s page params) = Some (endpoint s page ++ String "?" (urlencode q)).
Proof.
  intros Hq Hne. unfold request_url, first_request.
  cbn [req_base req_page req_path req_params py_str]. rewrite Hq, endpoint_replaced.
  by destruct q.
Qed.

(** The line logged for the URL of a first request: the address and the
    parameters unescaped, with the mask in the place of the token. *)
Lemma first_line s time cursor token self page :
  plain_request s time cursor token self page ->
  logged_url (endpoint s page ++
              String "?" (urlencode (first_query cursor token
                                       (extra_query s time cursor self)))) =
  endpoint s page ++
  String "?" (render_query (masked_query cursor token
                              (map plus_pair (extra_query s time cursor self)))).
Proof.
  intros [Hpage Ha Htok Hextra]. unfold logged_url, masked_query.
  rewrite unquote_lacks_app by (apply endpoint_lacks; [is_reserved | done]).
  rewrite unquote_cons, unquote_urlencode, plus_first_query by done.
  rewrite !render_first_query, !string_app_mid.
  pose proof (first_rest_clean s time cursor self Hextra) as Hrest.
  destruct token as [t|]; cbn [option_map].
  - destruct Htok as [Hne Ht]. by rewrite re_sub_token by (done || by apply first_prefix_clean).
  - by rewrite re_sub_clean by (done || by apply first_prefix_clean).
Qed.

(** The URL of a first request. *)
Lemma first_params_url s time cursor token self page params :
  first_params s time cursor token self = Ok params ->
  request_url (first_request s page params) =
  Some (endpoint s page ++
        String "?" (urlencode (first_query cursor token (extra_query s time cursor self)))).
Proof.
  intros Hparams. apply first_request_url; [by eapply first_params_encode|].
  unfold first_query. by destruct cursor, token.
Qed.

(** [RESTStream.prepare_request] without a token. *)
Lemma sdk_prepare_first s time self partition page :
  py_getitem partition "page_id" = Ok (VStr page) ->
  sdk_prepare_request (stream_ops s) time self partition VNone =
  (set_page_id self (VStr page),
   res_map (first_request s page)
     (first_params s time (get_starting_timestamp partition)
        (dict_get page (access_tokens self)) self)).
Proof.
  intros Hp. unfold sdk_prepare_request. cbn [ops_get_url_params ops_path stream_ops].
  rewrite (get_url_params_first _ _ _ _ _ Hp).
  destruct (first_params _ _ _ _ _) as [params|]; [|done]. cbn [res_bind res_map].
  by rewrite Hp.
Qed.

(** The first request can be prepared, but for [PageInsights] without a
    cursor. *)
Lemma prepare_first_ok s time self partition page :
  py_getitem partition "page_id" = Ok (VStr page) ->
  s <> PageInsights \/ get_starting_timestamp partition <> None ->
  exists req line,
    prepare_request (stream_ops s) time self partition VNone =
    (set_page_id self (VStr page), Ok (req, line)).
Proof.
  intros Hp Hs. unfold prepare_request. rewrite (sdk_prepare_first _ _ _ _ _ Hp).
  unfold first_params.
  assert (exists extra, first_extra s time (get_starting_timestamp partition) self = Ok extra)
    as [extra ->]; [|cbn; eauto].
  destruct s; try (eexists; reflexivity). destruct Hs as [|Hs]; [done|]. cbn.
  destruct (get_starting_timestamp partition); [eauto | done].
Qed.

(** C18.  The table of first requests: without a token and with a string page
    id, every stream assigns the id to [self.page_id] and sends [since] (if
    the SDK has a cursor), [access_token] (if the page's token is known) and
    [limit] = 100, then what the stream adds: [fields] for the five streams of
    objects, [until] and [metric] for [PageInsights], which raises
    [KeyError('since')] when there is no cursor.  The request goes to the
    stream's address with these parameters, in this order, as its query. *)
Theorem first_request_params s time self partition page :
  py_getitem partition "page_id" = Ok (VStr page) ->
  get_url_params s time self partition VNone =
    (set_page_id self (VStr page),
     first_params s time (get_starting_timestamp partition)
       (dict_get page (access_tokens self)) self) /\
  forall params,
    first_params s time (get_starting_timestamp partition)
      (dict_get page (access_tokens self)) self = Ok params ->
    sdk_prepare_request (stream_ops s) time self partition VNone =
      (set_page_id self (VStr page), Ok (first_request s page params)) /\
    request_url (first_request s page params) =
      Some (endpoint s page ++
            String "?" (urlencode
                          (first_query (get_starting_timestamp partition)
                             (dict_get page (access_tokens self))
                             (extra_query s time (get_starting_timestamp partition) self)))).
Proof.
  intros Hp. split; [by apply get_url_params_first|]. intros params Hparams.
  rewrite (sdk_prepare_first _ _ _ _ _ Hp), Hparams. split; [done|].
  by apply first_params_url.
Qed.

(** C19.  The line logged for the first request of a partition is the URL of
    the request with [*****] in the place of the page's token: [limit] follows
    the token in every first request, so the substitution finds it, whatever
    the stream. *)
Theorem first_request_line s time self partition page params :
  py_getitem partition "page_id" = Ok (VStr page) ->
  first_params s time (get_starting_timestamp partition)
    (dict_get page (access_tokens self)) self = Ok params ->
  plain_request s time (get_starting_timestamp partition)
    (dict_get page (access_tokens self)) self page ->
  prepare_request (stream_ops s) time self partition VNone =
  (set_page_id self (VStr page),
   Ok (first_request s page params,
       Some (endpoint s page ++
             String "?" (render_query
                           (masked_query (get_starting_timestamp partition)
                              (dict_get page (access_tokens self))
                              (map plus_pair
                                 (extra_query s time (get_starting_timestamp partition)
                                    self))))))).
Proof.
  intros Hp Hparams Hplain. unfold prepare_request.
  rewrite (sdk_prepare_first _ _ _ _ _ Hp), Hparams. cbn [res_map res_bind].
  rewrite (first_params_url _ _ _ _ _ _ _ Hparams). cbn [option_map].
  by rewrite first_line.
Qed.

End FirstFacts.

(** ** The theorems at the sample partition *)

Lemma first_request_line_witness :
  prepare_request (@stream_ops example_sdk_cursor PostInsights) 1700000000 example_self
    example_partition VNone =
  (set_page_id example_self (VStr "123"),
   Ok (first_request PostInsights "123"
         [("since", VInt 1600000000); ("access_token", VStr "TOKEN123"); ("limit", VInt 100);
          ("fields", VStr "id,created_time,insights.metric(page_fans,page_views)")],
       Some "https://graph.facebook.com/v10.0/123/published_posts?since=1600000000&access_token=*****&limit=100&fields=id,created_time,insights.metric(page_fans,page_views)")).
Proof.
  apply (@first_request_line example_sdk_cursor PostInsights 1700000000 example_self
           example_partition "123"); [reflexivity | reflexivity |].
  split; try reflexivity. by split.
Defined.

Lemma first_request_params_witness :
  @get_url_params example_sdk_cursor PageInsights 1700000000 example_self example_partition
    VNone =
    (set_page_id example_self (VStr "123"),
     Ok [("since", VInt 1600000000); ("access_token", VStr "TOKEN123"); ("limit", VInt 100);
         ("until", VInt 1608035200); ("metric", VStr "page_fans,page_views")]) /\
  forall params,
    first_params PageInsights 1700000000 (Some 1600000000%Z) (Some "TOKEN123") example_self =
      Ok params ->
    sdk_prepare_request (@stream_ops example_sdk_cursor PageInsights) 1700000000 example_self
      example_partition VNone =
      (set_page_id example_self (VStr "123"), Ok (first_request PageInsights "123" params)) /\
    request_url (first_request PageInsights "123" params) =
      Some "https://graph.facebook.com/v10.0/123/insights?since=1600000000&access_token=TOKEN123&limit=100&until=1608035200&metric=page_fans%2Cpage_views".
Proof.
  apply (@first_request_params example_sdk_cursor PageInsights 1700000000 example_self
           example_partition "123"). reflexivity.
Defined.
