(* ===== verification/World.v ===== *)
(** * World: the pagination loop against a server

    [Engine.request_records_loop] runs the loop over a script written in
    advance.  What the server answers depends on what it is asked, so here
    the outside world is a function of the turn and of the request:

    - a [world] gives, for every turn, the two clock readings and what
      [_request_with_backoff] does with the request of the turn;
    - [page_io_at] is the [Engine.page_io] the world produces in a turn,
      given the state the turn starts from;
    - [request_records_against] is the loop run against the world, for at
      most [fuel] turns; [script_against] is the script the world writes
      while it runs.

    The loop itself has no bound; [fuel] is the number of turns looked at.
    A run that is [Pending] when the fuel is used up says nothing about
    more turns, so the theorems on ending give a bound on the turns and show
    that the run is not [Pending] with that much fuel ([ended]). *)

From Stdlib Require Import List String ZArith Bool Lia.
From stdpp Require Import base tactics list.
From S2P Require Import Prelude PyDict PyValue Streams Url Params Window Flatten Redact Engine.
Import ListNotations.

Set Default Proof Using "Type".
Local Open Scope list_scope.

Record world : Type := {
  clock_request : nat -> Z;
  send : nat -> request -> res response;
  clock_next : nat -> Z;
}.

(** The loop has come to its end: it finished or an exception left it. *)
Definition ended (r : run_end) : bool :=
  match r with
  | Pending _ => false
  | _ => true
  end.

Section Against.
Context (ops : StreamOps) (w : world).

Definition page_io_at (partition : pyval) (n : nat) (st : loop_state) : page_io :=
  {| io_time_request := clock_request w n;
     io_outcome :=
       match snd (prepare_request ops (clock_request w n) (self st) partition
                    (next_page_token st)) with
       | Ok (req, _) => send w n req
       | Err e => Err e
       end;
     io_time_next := clock_next w n |}.

Fixpoint request_records_against (partition : pyval) (fuel n : nat) (st : loop_state)
  : list event * run_end :=
  if finished st then ([], Finished)
  else
    match fuel with
    | O => ([], Pending st)
    | S fuel' =>
        match iteration ops partition (page_io_at partition n st) st with
        | (evs, Err e) => (evs, Raised e)
        | (evs, Ok st') =>
            let '(evs', r) := request_records_against partition fuel' (S n) st' in
            (evs ++ evs', r)
        end
    end.

Fixpoint script_against (partition : pyval) (fuel n : nat) (st : loop_state)
  : list page_io :=
  if finished st then []
  else
    match fuel with
    | O => []
    | S fuel' =>
        page_io_at partition n st ::
        match snd (iteration ops partition (page_io_at partition n st) st) with
        | Ok st' => script_against partition fuel' (S n) st'
        | Err _ => []
        end
    end.

(** ** The run against a world is a run over the script it writes *)

Lemma request_records_against_finished partition fuel n st :
  finished st = true -> request_records_against partition fuel n st = ([], Finished).
Proof. intros H. destruct fuel; cbn; by rewrite H. Qed.

Lemma request_records_against_S partition fuel n st :
  finished st = false ->
  request_records_against partition (S fuel) n st =
  match iteration ops partition (page_io_at partition n st) st with
  | (evs, Err e) => (evs, Raised e)
  | (evs, Ok st') =>
      let '(evs', r) := request_records_against partition fuel (S n) st' in
      (evs ++ evs', r)
  end.
Proof. intros H. cbn. by rewrite H. Qed.

(** The loop over the script the world writes is the run against the
    world. *)
Lemma loop_over_script partition fuel n st :
  request_records_loop ops partition (script_against partition fuel n st) st =
  request_records_against partition fuel n st.
Proof.
  revert n st. induction fuel as [|fuel IH]; intros n st;
    (destruct (finished st) eqn:Hf;
     [by rewrite request_records_against_finished, request_records_loop_finished|]).
  - cbn. by rewrite Hf, request_records_loop_nil.
  - rewrite request_records_against_S by done. cbn [script_against]. rewrite Hf.
    rewrite request_records_loop_cons by done.
    destruct (iteration ops partition (page_io_at partition n st) st) as [evs [st'|e]];
      [|done].
    cbn [snd]. by rewrite IH.
Qed.

(** The run against a world is the run of the loop over the script the
    world writes: every theorem on scripts holds of runs against a server. *)
Theorem against_is_loop partition fuel n st :
  request_records_against partition fuel n st =
  request_records_loop ops partition (script_against partition fuel n st) st.
Proof. by rewrite loop_over_script. Qed.

(** More fuel does not change a run that has ended. *)
Lemma request_records_against_more partition fuel extra n st :
  ended (snd (request_records_against partition fuel n st)) = true ->
  request_records_against partition (fuel + extra) n st =
  request_records_against partition fuel n st.
Proof.
  revert n st. induction fuel as [|fuel IH]; intros n st;
    (destruct (finished st) eqn:Hf; [by rewrite !request_records_against_finished|]).
  - cbn. by rewrite Hf.
  - cbn [Nat.add]. rewrite !request_records_against_S by done.
    destruct (iteration ops partition (page_io_at partition n st) st) as [evs [st'|e]];
      [|done].
    specialize (IH (S n) st').
    destruct (request_records_against partition fuel (S n) st') as [evs' r].
    intros Hr. by rewrite IH.
Qed.

(** ** Runs that end *)

Section Measure.
Context (partition : pyval) (inv : loop_state -> Prop) (mu : loop_state -> nat).
Hypothesis turn_lowers : forall n st evs st',
  inv st -> finished st = false ->
  iteration ops partition (page_io_at partition n st) st = (evs, Ok st') ->
  inv st' /\ (finished st' = false -> mu st' < mu st).

(** A bound on the turns: when every turn from a state of an invariant
    leads to a state of the invariant and, if it leaves the loop running,
    lowers a measure of its variables, the run against the world ends within
    as many turns as the measure of the state it starts from, plus one. *)
Theorem run_ends_by_measure fuel n st :
  inv st -> mu st < fuel ->
  ended (snd (request_records_against partition fuel n st)) = true.
Proof using turn_lowers.
  revert n st. induction fuel as [|fuel IH]; intros n st Hinv Hmu; [lia|].
  destruct (finished st) eqn:Hf; [by rewrite request_records_against_finished|].
  rewrite request_records_against_S by done.
  destruct (iteration ops partition (page_io_at partition n st) st) as [evs [st'|e]] eqn:Hit;
    [|done].
  destruct (turn_lowers n st evs st' Hinv Hf Hit) as [Hinv' Hlt].
  destruct (finished st') eqn:Hf'; [by rewrite request_records_against_finished|].
  specialize (IH (S n) st' Hinv'). destruct (request_records_against partition fuel (S n) st').
  apply IH. specialize (Hlt eq_refl). lia.
Qed.

End Measure.

(** A turn that does not raise sends one request, the one it prepared. *)
Lemma turn_request partition io st evs st' :
  iteration ops partition io st = (evs, Ok st') ->
  exists req line,
    (prepare_request ops (io_time_request io) (self st) partition (next_page_token st)).2
      = Ok (req, line) /\
    requests_of_events evs = [req].
Proof.
  intros (req & line & rows & e & Hreq & _ & _ & _ & ->)%iteration_inv.
  exists req, line. split; [done|].
  by destruct (events_of_turn (ops_logged (self st) partition (next_page_token st))
                 line req rows e) as (_ & _ & -> & _).
Qed.

(** The lines logged for the URLs of a run against a world are the
    redacted URLs of its requests, in order. *)
Lemma request_records_against_logged partition fuel n st :
  infos_of_events (request_records_against partition fuel n st).1 =
  map (fun req => option_map logged_url (request_url req))
    (requests_of_events (request_records_against partition fuel n st).1).
Proof.
  revert n st. induction fuel as [|fuel IH]; intros n st;
    (destruct (finished st) eqn:Hf; [by rewrite request_records_against_finished|]).
  { cbn. by rewrite Hf. }
  rewrite request_records_against_S by done.
  pose proof (iteration_logged ops partition (page_io_at partition n st) st) as Hit.
  destruct (iteration ops partition (page_io_at partition n st) st) as [evs [st'|e]]; [|done].
  specialize (IH (S n) st'). destruct (request_records_against partition fuel (S n) st').
  cbn [fst] in *. by rewrite infos_of_events_app, requests_of_events_app, map_app, Hit, IH.
Qed.

(** A turn that leaves the loop as it found it, whatever the number of the
    turn from [n] on, is all the run consists of from there: no fuel is
    enough. *)
Lemma stuck_against partition evs st n :
  finished st = false ->
  (forall m, n <= m -> iteration ops partition (page_io_at partition m st) st = (evs, Ok st)) ->
  forall fuel,
    request_records_against partition fuel n st = (concat (repeat evs fuel), Pending st).
Proof.
  intros Hf Hturn fuel. revert n Hturn.
  induction fuel as [|fuel IH]; intros n Hturn; [by cbn; rewrite Hf|].
  rewrite request_records_against_S, Hturn by done.
  rewrite IH by (intros m Hm; apply Hturn; lia). done.
Qed.

(** A turn in which the transport fails leaves the token as it was. *)
Lemma failed_turn_token partition n st evs st' :
  (forall req, send w n req = Err RequestError) ->
  iteration ops partition (page_io_at partition n st) st = (evs, Ok st') ->
  next_page_token st' = next_page_token st /\
  finished st' = negb (truthy (next_page_token st)).
Proof.
  intros Hdead Hit.
  assert (exists e, io_outcome (page_io_at partition n st) = Err e) as [e He]
    by (cbn [io_outcome page_io_at]; destruct (prepare_request _ _ _ _ _).2 as [[]|]; eauto).
  by apply (failed_turn_keeps_token _ _ _ _ _ _ e He) in Hit as (? & ? & _).
Qed.

End Against.

(** A run depends on the world through the clock readings and the answers
    only. *)
Lemma request_records_against_ext ops w w' partition fuel n st :
  (forall n, clock_request w n = clock_request w' n) ->
  (forall n req, send w n req = send w' n req) ->
  (forall n, clock_next w n = clock_next w' n) ->
  request_records_against ops w partition fuel n st =
  request_records_against ops w' partition fuel n st.
Proof.
  intros Hclock Hsend Hnext. revert n st. induction fuel as [|fuel IH]; intros n st; [done|].
  destruct (finished st) eqn:Hf; [by rewrite !request_records_against_finished|].
  rewrite !request_records_against_S by done.
  assert (page_io_at ops w partition n st = page_io_at ops w' partition n st) as ->
    by (unfold page_io_at; rewrite Hclock, Hnext;
        destruct (prepare_request _ _ _ _ _).2 as [[]|]; by rewrite ?Hsend).
  destruct (iteration ops partition _ st) as [evs [st'|e]]; [|done]. by rewrite IH.
Qed.

(** Flatteners other than [Page]'s read the [data] of an answer only:
    the link that comes with a page does not change its rows. *)
Lemma parse_response_data_only s self data link :
  s <> Page ->
  parse_response s self (page_with_next data link) =
  parse_response s self (page_without_next data).
Proof. by destruct s. Qed.

(** A server that answers no request. *)
Definition dead_world : world :=
  {| clock_request := fun _ => 0%Z;
     send := fun _ _ => Err RequestError;
     clock_next := fun _ => 0%Z |}.

(** ** The theorem at the dead server: the loop gives up on the first
    page. *)

Lemma run_ends_by_measure_witness :
  ended (snd (request_records_against example_posts_ops dead_world example_partition 1 0
                (initial_state example_self))) = true.
Proof.
  apply (run_ends_by_measure example_posts_ops dead_world example_partition
           (fun st => next_page_token st = VNone) (fun _ => 0)); [|reflexivity|lia].
  intros n st evs st' Hinv _ Hit.
  apply (failed_turn_token example_posts_ops dead_world) in Hit as [Htok Hfin]; [|done].
  rewrite Hfin, Hinv in *. split; [done|discriminate].
Defined.
