(* ===== verification/Backoff.v ===== *)
(** * Backoff: the retries of the transport

    [request_records] sends every request through [_request_with_backoff],
    which the SDK implements: a request that fails is sent again, after a
    wait, until it is answered, until it fails in a way that is not worth
    another try, or until the tries allowed for a request are used up; the
    last failure is then raised, and the loop catches it.  The sources only
    call the method, and the policy is the SDK's; the files before this one
    take what the call returns or raises as one outcome.  This file opens
    the call, from the specification (4.1 and 5):

    - a [RetryPolicy] is what the collaborator decides: how many tries a
      request gets, which failures end the tries at once, how long to wait
      before each further try;
    - [retry_from] is the loop of tries over what the server does at each
      try, and [request_with_backoff] its result for a request: the outcome
      the pagination loop sees, the number of tries made and the time
      waited;
    - [retrying_world] is a server behind the retries, as a [World.world].

    The theorems say that a request costs at least one and at most
    [max_tries] tries, which outcome the loop gets, and that failures the
    retries absorb do not show in a run: the run against a server behind the
    retries is the run against its answers. *)

From Stdlib Require Import List String ZArith Bool Lia.
From stdpp Require Import base tactics list.
From S2P Require Import Prelude PyDict PyValue Streams Url Params Window Flatten Redact.
From S2P Require Import Engine World.
Import ListNotations.

Set Default Proof Using "Type".
Local Open Scope string_scope.
Local Open Scope list_scope.

Class RetryPolicy : Type := {
  (** the tries a request gets, the first included *)
  max_tries : nat;
  (** the failures after which no further try is made *)
  gives_up : pyerr -> bool;
  (** the seconds waited after the try of the given number failed *)
  wait_after : nat -> Z;
  max_tries_pos : 0 < max_tries;
  wait_after_nonneg : forall k, (0 <= wait_after k)%Z;
}.

(** What the call has cost and what it gives: the outcome, the tries made
    and the seconds waited between them. *)
Record backoff_result : Type := {
  outcome : res response;
  tries : nat;
  waited : Z;
}.

Section Backoff.
Context `{RetryPolicy}.

(** The tries from try [k] on, when [left] more tries are allowed after
    it.  [attempt k] is what the transport does at try [k]. *)
Fixpoint retry_from (attempt : nat -> res response) (k left : nat) : backoff_result :=
  match attempt k with
  | Ok resp => {| outcome := Ok resp; tries := 1; waited := 0 |}
  | Err e =>
      match left with
      | S left' =>
          if gives_up e then {| outcome := Err e; tries := 1; waited := 0 |}
          else
            let later := retry_from attempt (S k) left' in
            {| outcome := outcome later; tries := S (tries later);
               waited := (wait_after k + waited later)%Z |}
      | O => {| outcome := Err e; tries := 1; waited := 0 |}
      end
  end.

(** [self._request_with_backoff(prepared_request)] *)
Definition request_with_backoff (attempt : nat -> res response) : backoff_result :=
  retry_from attempt 0 (pred max_tries).

(** A server behind the retries: [server n req k] is what it does at try
    [k] of the request of turn [n]. *)
Definition retrying_world (clock : nat -> Z) (server : nat -> request -> nat -> res response)
  : world :=
  {| clock_request := clock;
     send := fun n req => outcome (request_with_backoff (server n req));
     clock_next := clock |}.

(** The tries before try [k] failed in a way that is retried. *)
Definition transient_until (attempt : nat -> res response) (k : nat) : Prop :=
  forall j, j < k -> exists e, attempt j = Err e /\ gives_up e = false.

End Backoff.

(** A policy for the examples: five tries, no further try after a
    [ValueError], waits that double. *)
#[export] Instance example_policy : RetryPolicy :=
  {| max_tries := 5;
     gives_up := fun e => match e with ValueError => true | _ => false end;
     wait_after := fun k => (2 ^ Z.of_nat k)%Z;
     max_tries_pos := Nat.lt_0_succ 4;
     wait_after_nonneg := fun k => Z.pow_nonneg 2 (Z.of_nat k) ltac:(lia) |}.

(** A server that fails twice and then answers. *)
Definition example_flaky (resp : response) (k : nat) : res response :=
  match k with
  | 0 | 1 => Err RequestError
  | _ => Ok resp
  end.

(** ** The tries of a request *)

Section BackoffFacts.
Context `{RetryPolicy}.

Lemma retry_from_tries attempt k left :
  1 <= tries (retry_from attempt k left) <= S left.
Proof.
  revert k. induction left as [|left IH]; intros k; cbn [retry_from];
    destruct (attempt k) as [resp|e]; cbn [tries]; try lia.
  destruct (gives_up e); cbn [tries]; [lia|]. specialize (IH (S k)). lia.
Qed.

Lemma retry_from_waited attempt k left : (0 <= waited (retry_from attempt k left))%Z.
Proof.
  revert k. induction left as [|left IH]; intros k; cbn [retry_from];
    destruct (attempt k) as [resp|e]; cbn [waited]; try lia.
  destruct (gives_up e); cbn [waited]; [lia|].
  pose proof (wait_after_nonneg k). specialize (IH (S k)). lia.
Qed.

(** The tries end with the first answer, when the failures before it are
    retried and the tries allowed reach it. *)
Lemma retry_from_answer attempt k left j resp :
  j <= left -> attempt (k + j) = Ok resp ->
  (forall i, i < j -> exists e, attempt (k + i) = Err e /\ gives_up e = false) ->
  outcome (retry_from attempt k left) = Ok resp /\ tries (retry_from attempt k left) = S j.
Proof.
  revert k left. induction j as [|j IH]; intros k left Hj Hok Hbefore.
  - rewrite Nat.add_0_r in Hok. destruct left; cbn [retry_from]; by rewrite Hok.
  - destruct left as [|left]; [lia|]. cbn [retry_from].
    destruct (Hbefore 0) as (e & He & Hgo); [lia|]. rewrite Nat.add_0_r in He.
    rewrite He, Hgo. cbn [outcome tries].
    destruct (IH (S k) left) as [-> ->]; [lia | by rewrite Nat.add_succ_comm | | done].
    intros i Hi. rewrite Nat.add_succ_comm. apply Hbefore. lia.
Qed.

(** An answer is the answer of the last try, and every try before it
    failed in a way that is retried. *)
Lemma retry_from_answer_inv attempt k left resp :
  outcome (retry_from attempt k left) = Ok resp ->
  exists j, j <= left /\ attempt (k + j) = Ok resp /\
    forall i, i < j -> exists e, attempt (k + i) = Err e /\ gives_up e = false.
Proof.
  revert k. induction left as [|left IH]; intros k; cbn [retry_from];
    destruct (attempt k) as [resp'|e] eqn:Hk; cbn [outcome]; try done;
    try (intros [= <-]; exists 0; rewrite Nat.add_0_r; split_and!; [lia | done | lia]).
  destruct (gives_up e) eqn:Hgo; [done|]. cbn [outcome].
  intros (j & Hj & Hok & Hbefore)%IH. exists (S j).
  rewrite <- Nat.add_succ_comm. split_and!; [lia | done |].
  intros [|i] Hi; [rewrite Nat.add_0_r; eauto|].
  rewrite <- Nat.add_succ_comm. apply Hbefore. lia.
Qed.

(** A failure is the failure of the last try, which either is not retried
    or used up the tries. *)
Lemma retry_from_failure attempt k left e :
  outcome (retry_from attempt k left) = Err e ->
  attempt (k + pred (tries (retry_from attempt k left))) = Err e /\
  (gives_up e = true \/ tries (retry_from attempt k left) = S left).
Proof.
  revert k. induction left as [|left IH]; intros k; cbn [retry_from];
    destruct (attempt k) as [resp'|e'] eqn:Hk; cbn [outcome tries]; try done;
    try (intros [= <-]; rewrite Nat.add_0_r; by auto).
  destruct (gives_up e') eqn:Hgo; cbn [outcome tries pred].
  - intros [= <-]. rewrite Nat.add_0_r. by auto.
  - intros [Hlast Hwhy]%IH. pose proof (retry_from_tries attempt (S k) left).
    replace (k + tries (retry_from attempt (S k) left))
      with (S k + pred (tries (retry_from attempt (S k) left))) by lia.
    split; [done|]. destruct Hwhy; [by left | right; lia].
Qed.

(** A request costs at least one try and at most the tries the policy
    allows, and the time waited between the tries is not negative: the
    transport comes back to the loop, with an answer or with a failure. *)
Theorem backoff_tries_bounded attempt :
  1 <= tries (request_with_backoff attempt) <= max_tries /\
  (0 <= waited (request_with_backoff attempt))%Z.
Proof.
  pose proof max_tries_pos. pose proof (retry_from_tries attempt 0 (pred max_tries)).
  split; [unfold request_with_backoff; lia | apply retry_from_waited].
Qed.

(** The loop gets an answer exactly when the server answers one of the
    tries the policy allows and every try before it failed in a way that is
    retried; the answer is that of the first such try. *)
Theorem backoff_answers_iff attempt resp :
  outcome (request_with_backoff attempt) = Ok resp <->
  exists k, k < max_tries /\ attempt k = Ok resp /\ transient_until attempt k.
Proof.
  pose proof max_tries_pos. unfold request_with_backoff, transient_until. split.
  - intros (j & Hj & Hok & Hbefore)%retry_from_answer_inv. exists j.
    split_and!; [lia | done | done].
  - intros (k & Hk & Hok & Hbefore).
    by apply (retry_from_answer attempt 0 (pred max_tries) k resp); [lia|..].
Qed.

(** What the loop catches is the failure of the last try made: one that
    is not retried, or the failure of the last try allowed. *)
Theorem backoff_failure attempt e :
  outcome (request_with_backoff attempt) = Err e ->
  attempt (pred (tries (request_with_backoff attempt))) = Err e /\
  (gives_up e = true \/ tries (request_with_backoff attempt) = max_tries).
Proof.
  pose proof max_tries_pos. intros [Hlast Hwhy]%retry_from_failure. split; [done|].
  destruct Hwhy; [by left | right; unfold request_with_backoff in *; lia].
Qed.

(** Failures the retries absorb do not show in a run: when the server
    answers every request within the tries allowed, after failures that are
    retried, the run against the server behind the retries is the run against
    its answers, event for event. *)
Theorem retries_unseen ops clock server answers partition fuel n st :
  (forall n req, exists k,
      k < max_tries /\ server n req k = Ok (answers n req) /\
      transient_until (server n req) k) ->
  request_records_against ops (retrying_world clock server) partition fuel n st =
  request_records_against ops
    {| clock_request := clock; send := fun n req => Ok (answers n req);
       clock_next := clock |} partition fuel n st.
Proof.
  intros Hserver. apply request_records_against_ext; [done| |done].
  intros m req. cbn [send retrying_world]. apply backoff_answers_iff, Hserver.
Qed.

End BackoffFacts.

(** ** The theorems at the sample policy *)

Lemma backoff_answers_iff_witness :
  outcome (request_with_backoff (example_flaky (json_response VNone))) =
  Ok (json_response VNone).
Proof.
  apply (backoff_answers_iff (example_flaky (json_response VNone)) (json_response VNone)).
  exists 2. split_and!; [cbn; lia | done |].
  intros [|[|j]] Hj; [by exists RequestError..|lia].
Defined.

Lemma retries_unseen_witness :
  request_records_against example_posts_ops
    (retrying_world (fun _ => 1700000000%Z)
       (fun _ _ => example_flaky (page_without_next [VDict [("id", VStr "p1")]])))
    example_partition 2 0 (initial_state example_self) =
  request_records_against example_posts_ops
    {| clock_request := fun _ => 1700000000%Z;
       send := fun _ _ => Ok (page_without_next [VDict [("id", VStr "p1")]]);
       clock_next := fun _ => 1700000000%Z |}
    example_partition 2 0 (initial_state example_self).
Proof.
  apply (retries_unseen example_posts_ops (fun _ => 1700000000%Z)
           (fun _ _ => example_flaky (page_without_next [VDict [("id", VStr "p1")]]))
           (fun _ _ => page_without_next [VDict [("id", VStr "p1")]])).
  intros _ _. exists 2. split_and!; [cbn; lia | done |].
  intros [|[|j]] Hj; [by exists RequestError..|lia].
Defined.

(** The two failures cost three tries and three seconds of waiting. *)
Example backoff_flaky_cost :
  tries (request_with_backoff (example_flaky (json_response VNone))) = 3 /\
  waited (request_with_backoff (example_flaky (json_response VNone))) = 3%Z.
Proof. by vm_compute. Qed.
