(* ===== verification/Paging.v ===== *)
(** * Paging: a run against a server that pages by cursors

    The Graph API serves a collection in pages: the first request gets the
    first page, and every page but the last comes with a [next] link that
    repeats the request with an [after] cursor.  This file runs the loop
    of [Engine] against such a server ([World.request_records_against]):

    - the collection is a list of pages, each with the cursor that asks for
      it and the objects of its [data];
    - [serve] is the server: it looks at the [after] parameter of the
      request, answers with the page the cursor names (the first page when
      there is none) and links it to the page after it ([link_after]);
    - [well_paged] says what the collection has to satisfy: cursors are
      distinct non-empty texts, and the flattener of the stream runs to its
      end on every page.  The links are written as [requests] writes a URL
      ([Quote.urlencode]), so cursors and parameters may have any bytes.

    [first_url] is the URL of the first request of a run and [link_after]
    the URL of every other; [masked_first] and [masked_link] are the lines
    the log shows for them.

    The theorems are about the streams that return a token's parameters
    untouched ([Params.returns_token_params]): a run against the server ends
    after one request per page, with the rows of all the pages in order, and
    the lines it logs for its requests show the mask in the place of the
    token. *)

From Stdlib Require Import List String Ascii ZArith Bool Lia.
From stdpp Require Import base tactics list.
From S2P Require Import Prelude PyDict PyValue Streams Url Quote Params Window Flatten Redact.
From S2P Require Import Engine Link First World.
Import ListNotations.

Set Default Proof Using "Type".
Local Open Scope string_scope.
Local Open Scope list_scope.

(** The [after] cursor of a request, if it has one. *)
Definition after_of (req : request) : option string :=
  match dict_get "after" (req_params req) with
  | Some (VList (VStr c :: _)) => Some c
  | _ => None
  end.

(** The pages from the one that cursor [c] names. *)
Fixpoint suffix_from (c : string) (pages : dict (list pyval)) : dict (list pyval) :=
  match pages with
  | [] => []
  | (c', data) :: more => if String.eqb c c' then pages else suffix_from c more
  end.

(** The URL a turn asks for: the token when it is a link, the URL of a
    first request otherwise. *)
Definition url_asked (first : string) (token : pyval) : string :=
  match token with
  | VStr link => link
  | _ => first
  end.

(** One text per page of a collection: [first] for the first page,
    [later c] for the page of cursor [c] after it. *)
Definition per_page {A : Type} (first : A) (later : string -> A)
    (pages : dict (list pyval)) : list A :=
  match pages with
  | [] => []
  | _ :: more => first :: map later (dict_keys more)
  end.

Section Server.
Context (s : stream) (page : string) (base : list (string * string)).

(** The link to the page that cursor [c] names: the parameters every link
    repeats, then the cursor. *)
Definition link_after (c : string) : string :=
  next_link s page (base ++ [("after", c)]).

(** The answer that starts the given pages: the first of them, linked to
    the second.  A cursor that names no page is an error of the request. *)
Definition response_of (tail : dict (list pyval)) : res response :=
  match tail with
  | [] => Err RequestError
  | [(_, data)] => Ok (page_without_next data)
  | (_, data) :: (c, _) :: _ => Ok (page_with_next data (VStr (link_after c)))
  end.

Definition serve (pages : dict (list pyval)) (req : request) : res response :=
  response_of match after_of req with
              | Some c => suffix_from c pages
              | None => pages
              end.

(** The URL of the first request of a partition, and the line logged for
    it when the page has a token. *)
Definition first_url (now : Z) (cursor : option Z) (self : stream_self) : string :=
  endpoint s page ++
  String "?" (urlencode (first_query cursor (dict_get page (access_tokens self))
                           (extra_query s now cursor self))).

Definition masked_first (now : Z) (cursor : option Z) (self : stream_self) : string :=
  endpoint s page ++
  String "?" (render_query (first_query cursor (Some "*****")
                              (map plus_pair (extra_query s now cursor self)))).

(** The line logged for the link to the page of cursor [c], when the link
    repeats the token and then [others]. *)
Definition masked_link (others : list (string * string)) (c : string) : string :=
  endpoint s page ++
  String "?" (render_query (("access_token", "*****") ::
                            map plus_pair (others ++ [("after", c)]))).

Definition paging_world (now : Z) (pages : dict (list pyval)) : world :=
  {| clock_request := fun _ => now;
     send := fun _ => serve pages;
     clock_next := fun _ => now |}.

(** The rows of the pages, as the stream flattens them. *)
Definition rows_of_pages (self : stream_self) (pages : dict (list pyval)) : list pyval :=
  flat_map (fun cd => rows_of (parse_response s self (page_without_next (snd cd)))) pages.

(** The token a page leaves when the given pages come after it. *)
Definition token_to (tail : dict (list pyval)) : pyval :=
  match tail with
  | (c, _) :: _ => VStr (link_after c)
  | [] => VNone
  end.

(** The token the loop holds when it asks for the page of cursor [c],
    which the pages [pre] come before: none for the first page, the link of
    the page otherwise. *)
Definition asks_for (pre : dict (list pyval)) (c : string) (token : pyval) : Prop :=
  (token = VNone /\ pre = []) \/ token = VStr (link_after c).

Record well_paged (self : stream_self) (partition : pyval) (pages : dict (list pyval))
  : Prop := {
  wp_stream : returns_token_params s = true;
  wp_partition : py_getitem partition "page_id" = Ok (VStr page);
  wp_page : plain page = true;
  wp_base : kept_query base = true;
  wp_names : dict_wf (base ++ [("after", "")]);
  wp_cursors : Forall (fun c => c <> "") (dict_keys pages);
  wp_distinct : dict_wf pages;
  wp_data : Forall (fun cd =>
              outcome_of (parse_response s (set_page_id self (VStr page))
                            (page_without_next (snd cd))) = Ok tt) pages;
}.

End Server.

(** A collection of two pages of [Posts], and the parameters its links
    repeat. *)
Definition example_base : list (string * string) :=
  [("access_token", "TOKEN123"); ("limit", "100"); ("fields", "id,name")].

Definition example_pages : dict (list pyval) :=
  [("c1", [VDict [("id", VStr "p1")]]); ("c2==", [VDict [("id", VStr "p2")]])].

Definition example_world : world := paging_world Posts "123" example_base 1700000000 example_pages.

(** ** The server's answers *)

Lemma suffix_from_app c data pre more :
  c ∉ dict_keys pre -> suffix_from c (pre ++ (c, data) :: more) = (c, data) :: more.
Proof.
  induction pre as [|[c' d'] pre IH]; cbn; [by rewrite String.eqb_refl|].
  intros [Hne Hpre]%not_elem_of_cons. case_key. by apply IH.
Qed.

Section ServerFacts.
Context (starting_timestamp : pyval -> option Z).
#[local] Instance paging_sdk : Sdk := urllib_sdk starting_timestamp.
Context (s : stream) (page : string) (base : list (string * string)).
Context (now : Z) (self : stream_self) (partition : pyval) (pages : dict (list pyval)).
Hypothesis Hwp : well_paged s page base self partition pages.

Local Abbreviation ops := (@stream_ops paging_sdk s).
Local Abbreviation w := (paging_world s page base now pages).
Local Abbreviation self' := (set_page_id self (VStr page)).

Lemma base_no_after : dict_get "after" base = None.
Proof using Hwp.
  apply dict_get_None. pose proof (wp_names _ _ _ _ _ _ Hwp) as Hnd.
  unfold dict_wf, dict_keys in Hnd. rewrite fmap_app in Hnd.
  apply NoDup_app in Hnd as (_ & Hnot & _). intros Hin. apply (Hnot _ Hin). by left.
Qed.

Lemma link_params_wf c : dict_wf (base ++ [("after", c)]).
Proof using Hwp.
  pose proof (wp_names _ _ _ _ _ _ Hwp) as Hnd.
  unfold dict_wf, dict_keys in *. by rewrite fmap_app in *.
Qed.

Lemma link_params_kept c : c <> "" -> kept_query (base ++ [("after", c)]) = true.
Proof using Hwp.
  intros Hne. pose proof (wp_base _ _ _ _ _ _ Hwp) as Hb.
  unfold kept_query in *. rewrite forallb_app, Hb. by destruct c.
Qed.

Lemma link_after_inj c c' :
  c <> "" -> c' <> "" ->
  link_after s page base c = link_after s page base c' -> c = c'.
Proof using Hwp.
  intros Hne Hne' Heq.
  apply next_link_inj in Heq;
    [|by apply Hwp | by apply link_params_kept | by apply link_params_kept].
  by apply app_inj_1 in Heq as [_ [= ->]].
Qed.

(** A request made from a link asks for the page the link names. *)
Lemma after_of_link c :
  after_of (link_request s page (base ++ [("after", c)])) = Some c.
Proof using Hwp.
  unfold after_of, link_request. cbn [req_params].
  by rewrite link_param_get, dict_get_app, base_no_after.
Qed.

(** ** The requests *)

Lemma first_params_no_after self0 :
  exists params,
    first_params s now (starting_timestamp partition) (dict_get page (access_tokens self0))
      self0 = Ok params /\
    dict_get "after" params = None.
Proof using Hwp.
  pose proof (wp_stream _ _ _ _ _ _ Hwp) as Hs. unfold first_params, spec_first_params.
  by destruct s; try discriminate Hs; (eexists; split; [reflexivity|]);
    destruct (starting_timestamp partition), (dict_get page (access_tokens self0)).
Qed.

(** The first request names no cursor and goes to the first URL. *)
Lemma prepare_first_request self0 :
  exists req line,
    prepare_request ops now self0 partition VNone =
      (set_page_id self0 (VStr page), Ok (req, line)) /\
    after_of req = None /\
    request_url req = Some (first_url s page now (starting_timestamp partition) self0).
Proof using Hwp.
  destruct (first_params_no_after self0) as (params & Hparams & Hafter).
  exists (first_request s page params),
    (option_map logged_url (request_url (first_request s page params))).
  split_and!.
  - unfold prepare_request. rewrite (sdk_prepare_first _ _ _ _ page) by apply Hwp.
    cbn [get_starting_timestamp paging_sdk urllib_sdk]. by rewrite Hparams.
  - unfold after_of. cbn [req_params first_request]. by rewrite Hafter.
  - by apply first_params_url.
Qed.

(** What is known of the cursor of a page of the collection. *)
Lemma page_cursor pre c data more :
  pages = pre ++ (c, data) :: more ->
  c <> "" /\ (c ∉ dict_keys pre) /\ (c ∉ dict_keys more).
Proof using Hwp.
  intros Hpages. pose proof (wp_distinct _ _ _ _ _ _ Hwp) as Hnd.
  pose proof (wp_cursors _ _ _ _ _ _ Hwp) as Hcs. rewrite Hpages in Hnd, Hcs.
  unfold dict_wf, dict_keys in *. rewrite fmap_app in Hnd, Hcs. cbn [fmap list_fmap] in *.
  apply NoDup_app in Hnd as (_ & Hnot & [Hmore _]%NoDup_cons).
  apply Forall_app in Hcs as [_ [Hne _]%Forall_cons].
  split_and!; [done..| |done]. intros Hin. apply (Hnot _ Hin). by left.
Qed.

(** Whatever page the loop is at, the request it prepares is answered
    with that page. *)
Lemma prepare_request_served self0 pre c data more :
  pages = pre ++ (c, data) :: more ->
  forall token, asks_for s page base pre c token ->
  exists req line,
    prepare_request ops now self0 partition token =
      (set_page_id self0 (VStr page), Ok (req, line)) /\
    serve s page base pages req = response_of s page base ((c, data) :: more) /\
    request_url req =
      Some (url_asked (first_url s page now (starting_timestamp partition) self0) token).
Proof using Hwp.
  intros Hpages token [[-> ->] | ->].
  - destruct (prepare_first_request self0) as (req & line & Hreq & Hafter & Hurl).
    exists req, line. split_and!; [done| |done]. unfold serve. by rewrite Hafter, Hpages.
  - destruct (page_cursor _ _ _ _ Hpages) as (Hne & Hpre & _).
    eexists _, _. split_and!.
    + apply prepare_request_next_link; try apply Hwp;
        [by apply link_params_kept | apply link_params_wf].
    + unfold serve. by rewrite after_of_link, Hpages, suffix_from_app.
    + apply request_url_next_link. by destruct base.
Qed.

(** The link of a page is not the token the page was asked with. *)
Lemma next_differs pre c data more token :
  pages = pre ++ (c, data) :: more ->
  asks_for s page base pre c token ->
  truthy (token_to s page base more) && py_eqb (token_to s page base more) token = false.
Proof using Hwp.
  intros Hpages Htok. destruct more as [|[c' data'] more]; [done|].
  destruct Htok as [[-> _] | ->]; [by rewrite andb_false_r|].
  apply andb_false_iff. right. cbn [token_to py_eqb]. apply String.eqb_neq. intros Heq.
  destruct (page_cursor _ _ _ _ Hpages) as (Hne & _ & Hmore).
  destruct (page_cursor (pre ++ [(c, data)]) c' data' more) as (Hne' & _);
    [by rewrite <- app_assoc|].
  apply link_after_inj in Heq as ->; [|done..]. apply Hmore. by left.
Qed.

(** The flattener on a page of the collection, whatever link comes with
    the page. *)
Lemma parse_response_served pre c data more resp :
  pages = pre ++ (c, data) :: more ->
  response_of s page base ((c, data) :: more) = Ok resp ->
  parse_response s self' resp =
  (rows_of (parse_response s self' (page_without_next data)), Ok tt).
Proof using Hwp.
  intros Hpages Hresp. pose proof (wp_data _ _ _ _ _ _ Hwp) as Hdata.
  rewrite Hpages in Hdata. apply Forall_app in Hdata as [_ [Hd _]%Forall_cons].
  cbn [snd] in Hd. unfold outcome_of, rows_of in *.
  assert (parse_response s self' resp = parse_response s self' (page_without_next data))
    as ->.
  { destruct more as [|[c' d'] more]; cbn in Hresp; injection Hresp as <-; [done|].
    apply parse_response_data_only. pose proof (wp_stream _ _ _ _ _ _ Hwp). by intros ->. }
  destruct (parse_response s self' (page_without_next data)). cbn in *. by subst.
Qed.

(** The next token is the link the server put into the answer. *)
Lemma next_token_served c data more resp token :
  response_of s page base ((c, data) :: more) = Ok resp ->
  @ops_get_next_page_token ops now resp token = Ok (token_to s page base more).
Proof using Hwp.
  intros Hresp. cbn [ops_get_next_page_token stream_ops].
  rewrite get_next_page_token_base
    by (pose proof (wp_stream _ _ _ _ _ _ Hwp); by intros ->).
  by destruct more as [|[c' d'] more]; cbn in Hresp; injection Hresp as <-.
Qed.

(** One turn of the loop at a page of the collection. *)
Lemma paged_turn pre c data more n st :
  pages = pre ++ (c, data) :: more ->
  asks_for s page base pre c (next_page_token st) ->
  set_page_id (Engine.self st) (VStr page) = self' ->
  exists notes req line,
    iteration ops partition (page_io_at ops w partition n st) st =
    (turn_events notes line req
       (rows_of (parse_response s self' (page_without_next data))) (Ok tt),
     Ok {| Engine.self := self'; next_page_token := token_to s page base more;
           finished := negb (truthy (token_to s page base more)) |}) /\
    request_url req =
      Some (url_asked (first_url s page now (starting_timestamp partition) (Engine.self st))
              (next_page_token st)).
Proof using Hwp.
  intros Hpages Htok Hself.
  destruct (prepare_request_served (Engine.self st) _ _ _ _ Hpages _ Htok)
    as (req & line & Hreq & Hserve & Hurl).
  destruct (response_of s page base ((c, data) :: more)) as [resp|] eqn:Hresp;
    [|by destruct more as [|[] ?]].
  destruct (good_page_iteration ops partition (page_io_at ops w partition n st) st
              (rows_of (parse_response s self' (page_without_next data)))
              (token_to s page base more)) as (req' & line' & Hreq' & ->).
  { exists resp. cbn [page_io_at io_time_request io_outcome io_time_next clock_request
                        clock_next send paging_world].
    rewrite Hreq. cbn [fst snd is_ok]. rewrite Hself.
    split_and!; [done | done | by eapply parse_response_served
                | by eapply next_token_served | by eapply next_differs]. }
  cbn [page_io_at io_time_request clock_request paging_world] in Hreq'.
  rewrite Hreq in Hreq'. injection Hreq' as <- <-.
  eexists _, req, line. unfold after_page.
  cbn [page_io_at io_time_request clock_request paging_world].
  by rewrite Hreq, Hself.
Qed.

(** ** The run *)

(** From any page on, the run goes through the pages that are left: it
    asks for the page it is at, then follows the links. *)
Lemma paged_run_from more : forall pre c data n st fuel,
  pages = pre ++ (c, data) :: more ->
  finished st = false ->
  asks_for s page base pre c (next_page_token st) ->
  set_page_id (Engine.self st) (VStr page) = self' ->
  length more < fuel ->
  exists evs,
    request_records_against ops w partition fuel n st = (evs, Finished) /\
    rows_of_events evs = rows_of_pages s self' ((c, data) :: more) /\
    warnings_of_events evs = [] /\
    map request_url (requests_of_events evs) =
    map Some (url_asked (first_url s page now (starting_timestamp partition) (Engine.self st))
                (next_page_token st) ::
              map (link_after s page base) (dict_keys more)).
Proof using Hwp.
  induction more as [|[c' data'] more IH]; intros pre c data n st fuel Hpages Hf Htok Hself Hfuel;
    (destruct fuel as [|fuel]; [cbn in Hfuel; lia|]);
    destruct (paged_turn _ _ _ _ n st Hpages Htok Hself) as (notes & req & line & Hit & Hurl);
    rewrite request_records_against_S, Hit by done;
    destruct (events_of_turn notes line req
                (rows_of (parse_response s self' (page_without_next data))) (Ok tt))
      as (Hr & Hw & Hq & _).
  - rewrite request_records_against_finished by done.
    eexists. split; [done|]. rewrite app_nil_r, Hr, Hw, Hq. cbn. by rewrite app_nil_r, Hurl.
  - edestruct (IH (pre ++ [(c, data)]) c' data' (S n)) as (evs & -> & Hr' & Hw' & Hq');
      [by rewrite <- app_assoc | done | by right | done | cbn in Hfuel; lia |].
    eexists. split; [done|].
    rewrite rows_of_events_app, warnings_of_events_app, requests_of_events_app,
      Hr, Hw, Hq, Hr', Hw', map_app, Hq'.
    cbn. by rewrite Hurl.
Qed.

(** The whole run: the rows of the pages, no warning, and one request per
    page, the first to the first URL and the others to the links. *)
Lemma paged_run fuel :
  pages <> [] -> length pages <= fuel ->
  exists evs,
    request_records_against ops w partition fuel 0 (initial_state self) = (evs, Finished) /\
    rows_of_events evs = rows_of_pages s self' pages /\
    warnings_of_events evs = [] /\
    map request_url (requests_of_events evs) =
    map Some (per_page (first_url s page now (starting_timestamp partition) self)
                (link_after s page base) pages).
Proof using Hwp.
  intros Hne Hfuel.
  assert (exists c data more, pages = (c, data) :: more) as (c & data & more & Hpages)
    by (destruct pages as [|[c data] more]; [done | eauto]).
  destruct (paged_run_from more [] c data 0 (initial_state self) fuel)
    as (evs & Hrun & Hr & Hw & Hq);
    [done | done | by left | done | rewrite Hpages in Hfuel; cbn in Hfuel; lia |].
  exists evs. split_and!; [done | by rewrite Hpages | done | by rewrite Hpages].
Qed.

(** The lines logged for links that repeat the token and then [others]. *)
Lemma logged_links tok others cs :
  base = ("access_token", tok) :: others ->
  plain page = true -> lacks "a" page = true -> tok <> "" -> all_alnum tok = true ->
  Forall (fun c => matches_nowhere
                     (render_query (map plus_pair (others ++ [("after", c)]))) = true) cs ->
  map logged_url (map (link_after s page base) cs) = map (masked_link s page others) cs.
Proof.
  intros Hbase Hpage Ha Hne Htok Hcs. rewrite map_map. apply map_ext_Forall.
  eapply Forall_impl; [apply Hcs|]. intros c Hc. cbn beta in Hc.
  unfold link_after, masked_link. rewrite Hbase. cbn [app].
  apply link_line; try done. by destruct others.
Qed.

(** C12.  The run against a paging server comes to its end and is complete:
    with one turn of fuel per page, the loop finishes, it has sent exactly one
    request per page, the first to the URL of a first request and every other
    to the link of the page before, logged no warning, and yielded the rows of
    all the pages in the order of the collection. *)
Theorem paged_run_finishes fuel :
  pages <> [] -> length pages <= fuel ->
  exists evs,
    request_records_against ops w partition fuel 0 (initial_state self) = (evs, Finished) /\
    rows_of_events evs = rows_of_pages s self' pages /\
    warnings_of_events evs = [] /\
    map request_url (requests_of_events evs) =
    map Some (per_page (first_url s page now (starting_timestamp partition) self)
                (link_after s page base) pages).
Proof using Hwp. apply paged_run. Qed.

(** The lines logged for the URLs of the run. *)
Lemma paged_run_infos fuel tok others :
  pages <> [] -> length pages <= fuel ->
  base = ("access_token", tok) :: others ->
  dict_get page (access_tokens self) = Some tok ->
  plain_request s now (starting_timestamp partition) (Some tok) self page ->
  Forall (fun c => matches_nowhere
                     (render_query (map plus_pair (others ++ [("after", c)]))) = true)
    (dict_keys pages) ->
  infos_of_events (request_records_against ops w partition fuel 0 (initial_state self)).1 =
  map Some (per_page (masked_first s page now (starting_timestamp partition) self)
              (masked_link s page others) pages).
Proof using Hwp.
  intros Hne Hfuel Hbase Htok Hplain Hclean.
  destruct (paged_run fuel Hne Hfuel) as (evs & Hrun & _ & _ & Hq).
  rewrite request_records_against_logged, Hrun. cbn [fst].
  rewrite <- (map_map request_url (option_map logged_url)), Hq, !map_map. cbn [option_map].
  rewrite <- (map_map logged_url Some). f_equal.
  destruct pages as [|[c data] more]; [done|]. cbn [per_page map dict_keys fmap list_fmap] in *.
  apply Forall_cons in Hclean as [_ Hclean]. destruct Hplain as [Hpage Ha [Hnet Halnum] Hextra].
  rewrite (logged_links tok others) by done. f_equal.
  unfold first_url, masked_first. rewrite Htok. by apply (first_line s _ _ (Some tok)).
Qed.

(** The parameter builder logs nothing for a page whose token is known. *)
Lemma paged_run_notes fuel tok :
  dict_get page (access_tokens self) = Some tok ->
  notes_of_events (request_records_against ops w partition fuel 0 (initial_state self)).1 = [].
Proof using Hwp.
  intros Htok. rewrite <- loop_over_script.
  destruct (script_against ops w partition fuel 0 (initial_state self)) as [|io script];
    [by rewrite request_records_loop_nil|].
  rewrite (loop_notes ops partition io script (initial_state self) eq_refl).
  cbn [ops_logged stream_ops initial_state Engine.self next_page_token].
  unfold FacebookPagesStream_logged.
  rewrite (wp_partition _ _ _ _ _ _ Hwp). cbn [truthy in_access_tokens].
  unfold dict_mem. by rewrite Htok.
Qed.

(** The token stays out of the log of a whole run: when the page's token
    is made of letters and digits, the links repeat it as their first
    parameter, and no other parameter of a link looks like a token, the lines
    logged for the URLs of the run against the paging server are the URL of
    the first request and the links, unescaped, each with the mask where the
    token is.  None of the lines depends on the token. *)
Theorem paged_run_lines fuel tok others :
  pages <> [] -> length pages <= fuel ->
  base = ("access_token", tok) :: others ->
  dict_get page (access_tokens self) = Some tok ->
  plain_request s now (starting_timestamp partition) (Some tok) self page ->
  Forall (fun c => matches_nowhere
                     (render_query (map plus_pair (others ++ [("after", c)]))) = true)
    (dict_keys pages) ->
  infos_of_events (request_records_against ops w partition fuel 0 (initial_state self)).1 =
  map Some (per_page (masked_first s page now (starting_timestamp partition) self)
              (masked_link s page others) pages).
Proof using Hwp. apply paged_run_infos. Qed.

End ServerFacts.

(** ** The theorem at the sample collection *)

Lemma example_well_paged :
  well_paged Posts "123" example_base example_self example_partition example_pages.
Proof.
  split; try reflexivity; try solve_dict_wf.
  - repeat (constructor; [done|]). constructor.
  - repeat (constructor; [reflexivity|]). constructor.
Defined.

Lemma paged_run_finishes_witness :
  exists evs,
    request_records_against (@stream_ops example_sdk Posts) example_world
      example_partition 2 0 (initial_state example_self) = (evs, Finished) /\
    rows_of_events evs =
      [VDict [("id", VStr "p1"); ("page_id", VStr "123")];
       VDict [("id", VStr "p2"); ("page_id", VStr "123")]] /\
    warnings_of_events evs = [] /\
    map request_url (requests_of_events evs) =
      [Some "https://graph.facebook.com/v10.0/123/posts?access_token=TOKEN123&limit=100&fields=id%2Cname";
       Some "https://graph.facebook.com/v10.0/123/posts?access_token=TOKEN123&limit=100&fields=id%2Cname&after=c2%3D%3D"].
Proof.
  apply (paged_run_finishes (fun _ => None) Posts "123" example_base 1700000000
           example_self example_partition example_pages example_well_paged 2);
    [discriminate | cbn; lia].
Defined.

Lemma paged_run_lines_witness :
  infos_of_events
    (request_records_against (@stream_ops example_sdk Posts) example_world
       example_partition 2 0 (initial_state example_self)).1 =
  [Some "https://graph.facebook.com/v10.0/123/posts?access_token=*****&limit=100&fields=id,name";
   Some "https://graph.facebook.com/v10.0/123/posts?access_token=*****&limit=100&fields=id,name&after=c2=="].
Proof.
  apply (paged_run_lines (fun _ => None) Posts "123" example_base 1700000000
           example_self example_partition example_pages example_well_paged 2 "TOKEN123"
           [("limit", "100"); ("fields", "id,name")]);
    [discriminate | cbn; lia | reflexivity | reflexivity | by split
    | repeat (constructor; [reflexivity|]); constructor].
Defined.
