(* ===== verification/Insights.v ===== *)
(** * Insights: a run of [PageInsights] against a server of time windows

    The insights endpoint answers a request for the window [since, until]
    with the values of that window and a [next] link to the window of the
    same length that follows it.  The server always has such a link: it is
    the stall rule of [PageInsights.get_next_page_token]
    ([Window.window_stalled]) that ends the loop.  This file runs the
    loop of [Engine] against that server ([World.request_records_against]):

    - [request_int] is the [since] or [until] the server reads in a request:
      a number in the first request, the first text of a list in a request
      made from a link; [request_window] is the pair of them;
    - [serve_insights] is the server, [window_link] the link it writes;
    - [clamped] is the [until] of a request made from a link,
      [next_window] the window asked for after a window, if any, and
      [windows_from] the windows asked for in a run, as functions of the
      clock and of the first window alone;
    - [windows_left] counts the windows of [Params.window_span] seconds
      between a [since] and two days before now: the measure of the loop;
    - [insights_setting] says what is assumed of the partition (a page id, a
      cursor), of the parameters the links repeat (values that are not
      blank, under names that differ) and of the values (the flattener runs
      to its end on every window).

    The theorems: the run finishes, without a warning, after at most
    [windows_left now cursor + 1] requests; the windows it asks for are
    [windows_from], and its rows are the rows of these windows in order.
    The stall rule also drops a link whose window starts long before now
    when the window would end within two days after now: the run then ends
    after its first window and leaves the values up to now unread. *)

From Stdlib Require Import List String ZArith Bool Lia.
From stdpp Require Import base tactics list.
From S2P Require Import Prelude PyDict PyValue Streams Url Quote Params Window Flatten Redact.
From S2P Require Import Engine Link World.
Import ListNotations.

Set Default Proof Using "Type".
Local Open Scope string_scope.
Local Open Scope list_scope.
Local Open Scope Z_scope.

Definition request_int (req : request) (k : string) : option Z :=
  match dict_get k (req_params req) with
  | Some (VInt n) => Some n
  | Some (VList (VStr v :: _)) =>
      match py_int_of_string v with
      | Ok n => Some n
      | Err _ => None
      end
  | _ => None
  end.

Definition request_window (req : request) : option Z * option Z :=
  (request_int req "since", request_int req "until").

(** The windows of [window_span] seconds from [since] to two days before
    [now]. *)
Definition windows_left (now since : Z) : nat :=
  Z.to_nat ((now - two_days - since) / window_span).

(** The [until] of a request made from a link whose [until] is given:
    [str(time-day)] if [int(until) > time]. *)
Definition clamped (now until : Z) : Z :=
  if until >? now then now - one_day else until.

(** The window asked for after the window [w]: the server links [w] to
    the window of the same length that starts where [w] ends; the loop drops
    a stalled link and cuts the window of a link it follows. *)
Definition next_window (now : Z) (w : Z * Z) : option (Z * Z) :=
  let '(since, until) := w in
  let until' := until + (until - since) in
  if window_stalled now until until' then None else Some (until, clamped now until').

(** The windows asked for in at most [fuel] turns that start with [w]. *)
Fixpoint windows_from (fuel : nat) (now : Z) (w : Z * Z) : list (Z * Z) :=
  match fuel with
  | O => []
  | S fuel' =>
      w :: match next_window now w with
           | Some w' => windows_from fuel' now w'
           | None => []
           end
  end.

Section Server.
Context (page : string) (base : list (string * string)) (data : Z -> Z -> list pyval).

(** The parameters of a link: those every link repeats, then the window. *)
Definition window_params (since until : Z) : list (string * string) :=
  base ++ [("since", py_str_of_int since); ("until", py_str_of_int until)].

Definition window_link (since until : Z) : string :=
  next_link PageInsights page (window_params since until).

(** The answer to a request: the values of its window, linked to the
    window of the same length that starts where it ends. *)
Definition serve_insights (req : request) : res response :=
  match request_window req with
  | (Some since, Some until) =>
      Ok (page_with_next (data since until)
            (VStr (window_link until (until + (until - since)))))
  | _ => Err RequestError
  end.

Definition insights_world (now : Z) : world :=
  {| clock_request := fun _ => now;
     send := fun _ => serve_insights;
     clock_next := fun _ => now |}.

(** The token the window [since, until] leaves: the link of the answer,
    unless the link's window is stalled. *)
Definition token_after (now since until : Z) : pyval :=
  if window_stalled now until (until + (until - since)) then VNone
  else VStr (window_link until (until + (until - since))).

(** The window a turn asks for, by the token it starts with: without a
    token, the first window after the cursor; with the link to a window of
    [window_span] seconds that starts more than two days ago, that window,
    cut if it ends after now. *)
Definition asks_window (now cursor : Z) (token : pyval) (since until : Z) : Prop :=
  (token = VNone /\ since = cursor /\ until = first_until now cursor) \/
  (token = VStr (window_link since (since + window_span)) /\
   since < now - two_days /\ until = clamped now (since + window_span)).

(** The rows of the given windows, as [PageInsights] flattens them. *)
Definition rows_of_windows (self : stream_self) (ws : list (Z * Z)) : list pyval :=
  flat_map (fun w => rows_of (parse_response PageInsights self
                                (page_without_next (data (fst w) (snd w))))) ws.

Record insights_setting (starting_timestamp : pyval -> option Z)
    (self : stream_self) (partition : pyval) (cursor : Z) : Prop := {
  is_partition : py_getitem partition "page_id" = Ok (VStr page);
  is_cursor : starting_timestamp partition = Some cursor;
  is_page : plain page = true;
  is_base : kept_query base = true;
  is_names : dict_wf (base ++ [("since", ""); ("until", "")]);
  is_data : forall since until,
    outcome_of (parse_response PageInsights (set_page_id self (VStr page))
                  (page_without_next (data since until))) = Ok tt;
}.

End Server.

(** A page whose cursor is 20 000 000 seconds (231 days) old, the
    parameters its links repeat, and a server with one value per window. *)
Definition example_now : Z := 1700000000.

Definition example_cursor : Z := 1680000000.

Definition example_insights_base : list (string * string) :=
  [("access_token", "TOKEN123"); ("metric", "page_fans,page_views")].

Definition example_values (since until : Z) : list pyval :=
  [VDict [("name", VStr "page_fans"); ("period", VStr "day");
          ("title", VStr "Fans"); ("id", VStr "123/insights/page_fans/day");
          ("values", VList [VDict [("value", VInt (until - since));
                                   ("end_time", VStr (py_str_of_int until))]])]].

Definition example_insights_world : world :=
  insights_world "123" example_insights_base example_values example_now.

(** ** The windows *)

Lemma windows_left_lt now since :
  since + window_span < now - two_days ->
  (windows_left now (since + window_span) < windows_left now since)%nat.
Proof.
  unfold windows_left, window_span, two_days. intros H.
  apply Z2Nat.inj_lt; Z.div_mod_to_equations; lia.
Qed.

Lemma clamped_le_now now until : clamped now until <= now.
Proof. unfold clamped, one_day. case_match; lia. Qed.

(** A window asked for after another starts where that one ends, and does
    not end after now. *)
Lemma next_window_spec now since until w' :
  next_window now (since, until) = Some w' ->
  fst w' = until /\ snd w' <= now /\ until < now - two_days.
Proof.
  unfold next_window. destruct (window_stalled now until _) eqn:Hst; [done|].
  intros [= <-]. apply not_true_iff_false in Hst. rewrite window_stalled_spec in Hst.
  split_and!; [done | apply clamped_le_now | lia].
Qed.

(** A window whose link the rule drops is the last. *)
Lemma windows_from_stalled fuel now w n :
  (n < fuel)%nat -> next_window now w = None -> windows_from fuel now w = [w].
Proof. destruct fuel; [lia|]. intros _ Hn. cbn [windows_from]. by rewrite Hn. Qed.

Section ServerFacts.
Context (starting_timestamp : pyval -> option Z).
#[local] Instance insights_sdk : Sdk := urllib_sdk starting_timestamp.
Context (page : string) (base : list (string * string)) (data : Z -> Z -> list pyval).
Context (now cursor : Z) (self : stream_self) (partition : pyval).
Hypothesis Hset : insights_setting page base data starting_timestamp self partition cursor.

Local Abbreviation ops := (@stream_ops insights_sdk PageInsights).
Local Abbreviation w := (insights_world page base data now).
Local Abbreviation self' := (set_page_id self (VStr page)).
Local Abbreviation link := (window_link page base).

(** ** The links *)

Lemma base_no_window k : k = "since" \/ k = "until" -> dict_get k base = None.
Proof using Hset.
  intros Hk. apply dict_get_None. pose proof (is_names _ _ _ _ _ _ _ Hset) as Hnd.
  unfold dict_wf, dict_keys in Hnd. rewrite fmap_app in Hnd.
  apply NoDup_app in Hnd as (_ & Hnot & _). intros Hin. apply (Hnot _ Hin).
  destruct Hk as [-> | ->]; cbn; rewrite !elem_of_cons; auto.
Qed.

Lemma window_params_wf since until : dict_wf (window_params base since until).
Proof using Hset.
  pose proof (is_names _ _ _ _ _ _ _ Hset) as Hnd.
  unfold window_params, dict_wf, dict_keys in *. by rewrite fmap_app in *.
Qed.

Lemma window_params_kept since until :
  kept_query (window_params base since until) = true.
Proof using Hset.
  pose proof (is_base _ _ _ _ _ _ _ Hset) as Hb.
  destruct (py_str_of_int_plain since) as [_ Hs], (py_str_of_int_plain until) as [_ Hu].
  unfold window_params, kept_query in *. rewrite forallb_app, Hb.
  cbn [forallb]. unfold kept_pair. cbn [fst snd].
  by destruct (py_str_of_int since), (py_str_of_int until).
Qed.

Lemma window_params_since since until :
  dict_get "since" (window_params base since until) = Some (py_str_of_int since).
Proof using Hset. unfold window_params. by rewrite dict_get_app, base_no_window by auto. Qed.

Lemma window_params_until since until :
  dict_get "until" (window_params base since until) = Some (py_str_of_int until).
Proof using Hset. unfold window_params. by rewrite dict_get_app, base_no_window by auto. Qed.

(** Links to windows that start at different times are different texts. *)
Lemma window_link_inj since until since' until' :
  VStr (link since until) = VStr (link since' until') -> since = since'.
Proof using Hset.
  intros Htok. assert (link since until = link since' until') as Heq by congruence.
  apply next_link_inj in Heq;
    [|by apply Hset | by apply window_params_kept | by apply window_params_kept].
  apply app_inj_1 in Heq as [_ [= Heq _]]; [|done]. by apply py_str_of_int_inj.
Qed.

Lemma py_url_query_window since until :
  py_url_query (VStr (link since until)) =
  Ok (params_of_query (single_values (window_params base since until))).
Proof using Hset.
  apply py_url_query_next_link;
    [by apply Hset | by apply window_params_kept | by apply window_params_wf].
Qed.

(** ** The requests *)

(** The first request asks for the window that starts at the cursor. *)
Lemma prepare_first self0 :
  exists req line,
    prepare_request ops now self0 partition VNone =
      (set_page_id self0 (VStr page), Ok (req, line)) /\
    request_window req = (Some cursor, Some (first_until now cursor)).
Proof using Hset.
  pose proof (is_partition _ _ _ _ _ _ _ Hset) as Hpid.
  unfold prepare_request, sdk_prepare_request.
  cbn [ops_get_url_params stream_ops get_url_params].
  rewrite (PageInsights_get_url_params_eq _ _ _ _ _ Hpid),
    (base_first_params _ _ _ _ Hpid) by done.
  cbn [get_starting_timestamp insights_sdk urllib_sdk].
  rewrite (is_cursor _ _ _ _ _ _ _ Hset). cbn [res_bind].
  rewrite (window_first _ _ _ cursor) by (done || by destruct (dict_get page _)).
  cbn [res_bind]. rewrite Hpid. cbn [res_bind]. eexists _, _. split; [reflexivity|].
  unfold request_window, request_int. cbn [req_params]. rewrite !dict_get_update by solve_dict_wf.
  cbn [dict_get String.eqb Ascii.eqb Bool.eqb].
  rewrite dict_get_set_eq, dict_get_set_ne by done.
  by destruct (dict_get page _).
Qed.

(** A request made from a link asks for the link's window, cut at one day
    before now if it ends after now. *)
Lemma prepare_window self0 since until :
  exists req line,
    prepare_request ops now self0 partition (VStr (link since until)) =
      (set_page_id self0 (VStr page), Ok (req, line)) /\
    request_window req = (Some since, Some (clamped now until)).
Proof using Hset.
  pose proof (is_partition _ _ _ _ _ _ _ Hset) as Hpid.
  unfold prepare_request, sdk_prepare_request.
  cbn [ops_get_url_params stream_ops get_url_params].
  rewrite (PageInsights_get_url_params_eq _ _ _ _ _ Hpid),
    (base_token _ _ _ _ Hpid), py_url_query_window by done.
  cbn [res_bind].
  rewrite (window_token _ _ _ (py_str_of_int until) [] until)
    by (done || by rewrite ?link_param_get, ?window_params_until, ?py_int_of_string_str).
  cbn [res_bind]. rewrite Hpid. cbn [res_bind]. eexists _, _. split; [reflexivity|].
  unfold request_window, request_int, clamped. cbn [req_params].
  rewrite !dict_get_update by solve_dict_wf.
  cbn [dict_get String.eqb Ascii.eqb Bool.eqb].
  destruct (until >? now);
    rewrite ?dict_get_set_eq, ?dict_get_set_ne, ?link_param_get, ?window_params_since,
      ?window_params_until by done; cbn [option_map]; by rewrite !py_int_of_string_str.
Qed.

(** The request of a turn asks for the window of the turn. *)
Lemma prepare_asked self0 token since until :
  asks_window page base now cursor token since until ->
  exists req line,
    prepare_request ops now self0 partition token =
      (set_page_id self0 (VStr page), Ok (req, line)) /\
    request_window req = (Some since, Some until).
Proof using Hset.
  intros [(-> & -> & ->) | (-> & _ & ->)]; [apply prepare_first | apply prepare_window].
Qed.

(** The link that comes with a window is not the token the window was
    asked with. *)
Lemma asked_differs token since until :
  asks_window page base now cursor token since until ->
  token <> VStr (link until (until + (until - since))).
Proof using Hset.
  intros [(-> & _) | (-> & Hs & ->)]; [done|]. intros Heq%window_link_inj.
  unfold clamped, one_day, two_days, window_span in *. case_match; lia.
Qed.

(** ** The answers *)

Lemma serve_insights_window req since until :
  request_window req = (Some since, Some until) ->
  serve_insights page base data req =
  Ok (page_with_next (data since until) (VStr (link until (until + (until - since))))).
Proof. intros Hw. unfold serve_insights. by rewrite Hw. Qed.

Lemma next_token_window rows since until token :
  @ops_get_next_page_token ops now
    (page_with_next rows (VStr (link until (until + (until - since))))) token =
  Ok (token_after page base now since until).
Proof using Hset.
  cbn [ops_get_next_page_token stream_ops get_next_page_token].
  apply (PageInsights_next_link _ _ _ (window_params base until (until + (until - since))));
    auto using py_url_query_window, window_params_since, window_params_until.
Qed.

Lemma parse_window since until link :
  parse_response PageInsights self' (page_with_next (data since until) link) =
  (rows_of (parse_response PageInsights self' (page_without_next (data since until))), Ok tt).
Proof using Hset.
  pose proof (is_data _ _ _ _ _ _ _ Hset since until) as Hdata.
  rewrite parse_response_data_only by done. unfold outcome_of, rows_of in *.
  destruct (parse_response PageInsights self' _). cbn in *. by subst.
Qed.

(** ** The turns *)

(** One turn of the loop: the window it asks for is flattened, and the
    token is the one the window leaves. *)
Lemma window_turn n st since until :
  asks_window page base now cursor (next_page_token st) since until ->
  set_page_id (Engine.self st) (VStr page) = self' ->
  exists evs req,
    iteration ops partition (page_io_at ops w partition n st) st =
    (evs, Ok {| Engine.self := self';
                next_page_token := token_after page base now since until;
                finished := negb (truthy (token_after page base now since until)) |}) /\
    warnings_of_events evs = [] /\
    requests_of_events evs = [req] /\
    request_window req = (Some since, Some until) /\
    rows_of_events evs =
      rows_of (parse_response PageInsights self' (page_without_next (data since until))).
Proof using Hset.
  intros Hasks Hself.
  destruct (prepare_asked (Engine.self st) _ _ _ Hasks) as (req & line & Hreq & Hw).
  destruct (good_page_iteration ops partition (page_io_at ops w partition n st) st
              (rows_of (parse_response PageInsights self' (page_without_next (data since until))))
              (token_after page base now since until)) as (req' & line' & _ & Hit).
  { eexists. cbn [page_io_at io_time_request io_outcome io_time_next clock_request
                    clock_next send insights_world].
    rewrite Hreq. cbn [fst snd is_ok]. rewrite Hself.
    split_and!; [done | by apply serve_insights_window | apply parse_window
                | apply next_token_window |].
    unfold token_after. destruct (window_stalled _ _ _); [done|].
    apply andb_false_iff. right. pose proof (asked_differs _ _ _ Hasks) as Hne.
    destruct (next_page_token st); try done. cbn [py_eqb]. apply String.eqb_neq. congruence. }
  destruct (turn_request _ _ _ _ _ _ Hit) as (req2 & line2 & Hreq2 & Hq).
  cbn [page_io_at io_time_request clock_request insights_world] in Hreq2.
  rewrite Hreq in Hreq2. injection Hreq2 as <- _.
  destruct (events_of_turn (@ops_logged ops (Engine.self st) partition (next_page_token st))
              line' req'
              (rows_of (parse_response PageInsights self'
                          (page_without_next (data since until)))) (Ok tt))
    as (Hrows & Hwarn & _).
  eexists _, req. split_and!; [|exact Hwarn | exact Hq | exact Hw | exact Hrows].
  rewrite Hit. unfold after_page.
  cbn [page_io_at io_time_request clock_request insights_world]. by rewrite Hreq, Hself.
Qed.

(** The token a window leaves, when the window is a full one or ends within
    two days of now: none if no window is asked for after it; otherwise the
    token asks for the window after it, and fewer windows are left. *)
Lemma token_after_asks since until :
  until = since + window_span \/ now - two_days <= until ->
  match next_window now (since, until) with
  | None => token_after page base now since until = VNone
  | Some (since', until') =>
      truthy (token_after page base now since until) = true /\
      asks_window page base now cursor (token_after page base now since until)
        since' until' /\
      (windows_left now since' < windows_left now since)%nat
  end.
Proof using Hset.
  intros Hu. unfold token_after, next_window.
  destruct (window_stalled now until _) eqn:Hst; [done|].
  apply not_true_iff_false in Hst. rewrite window_stalled_spec in Hst.
  destruct Hu as [-> | Hu]; [|lia].
  replace (since + window_span - since) with window_span by lia.
  split_and!; [done | right; split_and!; [done | lia | done] | apply windows_left_lt; lia].
Qed.

(** The window a turn asks for is a full one or ends within two days of
    now. *)
Lemma asked_window token since until :
  asks_window page base now cursor token since until ->
  until = since + window_span \/ now - two_days <= until.
Proof.
  intros [(_ & -> & ->) | (_ & _ & ->)]; unfold first_until, clamped, one_day, two_days;
    case_match; lia.
Qed.

(** ** The run *)

(** From any turn on, the run goes through the windows that are left. *)
Lemma insights_run_from fuel : forall n st since until,
  asks_window page base now cursor (next_page_token st) since until ->
  set_page_id (Engine.self st) (VStr page) = self' ->
  finished st = false ->
  (windows_left now since < fuel)%nat ->
  exists evs,
    request_records_against ops w partition fuel n st = (evs, Finished) /\
    warnings_of_events evs = [] /\
    map request_window (requests_of_events evs) =
      map (fun w => (Some (fst w), Some (snd w))) (windows_from fuel now (since, until)) /\
    rows_of_events evs =
      rows_of_windows data self' (windows_from fuel now (since, until)).
Proof using Hset.
  induction fuel as [|fuel IH]; intros n st since until Hasks Hself Hf Hfuel; [lia|].
  destruct (window_turn n st _ _ Hasks Hself) as (evs & req & Hit & Hw & Hq & Hreq & Hr).
  rewrite request_records_against_S, Hit by done.
  pose proof (token_after_asks _ _ (asked_window _ _ _ Hasks)) as Hnext.
  cbn [windows_from]. destruct (next_window now (since, until)) as [[since' until']|].
  - destruct Hnext as (Htruthy & Hasks' & Hlt).
    edestruct (IH (S n)) as (evs' & -> & Hw' & Hq' & Hr');
      [exact Hasks' | done | cbn; by rewrite Htruthy | lia |].
    eexists. split; [done|].
    rewrite warnings_of_events_app, requests_of_events_app, rows_of_events_app, map_app.
    rewrite Hw, Hw', Hq, Hq', Hr, Hr'. cbn [map]. by rewrite Hreq.
  - rewrite request_records_against_finished by (cbn; by rewrite Hnext).
    eexists. split; [done|]. rewrite app_nil_r, Hw, Hq, Hr. cbn. by rewrite Hreq, app_nil_r.
Qed.

(** C9.  The run of [PageInsights] against the server of windows comes to its
    end and is complete.  The server never stops writing [next] links; the
    stall rule ends the run: with one turn of fuel more than there are windows
    of [window_span] seconds between the cursor and two days before now, the
    loop finishes, without a warning; the requests it has sent ask for the
    windows of [windows_from], one each, and the rows it has yielded are the
    rows of these windows, in order. *)
Theorem insights_run_finishes fuel :
  (windows_left now cursor < fuel)%nat ->
  exists evs,
    request_records_against ops w partition fuel 0 (initial_state self) = (evs, Finished) /\
    warnings_of_events evs = [] /\
    map request_window (requests_of_events evs) =
      map (fun w => (Some (fst w), Some (snd w)))
        (windows_from fuel now (cursor, first_until now cursor)) /\
    rows_of_events evs =
      rows_of_windows data self' (windows_from fuel now (cursor, first_until now cursor)).
Proof using Hset.
  intros Hfuel. apply insights_run_from; [by left | done | done | done].
Qed.

(** C16.  The stall rule leaves the newest values unread: when the window
    after the first would end between now and two days after now, the rule
    drops the link to it, although its start is more than two days before now,
    and the run finishes after one request.  The values between the end of the
    first window and now, 91 days of them at least, are never asked for. *)
Theorem insights_run_leaves_gap fuel :
  now <= cursor + 2 * window_span <= now + two_days ->
  (1 < fuel)%nat ->
  exists evs,
    request_records_against ops w partition fuel 0 (initial_state self) = (evs, Finished) /\
    map request_window (requests_of_events evs) =
      [(Some cursor, Some (cursor + window_span))] /\
    rows_of_events evs = rows_of_windows data self' [(cursor, cursor + window_span)] /\
    window_span - two_days <= now - (cursor + window_span).
Proof using Hset.
  intros Hnow Hfuel.
  assert (windows_left now cursor < fuel)%nat as Hleft.
  { unfold windows_left. unfold window_span, two_days in *.
    apply (Nat.le_lt_trans _ 1); [|done]. change 1%nat with (Z.to_nat 1).
    apply Z2Nat.inj_le; Z.div_mod_to_equations; lia. }
  assert (first_until now cursor = cursor + window_span) as Hfirst.
  { unfold first_until. case_match; [done|]. unfold window_span, two_days in *. lia. }
  destruct (insights_run_from fuel 0 (initial_state self) cursor (first_until now cursor))
    as (evs & Hrun & _ & Hreq & Hrows); [by left | done | done | done |].
  exists evs. rewrite Hrun, Hreq, Hrows, Hfirst, (windows_from_stalled _ _ _ 0).
  - split_and!; [done..|]. unfold window_span, two_days in *. lia.
  - lia.
  - unfold next_window. replace (window_stalled now _ _) with true; [done|]. symmetry.
    apply window_stalled_spec. unfold window_span, two_days in *. lia.
Qed.

End ServerFacts.

(** ** The theorems at the sample page *)

Lemma example_insights_setting :
  insights_setting "123" example_insights_base example_values (fun _ => Some example_cursor)
    example_self example_partition example_cursor.
Proof. split; try reflexivity; try solve_dict_wf. Defined.

Lemma insights_run_finishes_witness :
  exists evs,
    request_records_against (@stream_ops (urllib_sdk (fun _ => Some example_cursor)) PageInsights)
      example_insights_world example_partition 3 0 (initial_state example_self) =
      (evs, Finished) /\
    warnings_of_events evs = [] /\
    map request_window (requests_of_events evs) =
      map (fun w => (Some (fst w), Some (snd w)))
        [(1680000000, 1688035200); (1688035200, 1696070400); (1696070400, 1699913600)] /\
    rows_of_events evs =
      rows_of_windows example_values (set_page_id example_self (VStr "123"))
        [(1680000000, 1688035200); (1688035200, 1696070400); (1696070400, 1699913600)].
Proof.
  apply (insights_run_finishes (fun _ => Some example_cursor) "123" example_insights_base
           example_values example_now example_cursor example_self example_partition
           example_insights_setting 3).
  vm_compute. lia.
Defined.

Lemma insights_run_leaves_gap_witness :
  exists evs,
    request_records_against (@stream_ops (urllib_sdk (fun _ => Some example_cursor)) PageInsights)
      (insights_world "123" example_insights_base example_values 1696000000)
      example_partition 2 0 (initial_state example_self) = (evs, Finished) /\
    map request_window (requests_of_events evs) = [(Some 1680000000, Some 1688035200)] /\
    rows_of_events evs =
      rows_of_windows example_values (set_page_id example_self (VStr "123"))
        [(1680000000, 1688035200)] /\
    7862400 <= 1696000000 - 1688035200.
Proof.
  apply (insights_run_leaves_gap (fun _ => Some example_cursor) "123" example_insights_base
           example_values 1696000000 example_cursor example_self example_partition
           example_insights_setting 2);
    unfold example_cursor, window_span, two_days; lia.
Defined.
