(* ===== verification/Stuck.v ===== *)
(** * Stuck: servers against which the loop does not end

    [Engine] shows, turn by turn, that the loop goes on after a failure of
    any page but the first, and after it has detected a repeated token.
    This file puts a server into the loop ([World.request_records_against])
    and follows the run through any number of turns:

    - [repeating_world] is a server with a pagination defect: every answer
      links to the same page;
    - [failing_world] is a server that answers the first request and fails
      from then on;
    - [stuck_state] is the state the loop is in after the first turn, and
      stays in: the token is the link of the first answer.

    Against both, the run is [Pending] whatever the fuel.  Against the first
    the rows of the page are yielded again in every turn. *)

From Stdlib Require Import List String ZArith Bool Lia.
From stdpp Require Import base tactics list.
From S2P Require Import Prelude PyDict PyValue Streams Url Quote Params Window Flatten Redact.
From S2P Require Import Engine Link First World.
Import ListNotations.

Set Default Proof Using "Type".
Local Open Scope string_scope.
Local Open Scope list_scope.

Section Servers.
Context (s : stream) (page : string) (ps : list (string * string)) (data : list pyval).

Definition repeating_world (now : Z) : world :=
  {| clock_request := fun _ => now;
     send := fun _ _ => Ok (page_with_next data (VStr (next_link s page ps)));
     clock_next := fun _ => now |}.

Definition failing_world (now : Z) : world :=
  {| clock_request := fun _ => now;
     send := fun n _ =>
       match n with
       | O => Ok (page_with_next data (VStr (next_link s page ps)))
       | S _ => Err RequestError
       end;
     clock_next := fun _ => now |}.

Definition stuck_state (self : stream_self) : loop_state :=
  {| self := set_page_id self (VStr page);
     next_page_token := VStr (next_link s page ps);
     finished := false |}.

(** What is assumed: a stream that returns a token's parameters untouched,
    a partition with a page id, a link whose parameters have distinct names
    and no blank value, and data the flattener makes [rows] of. *)
Record stuck_setting (self : stream_self) (partition : pyval) (rows : list pyval)
  : Prop := {
  ss_stream : returns_token_params s = true;
  ss_partition : py_getitem partition "page_id" = Ok (VStr page);
  ss_page : plain page = true;
  ss_params : kept_query ps = true;
  ss_names : dict_wf ps;
  ss_data : parse_response s (set_page_id self (VStr page))
              (page_with_next data (VStr (next_link s page ps))) = (rows, Ok tt);
}.

End Servers.

(** A page of [Posts] that links to itself. *)
Definition example_defect_world : world :=
  repeating_world Posts "123" example_next_params [VDict [("id", VStr "p1")]] 1700000000.

Definition example_failing_world : world :=
  failing_world Posts "123" example_next_params [VDict [("id", VStr "p1")]] 1700000000.

(** ** Events of repeated turns *)

Lemma concat_repeat_events {A} (f : list event -> list A) evs n :
  f [] = [] -> (forall a b, f (a ++ b) = f a ++ f b) ->
  f (concat (repeat evs n)) = concat (repeat (f evs) n).
Proof.
  intros Hnil Happ. induction n as [|n IH]; [done|]. cbn [repeat concat].
  by rewrite Happ, IH.
Qed.

Lemma concat_repeat_singleton {A} (x : A) n : concat (repeat [x] n) = repeat x n.
Proof. induction n as [|n IH]; [done|]. cbn. by rewrite IH. Qed.

Lemma concat_repeat_nil {A} n : concat (repeat (@nil A) n) = [].
Proof. by induction n. Qed.

(** What a first turn followed by [n] times the same turn has yielded,
    logged and sent. *)
Lemma events_of_turns notes1 line1 req1 rows1 notes2 line2 req2 rows2 e n :
  let evs := turn_events notes1 line1 req1 rows1 (Ok tt) ++
             concat (repeat (turn_events notes2 line2 req2 rows2 (Err e)) n) in
  rows_of_events evs = rows1 ++ concat (repeat rows2 n) /\
  warnings_of_events evs = repeat e n /\
  length (requests_of_events evs) = S n.
Proof.
  cbn zeta. destruct (events_of_turn notes1 line1 req1 rows1 (Ok tt)) as (Hr1 & Hw1 & Hq1 & _).
  destruct (events_of_turn notes2 line2 req2 rows2 (Err e)) as (Hr2 & Hw2 & Hq2 & _).
  rewrite rows_of_events_app, warnings_of_events_app, requests_of_events_app.
  rewrite (concat_repeat_events rows_of_events), (concat_repeat_events warnings_of_events),
    (concat_repeat_events requests_of_events)
    by auto using rows_of_events_app, warnings_of_events_app, requests_of_events_app.
  rewrite Hr1, Hw1, Hq1, Hr2, Hw2, Hq2, !concat_repeat_singleton. cbn [app length].
  by rewrite repeat_length.
Qed.

Section StuckFacts.
Context (starting_timestamp : pyval -> option Z).
#[local] Instance stuck_sdk : Sdk := urllib_sdk starting_timestamp.
Context (s : stream) (page : string) (ps : list (string * string)) (data : list pyval).
Context (now : Z) (self : stream_self) (partition : pyval) (rows : list pyval).
Hypothesis Hset : stuck_setting s page ps data self partition rows.

Local Abbreviation ops := (@stream_ops stuck_sdk s).
Local Abbreviation self' := (set_page_id self (VStr page)).
Local Abbreviation link := (next_link s page ps).
Local Abbreviation answer := (page_with_next data (VStr (next_link s page ps))).

Lemma stuck_stream : s <> PageInsights.
Proof using Hset.
  pose proof (ss_stream _ _ _ _ _ _ _ Hset) as Hs. intros Heq. by rewrite Heq in Hs.
Qed.

(** The first turn, against any server that answers the first request:
    the page is flattened and the loop is in [stuck_state]. *)
Lemma first_turn_sticks (w : world) :
  clock_request w 0 = now -> clock_next w 0 = now ->
  (forall req, send w 0 req = Ok answer) ->
  exists notes req line,
    iteration ops partition (page_io_at ops w partition 0 (initial_state self))
      (initial_state self) =
    (turn_events notes line req rows (Ok tt), Ok (stuck_state s page ps self)).
Proof using Hset.
  intros Hclock Hnext Hsend.
  destruct (prepare_first_ok s now self partition page) as (req & line & Hreq);
    [apply Hset | left; apply stuck_stream |].
  destruct (good_page_iteration ops partition
              (page_io_at ops w partition 0 (initial_state self)) (initial_state self)
              rows (VStr link)) as (req' & line' & _ & ->).
  { exists answer. cbn [page_io_at io_time_request io_outcome io_time_next initial_state
                          Engine.self next_page_token].
    rewrite Hclock, Hnext, Hreq. cbn [fst snd is_ok].
    split_and!; [done | apply Hsend | apply Hset | | done].
    cbn [ops_get_next_page_token stream_ops].
    by rewrite get_next_page_token_base by apply stuck_stream. }
  eexists _, req', line'. unfold after_page, stuck_state.
  cbn [page_io_at io_time_request initial_state Engine.self next_page_token].
  by rewrite Hclock, Hreq.
Qed.

(** The request of every later turn. *)
Lemma stuck_request :
  prepare_request ops now self' partition (VStr link) =
  (self', Ok (link_request s page ps,
              option_map logged_url (request_url (link_request s page ps)))).
Proof using Hset.
  apply (prepare_request_next_link starting_timestamp s now self' partition page ps);
    apply Hset.
Qed.

(** A later turn against the server that repeats itself: the page is
    flattened again, the repeated token is detected and logged, and the
    loop is where it was. *)
Lemma repeated_turn n :
  iteration ops partition
    (page_io_at ops (repeating_world s page ps data now) partition n
       (stuck_state s page ps self)) (stuck_state s page ps self) =
  (turn_events [] (option_map logged_url (request_url (link_request s page ps)))
     (link_request s page ps) rows (Err (RuntimeError (VStr (next_link s page ps)))),
   Ok (stuck_state s page ps self)).
Proof using Hset.
  rewrite iteration_unfold.
  cbn [page_io_at io_time_request clock_request repeating_world stuck_state Engine.self
         next_page_token ops_logged stream_ops].
  rewrite stuck_request, logged_without_token by done. cbn zeta. cbn [fst snd].
  rewrite (try_block_next _ _ _ _ answer rows (VStr link)).
  - cbn [py_eqb fst snd]. by rewrite next_link_truthy, String.eqb_refl.
  - cbn [io_outcome page_io_at io_time_request clock_request send repeating_world
           stuck_state Engine.self next_page_token]. by rewrite stuck_request.
  - apply Hset.
  - cbn [ops_get_next_page_token stream_ops].
    by rewrite get_next_page_token_base by apply stuck_stream.
Qed.

(** A later turn against the server that fails: a warning, and the loop is
    where it was. *)
Lemma failed_turn n :
  0 < n ->
  iteration ops partition
    (page_io_at ops (failing_world s page ps data now) partition n
       (stuck_state s page ps self)) (stuck_state s page ps self) =
  (turn_events [] (option_map logged_url (request_url (link_request s page ps)))
     (link_request s page ps) [] (Err RequestError),
   Ok (stuck_state s page ps self)).
Proof using Hset.
  intros Hn. rewrite iteration_unfold.
  cbn [page_io_at io_time_request clock_request failing_world stuck_state Engine.self
         next_page_token ops_logged stream_ops].
  rewrite stuck_request, logged_without_token by done. cbn zeta. cbn [fst snd].
  rewrite (try_block_transport_failure _ _ _ _ RequestError).
  - cbn [fst snd]. by rewrite next_link_truthy.
  - cbn [io_outcome page_io_at io_time_request clock_request send failing_world
           stuck_state Engine.self next_page_token].
    rewrite stuck_request. by destruct n; [lia|].
Qed.

(** C10.  A server with a pagination defect: against a server whose every
    answer links to the same page, the run is pending whatever the fuel.  The
    loop detects the repeated token in every turn after the first, logs it,
    and goes on: it has yielded the rows of the page once per turn. *)
Theorem repeating_server_never_ends fuel :
  exists evs,
    request_records_against ops (repeating_world s page ps data now) partition (S fuel) 0
      (initial_state self) = (evs, Pending (stuck_state s page ps self)) /\
    rows_of_events evs = concat (repeat rows (S fuel)) /\
    warnings_of_events evs = repeat (RuntimeError (VStr (next_link s page ps))) fuel /\
    length (requests_of_events evs) = S fuel.
Proof using Hset.
  destruct (first_turn_sticks (repeating_world s page ps data now))
    as (notes & req & line & Hit);
    [done..|].
  rewrite request_records_against_S, Hit by done.
  rewrite (stuck_against ops _ partition _ (stuck_state s page ps self) 1)
    by (done || (intros; apply repeated_turn)).
  eexists. split; [done|]. apply events_of_turns.
Qed.

(** C23.  A server that fails after the first page: when every request but the
    first fails, the run is pending whatever the fuel.  The loop logs a
    warning per turn and asks for the same page again; it has yielded the rows
    of the first page only. *)
Theorem failing_server_never_ends fuel :
  exists evs,
    request_records_against ops (failing_world s page ps data now) partition (S fuel) 0
      (initial_state self) = (evs, Pending (stuck_state s page ps self)) /\
    rows_of_events evs = rows /\
    warnings_of_events evs = repeat RequestError fuel /\
    length (requests_of_events evs) = S fuel.
Proof using Hset.
  destruct (first_turn_sticks (failing_world s page ps data now))
    as (notes & req & line & Hit);
    [done..|].
  rewrite request_records_against_S, Hit by done.
  rewrite (stuck_against ops _ partition _ (stuck_state s page ps self) 1)
    by (done || (intros; apply failed_turn; lia)).
  eexists. split; [done|].
  destruct (events_of_turns notes line req rows []
              (option_map logged_url (request_url (link_request s page ps)))
              (link_request s page ps) [] RequestError fuel) as (-> & -> & ->).
  split_and!; [|done..]. by rewrite concat_repeat_nil, app_nil_r.
Qed.

End StuckFacts.

(** ** The theorems at the sample page *)

Lemma example_stuck_setting :
  stuck_setting Posts "123" example_next_params [VDict [("id", VStr "p1")]] example_self
    example_partition [VDict [("id", VStr "p1"); ("page_id", VStr "123")]].
Proof. split; try reflexivity. solve_dict_wf. Defined.

Lemma repeating_server_never_ends_witness :
  exists evs,
    request_records_against (@stream_ops example_sdk Posts) example_defect_world
      example_partition 3 0 (initial_state example_self) =
      (evs, Pending (stuck_state Posts "123" example_next_params example_self)) /\
    rows_of_events evs =
      concat (repeat [VDict [("id", VStr "p1"); ("page_id", VStr "123")]] 3) /\
    warnings_of_events evs =
      [RuntimeError (VStr example_next); RuntimeError (VStr example_next)] /\
    length (requests_of_events evs) = 3.
Proof.
  apply (repeating_server_never_ends (fun _ => None) Posts "123" example_next_params
           [VDict [("id", VStr "p1")]] 1700000000 example_self example_partition
           [VDict [("id", VStr "p1"); ("page_id", VStr "123")]] example_stuck_setting 2).
Defined.

Lemma failing_server_never_ends_witness :
  exists evs,
    request_records_against (@stream_ops example_sdk Posts) example_failing_world
      example_partition 3 0 (initial_state example_self) =
      (evs, Pending (stuck_state Posts "123" example_next_params example_self)) /\
    rows_of_events evs = [VDict [("id", VStr "p1"); ("page_id", VStr "123")]] /\
    warnings_of_events evs = [RequestError; RequestError] /\
    length (requests_of_events evs) = 3.
Proof.
  apply (failing_server_never_ends (fun _ => None) Posts "123" example_next_params
           [VDict [("id", VStr "p1")]] 1700000000 example_self example_partition
           [VDict [("id", VStr "p1"); ("page_id", VStr "123")]] example_stuck_setting 2).
Defined.
