(* ===== verification/Log.v ===== *)
(** * Log: the logger of the module and what a run writes with it

    The first statements of [streams.py] (lines 18 to 22) make the logger
    [tap-facebook-pages]: a handler that writes to [sys.stderr] is made and
    added to the logger, the logger's level is set to [INFO], and then the
    handler is given the format [%(levelname)s %(message)s].  The handler is
    an object: the logger holds a reference to it, so the format set in line
    22 is the format of the handler that was added in line 20.

    - [logging] is the state of the [logging] module: the handler objects,
      by reference, and the loggers, by name; [getLogger], [StreamHandler],
      [addHandler], [setLevel] and [setFormatter] are the calls of lines 18 to
      22 on that state, and [module_logging] is the state after them;
    - [log] is what a call of [logger.info] or [logger.warning] writes: the
      record passes the logger's level, then every handler of the logger
      formats it ([percent_format], the [%]-formatting of the handler's
      format with the attributes of the record) and writes the text and a
      newline to its stream;
    - [record_of_event] gives the level and the message of the log calls of
      a run ([Engine.event]): the line that opens the run, the line of the
      parameter builder, the redacted URL, and the exception caught in the
      loop, whose text is [exception_text];
    - [written] is the text a run writes to [sys.stderr], call by call.

    [self.logger] is the SDK's logger for the tap; the SDK names it after the
    tap, [tap-facebook-pages], which makes it the logger of line 18.  The
    handlers of the root logger, to which the records also propagate, are the
    SDK's business and are not modelled.  A text the model does not give
    (the message of an exception raised by the Python runtime or by a
    library, the [repr] of a list or dict) is [None].

    The theorems say what the configuration amounts to, that the log of a
    run against a paging server shows the mask where the token is, in every
    line, and that the warning of the loop detection does not: its message
    names the pagination token, which is the link with the token in it. *)

From Stdlib Require Import List String Ascii ZArith Bool Lia.
From stdpp Require Import base tactics list.
From S2P Require Import Prelude PyDict PyValue Streams Url Quote Params Window Flatten Redact.
From S2P Require Import Engine Link First World Paging Stuck.
Import ListNotations.

Set Default Proof Using "Type".
Local Open Scope string_scope.
Local Open Scope list_scope.
Local Open Scope Z_scope.

(** ** The logging module *)

Inductive level : Type := DEBUG | INFO | WARNING | ERROR | CRITICAL.

Definition levelno (l : level) : Z :=
  match l with
  | DEBUG => 10 | INFO => 20 | WARNING => 30 | ERROR => 40 | CRITICAL => 50
  end.

Definition levelname (l : level) : string :=
  match l with
  | DEBUG => "DEBUG" | INFO => "INFO" | WARNING => "WARNING" | ERROR => "ERROR"
  | CRITICAL => "CRITICAL"
  end.

(** The level a name stands for, as [setLevel] reads it; a name the module
    does not know is a [ValueError]. *)
Definition check_level (name : string) : res Z :=
  if String.eqb name "CRITICAL" || String.eqb name "FATAL" then Ok 50
  else if String.eqb name "ERROR" then Ok 40
  else if String.eqb name "WARNING" || String.eqb name "WARN" then Ok 30
  else if String.eqb name "INFO" then Ok 20
  else if String.eqb name "DEBUG" then Ok 10
  else if String.eqb name "NOTSET" then Ok 0
  else Err ValueError.

Inductive std_stream : Type := stdout | stderr.

Record handler : Type := {
  handler_stream : std_stream;
  handler_level : Z;
  handler_fmt : string;
}.

(** A logger has a level and references to its handlers. *)
Record logger : Type := {
  logger_level : Z;
  logger_handlers : list nat;
}.

Record logging : Type := {
  handler_objects : list handler;
  logger_objects : dict logger;
}.

Definition no_logging : logging := {| handler_objects := []; logger_objects := [] |}.

(** [logging.getLogger(name)]: the logger of that name, made on first use
    without level and without handler. *)
Definition getLogger (name : string) (m : logging) : logging :=
  if dict_mem name (logger_objects m) then m
  else {| handler_objects := handler_objects m;
          logger_objects :=
            dict_set name {| logger_level := 0; logger_handlers := [] |} (logger_objects m) |}.

(** [logging.StreamHandler(stream=...)]: a new handler, without level, with
    the format of a handler that was given none.  The reference to it is
    returned. *)
Definition StreamHandler (stream : std_stream) (m : logging) : logging * nat :=
  ({| handler_objects :=
        handler_objects m ++
        [{| handler_stream := stream; handler_level := 0; handler_fmt := "%(message)s" |}];
      logger_objects := logger_objects m |},
   length (handler_objects m)).

Definition with_logger (name : string) (f : logger -> logger) (m : logging) : logging :=
  match dict_get name (logger_objects m) with
  | Some l =>
      {| handler_objects := handler_objects m;
         logger_objects := dict_set name (f l) (logger_objects m) |}
  | None => m
  end.

(** [logger.addHandler(h)]: the reference is added unless it is there. *)
Definition addHandler (name : string) (h : nat) (m : logging) : logging :=
  with_logger name
    (fun l => {| logger_level := logger_level l;
                 logger_handlers :=
                   if bool_decide (h ∈ logger_handlers l) then logger_handlers l
                   else logger_handlers l ++ [h] |}) m.

(** [logger.setLevel(level)] with the name of a level. *)
Definition setLevel (name : string) (level : string) (m : logging) : res logging :=
  res_map (fun no => with_logger name
                       (fun l => {| logger_level := no;
                                    logger_handlers := logger_handlers l |}) m)
    (check_level level).

(** [h.setFormatter(logging.Formatter(fmt))]: the object the reference
    names gets the format. *)
Definition setFormatter (h : nat) (fmt : string) (m : logging) : logging :=
  {| handler_objects :=
       alter (fun hd => {| handler_stream := handler_stream hd;
                           handler_level := handler_level hd;
                           handler_fmt := fmt |}) h (handler_objects m);
     logger_objects := logger_objects m |}.

Definition logger_name : string := "tap-facebook-pages".

(** Lines 18 to 22. *)
Definition module_logging : res logging :=
  let m := getLogger logger_name no_logging in
  let '(m, logger_handler) := StreamHandler stderr m in
  let m := addHandler logger_name logger_handler m in
  res_map (setFormatter logger_handler "%(levelname)s %(message)s")
    (setLevel logger_name "INFO" m).

(** ** Writing a record *)

(** Where the reader of a format is: in the text, after a [%], in the name
    of [%(name)], or after its closing bracket. *)
Inductive scan : Type :=
| Text
| Percent
| Key (name : string)
| Conv (name : string).

(** [fmt % fields] for the conversions [%(name)s] and [%%].  A name that
    is no field, a format that ends inside a conversion, and the
    conversions with flags, widths or other types (which the module's format
    does not use) give [None]. *)
Fixpoint percent_format (fields : string -> option string) (mode : scan) (fmt : string)
  : option string :=
  match fmt with
  | "" => match mode with Text => Some "" | _ => None end
  | String c rest =>
      match mode with
      | Text =>
          if Ascii.eqb c "%" then percent_format fields Percent rest
          else option_map (String c) (percent_format fields Text rest)
      | Percent =>
          if Ascii.eqb c "%" then option_map (String "%") (percent_format fields Text rest)
          else if Ascii.eqb c "(" then percent_format fields (Key "") rest
          else None
      | Key name =>
          if Ascii.eqb c ")" then percent_format fields (Conv name) rest
          else percent_format fields (Key (name ++ String c "")%string) rest
      | Conv name =>
          if Ascii.eqb c "s" then
            match fields name, percent_format fields Text rest with
            | Some v, Some text => Some (v ++ text)%string
            | _, _ => None
            end
          else None
      end
  end.

(** The attributes of a record a format can name. *)
Definition record_fields (lvl : level) (message : string) (name : string) : option string :=
  if String.eqb name "levelname" then Some (levelname lvl)
  else if String.eqb name "message" then Some message
  else if String.eqb name "name" then Some logger_name
  else None.

Definition newline : string := String "010" "".

(** A handler's part: a record at or above its level is formatted and
    written with a newline after it. *)
Definition emit (h : handler) (lvl : level) (message : option string)
  : list (std_stream * option string) :=
  if handler_level h <=? levelno lvl then
    [(handler_stream h,
      match message with
      | Some text =>
          option_map (fun line => (line ++ newline)%string)
            (percent_format (record_fields lvl text) Text (handler_fmt h))
      | None => None
      end)]
  else [].

(** The level that counts for a logger: its own, or the root's ([WARNING]
    unless it was configured) when it has none. *)
Definition effective_level (l : logger) : Z :=
  if logger_level l =? 0 then 30 else logger_level l.

(** [logger.log(lvl, message)]: what is written, and where. *)
Definition log (m : logging) (name : string) (lvl : level) (message : option string)
  : list (std_stream * option string) :=
  match dict_get name (logger_objects m) with
  | Some l =>
      if effective_level l <=? levelno lvl then
        flat_map (fun h => match handler_objects m !! h with
                           | Some hd => emit hd lvl message
                           | None => []
                           end) (logger_handlers l)
      else []
  | None => []
  end.

(** ** The records of a run *)

(** [str(v)], which is what [str.format] and an f-string write of a value
    of these types.  The text of a list or dict is its [repr], which is not
    modelled. *)
Definition py_format (v : pyval) : option string :=
  match v with
  | VNone => Some "None"
  | VBool true => Some "True"
  | VBool false => Some "False"
  | VInt n => Some (py_str_of_int n)
  | VStr s => Some s
  | VList _ | VDict _ => None
  end.

(** The characters [repr] writes as they are between single quotes:
    printable ASCII but the quote and the backslash. *)
Definition quotable (c : ascii) : bool :=
  let n := nat_of_ascii c in
  ((32 <=? n) && (n <=? 126) && negb (n =? 39) && negb (n =? 92))%nat.

(** [repr(v)], for the values it is simple for. *)
Definition py_repr (v : pyval) : option string :=
  match v with
  | VStr s =>
      if forallb quotable (list_ascii_of_string s) then Some ("'" ++ s ++ "'")%string
      else None
  | _ => py_format v
  end.

(** The message of the [RuntimeError] of the loop detection. *)
Definition loop_message (token : pyval) : option string :=
  option_map (fun text => ("Loop detected in pagination. " ++
                           "Pagination token " ++ text ++ " is identical to prior token.")%string)
    (py_format token).

(** [str(e)] for the exceptions the sources raise themselves or cause by a
    missing key. *)
Definition exception_text (e : pyerr) : option string :=
  match e with
  | RuntimeError token => loop_message token
  | KeyError key => py_repr key
  | _ => None
  end.

(** The log call an event stands for: its level and its message. *)
Definition record_of_event (ev : event) : option (level * option string) :=
  match ev with
  | EvReading page =>
      Some (INFO, option_map (fun text => ("Reading data for " ++ text)%string)
                    (py_format page))
  | EvNote line => Some (INFO, Some line)
  | EvInfo line => Some (INFO, line)
  | EvWarning e => Some (WARNING, exception_text e)
  | EvRequest _ | EvRow _ => None
  end.

(** What a run writes, call by call. *)
Definition written (m : logging) (evs : list event) : list (std_stream * option string) :=
  flat_map (fun ev => match record_of_event ev with
                      | Some (lvl, message) => log m logger_name lvl message
                      | None => []
                      end) evs.

(** The logging state of the module, and a line as its handler writes
    it. *)
Definition configured : logging :=
  match module_logging with
  | Ok m => m
  | Err _ => no_logging
  end.

Definition stderr_line (lvl : level) (message : option string) : std_stream * option string :=
  (stderr,
   option_map (fun text => (levelname lvl ++ " " ++ text ++ newline)%string) message).

(** The line of a log call of a run, at the levels the run logs at. *)
Definition line_of_event (ev : event) : list (std_stream * option string) :=
  match record_of_event ev with
  | Some (lvl, message) => [stderr_line lvl message]
  | None => []
  end.

(** The same statements with the format set on a handler that was not
    added: the logger's handler keeps the format it was made with. *)
Definition other_handler_logging : res logging :=
  let m := getLogger logger_name no_logging in
  let '(m, logger_handler) := StreamHandler stderr m in
  let m := addHandler logger_name logger_handler m in
  let '(m, other) := StreamHandler stderr m in
  res_map (setFormatter other "%(levelname)s %(message)s")
    (setLevel logger_name "INFO" m).

(** ** The configuration *)

(** Lines 18 to 22 leave one logger, at level [INFO], with one handler,
    whose format is the one given last: the handler was added before the
    format was set, and it is the same object. *)
Lemma module_logging_configured :
  module_logging =
  Ok {| handler_objects :=
          [{| handler_stream := stderr; handler_level := 0;
              handler_fmt := "%(levelname)s %(message)s" |}];
        logger_objects :=
          [(logger_name, {| logger_level := 20; logger_handlers := [0%nat] |})] |}.
Proof. reflexivity. Qed.

(** The format of the module: level name, a blank, the message. *)
Lemma module_format lvl text :
  percent_format (record_fields lvl text) Text "%(levelname)s %(message)s" =
  Some (levelname lvl ++ " " ++ text)%string.
Proof. cbn. by rewrite string_app_nil_r. Qed.

(** What the module's logger writes for a record: nothing below [INFO],
    else one line to [sys.stderr]. *)
Lemma log_configured lvl message :
  log configured logger_name lvl message =
  if 20 <=? levelno lvl then [stderr_line lvl message] else [].
Proof.
  unfold log, configured. rewrite module_logging_configured.
  cbn [dict_get logger_objects logger_name effective_level logger_level Z.eqb].
  rewrite String.eqb_refl. cbn [logger_level logger_handlers Z.eqb effective_level].
  destruct (20 <=? levelno lvl) eqn:Hlvl; [|done]. cbn [flat_map lookup handler_objects].
  rewrite app_nil_r. unfold emit, stderr_line.
  cbn [list_lookup handler_level handler_stream handler_fmt].
  assert ((0 <=? levelno lvl) = true) as -> by (by destruct lvl).
  destruct message as [text|]; [|done]. rewrite module_format. cbn [option_map].
  by rewrite !string_app_assoc.
Qed.

(** ** What a run writes *)

Lemma written_app m evs evs' : written m (evs ++ evs') = written m evs ++ written m evs'.
Proof. apply flat_map_app. Qed.

(** With the module's configuration every log call of a run writes one
    line: none is below the level of the logger. *)
Lemma written_configured evs : written configured evs = flat_map line_of_event evs.
Proof.
  unfold written, line_of_event. apply flat_map_ext. intros ev.
  destruct (record_of_event ev) as [[lvl message]|] eqn:Hev; [|done].
  rewrite log_configured. by destruct ev; simplify_eq/=.
Qed.

Lemma lines_of_rows rows : flat_map line_of_event (map EvRow rows) = [].
Proof. by induction rows. Qed.

(** The turns of a loop in which the builder logs nothing and nothing is
    caught write the lines of the URLs and nothing else. *)
Lemma written_infos evs :
  forallb in_turn evs = true -> notes_of_events evs = [] -> warnings_of_events evs = [] ->
  written configured evs = map (stderr_line INFO) (infos_of_events evs).
Proof.
  rewrite written_configured. induction evs as [|ev evs IH]; [done|].
  destruct ev; cbn; try done; intros; f_equal; auto.
Qed.

(** A text is part of every text it is put into. *)
Lemma prefix_app (n b : string) : String.prefix n (n ++ b) = true.
Proof. induction n as [|c n IH]; cbn; [by destruct b|]. by destruct (ascii_dec c c). Qed.

Lemma is_substring_app (a n b : string) : is_substring n (a ++ n ++ b) = true.
Proof.
  induction a as [|c a IH]; cbn [append is_substring]; [|by rewrite IH, orb_true_r].
  pose proof (prefix_app n b) as Hp.
  by destruct (n ++ b)%string; cbn [is_substring]; rewrite Hp.
Qed.

Lemma all_alnum_unreserved tok : all_alnum tok = true -> all_unreserved tok = true.
Proof.
  induction tok as [|c tok IH]; [done|]. cbn [all_alnum all_unreserved].
  intros [Hc Htok]%andb_prop. rewrite IH, andb_true_r by done.
  unfold unreserved, is_alnum in *. by rewrite Hc.
Qed.

(** A link that repeats the token has it in its text. *)
Lemma next_link_token s page tok rest :
  all_alnum tok = true -> rest <> [] ->
  next_link s page (("access_token", tok) :: rest) =
  (endpoint s page ++ "?access_token=" ++ tok ++ "&" ++ urlencode rest)%string.
Proof.
  intros Htok Hrest. unfold next_link, urlencode. cbn [map].
  rewrite render_query_cons by (by destruct rest). cbn [quote_pair fst snd].
  rewrite (quote_plus_unreserved tok) by (by apply all_alnum_unreserved).
  change (quote_plus "access_token") with "access_token".
  by rewrite !string_app_assoc.
Qed.

(** ** The log of a run against a paging server *)

Section PagedLog.
Context (starting_timestamp : pyval -> option Z).
Context (s : stream) (page : string) (base : list (string * string)).
Context (now : Z) (self : stream_self) (partition : pyval) (pages : dict (list pyval)).
Hypothesis Hwp : well_paged s page base self partition pages.

Local Abbreviation ops := (@stream_ops (paging_sdk starting_timestamp) s).
Local Abbreviation w := (paging_world s page base now pages).

(** C13.  The log of a whole run shows the mask and not the token: for a page
    whose token is made of letters and digits, against a server whose links
    repeat the token first, [request_records] writes to [sys.stderr] the line
    that opens the run and one line per page, the URL of the request with
    [*****] where the token is, each at level [INFO], and nothing else. *)
Theorem paged_run_written fuel tok others :
  pages <> [] -> (length pages <= fuel)%nat ->
  base = ("access_token", tok) :: others ->
  dict_get page (access_tokens self) = Some tok ->
  plain_request s now (starting_timestamp partition) (Some tok) self page ->
  Forall (fun c => matches_nowhere
                     (render_query (map plus_pair (others ++ [("after", c)]))) = true)
    (dict_keys pages) ->
  written configured
    (request_records ops self partition
       (script_against ops w partition fuel 0 (initial_state self))).1 =
  stderr_line INFO (Some ("Reading data for " ++ page)%string) ::
  map (fun url => stderr_line INFO (Some url))
    (per_page (masked_first s page now (starting_timestamp partition) self)
       (masked_link s page others) pages).
Proof using Hwp.
  intros Hne Hfuel Hbase Htok Hplain Hclean.
  rewrite request_records_unfold, (log_partition_page_id _ (VStr page))
    by apply Hwp.
  cbn [fst]. rewrite loop_over_script.
  change (written configured (?ev :: ?evs)) with (written configured [ev] ++ written configured evs).
  rewrite (written_infos (request_records_against ops w partition fuel 0 (initial_state self)).1).
  - rewrite (paged_run_infos starting_timestamp s page base now self partition pages Hwp
               fuel tok others) by done.
    by rewrite map_map, written_configured.
  - rewrite <- loop_over_script. apply loop_in_turn.
  - by apply (paged_run_notes starting_timestamp s page base now self partition pages Hwp
                fuel tok).
  - by destruct (paged_run starting_timestamp s page base now self partition pages Hwp
                   fuel Hne Hfuel) as (evs & -> & _ & Hw & _).
Qed.

End PagedLog.

(** ** The warning of the loop detection *)

Section LoopWarning.
Context (starting_timestamp : pyval -> option Z).
Context (s : stream) (page tok : string) (rest : list (string * string)) (data : list pyval).
Context (now : Z) (self : stream_self) (partition : pyval) (rows : list pyval).

Local Abbreviation ps := (("access_token", tok) :: rest).
Local Abbreviation ops' := (@stream_ops (stuck_sdk starting_timestamp) s).

Hypothesis Hset : stuck_setting s page ps data self partition rows.

(** C4.  The warning of the loop detection writes the token in clear: in a
    turn that meets the token it asked with, a link that repeats the access
    token, the loop logs the URL of the request with the mask, and then the
    [RuntimeError], whose message is the link as it is; the line goes to
    [sys.stderr] with the token in it. *)
Theorem loop_warning_shows_token n :
  lacks "a" page = true -> tok <> "" -> all_alnum tok = true -> rest <> [] ->
  matches_nowhere (render_query (map plus_pair rest)) = true ->
  written configured
    (iteration ops' partition
       (page_io_at ops' (repeating_world s page ps data now) partition n
          (stuck_state s page ps self))
       (stuck_state s page ps self)).1 =
  [stderr_line INFO
     (Some (endpoint s page ++
            String "?" (render_query (("access_token", "*****") :: map plus_pair rest)))%string);
   stderr_line WARNING
     (Some ("Loop detected in pagination. Pagination token " ++
            endpoint s page ++ "?access_token=" ++ tok ++ "&" ++ urlencode rest ++
            " is identical to prior token.")%string)].
Proof using Hset.
  intros Ha Hne Htok Hrest Hclean.
  rewrite (repeated_turn starting_timestamp s page ps data now self partition rows Hset n).
  cbn [fst]. rewrite request_url_next_link by done. cbn [option_map].
  rewrite link_line by (done || apply Hset). unfold turn_events. cbn [map app].
  rewrite written_configured. cbn [flat_map line_of_event record_of_event app].
  rewrite flat_map_app, lines_of_rows.
  cbn [flat_map warning_events line_of_event record_of_event exception_text app].
  do 2 f_equal. unfold loop_message. cbn [py_format option_map].
  rewrite next_link_token by done. do 2 f_equal. by rewrite !string_app_assoc.
Qed.

End LoopWarning.

(** ** The theorems at the sample runs *)

(** A format set on another handler does not reach the log: the lines
    are the bare messages. *)
Example other_handler_line :
  res_map (fun m => log m logger_name WARNING (Some "x")) other_handler_logging =
  Ok [(stderr, Some ("x" ++ newline)%string)].
Proof. reflexivity. Qed.

Lemma paged_run_written_witness :
  written configured
    (request_records (@stream_ops (paging_sdk (fun _ => None)) Posts) example_self
       example_partition
       (script_against (@stream_ops (paging_sdk (fun _ => None)) Posts) example_world
          example_partition 2 0 (initial_state example_self))).1 =
  [stderr_line INFO (Some "Reading data for 123");
   stderr_line INFO
     (Some "https://graph.facebook.com/v10.0/123/posts?access_token=*****&limit=100&fields=id,name");
   stderr_line INFO
     (Some "https://graph.facebook.com/v10.0/123/posts?access_token=*****&limit=100&fields=id,name&after=c2==")].
Proof.
  apply (paged_run_written (fun _ => None) Posts "123" example_base 1700000000
           example_self example_partition example_pages example_well_paged 2 "TOKEN123"
           [("limit", "100"); ("fields", "id,name")]);
    [discriminate | cbn; lia | reflexivity | reflexivity | by split
    | repeat (constructor; [reflexivity|]); constructor].
Defined.

Lemma loop_warning_shows_token_witness :
  written configured
    (iteration (@stream_ops (stuck_sdk (fun _ => None)) Posts) example_partition
       (page_io_at (@stream_ops (stuck_sdk (fun _ => None)) Posts) example_defect_world
          example_partition 1 (stuck_state Posts "123" example_next_params example_self))
       (stuck_state Posts "123" example_next_params example_self)).1 =
  [stderr_line INFO
     (Some "https://graph.facebook.com/v10.0/123/posts?access_token=*****&limit=100&after=abc");
   stderr_line WARNING
     (Some "Loop detected in pagination. Pagination token https://graph.facebook.com/v10.0/123/posts?access_token=TOKEN123&limit=100&after=abc is identical to prior token.")].
Proof.
  apply (loop_warning_shows_token (fun _ => None) Posts "123" "TOKEN123"
           [("limit", "100"); ("after", "abc")] [VDict [("id", VStr "p1")]] 1700000000
           example_self example_partition
           [VDict [("id", VStr "p1"); ("page_id", VStr "123")]] example_stuck_setting 1);
    done.
Defined.

(** The token is in the line of the warning. *)
Example warning_has_token :
  is_substring "TOKEN123"
    "WARNING Loop detected in pagination. Pagination token https://graph.facebook.com/v10.0/123/posts?access_token=TOKEN123&limit=100&after=abc is identical to prior token." = true.
Proof. reflexivity. Qed.
