(* ===== verification/Tree.v ===== *)
(** * Tree: the generator and the world it talks to

    [Engine.request_records_loop] runs the loop over a script and
    [World.request_records_against] against a server, for a number of turns
    given in advance.  The method itself has no such number: it is a
    generator that logs, reads the clock, sends requests and yields rows
    for as long as its loop condition holds.  Here it is an interaction
    tree, written from the source line by line:

    - [tapE] are the interactions: the four log lines, [yield], the request
      handed to [_request_with_backoff] (answered by a response or an
      exception), and the clock as the parameter builder and the next-page
      rule read it;
    - [turn] is the body of the [while] and [request_records_tree] the
      method: the loop is [ITree.iter], without a bound;
    - [handle] gives the interactions their meaning in a [World.world]: it
      answers the requests and the clock and writes down the events in the
      order they happen.

    The theorems are about the generator against the servers of the other
    files: against the paging server and the insights server it returns,
    with the rows of all the pages or windows; against the servers of
    [Stuck] it has no leaf ([Leaf] of the library): it never returns.  The
    lemmas they rest on say that the tree, handled by a world, does in every
    turn what [Engine.iteration] computes, and that it returns what the
    fuelled run computes whenever that run comes to an end.  [turn] asks
    for the clock at the start of every turn, for every stream; only
    [PageInsights] reads it in the source, and the reading leaves no event
    in the trace.

    The tree is compared up to silent steps ([≈]); it is not run.  This
    file loads the interaction trees and none of the list and map library
    the other files use. *)

From ITree Require Import ITree ITreeFacts Events.State Events.StateFacts Props.Leaf.
From Stdlib Require Import List String ZArith Bool Lia.
From S2P Require Import Prelude PyDict PyValue Streams Url Quote Params Window Flatten Redact.
From S2P Require Import Engine Link First World Paging Insights Stuck.
Import ListNotations.

Local Open Scope list_scope.

Declare Scope tree_scope.
Delimit Scope tree_scope with tree.
Notation "x <- m ;; k" := (ITree.bind m (fun x => k))
  (at level 100, m at next level, right associativity) : tree_scope.
Notation "m ;;; k" := (ITree.bind m (fun _ => k))
  (at level 100, right associativity) : tree_scope.

(** What the generator does to the outside world. *)
Inductive tapE : Type -> Type :=
| LogReading (page : pyval) : tapE unit
| LogNote (line : string) : tapE unit
| LogInfo (line : option string) : tapE unit
| LogWarning (e : pyerr) : tapE unit
| Yield (row : pyval) : tapE unit
| Send (req : request) : tapE (res response)
| ClockParams : tapE Z
| ClockToken : tapE Z.

(** [for x in xs: f(x)] for an interaction without result. *)
Fixpoint for_each_do {A : Type} (f : A -> tapE unit) (xs : list A) : itree tapE unit :=
  match xs with
  | [] => Ret tt
  | x :: xs' => (ITree.trigger (f x) ;;; for_each_do f xs')%tree
  end.

Section Tree.
Context (ops : StreamOps).

(** [except Exception as e: self.logger.warning(e);
     finished = not next_page_token] *)
Definition except_clause (self : stream_self) (token : pyval) (e : pyerr)
  : itree tapE (loop_state + res unit) :=
  (ITree.trigger (LogWarning e) ;;;
   Ret (inl {| self := self; next_page_token := token; finished := negb (truthy token) |}))%tree.

(** The body of the [while]: the next state of the loop, or the way
    the generator ends ([Ok tt] when the loop condition fails, the exception
    that [prepare_request] raised). *)
Definition turn (partition : pyval) (st : loop_state) : itree tapE (loop_state + res unit) :=
  if finished st then Ret (inr (Ok tt))
  else
    (time <- ITree.trigger ClockParams ;;
     for_each_do LogNote (ops_logged (self st) partition (next_page_token st)) ;;;
     let '(self, req) := prepare_request ops time (self st) partition (next_page_token st) in
     match req with
     | Err e => Ret (inr (Err e))
     | Ok (req, line) =>
         ITree.trigger (LogInfo line) ;;;
         outcome <- ITree.trigger (Send req) ;;
         match outcome with
         | Err e => except_clause self (next_page_token st) e
         | Ok resp =>
             let '(rows, parsed) := ops_parse_response self resp in
             for_each_do Yield rows ;;;
             match parsed with
             | Err e => except_clause self (next_page_token st) e
             | Ok _ =>
                 let previous_token := next_page_token st in
                 time <- ITree.trigger ClockToken ;;
                 match ops_get_next_page_token time resp previous_token with
                 | Err e => except_clause self previous_token e
                 | Ok next_page_token =>
                     if truthy next_page_token && py_eqb next_page_token previous_token
                     then except_clause self next_page_token (RuntimeError next_page_token)
                     else Ret (inl {| self := self; next_page_token := next_page_token;
                                      finished := negb (truthy next_page_token) |})
                 end
             end
         end
     end)%tree.

Definition loop_tree (partition : pyval) (st : loop_state) : itree tapE (res unit) :=
  ITree.iter (turn partition) st.

Definition request_records_tree (self : stream_self) (partition : pyval)
  : itree tapE (res unit) :=
  match log_partition partition with
  | Err e => Ret (Err e)
  | Ok page =>
      (ITree.trigger (LogReading page) ;;; loop_tree partition (initial_state self))%tree
  end.

End Tree.

(** The world as the generator meets it: the number of requests sent so
    far, which is the turn the world is asked about, and the events so
    far. *)
Definition seen : Type := nat * list event.

Definition handle (w : world) : tapE ~> Monads.stateT seen (itree void1) :=
  fun _ ev '(n, trace) =>
    match ev in tapE T return itree void1 (seen * T) with
    | LogReading page => Ret ((n, trace ++ [EvReading page]), tt)
    | LogNote line => Ret ((n, trace ++ [EvNote line]), tt)
    | LogInfo line => Ret ((n, trace ++ [EvInfo line]), tt)
    | LogWarning e => Ret ((n, trace ++ [EvWarning e]), tt)
    | Yield row => Ret ((n, trace ++ [EvRow row]), tt)
    | Send req => Ret ((S n, trace ++ [EvRequest req]), send w n req)
    | ClockParams => Ret ((n, trace), clock_request w n)
    | ClockToken => Ret ((n, trace), clock_next w (pred n))
    end.

(** A tree that has no leaf: there is nothing it could return. *)
Definition never_returns {E : Type -> Type} {R : Type} (t : itree E R) : Prop :=
  forall r, ~ Leaf r t.

(** How the generator ends, for a run that has ended. *)
Definition result_of_end (r : run_end) : res unit :=
  match r with
  | Raised e => Err e
  | _ => Ok tt
  end.

(** ** The interactions, handled *)

(** One interaction at the head of a tree, handled; and the end of a
    tree, where the events written so far are compared. *)
Ltac handled_step :=
  rewrite interp_state_bind, interp_state_trigger; cbn; rewrite bind_ret_l; cbn.

Section Handled.
Context (ops : StreamOps) (w : world).

(** A loop of interactions that only write an event. *)
Lemma for_each_do_handled {A : Type} (f : A -> tapE unit) (g : A -> event) xs n trace :
  (forall x n trace, handle w _ (f x) (n, trace) = Ret ((n, trace ++ [g x]), tt)) ->
  interp_state (handle w) (for_each_do f xs) (n, trace) ≈ Ret ((n, trace ++ map g xs), tt).
Proof.
  intros Hf. revert trace. induction xs as [|x xs IH]; intros trace; cbn [for_each_do map].
  - rewrite interp_state_ret, app_nil_r. reflexivity.
  - rewrite interp_state_bind, interp_state_trigger, Hf, bind_ret_l. cbn.
    rewrite IH, <- app_assoc. reflexivity.
Qed.

(** The [except] clause. *)
Lemma except_clause_handled self token e n trace :
  interp_state (handle w) (except_clause self token e) (n, trace) ≈
  Ret ((n, trace ++ [EvWarning e]),
       inl {| self := self; next_page_token := token; finished := negb (truthy token) |}).
Proof.
  unfold except_clause. handled_step. rewrite interp_state_ret. reflexivity.
Qed.

Ltac handled_end :=
  rewrite ?except_clause_handled, ?interp_state_ret; cbn;
  rewrite <- ?app_assoc, ?app_nil_r; cbn [app]; reflexivity.

(** One turn of the generator is one turn of the loop, with what the
    world does in that turn. *)
Lemma turn_handled partition n trace st :
  finished st = false ->
  interp_state (handle w) (turn ops partition st) (n, trace) ≈
  match iteration ops partition (page_io_at ops w partition n st) st with
  | (evs, Ok st') => Ret ((S n, trace ++ evs), inl st')
  | (evs, Err e) => Ret ((n, trace ++ evs), inr (Err e))
  end.
Proof.
  intros Hf. unfold turn. rewrite Hf. handled_step.
  rewrite interp_state_bind, (for_each_do_handled LogNote EvNote) by reflexivity.
  rewrite bind_ret_l. cbn.
  rewrite iteration_unfold. cbn zeta. unfold try_block, turn_events.
  cbn [page_io_at io_time_request io_outcome io_time_next].
  destruct (prepare_request ops (clock_request w n) (self st) partition (next_page_token st))
    as [self' [[req line]|e]]; cbn [fst snd]; [|handled_end].
  do 2 handled_step. destruct (send w n req) as [resp|e]; [|handled_end].
  destruct (ops_parse_response self' resp) as [rows [?|e]];
    rewrite interp_state_bind, (for_each_do_handled Yield EvRow) by reflexivity;
    rewrite bind_ret_l; cbn; [|handled_end].
  handled_step.
  destruct (ops_get_next_page_token _ _ _) as [next|e]; [|handled_end].
  destruct (truthy next && py_eqb next (next_page_token st)); handled_end.
Qed.

(** A turn that goes on has sent one request, a turn that raises none. *)
Lemma requests_of_turn partition io st :
  List.length (requests_of_events (fst (iteration ops partition io st))) =
  match snd (iteration ops partition io st) with Ok _ => 1 | Err _ => 0 end.
Proof.
  destruct (iteration ops partition io st) as [evs [st'|e]] eqn:Hit; cbn [fst snd].
  - apply turn_request in Hit as (req & line & _ & ->). reflexivity.
  - apply iteration_err_events in Hit as ->.
    destruct (events_of_notes (ops_logged (self st) partition (next_page_token st)))
      as (_ & _ & -> & _).
    reflexivity.
Qed.

(** The loop of the generator, from any state: when the fuelled run comes
    to an end, the tree returns, with the events of the run written after
    those before it. *)
Lemma loop_tree_handled partition fuel : forall n trace st,
  ended (snd (request_records_against ops w partition fuel n st)) = true ->
  interp_state (handle w) (loop_tree ops partition st) (n, trace) ≈
  Ret ((n + List.length (requests_of_events
                      (fst (request_records_against ops w partition fuel n st))),
        trace ++ fst (request_records_against ops w partition fuel n st)),
       result_of_end (snd (request_records_against ops w partition fuel n st))).
Proof.
  induction fuel as [|fuel IH]; intros n trace st; unfold loop_tree; rewrite unfold_iter;
    (destruct (finished st) eqn:Hf;
     [rewrite request_records_against_finished by assumption; intros _;
      unfold turn; rewrite Hf, bind_ret_l, interp_state_ret, app_nil_r, Nat.add_0_r;
      reflexivity|]).
  - cbn. rewrite Hf. discriminate.
  - rewrite request_records_against_S, interp_state_bind, turn_handled by assumption.
    pose proof (requests_of_turn partition (page_io_at ops w partition n st) st) as Hone.
    destruct (iteration ops partition (page_io_at ops w partition n st) st)
      as [evs [st'|e]]; cbn [fst snd] in Hone; rewrite bind_ret_l; cbn [fst snd].
    + specialize (IH (S n) (trace ++ evs) st').
      destruct (request_records_against ops w partition fuel (S n) st') as [evs' r].
      cbn [fst snd] in *. intros Hend. rewrite interp_state_tau, tau_eutt.
      fold (loop_tree ops partition st'). rewrite (IH Hend).
      rewrite requests_of_events_app, length_app, Hone, <- app_assoc.
      replace (n + (1 + List.length (requests_of_events evs')))
        with (S n + List.length (requests_of_events evs')) by lia.
      reflexivity.
    + intros _. rewrite interp_state_ret, Hone, Nat.add_0_r. reflexivity.
Qed.

(** A turn that goes on, and then the loop from where it leaves. *)
Lemma loop_tree_step partition n trace st evs st' :
  finished st = false ->
  iteration ops partition (page_io_at ops w partition n st) st = (evs, Ok st') ->
  interp_state (handle w) (loop_tree ops partition st) (n, trace) ≈
  interp_state (handle w) (loop_tree ops partition st') (S n, trace ++ evs).
Proof.
  intros Hf Hit. unfold loop_tree at 1.
  rewrite unfold_iter, interp_state_bind, turn_handled, Hit, bind_ret_l by assumption.
  cbn [fst snd]. rewrite interp_state_tau, tau_eutt. reflexivity.
Qed.

(** The first line of the method. *)
Lemma request_records_tree_loop self partition page :
  log_partition partition = Ok page ->
  interp_state (handle w) (request_records_tree ops self partition) (0, []) ≈
  interp_state (handle w) (loop_tree ops partition (initial_state self)) (0, [EvReading page]).
Proof. intros Hl. unfold request_records_tree. rewrite Hl. handled_step. reflexivity. Qed.

(** The method: its first line, then the loop. *)
Lemma request_records_tree_handled self partition fuel :
  let run := request_records ops self partition
               (script_against ops w partition fuel 0 (initial_state self)) in
  ended (snd run) = true ->
  interp_state (handle w) (request_records_tree ops self partition) (0, []) ≈
  Ret ((List.length (requests_of_events (fst run)), fst run), result_of_end (snd run)).
Proof.
  cbn zeta. rewrite request_records_unfold, loop_over_script. unfold request_records_tree.
  destruct (log_partition partition) as [page|e]; cbn [fst snd];
    [|intros _; rewrite interp_state_ret; reflexivity].
  intros Hend. handled_step.
  rewrite (loop_tree_handled partition fuel 0 _ _ Hend). reflexivity.
Qed.

(** The loop from a state that every turn leaves as it is has no way to
    return. *)
Lemma stuck_loop_tree partition st evs n0 n trace sr :
  finished st = false ->
  (forall m, n0 <= m ->
     iteration ops partition (page_io_at ops w partition m st) st = (evs, Ok st)) ->
  n0 <= n ->
  ~ Leaf sr (interp_state (handle w) (loop_tree ops partition st) (n, trace)).
Proof.
  intros Hf Hturn Hn Hleaf.
  apply (Leaf_interp_state_iter_inv (handle w) (turn ops partition)
           (fun s => n0 <= fst s) (eq st) (fun _ => False) (n, trace) st) in Hleaf;
    [destruct sr; exact (proj2 Hleaf) | | assumption | reflexivity].
  intros [m tr] i Hm <- sx Hsx. cbn [fst] in Hm.
  rewrite turn_handled, Hturn in Hsx by assumption.
  apply Leaf_Ret_inv in Hsx as ->. split; cbn; [lia | reflexivity].
Qed.

(** When the fuelled run finishes, the generator returns. *)
Lemma finished_run_returns self partition page fuel evs :
  log_partition partition = Ok page ->
  request_records_against ops w partition fuel 0 (initial_state self) = (evs, Finished) ->
  exists n,
    interp_state (handle w) (request_records_tree ops self partition) (0, []) ≈
    Ret ((n, EvReading page :: evs), Ok tt).
Proof.
  intros Hl Hrun.
  pose proof (loop_tree_handled partition fuel 0 [EvReading page] (initial_state self))
    as Hloop.
  rewrite Hrun in Hloop. eexists. rewrite (request_records_tree_loop _ _ page Hl).
  apply Hloop. reflexivity.
Qed.

End Handled.

(** ** The generator against the servers of [Paging], [Insights] and
    [Stuck] *)

Section Servers.
Context (starting_timestamp : pyval -> option Z).
#[local] Instance tree_sdk : Sdk := urllib_sdk starting_timestamp.
Context (s : stream) (page : string) (now : Z) (self : stream_self) (partition : pyval).

(** C26.  Against the paging server the generator returns, having yielded the
    rows of all the pages: no number of turns is given in advance. *)
Theorem paged_generator_returns base pages :
  well_paged s page base self partition pages -> pages <> [] ->
  exists n evs,
    interp_state (handle (paging_world s page base now pages))
      (request_records_tree (stream_ops s) self partition) (0, []) ≈
    Ret ((n, EvReading (VStr page) :: evs), Ok tt) /\
    rows_of_events evs = rows_of_pages s (set_page_id self (VStr page)) pages /\
    warnings_of_events evs = [].
Proof.
  intros Hwp Hne.
  destruct (paged_run starting_timestamp s page base now self partition pages Hwp
              (List.length pages) Hne (le_n _)) as (evs & Hrun & Hrows & Hwarn & _).
  destruct (finished_run_returns (stream_ops s) (paging_world s page base now pages) self
              partition (VStr page) (List.length pages) evs) as [n Htree];
    [apply log_partition_page_id, Hwp | exact Hrun |].
  exists n, evs. split; [exact Htree | split; assumption].
Qed.

(** Against the insights server, which links every window to a next
    one, the generator of [PageInsights] returns: the stall rule ends it,
    after the rows of the windows between the cursor and now. *)
Theorem insights_generator_returns base data cursor :
  insights_setting page base data starting_timestamp self partition cursor ->
  exists n evs,
    interp_state (handle (insights_world page base data now))
      (request_records_tree (stream_ops PageInsights) self partition) (0, []) ≈
    Ret ((n, EvReading (VStr page) :: evs), Ok tt) /\
    rows_of_events evs =
      rows_of_windows data (set_page_id self (VStr page))
        (windows_from (S (windows_left now cursor)) now (cursor, first_until now cursor)) /\
    warnings_of_events evs = [].
Proof.
  intros Hset.
  destruct (insights_run_from starting_timestamp page base data now cursor self partition
              Hset (S (windows_left now cursor)) 0 (initial_state self) cursor
              (first_until now cursor))
    as (evs & Hrun & Hwarn & _ & Hrows);
    [left; repeat split | reflexivity | reflexivity | lia |].
  destruct (finished_run_returns (stream_ops PageInsights)
              (insights_world page base data now) self partition (VStr page)
              (S (windows_left now cursor)) evs) as [n Htree];
    [apply log_partition_page_id, Hset | exact Hrun |].
  exists n, evs. split; [exact Htree | split; assumption].
Qed.

Section Stuck.
Context (ps : list (string * string)) (data rows : list pyval).
Hypothesis Hset : stuck_setting s page ps data self partition rows.

(** The generator after its first turn against a server that answers the
    first request with a link. *)
Lemma stuck_tree_first (w : world) sr :
  clock_request w 0 = now -> clock_next w 0 = now ->
  (forall req, send w 0 req = Ok (page_with_next data (VStr (next_link s page ps)))) ->
  Leaf sr (interp_state (handle w) (request_records_tree (stream_ops s) self partition)
             (0, [])) ->
  exists trace,
    Leaf sr (interp_state (handle w)
               (loop_tree (stream_ops s) partition (stuck_state s page ps self))
               (1, trace)).
Proof using Hset.
  intros Hclock Hnext Hsend Hleaf.
  destruct (first_turn_sticks starting_timestamp s page ps data now self partition rows
              Hset w Hclock Hnext Hsend) as (notes & req & line & Hit).
  rewrite (request_records_tree_loop _ _ _ _ (VStr page)) in Hleaf
    by (apply log_partition_page_id, Hset).
  rewrite (loop_tree_step (stream_ops s) w partition 0 _ (initial_state self) _ _
             eq_refl Hit) in Hleaf.
  eauto.
Qed.

(** C25.  Against the server that repeats its link the generator never
    returns: the interaction tree of [request_records], whose loop has no
    bound, handled by that server from its first request on, has no leaf. The
    loop detection raises in every turn after the first, and the except clause
    keeps the loop going. *)
Theorem repeating_generator_never_returns :
  never_returns (interp_state (handle (repeating_world s page ps data now))
                   (request_records_tree (stream_ops s) self partition) (0, [])).
Proof using Hset.
  intros sr Hleaf. apply stuck_tree_first in Hleaf as [trace Hleaf]; try reflexivity.
  revert Hleaf. eapply (stuck_loop_tree _ _ _ _ _ 1); [reflexivity | | lia].
  intros m _. apply (repeated_turn starting_timestamp s page ps data now self partition rows
                       Hset m).
Qed.

(** Nor does it against the server that fails after the first page. *)
Theorem failing_generator_never_returns :
  never_returns (interp_state (handle (failing_world s page ps data now))
                   (request_records_tree (stream_ops s) self partition) (0, [])).
Proof using Hset.
  intros sr Hleaf. apply stuck_tree_first in Hleaf as [trace Hleaf]; try reflexivity.
  revert Hleaf. eapply (stuck_loop_tree _ _ _ _ _ 1); [reflexivity | | lia].
  intros m Hm. apply (failed_turn starting_timestamp s page ps data now self partition rows
                        Hset m). lia.
Qed.

End Stuck.
End Servers.

(** ** The theorems at the sample servers *)

Lemma paged_generator_returns_witness :
  exists n evs,
    interp_state (handle example_world)
      (request_records_tree example_posts_ops example_self example_partition) (0, []) ≈
    Ret ((n, EvReading (VStr "123") :: evs), Ok tt) /\
    rows_of_events evs =
      rows_of_pages Posts (set_page_id example_self (VStr "123")) example_pages /\
    warnings_of_events evs = [].
Proof.
  apply (paged_generator_returns (fun _ => None) Posts "123" 1700000000 example_self
           example_partition example_base example_pages example_well_paged).
  discriminate.
Defined.

Lemma repeating_generator_never_returns_witness :
  never_returns (interp_state (handle example_defect_world)
                   (request_records_tree example_posts_ops example_self example_partition)
                   (0, [])).
Proof.
  apply (repeating_generator_never_returns (fun _ => None) Posts "123" 1700000000 example_self
           example_partition example_next_params [VDict [("id"%string, VStr "p1")]]
           [VDict [("id"%string, VStr "p1"); ("page_id"%string, VStr "123")]]
           example_stuck_setting).
Defined.
