(* ===== verification/Records.v ===== *)
(** * Records: after the loop, and before it

    What the base class does to a row once the loop has yielded it, to the
    state before a partition is read, and to the metadata of the stream:

    - [FacebookPagesStream_post_process] is [post_process]: the row gets the
      partition's [page_id] when the partition has one; [Page_post_process]
      is the override of [Page], which returns the row as it is;
    - [get_records] is the SDK's composition of the two: every row of
      [request_records] goes through [post_process] as it is yielded, and
      an exception of [post_process] ends the generator;
    - [get_stream_or_partition_state] selects the stream's state or the
      partition's and replaces a [progress_markers] entry that is a list by
      an empty mapping.  The state object is the one the SDK keeps: the
      model returns its new value;
    - [_singer_metadata] returns the metadata of the input catalog's entry
      for the stream when there is one, and the standard metadata
      otherwise; the standard metadata is represented by the arguments
      [get_standard_metadata] is called with. *)

From Stdlib Require Import List String ZArith Bool Lia.
From stdpp Require Import base tactics list.
From S2P Require Import Prelude PyDict PyValue Streams Url Params Window Flatten Engine.
Import ListNotations.

Set Default Proof Using "Type".
Local Open Scope string_scope.
Local Open Scope list_scope.

(** ** [post_process] *)

Definition FacebookPagesStream_post_process (row partition : pyval) : res pyval :=
  res_bind (py_contains "page_id" partition) (fun has_page_id =>
  if has_page_id : bool then
    res_bind (py_getitem partition "page_id") (fun page_id =>
    py_setitem row "page_id" page_id)
  else Ok row).

Definition Page_post_process (row stream_or_partition_state : pyval) : res pyval :=
  Ok row.

Definition post_process (s : stream) (row partition : pyval) : res pyval :=
  match s with
  | Page => Page_post_process row partition
  | _ => FacebookPagesStream_post_process row partition
  end.

(** [for row in self.request_records(partition):
       yield self.post_process(row, partition)] *)
Definition get_records (ops : StreamOps) (s : stream)
    (self : stream_self) (partition : pyval) (script : list page_io)
  : list pyval * run_end :=
  let '(evs, ended) := request_records ops self partition script in
  match for_each (rows_of_events evs)
          (fun row => gen_bind (gen_lift (post_process s row partition)) yield) with
  | (records, Ok _) => (records, ended)
  | (records, Err e) => (records, Raised e)
  end.

(** The row [post_process] makes of a dict. *)
Definition with_page_id (pid : pyval) (row : pyval) : pyval :=
  match row with
  | VDict kvs => VDict (dict_set "page_id" pid kvs)
  | _ => row
  end.

(** ** The state of a stream or partition *)

(** [v.get(k, default)] *)
Definition py_get (v : pyval) (k : string) (default : pyval) : res pyval :=
  match v with
  | VDict kvs => Ok (match dict_get k kvs with Some x => x | None => default end)
  | _ => Err AttributeError
  end.

Definition isinstance_list (v : pyval) : bool :=
  match v with VList _ => true | _ => false end.

(** [stream_state] is [self.stream_state]; [get_partition_state] is the
    SDK's lookup of a partition's state. *)
Definition selected_state
    (stream_state : pyval) (get_partition_state : pyval -> pyval) (partition : pyval)
  : pyval :=
  if truthy partition then get_partition_state partition else stream_state.

Definition get_stream_or_partition_state
    (stream_state : pyval) (get_partition_state : pyval -> pyval) (partition : pyval)
  : res pyval :=
  let state := selected_state stream_state get_partition_state partition in
  res_bind (py_contains "progress_markers" state) (fun has_markers =>
  if has_markers : bool then
    res_bind (py_get state "progress_markers" (VBool false)) (fun markers =>
    if isinstance_list markers then py_setitem state "progress_markers" (VDict [])
    else Ok state)
  else Ok state).

(** ** Metadata *)

Record catalog_entry : Type := {
  entry_stream_id : string;
  entry_metadata : pyval;
}.

(** [Catalog.get_stream]: the first entry with that id. *)
Fixpoint get_stream (catalog : list catalog_entry) (id : string) : option catalog_entry :=
  match catalog with
  | [] => None
  | entry :: catalog' =>
      if String.eqb (entry_stream_id entry) id then Some entry
      else get_stream catalog' id
  end.

(** The arguments of [metadata.get_standard_metadata]. *)
Record standard_metadata : Type := {
  md_replication_method : replication;
  md_key_properties : option (list string);
  md_valid_replication_keys : option (list string);
}.

Inductive metadata_of_stream : Type :=
| CatalogMetadata (md : pyval)
| StandardMetadata (md : standard_metadata).

Definition get_standard_metadata (class : stream_class) : standard_metadata :=
  {| md_replication_method := replication_method class;
     md_key_properties :=
       match primary_keys class with [] => None | keys => Some keys end;
     md_valid_replication_keys :=
       match replication_key class with
       | Some key => if String.eqb key "" then None else Some [key]
       | None => None
       end |}.

(** [tap_input_catalog] is [None] when the tap was given no catalog. *)
Definition _singer_metadata
    (tap_input_catalog : option (list catalog_entry)) (id : string) (class : stream_class)
  : metadata_of_stream :=
  match tap_input_catalog with
  | Some catalog =>
      match get_stream catalog id with
      | Some entry => CatalogMetadata (entry_metadata entry)
      | None => StandardMetadata (get_standard_metadata class)
      end
  | None => StandardMetadata (get_standard_metadata class)
  end.

(** Sample data for the examples. *)
Definition example_row : pyval := VDict [("name", VStr "page_fans"); ("value", VInt 7)].

Definition example_insights_ops : StreamOps := @stream_ops example_sdk_cursor PageInsights.

Definition example_legacy_state : pyval :=
  VDict [("replication_key_value", VInt 5); ("progress_markers", VList [VInt 1])].

(** ** [post_process] *)

Section RecordFacts.
Implicit Types (row partition pid : pyval) (d kvs : pydict) (s : stream).

Lemma post_process_dict kvs d pid :
  dict_get "page_id" d = Some pid ->
  FacebookPagesStream_post_process (VDict kvs) (VDict d) =
  Ok (VDict (dict_set "page_id" pid kvs)).
Proof.
  intros Hp. unfold FacebookPagesStream_post_process. cbn.
  rewrite (dict_mem_Some _ _ _ Hp). cbn. by rewrite Hp.
Qed.

(** [post_process] writes the partition's [page_id] into a row, in
    place when the row has the key and at its end otherwise. *)
Theorem post_process_sets_page_id s kvs d pid :
  s <> Page ->
  dict_get "page_id" d = Some pid ->
  post_process s (VDict kvs) (VDict d) = Ok (VDict (dict_set "page_id" pid kvs)) /\
  py_getitem (VDict (dict_set "page_id" pid kvs)) "page_id" = Ok pid.
Proof.
  intros Hs Hp. split.
  - destruct s; try done; by apply post_process_dict.
  - cbn. by rewrite dict_get_set_eq.
Qed.

Lemma post_process_tagged s row d pid :
  py_getitem row "page_id" = Ok pid ->
  dict_get "page_id" d = Some pid ->
  post_process s row (VDict d) = Ok row.
Proof.
  intros Hr Hp. destruct row as [| | | | |kvs]; try done. cbn in Hr.
  destruct (dict_get "page_id" kvs) as [x|] eqn:Hx; [|done]. injection Hr as ->.
  destruct s; try done; cbn [post_process]; rewrite (post_process_dict _ _ _ Hp);
    by rewrite (dict_set_same _ _ _ Hx).
Qed.

Lemma post_process_rows s rows d pid :
  s <> Page ->
  Forall (fun r => isinstance_dict r = true) rows ->
  dict_get "page_id" d = Some pid ->
  for_each rows (fun row => gen_bind (gen_lift (post_process s row (VDict d))) yield) =
  (map (with_page_id pid) rows, Ok tt).
Proof.
  intros Hs Hrows Hp. apply for_each_single. intros row Hin.
  rewrite Forall_forall in Hrows. specialize (Hrows row Hin).
  destruct row as [| | | | |kvs]; try done.
  destruct s; try done; cbn [post_process]; by rewrite (post_process_dict _ _ _ Hp).
Qed.

Lemma with_page_id_tagged pid row :
  py_getitem row "page_id" = Ok pid -> with_page_id pid row = row.
Proof.
  destruct row as [| | | | |kvs]; try done. cbn.
  destruct (dict_get "page_id" kvs) as [x|] eqn:Hx; [|done]. intros [= ->].
  by rewrite (dict_set_same _ _ _ Hx).
Qed.

Lemma with_page_id_get pid row :
  isinstance_dict row = true -> py_getitem (with_page_id pid row) "page_id" = Ok pid.
Proof. destruct row; try done. intros _. cbn. by rewrite dict_get_set_eq. Qed.

End RecordFacts.

(** ** The records of a run *)

Section GetRecords.
Context `{Sdk}.
Implicit Types (s : stream) (self : stream_self) (d : pydict) (script : list page_io).

Lemma request_records_rows_are_dicts s self d pid script :
  s <> Page -> dict_get "page_id" d = Some pid ->
  Forall (fun r => isinstance_dict r = true)
    (rows_of_events (request_records (stream_ops s) self (VDict d) script).1).
Proof.
  intros Hs Hp. apply (request_records_rows_Forall _ _ _ _ pid); [by cbn; rewrite Hp|].
  intros io resp _ _. by apply parse_response_rows_dict.
Qed.

(** The records of a run are its rows with the partition's [page_id], and
    the run ends as the loop ends: [post_process] does not raise on them. *)
Lemma get_records_rows s self d pid script :
  s <> Page -> dict_get "page_id" d = Some pid ->
  get_records (stream_ops s) s self (VDict d) script =
  (map (with_page_id pid)
     (rows_of_events (request_records (stream_ops s) self (VDict d) script).1),
   (request_records (stream_ops s) self (VDict d) script).2).
Proof.
  intros Hs Hp. pose proof (request_records_rows_are_dicts s self d pid script Hs Hp).
  unfold get_records. destruct (request_records _ _ _ _) as [evs ended]. cbn in *.
  by rewrite (post_process_rows _ _ _ pid).
Qed.

Lemma get_records_page_id s self d pid script :
  s <> Page -> dict_get "page_id" d = Some pid ->
  Forall (fun r => py_getitem r "page_id" = Ok pid)
    (get_records (stream_ops s) s self (VDict d) script).1.
Proof.
  intros Hs Hp. rewrite (get_records_rows _ _ _ pid) by done. cbn.
  apply Forall_map. eapply Forall_impl; [by eapply request_records_rows_are_dicts|].
  intros r Hr. by apply with_page_id_get.
Qed.

(** C8.  Every record of every stream but [Page] carries the [page_id] of the
    partition it was read for, whatever the server answered: [PageInsights],
    whose flattener does not write it, gets it from [post_process]. *)
Theorem get_records_carry_page_id s self d pid script :
  s <> Page -> dict_get "page_id" d = Some pid ->
  Forall (fun r => py_getitem r "page_id" = Ok pid)
    (get_records (stream_ops s) s self (VDict d) script).1.
Proof. apply get_records_page_id. Qed.

(** For the four streams whose flattener tags its rows, [post_process]
    changes nothing: the records of a run are the rows of the loop, in order,
    and the run ends as the loop ends. *)
Theorem get_records_tagged_unchanged s self d pid script :
  tags_page_id s = true -> dict_get "page_id" d = Some pid ->
  get_records (stream_ops s) s self (VDict d) script =
  (rows_of_events (request_records (stream_ops s) self (VDict d) script).1,
   (request_records (stream_ops s) self (VDict d) script).2).
Proof.
  intros Hs Hp. rewrite (get_records_rows _ _ _ pid); [|by destruct s|done]. f_equal.
  rewrite <- (map_id (rows_of_events _)) at 2. apply map_ext_Forall.
  eapply Forall_impl.
  - apply (request_records_rows_Forall _ _ _ _ pid); [by cbn; rewrite Hp|].
    intros io resp _ _. by apply parse_response_rows_page_id.
  - intros r (pid' & [= <-] & Hr). by apply with_page_id_tagged.
Qed.

End GetRecords.

(** ** The state *)

Section StateFacts.
Implicit Types (stream_state partition state : pyval) (kvs : pydict).
Implicit Types (get_partition_state : pyval -> pyval).

(** A [progress_markers] entry that is a list is replaced by an empty
    mapping, in place; the rest of the state is untouched. *)
Theorem progress_markers_list_reset stream_state get_partition_state partition kvs l :
  selected_state stream_state get_partition_state partition = VDict kvs ->
  dict_get "progress_markers" kvs = Some (VList l) ->
  get_stream_or_partition_state stream_state get_partition_state partition =
  Ok (VDict (dict_set "progress_markers" (VDict []) kvs)).
Proof.
  intros Hs Hm. unfold get_stream_or_partition_state. rewrite Hs. cbn.
  rewrite (dict_mem_Some _ _ _ Hm). cbn. by rewrite Hm.
Qed.

(** C39.  Any other state is returned as it is: without [progress_markers], or
    with a [progress_markers] that is not a list, be it a mapping, a string or
    a number. *)
Theorem progress_markers_kept stream_state get_partition_state partition kvs :
  selected_state stream_state get_partition_state partition = VDict kvs ->
  match dict_get "progress_markers" kvs with
  | Some markers => isinstance_list markers = false
  | None => True
  end ->
  get_stream_or_partition_state stream_state get_partition_state partition =
  Ok (VDict kvs).
Proof.
  intros Hs Hm. unfold get_stream_or_partition_state. rewrite Hs. cbn. unfold dict_mem.
  destruct (dict_get "progress_markers" kvs) as [markers|]; cbn; [|done].
  by rewrite Hm.
Qed.

(** What a state that was returned looks like: nothing under
    [progress_markers], or something that is not a list. *)
Lemma reset_result stream_state get_partition_state partition state :
  get_stream_or_partition_state stream_state get_partition_state partition = Ok state ->
  py_contains "progress_markers" state = Ok false \/
  exists kvs markers,
    state = VDict kvs /\ dict_get "progress_markers" kvs = Some markers /\
    isinstance_list markers = false.
Proof.
  unfold get_stream_or_partition_state.
  destruct (py_contains _ (selected_state _ _ _)) as [[]|] eqn:Hc; cbn [res_bind];
    [|intros [= <-]; by left|done].
  destruct (selected_state _ _ _) as [| | | | |kvs]; try done. intros Hres. right.
  cbn in Hc. injection Hc as Hc. unfold dict_mem in Hc.
  destruct (dict_get "progress_markers" kvs) as [m|] eqn:Hm; [|done].
  revert Hres. cbn. rewrite Hm.
  destruct (isinstance_list m) eqn:Hl; cbn; intros [= <-].
  - exists (dict_set "progress_markers" (VDict []) kvs), (VDict []).
    by rewrite dict_get_set_eq.
  - by exists kvs, m.
Qed.

Lemma selected_state_const state partition :
  selected_state state (fun _ => state) partition = state.
Proof. unfold selected_state. by destruct (truthy partition). Qed.

(** The reset is idempotent and establishes its postcondition: the state
    returned has no list under [progress_markers], and reading the state again
    returns it unchanged. *)
Theorem state_reset_idempotent stream_state get_partition_state partition state :
  get_stream_or_partition_state stream_state get_partition_state partition = Ok state ->
  (forall l, py_get state "progress_markers" (VBool false) <> Ok (VList l)) /\
  get_stream_or_partition_state state (fun _ => state) partition = Ok state.
Proof.
  intros [Hc|(kvs & m & -> & Hm & Hl)]%reset_result.
  - split.
    + destruct state as [| | | | |kvs]; try done. cbn in *. injection Hc as Hc.
      apply dict_mem_false in Hc. by rewrite Hc.
    + unfold get_stream_or_partition_state. by rewrite selected_state_const, Hc.
  - split.
    + cbn. rewrite Hm. by destruct m.
    + unfold get_stream_or_partition_state. rewrite selected_state_const. cbn.
      rewrite (dict_mem_Some _ _ _ Hm). cbn. by rewrite Hm, Hl.
Qed.

End StateFacts.

(** ** Metadata *)

(** An entry of the input catalog for the stream overrides the
    standard metadata. *)
Theorem singer_metadata_catalog catalog id class entry :
  get_stream catalog id = Some entry ->
  _singer_metadata (Some catalog) id class = CatalogMetadata (entry_metadata entry) /\
  entry_stream_id entry = id.
Proof.
  intros Hg. unfold _singer_metadata. rewrite Hg. split; [done|].
  induction catalog as [|e catalog IH]; [done|]. cbn in Hg.
  destruct (String.eqb (entry_stream_id e) id) eqn:He; [|by apply IH].
  injection Hg as <-. by apply String.eqb_eq.
Qed.

(** Without a catalog the standard metadata is requested with the
    stream's own replication method, [id] as its key, and its replication
    key, if it has one, as the only valid replication key. *)
Theorem singer_metadata_standard (s : stream) id :
  _singer_metadata None id (class_of s) =
  StandardMetadata
    {| md_replication_method := replication_method (class_of s);
       md_key_properties := Some ["id"];
       md_valid_replication_keys :=
         match replication_key (class_of s) with
         | Some key => Some [key]
         | None => None
         end |}.
Proof. by destruct s. Qed.

(** ** The theorems at sample rows and states *)

Lemma post_process_sets_page_id_witness :
  post_process PageInsights example_row example_partition =
    Ok (VDict [("name", VStr "page_fans"); ("value", VInt 7); ("page_id", VStr "123")]) /\
  py_getitem
    (VDict [("name", VStr "page_fans"); ("value", VInt 7); ("page_id", VStr "123")])
    "page_id" = Ok (VStr "123").
Proof.
  apply (post_process_sets_page_id PageInsights
           [("name", VStr "page_fans"); ("value", VInt 7)] [("page_id", VStr "123")]
           (VStr "123")); [discriminate | reflexivity].
Defined.

Lemma get_records_carry_page_id_witness :
  Forall (fun r => py_getitem r "page_id" = Ok (VStr "123"))
    (get_records example_insights_ops PageInsights example_self example_partition
       [io_response 1700000000 (page_without_next [example_metric])]).1.
Proof.
  apply (@get_records_carry_page_id example_sdk_cursor PageInsights example_self
           [("page_id", VStr "123")] (VStr "123")); [discriminate | reflexivity].
Defined.

Lemma get_records_tagged_unchanged_witness :
  get_records example_posts_ops Posts example_self example_partition example_script =
  (example_rows, Finished).
Proof.
  apply (@get_records_tagged_unchanged example_sdk Posts example_self
           [("page_id", VStr "123")] (VStr "123") example_script); reflexivity.
Defined.

Lemma progress_markers_list_reset_witness :
  get_stream_or_partition_state example_legacy_state (fun _ => VDict []) VNone =
  Ok (VDict [("replication_key_value", VInt 5); ("progress_markers", VDict [])]).
Proof.
  apply (progress_markers_list_reset example_legacy_state (fun _ => VDict []) VNone
           [("replication_key_value", VInt 5); ("progress_markers", VList [VInt 1])]
           [VInt 1]); reflexivity.
Defined.

Lemma progress_markers_kept_witness :
  get_stream_or_partition_state (VDict []) (fun _ => VDict [("progress_markers", VInt 3)])
    example_partition =
  Ok (VDict [("progress_markers", VInt 3)]).
Proof.
  apply (progress_markers_kept (VDict []) (fun _ => VDict [("progress_markers", VInt 3)])
           example_partition [("progress_markers", VInt 3)]); reflexivity.
Defined.

Lemma state_reset_idempotent_witness :
  (forall l,
     py_get (VDict [("replication_key_value", VInt 5); ("progress_markers", VDict [])])
       "progress_markers" (VBool false) <> Ok (VList l)) /\
  get_stream_or_partition_state
    (VDict [("replication_key_value", VInt 5); ("progress_markers", VDict [])])
    (fun _ => VDict [("replication_key_value", VInt 5); ("progress_markers", VDict [])])
    VNone =
  Ok (VDict [("replication_key_value", VInt 5); ("progress_markers", VDict [])]).
Proof.
  apply (state_reset_idempotent example_legacy_state (fun _ => VDict []) VNone).
  reflexivity.
Defined.

Lemma singer_metadata_catalog_witness :
  _singer_metadata
    (Some [{| entry_stream_id := "page"; entry_metadata := VDict [] |};
           {| entry_stream_id := "posts"; entry_metadata := VList [VStr "selected"] |}])
    "posts" Posts_class =
    CatalogMetadata (VList [VStr "selected"]) /\
  "posts" = "posts".
Proof.
  apply (singer_metadata_catalog
           [{| entry_stream_id := "page"; entry_metadata := VDict [] |};
            {| entry_stream_id := "posts"; entry_metadata := VList [VStr "selected"] |}]
           "posts" Posts_class
           {| entry_stream_id := "posts"; entry_metadata := VList [VStr "selected"] |}).
  reflexivity.
Defined.
