(* ===== verification/Sync.v ===== *)
(** * Sync: the partitions of a run, one after the other

    The SDK reads the partitions of a stream in order, with one instance
    of the stream class for all of them: [for partition in partitions:
    for record in self.get_records(partition): ...].  The instance is
    mutable: [get_url_params] assigns [self.page_id] in every turn of the
    loop, and the flatteners read it.  This file follows the instance from
    one partition to the next:

    - [self_after] and [instance_after] are the instance as the loop of
      [Engine.request_records] leaves it;
    - [run_records] is [Records.get_records] with the way the run ended,
      and [sync_records] the SDK's loop over the partitions, each with the
      script the transport plays while it is read: the records of every
      partition that was started, and how the sync ended.  An exception
      that leaves a run ends the sync; so does a run that is still going
      when its script is used up;
    - [sync_each] is the same loop with a fresh copy of the instance for
      every partition;
    - [same_config] relates instances that differ in [page_id] at most,
      and [ConfigOnly] says of a stream class that its parameter builder
      reads nothing else of the instance than its configuration.

    The theorems say that a run leaves the configuration of the instance
    as it is, that the sync with the shared instance is [sync_each] (no
    partition sees the page of the one before), that every record is
    tagged with the page of its own partition, that a partition whose first
    request fails is skipped, and that a partition with a failure on a
    later page holds up all the partitions after it. *)

From Stdlib Require Import List String ZArith Bool Lia.
From stdpp Require Import base tactics list.
From S2P Require Import Prelude PyDict PyValue Streams Url Params Window Flatten Engine Records.
Import ListNotations.

Set Default Proof Using "Type".
Local Open Scope string_scope.
Local Open Scope list_scope.

(** Instances with the same configuration: all attributes but [page_id]. *)
Definition same_config (a b : stream_self) : Prop :=
  access_tokens a = access_tokens b /\ metrics a = metrics b /\
  config_columns a = config_columns b /\ schema_properties a = schema_properties b.

(** The variables of the loop, up to the page of the instance. *)
Definition same_state (a b : loop_state) : Prop :=
  same_config (self a) (self b) /\ next_page_token a = next_page_token b /\
  finished a = finished b.

(** A stream class whose parameter builder and whose log lines depend on
    the configuration of the instance only. *)
Class ConfigOnly (ops : StreamOps) : Prop := {
  ops_params_same : forall time self self' partition token,
    same_config self self' ->
    snd (ops_get_url_params time self partition token) =
    snd (ops_get_url_params time self' partition token);
  ops_logged_same : forall self self' partition token,
    same_config self self' ->
    ops_logged self partition token = ops_logged self' partition token;
}.

(** How a sync ends: all partitions were read, an exception left a run, or
    a run was still going when its script was used up. *)
Inductive sync_end : Type :=
| Done
| Aborted (e : pyerr)
| Unfinished.

Definition end_of_run (r : run_end) : sync_end :=
  match r with
  | Finished => Done
  | Raised e => Aborted e
  | Pending _ => Unfinished
  end.

Section Sync.
Context (ops : StreamOps) (s : stream).

(** [self] when the loop is left: after the last turn, or as the builder
    left it when [prepare_request] raised. *)
Fixpoint self_after (partition : pyval) (script : list page_io) (st : loop_state)
  : stream_self :=
  if finished st then self st
  else
    match script with
    | [] => self st
    | io :: script' =>
        match iteration ops partition io st with
        | (_, Ok st') => self_after partition script' st'
        | (_, Err _) =>
            (prepare_request ops (io_time_request io) (self st) partition
               (next_page_token st)).1
        end
    end.

Definition instance_after (self : stream_self) (partition : pyval) (script : list page_io)
  : stream_self :=
  match log_partition partition with
  | Err _ => self
  | Ok _ => self_after partition script (initial_state self)
  end.

Definition run_records (self : stream_self) (partition : pyval) (script : list page_io)
  : list pyval * sync_end :=
  let '(records, ended) := get_records ops s self partition script in
  (records, end_of_run ended).

(** [for partition in partitions: for record in self.get_records(partition)] *)
Fixpoint sync_records (self : stream_self) (jobs : list (pyval * list page_io))
  : list (pyval * list pyval) * sync_end :=
  match jobs with
  | [] => ([], Done)
  | (partition, script) :: jobs' =>
      match run_records self partition script with
      | (records, Done) =>
          let '(chunks, r) := sync_records (instance_after self partition script) jobs' in
          ((partition, records) :: chunks, r)
      | (records, r) => ([(partition, records)], r)
      end
  end.

(** The same with an instance of its own for every partition. *)
Fixpoint sync_each (self : stream_self) (jobs : list (pyval * list page_io))
  : list (pyval * list pyval) * sync_end :=
  match jobs with
  | [] => ([], Done)
  | (partition, script) :: jobs' =>
      match run_records self partition script with
      | (records, Done) =>
          let '(chunks, r) := sync_each self jobs' in
          ((partition, records) :: chunks, r)
      | (records, r) => ([(partition, records)], r)
      end
  end.

End Sync.

(** The records of a sync, as they are emitted. *)
Definition records_of_sync (chunks : list (pyval * list pyval)) : list pyval :=
  flat_map snd chunks.

(** Two pages of [Posts]: the transport fails on the first request of
    page ["456"], page ["123"] is read in two turns. *)
Definition example_other_partition : pyval := VDict [("page_id", VStr "456")].

Definition example_jobs : list (pyval * list page_io) :=
  [(example_other_partition, [io_failure 1700000000]);
   (example_partition, example_script)].

(** ** Instances with the same configuration *)

#[export] Instance same_config_equivalence : Equivalence same_config.
Proof.
  split.
  - by intros a.
  - intros a b (? & ? & ? & ?). by split_and!.
  - intros a b c (? & ? & ? & ?) (? & ? & ? & ?). split_and!; congruence.
Qed.

#[export] Instance same_state_equivalence : Equivalence same_state.
Proof.
  split.
  - by intros a.
  - intros a b (? & ? & ?). by split_and!.
  - intros a b c (? & ? & ?) (? & ? & ?). split_and!; [by etrans|congruence..].
Qed.

#[export] Instance set_page_id_proper : Proper (same_config ==> eq ==> eq) set_page_id.
Proof. intros a b (Ht & Hm & Hc & Hs) pid ? <-. unfold set_page_id. by rewrite Ht, Hm, Hc, Hs. Qed.

Lemma set_page_id_same self pid : same_config (set_page_id self pid) self.
Proof. done. Qed.

#[export] Instance initial_state_proper : Proper (same_config ==> same_state) initial_state.
Proof. by intros a b Hab. Qed.

(** The six stream classes read their configuration only. *)
#[export] Instance stream_ops_config_only `{Sdk} (s : stream) : ConfigOnly (stream_ops s).
Proof.
  split; cbn [ops_get_url_params ops_logged stream_ops].
  - intros time self self' partition token Hsame.
    destruct (py_getitem partition "page_id") as [pid|e] eqn:Hp;
      [|by rewrite !(get_url_params_no_page_id _ _ _ _ _ e)].
    destruct self as [p1 t1 m1 c1 s1], self' as [p2 t2 m2 c2 s2].
    destruct Hsame as (? & ? & ? & ?). cbn in *. subst.
    destruct s; unfold_builders; unfold FacebookPagesStream_get_url_params; rewrite Hp;
      reflexivity.
  - intros self self' partition token (Ht & _). unfold FacebookPagesStream_logged.
    by rewrite Ht.
Qed.

(** ** One run *)

Section RunFacts.
Context (ops : StreamOps) {Hlaws : StreamLaws ops} {Hconfig : ConfigOnly ops} (s : stream).
Implicit Types (self : stream_self) (partition token : pyval) (script : list page_io).

(** The builder leaves the configuration as it is. *)
Lemma prepare_request_config time self partition token :
  same_config (prepare_request ops time self partition token).1 self.
Proof using Hlaws.
  destruct (py_getitem partition "page_id") as [pid|e] eqn:Hp.
  - by rewrite (prepare_request_fst _ _ _ _ _ pid).
  - by rewrite (prepare_request_no_page_id _ _ _ _ _ e).
Qed.

Lemma prepare_request_snd_same time self self' partition token :
  same_config self self' ->
  (prepare_request ops time self partition token).2 =
  (prepare_request ops time self' partition token).2.
Proof using Hconfig.
  intros Hsame. unfold prepare_request, sdk_prepare_request.
  pose proof (ops_params_same time self self' partition token Hsame) as Hp.
  destruct (ops_get_url_params time self partition token),
    (ops_get_url_params time self' partition token).
  cbn in *. by subst.
Qed.

(** A request that could be prepared was prepared with the partition's
    page: the instance after it holds nothing of the instance before. *)
Lemma prepare_request_fst_same time self self' partition token rl :
  same_config self self' ->
  (prepare_request ops time self partition token).2 = Ok rl ->
  (prepare_request ops time self partition token).1 =
  (prepare_request ops time self' partition token).1.
Proof using Hlaws.
  intros Hsame. destruct (py_getitem partition "page_id") as [pid|e] eqn:Hp.
  - intros _. rewrite !(prepare_request_fst _ _ _ _ _ pid) by done. by rewrite Hsame.
  - by rewrite (prepare_request_no_page_id _ _ _ _ _ e).
Qed.

(** A turn does the same from states that differ in the page of the
    instance, and leaves the same state. *)
Lemma iteration_same partition io st st' :
  same_state st st' -> iteration ops partition io st = iteration ops partition io st'.
Proof using Hlaws Hconfig.
  intros (Hself & Htok & _). rewrite !iteration_unfold. cbn zeta. rewrite <- Htok.
  rewrite <- (ops_logged_same _ _ _ _ Hself), <- (prepare_request_snd_same _ _ _ _ _ Hself).
  destruct (prepare_request ops _ (self st) _ _).2 as [[req line]|e] eqn:Hreq; [|done].
  by rewrite <- (prepare_request_fst_same _ _ _ _ _ _ Hself Hreq).
Qed.

Lemma loop_same partition script st st' :
  same_state st st' ->
  (request_records_loop ops partition script st).1 =
    (request_records_loop ops partition script st').1 /\
  end_of_run (request_records_loop ops partition script st).2 =
    end_of_run (request_records_loop ops partition script st').2.
Proof using Hlaws Hconfig.
  intros Hsame. pose proof Hsame as (_ & _ & Hf).
  destruct (finished st) eqn:Hfs; [by rewrite !request_records_loop_finished|].
  destruct script as [|io script]; [by rewrite !request_records_loop_nil|].
  by rewrite !request_records_loop_cons, (iteration_same _ _ _ _ Hsame).
Qed.

Lemma request_records_same self self' partition script :
  same_config self self' ->
  (request_records ops self partition script).1 =
    (request_records ops self' partition script).1 /\
  end_of_run (request_records ops self partition script).2 =
    end_of_run (request_records ops self' partition script).2.
Proof using Hlaws Hconfig.
  intros Hsame. rewrite !request_records_unfold. destruct (log_partition partition); [|done].
  cbn [fst snd].
  by destruct (loop_same partition script (initial_state self) (initial_state self'))
    as [-> ->]; [apply initial_state_proper|].
Qed.

#[export] Instance run_records_proper :
  Proper (same_config ==> eq ==> eq ==> eq) (run_records ops s).
Proof using Hlaws Hconfig.
  intros self self' Hsame partition ? <- script ? <-. unfold run_records, get_records.
  destruct (request_records_same self self' partition script Hsame) as [Hevs Hend].
  destruct (request_records ops self partition script) as [evs r],
    (request_records ops self' partition script) as [evs' r'].
  cbn [fst snd] in *. subst evs'.
  destruct (for_each _ _) as [records [?|e]]; [|done]. by rewrite Hend.
Qed.

(** The loop leaves the configuration of the instance as it is. *)
Lemma self_after_config partition script st :
  same_config (self_after ops partition script st) (self st).
Proof using Hlaws.
  revert st. induction script as [|io script IH]; intros st; cbn [self_after];
    (destruct (finished st); [done|]); [done|].
  destruct (iteration ops partition io st) as [evs [st'|e]] eqn:Hit;
    [|apply prepare_request_config].
  apply iteration_inv in Hit as (_ & _ & _ & _ & _ & Hself & _).
  rewrite IH, Hself. apply prepare_request_config.
Qed.

Lemma instance_after_config self partition script :
  same_config (instance_after ops self partition script) self.
Proof using Hlaws.
  unfold instance_after. destruct (log_partition partition); [|done].
  apply (self_after_config partition script (initial_state self)).
Qed.

#[export] Instance sync_records_proper :
  Proper (same_config ==> eq ==> eq) (sync_records ops s).
Proof using Hlaws Hconfig.
  intros self self' Hsame jobs ? <-. revert self self' Hsame.
  induction jobs as [|[partition script] jobs IH]; intros self self' Hsame; [done|].
  cbn [sync_records]. rewrite <- Hsame.
  destruct (run_records ops s self partition script) as [records []]; try done.
  by rewrite (IH _ (instance_after ops self' partition script))
    by (by rewrite !instance_after_config).
Qed.

Lemma sync_records_each self jobs :
  sync_records ops s self jobs = sync_each ops s self jobs.
Proof using Hlaws Hconfig.
  induction jobs as [|[partition script] jobs IH]; [done|]. cbn [sync_records sync_each].
  destruct (run_records ops s self partition script) as [records []]; try done.
  by rewrite instance_after_config, IH.
Qed.

End RunFacts.

(** ** The sync of the six streams *)

Section SixStreams.
Context `{Sdk}.
Implicit Types (s : stream) (self : stream_self) (partition : pyval)
  (script : list page_io) (jobs : list (pyval * list page_io)).

Local Abbreviation ops s := (stream_ops s).

(** The records of a run carry the page of the partition. *)
Lemma run_records_page_id s self partition script :
  s <> Page ->
  Forall (fun r => py_getitem r "page_id" = py_getitem partition "page_id")
    (run_records (ops s) s self partition script).1.
Proof.
  intros Hs. unfold run_records.
  destruct (py_getitem partition "page_id") as [pid|e] eqn:Hp.
  - pose proof Hp as (d & -> & Hd)%py_getitem_Ok.
    pose proof (get_records_page_id s self d pid script Hs Hd).
    by destruct (get_records _ _ _ _ _).
  - unfold get_records.
    pose proof (request_records_rows_no_page_id (ops s) self partition script e Hp) as Hr.
    destruct (request_records _ _ _ _) as [evs r]. cbn [fst] in Hr. by rewrite Hr.
Qed.

(** The run of a partition whose first request fails. *)
Lemma run_records_first_failure s self partition io script rl e :
  (prepare_request (ops s) (io_time_request io) self partition VNone).2 = Ok rl ->
  io_outcome io = Err e ->
  run_records (ops s) s self partition (io :: script) = ([], Done).
Proof.
  intros Hreq Hio. unfold run_records, get_records. rewrite request_records_unfold.
  destruct (log_partition partition) as [page|e'] eqn:Hl.
  - destruct (first_failure_finishes (ops s) self partition io script rl e Hreq Hio)
      as [Hrows ->].
    change (rows_of_events (EvReading page :: ?evs)) with (rows_of_events evs).
    by rewrite Hrows.
  - destruct (py_getitem partition "page_id") as [pid|e''] eqn:Hp.
    + unfold log_partition in Hl. destruct partition; try done. by destruct (truthy _).
    + by rewrite (prepare_request_no_page_id _ _ _ _ _ e'') in Hreq.
Qed.

(** A run that has not finished ends the sync. *)
Lemma sync_records_stops s self partition script jobs :
  (request_records (ops s) self partition script).2 <> Finished ->
  exists records r,
    sync_records (ops s) s self ((partition, script) :: jobs) = ([(partition, records)], r) /\
    r <> Done.
Proof.
  intros Hr. cbn [sync_records]. unfold run_records, get_records.
  destruct (request_records _ _ _ _) as [evs r]. cbn [snd] in Hr.
  destruct (for_each _ _) as [records [?|e]]; [|by eexists _, _].
  destruct r; [done|by eexists _, _..].
Qed.

(** C21.  Nothing is handed from one partition to the next: the sync over any
    partitions and scripts, with the one instance the SDK uses for all of
    them, yields what a sync with an instance of its own for every partition
    yields, and the page the instance holds when the sync starts makes no
    difference. *)
Theorem sync_shares_nothing s self jobs :
  sync_records (ops s) s self jobs = sync_each (ops s) s self jobs /\
  forall pid, sync_records (ops s) s (set_page_id self pid) jobs = sync_records (ops s) s self jobs.
Proof.
  split; [apply sync_records_each; apply _|].
  intros pid. by rewrite set_page_id_same.
Qed.

(** Every record of a sync carries the page of its own partition: for
    every stream but [Page], whatever the partitions, the scripts and the way
    the sync ends, the records read for a partition have the [page_id] of that
    partition, never that of the partition before. *)
Theorem sync_records_carry_page_id s self jobs :
  s <> Page ->
  Forall (fun chunk =>
            Forall (fun r => py_getitem r "page_id" = py_getitem chunk.1 "page_id") chunk.2)
    (sync_records (ops s) s self jobs).1.
Proof.
  intros Hs. revert self. induction jobs as [|[partition script] jobs IH]; intros self;
    [done|].
  cbn [sync_records].
  pose proof (run_records_page_id s self partition script Hs) as Hrun.
  destruct (run_records (ops s) s self partition script) as [records r]. cbn [fst] in Hrun.
  specialize (IH (instance_after (ops s) self partition script)).
  destruct r; [destruct (sync_records _ _ _ jobs) as [chunks r']|..]; cbn [fst] in *;
    by repeat constructor.
Qed.

(** C24.  A partition whose first request fails is skipped: the run of the
    partition ends with no records, and the sync goes on with the partitions
    after it as if it had started with them. *)
Theorem sync_skips_failed_partition s self partition io script jobs rl e :
  (prepare_request (ops s) (io_time_request io) self partition VNone).2 = Ok rl ->
  io_outcome io = Err e ->
  sync_records (ops s) s self ((partition, io :: script) :: jobs) =
  ((partition, []) :: (sync_records (ops s) s self jobs).1,
   (sync_records (ops s) s self jobs).2).
Proof.
  intros Hreq Hio. cbn [sync_records].
  rewrite (run_records_first_failure s self partition io script rl e Hreq Hio).
  rewrite instance_after_config by apply _. by destruct (sync_records _ _ _ jobs).
Qed.

(** C11.  A failure on a later page holds up the sync: when the loop is
    running with a token, any number of failed requests leaves the run of the
    partition unfinished, so that none of the partitions after it is started. *)
Theorem failed_page_holds_up_sync s self partition script failures jobs evs st :
  request_records_loop (ops s) partition script (initial_state self) = (evs, Pending st) ->
  truthy (next_page_token st) = true ->
  Forall (fun io => exists e, io_outcome io = Err e) failures ->
  exists records r,
    sync_records (ops s) s self ((partition, script ++ failures) :: jobs) =
      ([(partition, records)], r) /\
    r <> Done.
Proof.
  intros Hrun Htok Hall. apply sync_records_stops. rewrite request_records_unfold.
  destruct (log_partition partition); [|done]. cbn [snd].
  rewrite request_records_loop_app, Hrun.
  pose proof (failures_never_finish (ops s) partition failures st
                (pending_not_finished _ _ _ _ _ _ Hrun) Htok Hall) as Hnever.
  by destruct (request_records_loop (ops s) partition failures st).
Qed.

End SixStreams.

(** ** The theorems at the sample partitions *)

(** The sync of the two sample pages: nothing for the page whose request
    fails, the two rows of the other. *)
Example sync_records_example :
  sync_records example_posts_ops Posts example_self example_jobs =
  ([(example_other_partition, []); (example_partition, example_rows)], Done).
Proof. by vm_compute. Qed.

Lemma sync_records_carry_page_id_witness :
  Forall (fun chunk =>
            Forall (fun r => py_getitem r "page_id" = py_getitem chunk.1 "page_id") chunk.2)
    (sync_records example_posts_ops Posts example_self example_jobs).1.
Proof.
  apply (@sync_records_carry_page_id example_sdk Posts example_self example_jobs).
  discriminate.
Defined.

Lemma sync_skips_failed_partition_witness :
  sync_records example_posts_ops Posts example_self example_jobs =
  ((example_other_partition, []) ::
   (sync_records example_posts_ops Posts example_self [(example_partition, example_script)]).1,
   (sync_records example_posts_ops Posts example_self [(example_partition, example_script)]).2).
Proof.
  eapply (@sync_skips_failed_partition example_sdk Posts example_self example_other_partition
            (io_failure 1700000000) [] [(example_partition, example_script)]);
    reflexivity.
Defined.

Lemma failed_page_holds_up_sync_witness :
  exists records r,
    sync_records example_posts_ops Posts example_self
      ((example_partition, [example_first_page] ++ [io_failure 0; io_failure 0]) ::
       [(example_other_partition, example_script)]) = ([(example_partition, records)], r) /\
    r <> Done.
Proof.
  apply (@failed_page_holds_up_sync example_sdk Posts example_self example_partition
           [example_first_page] [io_failure 0; io_failure 0]
           [(example_other_partition, example_script)]
           (request_records_loop example_posts_ops example_partition [example_first_page]
              (initial_state example_self)).1
           example_stuck_state);
    [reflexivity | reflexivity | repeat constructor; by eexists].
Defined.
