(* ===== verification/Served.v ===== *)
(** * Served: a sync whose partitions are served page by page

    The files before this one follow one run ([Paging]: the loop against a
    server that pages a collection) and the runs of a sync with the scripts
    given ([Sync]).  Here the two meet: every partition of a sync has a
    collection of its own, served by a paging server of its own.

    - a [paged_job] is a partition with the page it names, the parameters
      the links of its server repeat and the pages of its collection;
    - [script_of] is what the transport does while the partition is read:
      the script the server of the job writes ([World.script_against]), one
      entry per page;
    - [records_of_job] is what is expected of the partition: the rows of
      its pages, flattened with the id of its page.

    The theorem says that the sync comes to its end with the records of all
    the pages of all the partitions, in the order of the partitions and of
    their pages: the composition of the parameter builders, the flatteners,
    the loop, [post_process] and the loop over the partitions, for the
    streams that return a token's parameters untouched. *)

From Stdlib Require Import List String Ascii ZArith Bool Lia.
From stdpp Require Import base tactics list.
From S2P Require Import Prelude PyDict PyValue Streams Url Quote Params Window Flatten Redact.
From S2P Require Import Engine Link First World Paging Records Sync.
Import ListNotations.

Set Default Proof Using "Type".
Local Open Scope string_scope.
Local Open Scope list_scope.

Record paged_job : Type := {
  job_partition : pyval;
  job_page : string;
  job_base : list (string * string);
  job_pages : dict (list pyval);
}.

Section Served.
Context `{Sdk} (s : stream) (now : Z) (self : stream_self).

Definition server_of (job : paged_job) : world :=
  paging_world s (job_page job) (job_base job) now (job_pages job).

(** What the transport does while the partition of a job is read: the
    answers of the job's server to the requests of the run, one per page. *)
Definition script_of (job : paged_job) : list page_io :=
  script_against (stream_ops s) (server_of job) (job_partition job)
    (length (job_pages job)) 0 (initial_state self).

(** The collection of a job is one the server is defined for, and has a
    page at least. *)
Definition served (job : paged_job) : Prop :=
  well_paged s (job_page job) (job_base job) self (job_partition job) (job_pages job) /\
  job_pages job <> [].

Definition records_of_job (job : paged_job) : list pyval :=
  rows_of_pages s (set_page_id self (VStr (job_page job))) (job_pages job).

End Served.

(** Page ["123"] with the two pages of [Paging.example_pages], and page
    ["456"], for which the tap has no token, with one page. *)
Definition example_served_jobs : list paged_job :=
  [{| job_partition := example_partition; job_page := "123";
      job_base := example_base; job_pages := example_pages |};
   {| job_partition := example_other_partition; job_page := "456";
      job_base := [("limit", "100"); ("fields", "id,name")];
      job_pages := [("d1", [VDict [("id", VStr "q1")]])] |}].

(** ** One partition *)

Section ServedFacts.
Context (starting_timestamp : pyval -> option Z).
#[local] Instance served_sdk : Sdk := urllib_sdk starting_timestamp.
Context (s : stream) (now : Z) (self : stream_self).

Lemma returns_token_tags : returns_token_params s = true -> tags_page_id s = true.
Proof. by destruct s. Qed.

(** The run of a served partition finishes with the rows of its pages. *)
Lemma served_run job :
  served s self job ->
  run_records (stream_ops s) s self (job_partition job) (script_of s now self job) =
  (records_of_job s self job, Done).
Proof.
  intros [Hwp Hne]. unfold run_records, script_of, records_of_job.
  pose proof (wp_partition _ _ _ _ _ _ Hwp) as Hp.
  pose proof Hp as (d & Hd & Hpid)%py_getitem_Ok. rewrite Hd in *.
  rewrite (get_records_tagged_unchanged _ _ _ (VStr (job_page job)))
    by (done || apply returns_token_tags, Hwp).
  rewrite request_records_unfold, (log_partition_page_id _ _ Hp), loop_over_script.
  cbn [fst snd].
  destruct (paged_run starting_timestamp s (job_page job) (job_base job) now self (VDict d)
              (job_pages job) Hwp (length (job_pages job)) Hne) as (evs & Hrun & Hrows & _);
    [done|].
  assert (request_records_against (stream_ops s) (server_of s now job) (VDict d)
            (length (job_pages job)) 0 (initial_state self) = (evs, Finished)) as ->
    by exact Hrun.
  by rewrite <- Hrows.
Qed.

(** The sync of served partitions, run by run. *)
Lemma served_sync jobs :
  Forall (served s self) jobs ->
  sync_records (stream_ops s) s self
    (map (fun job => (job_partition job, script_of s now self job)) jobs) =
  (map (fun job => (job_partition job, records_of_job s self job)) jobs, Done).
Proof.
  intros Hall. rewrite sync_records_each by apply _.
  induction Hall as [|job jobs Hjob _ IH]; [done|].
  cbn [map sync_each]. by rewrite (served_run job Hjob), IH.
Qed.

(** C14.  A sync over served partitions is complete: when every partition has
    a collection served page by page, the sync with the one stream instance
    reads the partitions to the last, and its records are the rows of all the
    pages of every partition, in the order of the partitions and of their
    pages, each flattened with the id of its own page. *)
Theorem served_sync_completes jobs :
  Forall (served s self) jobs ->
  sync_records (stream_ops s) s self
    (map (fun job => (job_partition job, script_of s now self job)) jobs) =
  (map (fun job => (job_partition job, records_of_job s self job)) jobs, Done).
Proof. apply served_sync. Qed.

End ServedFacts.

(** ** The theorem at two sample partitions *)

Lemma example_served :
  Forall (served Posts example_self) example_served_jobs.
Proof.
  repeat (constructor; [split; [|discriminate]|]); [..|constructor];
    (split; try reflexivity; try solve_dict_wf;
     [repeat (constructor; [done|]); constructor
     |repeat (constructor; [reflexivity|]); constructor]).
Defined.

Lemma served_sync_completes_witness :
  sync_records (@stream_ops example_sdk Posts) Posts example_self
    (map (fun job => (job_partition job,
                      @script_of example_sdk Posts 1700000000 example_self job))
       example_served_jobs) =
  ([(example_partition,
     [VDict [("id", VStr "p1"); ("page_id", VStr "123")];
      VDict [("id", VStr "p2"); ("page_id", VStr "123")]]);
    (example_other_partition,
     [VDict [("id", VStr "q1"); ("page_id", VStr "456")]])],
   Done).
Proof.
  apply (served_sync_completes (fun _ => None) Posts 1700000000 example_self
           example_served_jobs example_served).
Defined.
