(* ===== verification/Cursor.v ===== *)
(** * Cursor: the replication cursor the coordinator keeps

    The streams do not store their progress: the coordinator (the SDK) reads
    the replication key of every row a sync emits, keeps the latest value
    per stream and partition, and hands it back on the next run as the
    starting timestamp, from which [get_url_params] makes [since].  The
    sources declare the replication key of each class ([Streams.class_of]);
    the bookkeeping itself is modelled from the specification (3, 6 and
    property 3 of 8):

    - [replication_value] reads the replication key of a row as a
      timestamp, [advance] is the maximum with a cursor that may not be
      there yet, and [cursor_after] is the cursor once the rows of a run
      have been emitted, in the order they come;
    - [bookmarks] is the store of cursors, one per stream and page;
      [observe] and [bookmarks_after] record rows in it, [sync_bookmarks]
      the records of a whole sync ([Sync.sync_records]);
    - [starting_timestamp] is what the coordinator answers when a builder
      asks where to start: the cursor of the partition, or the start date of
      the configuration when there is none.

    The reading of a replication-key value as a timestamp is the SDK's
    (a date parser); it is a parameter, [timestamp_of].

    The theorems say that the cursor is the maximum of the values observed,
    whatever their order and however often a row is repeated, that the
    cursors of a store only grow, that the streams without replication key
    never get one, and what that means for the next run: its first request
    asks for the rows since the latest one of this run. *)

From Stdlib Require Import List String ZArith Bool Lia.
From stdpp Require Import base tactics list countable gmap.
From S2P Require Import Prelude PyDict PyValue Streams Url Quote Params Window Flatten Redact.
From S2P Require Import Engine Link First World Paging Records Sync Served.
Import ListNotations.

Set Default Proof Using "Type".
Local Open Scope string_scope.
Local Open Scope list_scope.
Local Open Scope Z_scope.

#[export] Instance stream_countable : Countable stream.
Proof.
  apply (inj_countable'
           (fun s => match s with
                     | Page => 0%nat | Posts => 1%nat | PostTaggedProfile => 2%nat
                     | PostAttachments => 3%nat | PageInsights => 4%nat
                     | PostInsights => 5%nat
                     end)
           (fun n => match n with
                     | 0%nat => Page | 1%nat => Posts | 2%nat => PostTaggedProfile
                     | 3%nat => PostAttachments | 4%nat => PageInsights
                     | _ => PostInsights
                     end)).
  by intros [].
Defined.

(** The cursors the coordinator keeps: one per stream and page. *)
Definition bookmarks : Type := gmap (stream * string) Z.

(** The page a partition names, when it names one. *)
Definition page_of (partition : pyval) : option string :=
  match py_getitem partition "page_id" with
  | Ok (VStr page) => Some page
  | _ => None
  end.

(** The cursor once a value was observed: the later of the two.  A row
    without value leaves the cursor as it is. *)
Definition advance (cursor value : option Z) : option Z :=
  match cursor, value with
  | Some c, Some v => Some (Z.max c v)
  | Some c, None => Some c
  | None, _ => value
  end.

(** The order of the cursors: a cursor is behind another when advancing
    it to the other gives the other. *)
Definition cursor_le (a b : option Z) : Prop := advance a b = b.

(** The rows a sync emitted for a page, over all the partitions that name
    it. *)
Definition rows_for (page : string) (records : list (pyval * list pyval)) : list pyval :=
  flat_map (fun chunk => if decide (page_of (fst chunk) = Some page) then snd chunk else [])
    records.

Section Cursor.
Context (timestamp_of : pyval -> option Z).

(** The value of the replication key of a row.  A stream without
    replication key has none, and neither has a row without the key. *)
Definition replication_value (s : stream) (row : pyval) : option Z :=
  match replication_key (class_of s) with
  | Some key =>
      match py_getitem row key with
      | Ok v => timestamp_of v
      | Err _ => None
      end
  | None => None
  end.

(** The cursor after the rows of a run, in the order they are emitted. *)
Definition cursor_after (s : stream) (cursor : option Z) (rows : list pyval) : option Z :=
  fold_left (fun c row => advance c (replication_value s row)) rows cursor.

(** One row of a page recorded in the store. *)
Definition observe (s : stream) (page : string) (b : bookmarks) (row : pyval) : bookmarks :=
  match advance (b !! (s, page)) (replication_value s row) with
  | Some c => <[(s, page) := c]> b
  | None => b
  end.

Definition bookmarks_after (s : stream) (page : string) (b : bookmarks) (rows : list pyval)
  : bookmarks :=
  fold_left (observe s page) rows b.

(** The records of a sync recorded in the store, partition by partition.
    The records of a partition that names no page have no cursor to go to. *)
Definition sync_bookmarks (s : stream) (b : bookmarks) (records : list (pyval * list pyval))
  : bookmarks :=
  fold_left (fun b chunk =>
               match page_of (fst chunk) with
               | Some page => bookmarks_after s page b (snd chunk)
               | None => b
               end) records b.

(** Where the next run starts: at the cursor of the partition, or at the
    start date of the configuration when the store has none. *)
Definition starting_timestamp (s : stream) (start_date : option Z) (b : bookmarks)
    (partition : pyval) : option Z :=
  match page_of partition with
  | Some page =>
      match b !! (s, page) with
      | Some c => Some c
      | None => start_date
      end
  | None => start_date
  end.

(** The collaborators of a run that starts with the given store. *)
Definition coordinator_sdk (s : stream) (start_date : option Z) (b : bookmarks) : Sdk :=
  urllib_sdk (starting_timestamp s start_date b).

(** The parameter [since] stands for in the next run. *)
Definition since_after (s : stream) (start_date : option Z) (b : bookmarks) (page : string)
    (records : list (pyval * list pyval)) : option Z :=
  match cursor_after s (b !! (s, page)) (rows_for page records) with
  | Some c => Some c
  | None => start_date
  end.

End Cursor.

(** The order of the stores: every cursor of the one is behind the cursor
    the other has in its place. *)
Definition bookmarks_le (b b' : bookmarks) : Prop :=
  forall key, cursor_le (b !! key) (b' !! key).

(** Only the streams that declare a replication key have cursors. *)
Definition keyed (b : bookmarks) : Prop :=
  forall s page, is_Some (b !! (s, page)) -> is_Some (replication_key (class_of s)).

(** The stores that follow a store: those it becomes by the syncs of a
    stream, run after run. *)
Inductive follows (timestamp_of : pyval -> option Z) (s : stream) : bookmarks -> bookmarks -> Prop :=
| follows_here b : follows timestamp_of s b b
| follows_sync b records b' :
    follows timestamp_of s (sync_bookmarks timestamp_of s b records) b' ->
    follows timestamp_of s b b'.

(** A reader of timestamps for the examples: whole seconds, as they are. *)
Definition epoch_seconds (v : pyval) : option Z :=
  match v with
  | VInt n => Some n
  | _ => None
  end.

Definition example_post_row (created : Z) : pyval :=
  VDict [("id", VStr "p"); ("created_time", VInt created)].

(** The store after a sync of [PageInsights] that emitted a row. *)
Definition example_insights_store : bookmarks :=
  sync_bookmarks epoch_seconds PageInsights ∅ [(example_partition, [example_post_row 12])].

(** The rows of property 3 of the specification. *)
Definition example_dated_rows : list pyval := map example_post_row [5; 9; 3; 12].

(** A page of [Posts] in two pages, with the same rows. *)
Definition example_dated_job : paged_job :=
  {| job_partition := example_partition; job_page := "123"; job_base := example_base;
     job_pages := [("c1", [example_post_row 5; example_post_row 9]);
                   ("c2==", [example_post_row 3; example_post_row 12])] |}.

Definition example_dated_jobs : list paged_job := [example_dated_job].

(** The sync of that page by a coordinator whose store is empty. *)
Definition example_dated_sync : list (pyval * list pyval) * sync_end :=
  sync_records (@stream_ops (coordinator_sdk Posts None ∅) Posts) Posts example_self
    (map (fun job => (job_partition job,
                      @script_of (coordinator_sdk Posts None ∅) Posts 1700000000
                        example_self job))
       example_dated_jobs).

(** A page of [PostInsights] whose second post has no insights: the
    flattener yields the row of the first post and raises on the second. *)
Definition example_half_page : response :=
  json_response
    (VDict [("data",
             VList [VDict [("id", VStr "p1"); ("created_time", VInt 12);
                           ("insights",
                            VDict [("data",
                                    VList [VDict [("name", VStr "post_clicks");
                                                  ("period", VStr "lifetime");
                                                  ("title", VStr "Clicks");
                                                  ("description", VStr "Clicks");
                                                  ("id", VStr "p1/insights/post_clicks");
                                                  ("values",
                                                   VList [VDict [("value", VInt 7)]])]])])];
                    VDict [("id", VStr "p2"); ("created_time", VInt 20)]])]).

(** ** The later of two cursors *)

#[export] Instance advance_comm : Comm (=) advance.
Proof. intros [a|] [b|]; cbn; f_equal; lia. Qed.

#[export] Instance advance_assoc : Assoc (=) advance.
Proof. intros [a|] [b|] [c|]; cbn; f_equal; lia. Qed.

#[export] Instance advance_idemp : IdemP (=) advance.
Proof. intros [a|]; cbn; f_equal; lia. Qed.

#[export] Instance advance_left_id : LeftId (=) None advance.
Proof. by intros [a|]. Qed.

#[export] Instance advance_right_id : RightId (=) None advance.
Proof. by intros [a|]. Qed.

Lemma cursor_le_Some a b : cursor_le (Some a) (Some b) <-> a <= b.
Proof. unfold cursor_le. cbn. split; [intros [= ?]|intros ?; f_equal]; lia. Qed.

Lemma cursor_le_None b : cursor_le None b.
Proof. done. Qed.

Lemma cursor_le_Some_inv a b :
  cursor_le (Some a) b -> exists c, b = Some c /\ a <= c.
Proof. destruct b as [c|]; [|done]. intros ?%cursor_le_Some. by exists c. Qed.

#[export] Instance cursor_le_preorder : PreOrder cursor_le.
Proof.
  split; [intros a; apply (idemp advance)|].
  intros a b c Hab Hbc. unfold cursor_le in *.
  by rewrite <- Hbc, (assoc advance), Hab.
Qed.

#[export] Instance cursor_le_antisymm : AntiSymm (=) cursor_le.
Proof. intros a b Hab Hba. unfold cursor_le in *. by rewrite <- Hab, (comm advance), Hba at 1. Qed.

Lemma advance_upper_l a b : cursor_le a (advance a b).
Proof. unfold cursor_le. by rewrite (assoc advance), (idemp advance). Qed.

Lemma advance_upper_r a b : cursor_le b (advance a b).
Proof. rewrite (comm advance). apply advance_upper_l. Qed.

Lemma advance_least a b c : cursor_le a c -> cursor_le b c -> cursor_le (advance a b) c.
Proof. unfold cursor_le. intros Ha Hb. by rewrite <- (assoc advance), Hb. Qed.

Lemma advance_cases a b : advance a b = a \/ advance a b = b.
Proof. destruct a as [a|], b as [b|]; cbn; auto. destruct (Z.max_spec a b) as [[_ ->]|[_ ->]]; auto. Qed.

#[export] Instance advance_mono : Proper (cursor_le ==> cursor_le ==> cursor_le) advance.
Proof.
  intros a a' Ha b b' Hb. apply advance_least.
  - etrans; [exact Ha|apply advance_upper_l].
  - etrans; [exact Hb|apply advance_upper_r].
Qed.

(** ** The cursor of a run *)

Section CursorFacts.
Context (timestamp_of : pyval -> option Z) (s : stream).

Local Abbreviation value_of := (replication_value timestamp_of s).
Local Abbreviation after := (cursor_after timestamp_of s).

Lemma cursor_after_cons cursor row rows :
  after cursor (row :: rows) = after (advance cursor (value_of row)) rows.
Proof. done. Qed.

Lemma cursor_after_app cursor rows more :
  after cursor (rows ++ more) = after (after cursor rows) more.
Proof. apply fold_left_app. Qed.

(** The cursor a run leaves is the cursor it found, advanced to the cursor
    of its rows alone. *)
Lemma cursor_after_advance cursor rows :
  after cursor rows = advance cursor (after None rows).
Proof.
  revert cursor. induction rows as [|row rows IH]; intros cursor;
    [by rewrite (right_id None advance)|].
  rewrite !cursor_after_cons, IH, (IH (advance None _)), (left_id None advance).
  by rewrite (assoc advance).
Qed.

Lemma cursor_after_upper cursor rows : cursor_le cursor (after cursor rows).
Proof. rewrite cursor_after_advance. apply advance_upper_l. Qed.

Lemma cursor_after_over cursor rows row :
  row ∈ rows -> cursor_le (value_of row) (after cursor rows).
Proof.
  revert cursor. induction rows as [|r rows IH]; intros cursor; [by intros ?%elem_of_nil|].
  rewrite cursor_after_cons. intros [->|Hin]%elem_of_cons; [|by apply IH].
  etrans; [apply advance_upper_r|apply cursor_after_upper].
Qed.

Lemma cursor_after_attained cursor rows :
  after cursor rows = cursor \/
  exists row, row ∈ rows /\ value_of row = after cursor rows.
Proof.
  revert cursor. induction rows as [|r rows IH]; intros cursor; [by left|].
  rewrite cursor_after_cons.
  destruct (IH (advance cursor (value_of r))) as [->|(row & Hin & Hrow)].
  - destruct (advance_cases cursor (value_of r)) as [->| ->]; [by left|].
    right. exists r. split; [left|done].
  - right. exists row. split; [by right|done].
Qed.

(** The order in which the rows arrive does not matter. *)
#[export] Instance cursor_after_Permutation cursor :
  Proper ((≡ₚ) ==> (=)) (after cursor).
Proof.
  intros rows rows' Hp. revert cursor.
  induction Hp as [|row rows rows' _ IH|r r' rows|rows rows' rows'' _ IH _ IH'];
    intros cursor; [done|apply IH| |by rewrite IH].
  rewrite !cursor_after_cons. by rewrite <- !(assoc advance), (comm advance (value_of r')).
Qed.

(** Rows that were seen before leave the cursor where it is. *)
Lemma cursor_after_absorb cursor rows : after (after cursor rows) rows = after cursor rows.
Proof.
  rewrite (cursor_after_advance (after _ _)), (cursor_after_advance cursor).
  by rewrite <- (assoc advance), (idemp advance).
Qed.

Lemma cursor_after_repeat cursor rows n :
  after cursor (concat (repeat rows (S n))) = after cursor rows.
Proof.
  revert cursor. induction n as [|n IH]; intros cursor; [by cbn; rewrite app_nil_r|].
  change (repeat rows (S (S n))) with (rows :: repeat rows (S n)).
  by rewrite concat_cons, cursor_after_app, IH, cursor_after_absorb.
Qed.

Lemma cursor_after_none cursor rows :
  replication_key (class_of s) = None -> after cursor rows = cursor.
Proof.
  intros Hkey. induction rows as [|row rows IH] using rev_ind; [done|].
  rewrite cursor_after_app, IH. unfold cursor_after, replication_value. cbn.
  by rewrite Hkey, (right_id None advance).
Qed.

Lemma cursor_after_Some cursor rows c :
  after cursor rows = Some c ->
  (cursor = Some c \/ exists row, row ∈ rows /\ value_of row = Some c) /\
  (forall c', cursor = Some c' -> c' <= c) /\
  (forall row c', row ∈ rows -> value_of row = Some c' -> c' <= c).
Proof.
  intros Hc. split_and!.
  - destruct (cursor_after_attained cursor rows) as [Heq|(row & Hin & Hrow)];
      rewrite Hc in *; eauto.
  - intros c' ->. pose proof (cursor_after_upper (Some c') rows) as Hle.
    rewrite Hc in Hle. by apply cursor_le_Some.
  - intros row c' Hin Hrow. pose proof (cursor_after_over cursor rows row Hin) as Hle.
    rewrite Hc, Hrow in Hle. by apply cursor_le_Some.
Qed.

Lemma cursor_after_reaches cursor rows c :
  cursor = Some c \/ (exists row, row ∈ rows /\ value_of row = Some c) ->
  exists c', after cursor rows = Some c' /\ c <= c'.
Proof.
  intros [->|(row & Hin & Hrow)]; apply cursor_le_Some_inv.
  - apply cursor_after_upper.
  - rewrite <- Hrow. by apply cursor_after_over.
Qed.

(** Post-processing a row leaves its replication key alone. *)
Lemma replication_value_tagged pid row :
  value_of (with_page_id pid row) = value_of row.
Proof.
  unfold replication_value.
  destruct (replication_key (class_of s)) as [key|] eqn:Hkey; [|done].
  assert (key <> "page_id") by (destruct s; cbn in Hkey; congruence).
  destruct row as [| | | | |kvs]; [done..|]. cbn. by rewrite dict_get_set_ne.
Qed.

Lemma cursor_after_tagged pid cursor rows :
  after cursor (map (with_page_id pid) rows) = after cursor rows.
Proof.
  revert cursor. induction rows as [|row rows IH]; intros cursor; [done|].
  cbn [map]. by rewrite !cursor_after_cons, IH, replication_value_tagged.
Qed.

End CursorFacts.

(** ** The store *)

#[export] Instance bookmarks_le_preorder : PreOrder bookmarks_le.
Proof.
  split; [by intros b key|]. intros b b' b'' Hb Hb' key.
  etrans; [apply Hb|apply Hb'].
Qed.

Section StoreFacts.
Context (timestamp_of : pyval -> option Z) (s : stream).

Lemma observe_lookup page b row :
  observe timestamp_of s page b row !! (s, page) =
  advance (b !! (s, page)) (replication_value timestamp_of s row).
Proof.
  unfold observe. destruct (advance _ _) as [c|] eqn:Hadv; [apply lookup_insert_eq|].
  by destruct (b !! (s, page)), (replication_value _ _ _).
Qed.

Lemma observe_lookup_ne page b row key :
  key <> (s, page) -> observe timestamp_of s page b row !! key = b !! key.
Proof.
  intros Hne. unfold observe. by destruct (advance _ _); [apply lookup_insert_ne|].
Qed.

Lemma bookmarks_after_cons page b row rows :
  bookmarks_after timestamp_of s page b (row :: rows) =
  bookmarks_after timestamp_of s page (observe timestamp_of s page b row) rows.
Proof. done. Qed.

Lemma bookmarks_after_lookup page b rows :
  bookmarks_after timestamp_of s page b rows !! (s, page) =
  cursor_after timestamp_of s (b !! (s, page)) rows.
Proof.
  revert b. induction rows as [|row rows IH]; intros b; [done|].
  by rewrite bookmarks_after_cons, IH, observe_lookup.
Qed.

Lemma bookmarks_after_lookup_ne page b rows key :
  key <> (s, page) -> bookmarks_after timestamp_of s page b rows !! key = b !! key.
Proof.
  intros Hne. revert b. induction rows as [|row rows IH]; intros b; [done|].
  by rewrite bookmarks_after_cons, IH, observe_lookup_ne.
Qed.

Lemma sync_bookmarks_cons b partition rows records :
  sync_bookmarks timestamp_of s b ((partition, rows) :: records) =
  sync_bookmarks timestamp_of s
    match page_of partition with
    | Some page => bookmarks_after timestamp_of s page b rows
    | None => b
    end records.
Proof. done. Qed.

(** The cursor of a page after a sync is the cursor before it, advanced
    over the rows the sync emitted for the page. *)
Lemma sync_bookmarks_lookup page b records :
  sync_bookmarks timestamp_of s b records !! (s, page) =
  cursor_after timestamp_of s (b !! (s, page)) (rows_for page records).
Proof.
  revert b. induction records as [|[partition rows] records IH]; intros b; [done|].
  cbn [rows_for flat_map fst snd]. rewrite cursor_after_app, sync_bookmarks_cons, IH.
  f_equal. destruct (page_of partition) as [page'|]; [|by rewrite decide_False].
  case_decide as Hpage; [injection Hpage as ->; apply bookmarks_after_lookup|].
  rewrite bookmarks_after_lookup_ne; [done|congruence].
Qed.

Lemma sync_bookmarks_other s' page b records :
  s' <> s -> sync_bookmarks timestamp_of s b records !! (s', page) = b !! (s', page).
Proof.
  intros Hne. revert b. induction records as [|[partition rows] records IH]; intros b; [done|].
  rewrite sync_bookmarks_cons, IH.
  destruct (page_of partition); [|done]. rewrite bookmarks_after_lookup_ne; [done|congruence].
Qed.

Lemma sync_bookmarks_grow b records :
  bookmarks_le b (sync_bookmarks timestamp_of s b records).
Proof.
  intros [s' page]. destruct (decide (s' = s)) as [->|Hne].
  - rewrite sync_bookmarks_lookup. apply cursor_after_upper.
  - by rewrite sync_bookmarks_other.
Qed.

Lemma sync_bookmarks_keyed b records :
  keyed b -> keyed (sync_bookmarks timestamp_of s b records).
Proof.
  intros Hb s' page. destruct (decide (s' = s)) as [->|Hne];
    [|rewrite sync_bookmarks_other by done; apply Hb].
  destruct (replication_key (class_of s)) eqn:Hkey; [done|].
  rewrite sync_bookmarks_lookup, cursor_after_none by done.
  intros Hsome%Hb. by rewrite Hkey in Hsome.
Qed.

(** Run after run, no cursor falls back and no stream without replication
    key gets one. *)
Lemma follows_grow b b' :
  follows timestamp_of s b b' -> bookmarks_le b b' /\ (keyed b -> keyed b').
Proof.
  induction 1 as [b|b records b' _ [IHle IHkeyed]]; [done|]. split.
  - etrans; [apply sync_bookmarks_grow|done].
  - intros Hb. by apply IHkeyed, sync_bookmarks_keyed.
Qed.

(** Where a stream without replication key starts: at the start date,
    whatever was synced before. *)
Lemma starting_timestamp_unkeyed start_date b partition :
  replication_key (class_of s) = None -> keyed b ->
  starting_timestamp s start_date b partition = start_date.
Proof.
  intros Hkey Hb. unfold starting_timestamp. destruct (page_of partition) as [page|]; [|done].
  destruct (b !! (s, page)) as [c|] eqn:Hc; [|done].
  destruct (Hb s page) as [key Hsome]; [by rewrite Hc|]. by rewrite Hkey in Hsome.
Qed.

Lemma starting_timestamp_after start_date b partition page records :
  py_getitem partition "page_id" = Ok (VStr page) ->
  starting_timestamp s start_date (sync_bookmarks timestamp_of s b records) partition =
  since_after timestamp_of s start_date b page records.
Proof.
  intros Hp. unfold starting_timestamp, since_after, page_of.
  by rewrite Hp, sync_bookmarks_lookup.
Qed.

End StoreFacts.

(** ** The cursor is the maximum *)

Section Maximum.
Context (timestamp_of : pyval -> option Z) (s : stream).

Local Abbreviation after := (cursor_after timestamp_of s).

(** The cursor does not depend on the order in which the rows arrive,
    nor on how often the loop yields them: a run that yields the rows of a
    page again and again leaves the cursor of the page read once. *)
Theorem cursor_ignores_order cursor rows rows' n :
  rows ≡ₚ rows' ->
  after cursor (concat (repeat rows (S n))) = after cursor rows'.
Proof. intros Hp. by rewrite cursor_after_repeat, Hp. Qed.

(** The store only grows, and only where a replication key is
    declared: run after run, no cursor is behind where it was, and a store in
    which only the streams with a replication key have cursors stays so.
    [Page] and [PageInsights] declare none: whatever they have synced, their
    next run starts at the configured start date again. *)
Theorem cursors_only_grow start_date b b' partition :
  follows timestamp_of s b b' ->
  bookmarks_le b b' /\
  (keyed b -> keyed b') /\
  (keyed b -> replication_key (class_of s) = None ->
   starting_timestamp s start_date b' partition = start_date).
Proof.
  intros [Hle Hkeyed]%follows_grow. split_and!; [done..|].
  intros Hb Hkey. by apply starting_timestamp_unkeyed, Hkeyed.
Qed.

End Maximum.

(** ** From one run to the next *)

Section NextRun.
Context (timestamp_of : pyval -> option Z) (start_date : option Z) (s : stream).

Local Abbreviation sdk_at b := (coordinator_sdk s start_date b).

(** C15.  Resuming: after a sync over served partitions, the first request of
    the next run for a page asks for the rows since the latest replication-key
    value the sync emitted for that page, or since the cursor the sync started
    with if that is later; only when there is neither does it start at the
    configured start date. *)
Theorem next_run_resumes b now self jobs job now' self' :
  Forall (served s self) jobs -> job ∈ jobs ->
  let sync := sync_records (@stream_ops (sdk_at b) s) s self
                (map (fun job => (job_partition job, @script_of (sdk_at b) s now self job))
                   jobs) in
  sync.2 = Done /\
  @get_url_params (sdk_at (sync_bookmarks timestamp_of s b sync.1)) s now' self'
    (job_partition job) VNone =
  (set_page_id self' (VStr (job_page job)),
   first_params s now'
     (since_after timestamp_of s start_date b (job_page job)
        (map (fun job => (job_partition job, records_of_job s self job)) jobs))
     (dict_get (job_page job) (access_tokens self')) self').
Proof.
  intros Hall Hjob sync.
  assert (sync = (map (fun job => (job_partition job, records_of_job s self job)) jobs, Done))
    as -> by exact (served_sync (starting_timestamp s start_date b) s now self jobs Hall).
  split; [done|]. cbn [fst]. rewrite Forall_forall in Hall.
  pose proof (wp_partition _ _ _ _ _ _ (proj1 (Hall job Hjob))) as Hp.
  rewrite (get_url_params_first _ _ _ _ _ Hp). f_equal. f_equal.
  by apply starting_timestamp_after.
Qed.

(** C22.  A page that fails half way advances the cursor: the rows a flattener
    yielded before it raised are records of the run, which ends as if the
    partition had no more pages, and the cursor moves over them. *)
Theorem failed_page_advances_cursor `{Sdk} self d pid io script rl resp rows e cursor :
  s <> Page -> dict_get "page_id" d = Some pid ->
  (prepare_request (stream_ops s) (io_time_request io) self (VDict d) VNone).2 = Ok rl ->
  io_outcome io = Ok resp ->
  parse_response s (set_page_id self pid) resp = (rows, Err e) ->
  (run_records (stream_ops s) s self (VDict d) (io :: script)).2 = Done /\
  cursor_after timestamp_of s cursor
    (run_records (stream_ops s) s self (VDict d) (io :: script)).1 =
  cursor_after timestamp_of s cursor rows.
Proof.
  intros Hs Hd Hreq Hio Hrows. unfold run_records.
  rewrite (get_records_rows s self d pid) by done. cbn [fst snd].
  rewrite request_records_unfold, (log_partition_page_id _ pid) by (by cbn; rewrite Hd).
  destruct (first_page_parse_failure (stream_ops s) self (VDict d) pid io script rl resp rows e)
    as [Hr ->]; [by cbn; rewrite Hd|done..|].
  split; [done|]. cbn [fst].
  change (rows_of_events (EvReading pid :: ?evs)) with (rows_of_events evs).
  rewrite Hr. apply cursor_after_tagged.
Qed.

End NextRun.

(** ** The theorems at the rows of the specification's property 3 *)

Lemma cursor_ignores_order_witness :
  example_dated_rows ≡ₚ reverse example_dated_rows /\
  cursor_after epoch_seconds Posts None (concat (repeat example_dated_rows 3)) =
  cursor_after epoch_seconds Posts None (reverse example_dated_rows).
Proof.
  assert (example_dated_rows ≡ₚ reverse example_dated_rows) as Hp
    by (symmetry; apply reverse_Permutation).
  split; [exact Hp|].
  apply (cursor_ignores_order epoch_seconds Posts None example_dated_rows _ 2 Hp).
Defined.

Lemma cursors_only_grow_witness :
  bookmarks_le ∅ example_insights_store /\
  (keyed ∅ -> keyed example_insights_store) /\
  (keyed ∅ -> replication_key (class_of PageInsights) = None ->
   starting_timestamp PageInsights (Some 1600000000) example_insights_store
     example_partition = Some 1600000000).
Proof.
  apply (cursors_only_grow epoch_seconds PageInsights (Some 1600000000) ∅
           example_insights_store example_partition).
  eapply follows_sync, follows_here.
Defined.

Lemma example_dated_served : Forall (served Posts example_self) example_dated_jobs.
Proof.
  repeat (constructor; [split; [|discriminate]|]); [..|constructor];
    (split; try reflexivity; try solve_dict_wf;
     [repeat (constructor; [done|]); constructor
     |repeat (constructor; [reflexivity|]); constructor]).
Defined.

(** The next run of the example asks for the posts since 12. *)
Lemma next_run_resumes_witness :
  example_dated_sync.2 = Done /\
  @get_url_params
    (coordinator_sdk Posts None (sync_bookmarks epoch_seconds Posts ∅ example_dated_sync.1))
    Posts 1800000000 example_self example_partition VNone =
  (set_page_id example_self (VStr "123"),
   Ok [("since", VInt 12); ("access_token", VStr "TOKEN123"); ("limit", VInt 100);
       ("fields", VStr "id,name")]).
Proof.
  exact (next_run_resumes epoch_seconds None Posts ∅ 1700000000 example_self
           example_dated_jobs example_dated_job 1800000000 example_self
           example_dated_served (list_elem_of_here _ _)).
Defined.

Lemma failed_page_advances_cursor_witness :
  (run_records (@stream_ops example_sdk PostInsights) PostInsights example_self
     example_partition [io_response 1700000000 example_half_page]).2 = Done /\
  cursor_after epoch_seconds PostInsights None
    (run_records (@stream_ops example_sdk PostInsights) PostInsights example_self
       example_partition [io_response 1700000000 example_half_page]).1 =
  cursor_after epoch_seconds PostInsights None
    (rows_of (parse_response PostInsights example_tagged_self example_half_page)).
Proof.
  eapply (@failed_page_advances_cursor epoch_seconds PostInsights example_sdk example_self
            [("page_id", VStr "123")] (VStr "123") (io_response 1700000000 example_half_page)
            [] _ example_half_page _ (KeyError (VStr "insights")) None);
    [discriminate|reflexivity..].
Defined.
