(* ===== verification/State.v ===== *)
(** * State: the state objects of the SDK, and the reset made in place

    [get_stream_or_partition_state] does not build a state: it asks the SDK
    for the state object of the stream or of the partition and assigns to
    its [progress_markers] entry.  The object is the one the SDK keeps, so
    the assignment is seen by every later reader of that state.  [Records]
    has the method as a function of the object's value; this file has it
    on a store of objects:

    - a [loc] names an object, and the store is a finite map from [loc] to
      the values of the objects;
    - [state_refs] is what the SDK answers with: the object of the stream
      ([self.stream_state]) and the object of each partition
      ([self.get_partition_state(partition)]);
    - [get_stream_or_partition_state_at] is the method: it returns the
      reference it selected and the store after the assignment.

    The theorems say that the method on the store is the method of
    [Records] on the value of the selected object, written back to where it
    was read, and what that means for the other objects and for later
    calls. *)

From Stdlib Require Import List String ZArith Bool Lia.
From stdpp Require Import base tactics list countable gmap.
From S2P Require Import Prelude PyDict PyValue Streams Url Params Window Flatten Engine Records.
Import ListNotations.

Set Default Proof Using "Type".
Local Open Scope string_scope.

Record loc : Type := Loc { loc_car : nat }.

#[export] Instance loc_eq_decision : EqDecision loc.
Proof. solve_decision. Defined.

#[export] Instance loc_countable : Countable loc.
Proof. by apply (inj_countable' loc_car Loc); intros []. Defined.

Record state_refs : Type := {
  stream_state_ref : loc;
  partition_state_ref : pyval -> loc;
}.

(** [state = self.stream_state], or [self.get_partition_state(partition)]
    when there is a partition: the object, not a copy of it. *)
Definition selected_ref (refs : state_refs) (partition : pyval) : loc :=
  if truthy partition then partition_state_ref refs partition else stream_state_ref refs.

(** The value of an object. *)
Definition deref (h : gmap loc pyval) (l : loc) : pyval :=
  match h !! l with
  | Some state => state
  | None => VNone
  end.

(** The method on the store.  A reference the store does not hold has no
    counterpart in Python; [refs_valid] keeps it out. *)
Definition get_stream_or_partition_state_at
    (refs : state_refs) (partition : pyval) (h : gmap loc pyval)
  : res (gmap loc pyval * loc) :=
  let l := selected_ref refs partition in
  match h !! l with
  | None => Err AttributeError
  | Some state =>
      res_bind (py_contains "progress_markers" state) (fun has_markers =>
      if has_markers : bool then
        res_bind (py_get state "progress_markers" (VBool false)) (fun markers =>
        if isinstance_list markers then
          res_bind (py_setitem state "progress_markers" (VDict [])) (fun state' =>
          Ok (<[l := state']> h, l))
        else Ok (h, l))
      else Ok (h, l))
  end.

(** Every reference of the SDK is to an object of the store. *)
Definition refs_valid (refs : state_refs) (h : gmap loc pyval) : Prop :=
  forall partition, is_Some (h !! selected_ref refs partition).

(** A state that needs no reset. *)
Definition markers_ok (state : pyval) : Prop :=
  forall l, py_get state "progress_markers" (VBool false) <> Ok (VList l).

(** Two partitions of one page and the stream: the state of the first
    partition is in the legacy shape. *)
Definition example_refs : state_refs :=
  {| stream_state_ref := Loc 0;
     partition_state_ref := fun p => if py_eqb p example_partition then Loc 1 else Loc 2 |}.

Definition example_reset_state : pyval :=
  VDict [("replication_key_value", VInt 5); ("progress_markers", VDict [])].

Definition example_store : gmap loc pyval :=
  {[ Loc 0 := VDict []; Loc 1 := example_legacy_state; Loc 2 := VDict [] ]}.

(** ** The store and the values *)

Section StoreFacts.
Implicit Types (refs : state_refs) (partition state : pyval) (h : gmap loc pyval) (l : loc).

Lemma selected_state_deref refs partition h :
  selected_state (deref h (stream_state_ref refs))
    (fun p => deref h (partition_state_ref refs p)) partition =
  deref h (selected_ref refs partition).
Proof. unfold selected_state, selected_ref. by destruct (truthy partition). Qed.

(** The method on the store is the method on the value of the selected
    object, written back to where it was read. *)
Lemma state_at_value refs partition h state :
  h !! selected_ref refs partition = Some state ->
  get_stream_or_partition_state_at refs partition h =
  res_map (fun state' => (<[selected_ref refs partition := state']> h,
                          selected_ref refs partition))
    (get_stream_or_partition_state (deref h (stream_state_ref refs))
       (fun p => deref h (partition_state_ref refs p)) partition).
Proof.
  intros Hl. unfold get_stream_or_partition_state_at, get_stream_or_partition_state.
  rewrite selected_state_deref. unfold deref. rewrite Hl.
  destruct (py_contains "progress_markers" state) as [[]|]; cbn [res_bind res_map];
    [|by rewrite insert_id|done].
  destruct (py_get state "progress_markers" (VBool false)) as [markers|];
    cbn [res_bind res_map]; [|done].
  destruct (isinstance_list markers); cbn [res_bind res_map]; [|by rewrite insert_id].
  by destruct (py_setitem state "progress_markers" (VDict [])).
Qed.

(** What the method returns, read from its result. *)
Lemma state_at_inv refs partition h h' l :
  get_stream_or_partition_state_at refs partition h = Ok (h', l) ->
  exists state state',
    h !! selected_ref refs partition = Some state /\
    get_stream_or_partition_state (deref h (stream_state_ref refs))
      (fun p => deref h (partition_state_ref refs p)) partition = Ok state' /\
    h' = <[selected_ref refs partition := state']> h /\ l = selected_ref refs partition.
Proof.
  destruct (h !! selected_ref refs partition) as [state|] eqn:Hl;
    [|unfold get_stream_or_partition_state_at; by rewrite Hl].
  rewrite (state_at_value _ _ _ _ Hl).
  destruct (get_stream_or_partition_state _ _ _) as [state'|]; [|done].
  intros [= <- <-]. by exists state, state'.
Qed.

(** A state the method has returned is returned as it is from then on. *)
Lemma settled_state stream_state get_partition_state partition0 state :
  get_stream_or_partition_state stream_state get_partition_state partition0 = Ok state ->
  markers_ok state /\
  forall refs partition h,
    h !! selected_ref refs partition = Some state ->
    get_stream_or_partition_state_at refs partition h = Ok (h, selected_ref refs partition).
Proof.
  intros [Hc|(kvs & m & -> & Hm & Hl)]%reset_result; unfold markers_ok.
  - split.
    + destruct state as [| | | | |kvs]; try done. cbn in *. injection Hc as Hc.
      apply dict_mem_false in Hc. intros l. by rewrite Hc.
    + intros refs partition h Hh. unfold get_stream_or_partition_state_at. by rewrite Hh, Hc.
  - split.
    + intros l. cbn. rewrite Hm. by destruct m.
    + intros refs partition h Hh. unfold get_stream_or_partition_state_at. rewrite Hh. cbn.
      rewrite (dict_mem_Some _ _ _ Hm). cbn. by rewrite Hm, Hl.
Qed.

(** The method on the store refines the method on values: it is the
    method of [Records] applied to the value of the object the SDK selects,
    with the result written back to that object; references stay valid. *)
Theorem state_at_refines refs partition h :
  refs_valid refs h ->
  get_stream_or_partition_state_at refs partition h =
    res_map (fun state' => (<[selected_ref refs partition := state']> h,
                            selected_ref refs partition))
      (get_stream_or_partition_state (deref h (stream_state_ref refs))
         (fun p => deref h (partition_state_ref refs p)) partition) /\
  forall h' l,
    get_stream_or_partition_state_at refs partition h = Ok (h', l) -> refs_valid refs h'.
Proof.
  intros Hvalid. destruct (Hvalid partition) as [state Hl].
  split; [by apply (state_at_value _ _ _ state)|].
  intros h' l (_ & state' & _ & _ & -> & _)%state_at_inv partition'.
  destruct (decide (selected_ref refs partition = selected_ref refs partition')) as [<-|Hne].
  - rewrite lookup_insert_eq. eauto.
  - rewrite lookup_insert_ne by done. apply Hvalid.
Qed.

(** C40.  The reset is made in place: the method returns the reference it
    selected; no other object of the store changes; and whoever reads the same
    object afterwards, through the same partition or another, finds a state
    without a list under [progress_markers], which the method returns without
    touching the store again. *)
Theorem reset_in_place refs partition h h' l :
  get_stream_or_partition_state_at refs partition h = Ok (h', l) ->
  l = selected_ref refs partition /\
  (forall l', l' <> l -> h' !! l' = h !! l') /\
  forall partition',
    selected_ref refs partition' = l ->
    markers_ok (deref h' l) /\
    get_stream_or_partition_state_at refs partition' h' = Ok (h', l).
Proof.
  intros (state & state' & Hl & Hpure & -> & ->)%state_at_inv.
  destruct (settled_state _ _ _ _ Hpure) as [Hok Hagain].
  split_and!; [done | by intros l' Hne; rewrite lookup_insert_ne | intros partition' Heq].
  unfold deref. rewrite lookup_insert_eq. split; [done|].
  rewrite Hagain by (by rewrite Heq, lookup_insert_eq). by rewrite Heq.
Qed.

End StoreFacts.

(** ** The theorems at the sample store *)

Lemma example_refs_valid : refs_valid example_refs example_store.
Proof.
  intros partition. unfold selected_ref, example_refs. cbn.
  by destruct (truthy partition), (py_eqb partition example_partition).
Defined.

Lemma state_at_refines_witness :
  get_stream_or_partition_state_at example_refs example_partition example_store =
    res_map (fun state' => (<[selected_ref example_refs example_partition := state']>
                              example_store,
                            selected_ref example_refs example_partition))
      (get_stream_or_partition_state (deref example_store (stream_state_ref example_refs))
         (fun p => deref example_store (partition_state_ref example_refs p))
         example_partition) /\
  forall h' l,
    get_stream_or_partition_state_at example_refs example_partition example_store =
      Ok (h', l) ->
    refs_valid example_refs h'.
Proof. apply (state_at_refines example_refs example_partition example_store example_refs_valid). Defined.

Lemma reset_in_place_witness :
  Loc 1 = selected_ref example_refs example_partition /\
  (forall l', l' <> Loc 1 ->
     <[Loc 1 := example_reset_state]> example_store !! l' =
     example_store !! l') /\
  forall partition',
    selected_ref example_refs partition' = Loc 1 ->
    markers_ok (deref (<[Loc 1 := example_reset_state]> example_store)
                  (Loc 1)) /\
    get_stream_or_partition_state_at example_refs partition'
      (<[Loc 1 := example_reset_state]> example_store) =
    Ok (<[Loc 1 := example_reset_state]> example_store, Loc 1).
Proof.
  apply (reset_in_place example_refs example_partition example_store). reflexivity.
Defined.
